(** * Extended attributes of reiserfs (fs/reiserfs/xattr.c)

    A shallow embedding of the extended-attribute storage engine: the
    private tree [/.reiserfs_priv/xattrs/<OBJECTID>.<GENERATION>/<name>],
    the chunked read and write of an attribute file through the page
    cache, deletion, the backwards directory enumeration, the ownership
    cascade and the listing of attribute names.

    The functions of xattr.c are translated one by one and keep their
    names.  What xattr.c calls but does not define (the VFS, the page
    cache, the directory B-tree, [csum_partial]) is modelled next to its
    first use; every such collaborator can fail, and its failures are
    drawn from an [oracle]. *)

From Stdlib Require Import ZArith List Lia Bool String Ascii Sorted.
Import ListNotations.
Open Scope Z_scope.

(** ** Error numbers and pointer-encoded errors *)

(** The error numbers xattr.c uses, with the values of asm-mips/errno.h
    (the header is not part of the sources; only the sign and the
    distinctness of the values matter below). *)
Inductive errno : Type :=
  | ENOENT | EIO | ENOMEM | EACCES | EBUSY | EEXIST | ENOTDIR | EINVAL
  | ENOSPC | ERANGE | ENODATA | EOPNOTSUPP.

Definition errno_val (e : errno) : Z :=
  match e with
  | ENOENT => 2 | EIO => 5 | ENOMEM => 12 | EACCES => 13 | EBUSY => 16
  | EEXIST => 17 | ENOTDIR => 20 | EINVAL => 22 | ENOSPC => 28
  | ERANGE => 34 | ENODATA => 61 | EOPNOTSUPP => 122
  end.

(** [neg e] is the C expression [-e]. *)
Definition neg (e : errno) : Z := - errno_val e.

(** A pointer that is either [ERR_PTR (err)] or a real pointer. *)
Inductive eptr (A : Type) : Type :=
  | ERR_PTR (err : Z)
  | PTR (p : A).
Arguments ERR_PTR {A} err.
Arguments PTR {A} p.

(** ** Machine integers *)

(** [size_t] is 32 bits wide on the target; a subtraction of two
    [size_t] wraps around. *)
Definition SIZE_MAX1 : Z := 2 ^ 32.
Definition usub (a b : Z) : Z := (a - b) mod SIZE_MAX1.

(** Conversion of a 32-bit pattern to [int] / [ssize_t]. *)
Definition to_int (x : Z) : Z :=
  let y := x mod SIZE_MAX1 in
  if y <? 2 ^ 31 then y else y - SIZE_MAX1.

(** ** Bytes and byte buffers *)

Definition is_byte (b : Z) : Prop := 0 <= b < 256.

Definition zlen (l : list Z) : Z := Z.of_nat (List.length l).
Definition zfirstn (n : Z) (l : list Z) : list Z := firstn (Z.to_nat n) l.
Definition zskipn (n : Z) (l : list Z) : list Z := skipn (Z.to_nat n) l.
Definition zeros (n : Z) : list Z := repeat 0 (Z.to_nat n).

(** [memcpy (dst + pos, src, length src)]: the bytes of [dst] from
    [pos] on are overwritten by [src].  A destination shorter than
    [pos] is first filled up with zero bytes. *)
Definition memcpy_to (dst : list Z) (pos : Z) (src : list Z) : list Z :=
  zfirstn pos (dst ++ zeros (pos - zlen dst)) ++ src
  ++ zskipn (pos + zlen src) dst.

(** [memcpy (_, src + pos, n)] reads [n] bytes of [src] from [pos]. *)
Definition memcpy_from (src : list Z) (pos n : Z) : list Z :=
  zfirstn n (zskipn pos src).

(** A 32-bit word in little-endian byte order ([cpu_to_le32] and
    [le32_to_cpu] on the stored header). *)
Definition cpu_to_le32 (x : Z) : list Z :=
  [ x mod 256; (x / 256) mod 256; (x / 65536) mod 256;
    (x / 16777216) mod 256 ].

Definition le32_to_cpu (bs : list Z) : Z :=
  nth 0 bs 0 + 256 * nth 1 bs 0 + 65536 * nth 2 bs 0
  + 16777216 * nth 3 bs 0.

(** ** The checksum *)

(** 32-bit addition with end-around carry. *)
Definition add32c (a b : Z) : Z :=
  let s := a + b in s mod 2 ^ 32 + s / 2 ^ 32.

(** Modelled from the spec: [csum_partial] (asm/checksum.h and the
    architecture's checksum code) is not part of the sources.  The spec
    calls it a standard running additive checksum in the style of the
    Internet checksum: the bytes are taken as 16-bit little-endian
    words, a trailing odd byte as a word of its own, and added into a
    32-bit sum with end-around carry. *)
Fixpoint csum_words (msg : list Z) (sum : Z) : Z :=
  match msg with
  | [] => sum
  | [b] => add32c sum b
  | lo :: hi :: rest => csum_words rest (add32c sum (lo + 256 * hi))
  end.

Definition csum_partial (msg : list Z) (len : Z) (sum : Z) : Z :=
  csum_words (zfirstn len msg) sum.

Definition xattr_hash (msg : list Z) (len : Z) : Z :=
  csum_partial msg len 0.

(** ** Constants of the headers *)

(** From linux/xattr.h, linux/fs.h, linux/reiserfs_fs.h and
    linux/reiserfs_xattr.h (not part of the sources). *)
Definition XATTR_CREATE : Z := 1.
Definition XATTR_REPLACE : Z := 2.
Definition FL_READONLY : Z := 128.
Definition FL_DIR_SEM_HELD : Z := 256.
Definition PRIVROOT_NAME : string := ".reiserfs_priv"%string.
Definition XAROOT_NAME : string := "xattrs"%string.

Definition ATTR_MODE : Z := 1.
Definition ATTR_UID : Z := 2.
Definition ATTR_GID : Z := 4.
Definition ATTR_SIZE : Z := 8.
Definition ATTR_ATIME : Z := 16.
Definition ATTR_MTIME : Z := 32.
Definition ATTR_CTIME : Z := 64.

Definition DOT_OFFSET : Z := 1.
Definition DOT_DOT_OFFSET : Z := 2.

Definition REISERFS_XATTR_MAGIC : Z := 0x52465841.
(** [sizeof (struct reiserfs_xattr_header)]: two 32-bit fields. *)
Definition XATTR_HEADER_SIZE : Z := 8.

(** [flags & bit] as a C condition. *)
Definition has_flag (flags bit : Z) : bool := negb (Z.land flags bit =? 0).

(** ** Inodes, directories and the super block *)

Inductive sd_version : Type := STAT_DATA_V1 | STAT_DATA_V2.

(** The fields of [struct inode] that xattr.c reads or writes.
    [i_data] is the content of the file, so that [i_size] is its
    length; [i_priv_object] is [is_reiserfs_priv_object]; [i_isdir] is
    [S_ISDIR (i_mode)] and [i_dead] is [IS_DEADDIR]. *)
Record inode : Type := mk_inode {
  k_objectid : Z;
  i_generation : Z;
  i_sd_version : sd_version;
  i_priv_object : bool;
  i_isdir : bool;
  i_dead : bool;
  i_nlink : Z;
  i_data : list Z;
  i_uid : Z;
  i_gid : Z;
  i_ctime : Z
}.

Definition i_size (i : inode) : Z := zlen (i_data i).

Definition inode_with_data (i : inode) (d : list Z) : inode :=
  mk_inode (k_objectid i) (i_generation i) (i_sd_version i)
           (i_priv_object i) (i_isdir i) (i_dead i) (i_nlink i) d
           (i_uid i) (i_gid i) (i_ctime i).

Definition inode_with_owner (i : inode) (uid gid ctime : Z) : inode :=
  mk_inode (k_objectid i) (i_generation i) (i_sd_version i)
           (i_priv_object i) (i_isdir i) (i_dead i) (i_nlink i) (i_data i)
           uid gid ctime.

(** What is read through a NULL [d_inode]; never inspected by code
    that checked the dentry. *)
Definition null_inode : inode :=
  mk_inode 0 0 STAT_DATA_V2 false false false 0 [] 0 0 0.

(** A directory entry: the name, the entry head ([deh_offset], the
    visibility bit) and the inode the entry refers to, whose
    [k_objectid] is [deh_objectid]. *)
Record dirent : Type := mk_dirent {
  de_name : string;
  deh_offset : Z;
  de_visible : bool;
  de_inode : inode
}.

(** The attribute directory of one object.  A directory keeps its
    entries in key order; [d_entries] lists them from the highest
    offset down. *)
Record directory : Type := mk_directory {
  d_dir_inode : inode;
  d_entries : list dirent
}.

(** [/.reiserfs_priv/xattrs]: one directory per object. *)
Record xa_root : Type := mk_xa_root {
  xr_inode : inode;
  xr_dirs : list (string * directory)
}.

(** [/.reiserfs_priv]; [pr_xattrs] is [None] while the directory
    [xattrs] does not exist. *)
Record priv_dir : Type := mk_priv_dir {
  pr_inode : inode;
  pr_xattrs : option xa_root
}.

Record iattr : Type := mk_iattr {
  ia_valid : Z;
  ia_uid : Z;
  ia_gid : Z;
  ia_size : Z;
  ia_ctime : Z
}.

Definition iattr_with_valid (a : iattr) (v : Z) : iattr :=
  mk_iattr v (ia_uid a) (ia_gid a) (ia_size a) (ia_ctime a).

(** A dentry is a place in the private tree; whether it is positive
    depends on the tree ([d_inode] below).  [D_none] is a dentry
    outside the part of the tree that is modelled. *)
Inductive dentry : Type :=
  | D_privroot
  | D_xaroot
  | D_xadir (dir : string)
  | D_xafile (dir : string) (name : string)
  | D_none.

(** The calls into the VFS that change the tree, in the order they
    were made (latest first). *)
Inductive event : Type :=
  | Ev_mkdir (d : dentry) (objectid : Z)
  | Ev_create (d : dentry) (objectid : Z)
  | Ev_unlink (d : dentry) (objectid : Z)
  | Ev_notify_change (d : dentry) (objectid : Z) (attrs : iattr).

(** The super block: the mount options xattr.c tests, the two cached
    dentries [priv_root] and [xattr_root], and the tree below the
    private root.  [s_max_name] is [REISERFS_MAX_NAME (s_blocksize)]. *)
Record super_block : Type := mk_super_block {
  s_xattrs : bool;
  s_old_format_only : bool;
  s_max_name : Z;
  priv_root : option priv_dir;
  xattr_root : option dentry;
  s_next_objectid : Z;
  s_events : list event
}.

Definition sb_with_tree (sb : super_block) (p : option priv_dir)
  : super_block :=
  mk_super_block (s_xattrs sb) (s_old_format_only sb) (s_max_name sb) p
                 (xattr_root sb) (s_next_objectid sb) (s_events sb).

Definition sb_with_xattr_root (sb : super_block) (c : option dentry)
  : super_block :=
  mk_super_block (s_xattrs sb) (s_old_format_only sb) (s_max_name sb)
                 (priv_root sb) c (s_next_objectid sb) (s_events sb).

Definition sb_with_event (sb : super_block) (e : event) : super_block :=
  mk_super_block (s_xattrs sb) (s_old_format_only sb) (s_max_name sb)
                 (priv_root sb) (xattr_root sb) (s_next_objectid sb)
                 (e :: s_events sb).

Definition sb_alloc_objectid (sb : super_block) : super_block :=
  mk_super_block (s_xattrs sb) (s_old_format_only sb) (s_max_name sb)
                 (priv_root sb) (xattr_root sb) (s_next_objectid sb + 1)
                 (s_events sb).

(** *** Reading the tree *)

Definition xa_root_of (sb : super_block) : option xa_root :=
  match priv_root sb with
  | Some p => pr_xattrs p
  | None => None
  end.

Fixpoint find_dir (dir : string) (l : list (string * directory))
  : option directory :=
  match l with
  | [] => None
  | (n, d) :: rest => if String.eqb n dir then Some d else find_dir dir rest
  end.

Definition xa_dir_of (sb : super_block) (dir : string) : option directory :=
  match xa_root_of sb with
  | Some r => find_dir dir (xr_dirs r)
  | None => None
  end.

Definition entry_named (name : string) (e : dirent) : bool :=
  de_visible e && String.eqb (de_name e) name.

Definition find_entry (name : string) (l : list dirent) : option dirent :=
  find (entry_named name) l.

Definition entries_of (sb : super_block) (d : dentry) : list dirent :=
  match d with
  | D_xadir dir =>
      match xa_dir_of sb dir with
      | Some x => d_entries x
      | None => []
      end
  | _ => []
  end.

(** [d->d_inode], [None] for a negative dentry. *)
Definition d_inode (sb : super_block) (d : dentry) : option inode :=
  match d with
  | D_privroot => option_map pr_inode (priv_root sb)
  | D_xaroot => option_map xr_inode (xa_root_of sb)
  | D_xadir dir => option_map d_dir_inode (xa_dir_of sb dir)
  | D_xafile dir name =>
      option_map de_inode (find_entry name (entries_of sb (D_xadir dir)))
  | D_none => None
  end.

Definition positive (sb : super_block) (d : dentry) : bool :=
  match d_inode sb d with Some _ => true | None => false end.

Definition the_inode (sb : super_block) (d : dentry) : inode :=
  match d_inode sb d with Some i => i | None => null_inode end.

(** *** Changing the tree *)

Fixpoint update_dir (dir : string) (f : directory -> directory)
         (l : list (string * directory)) : list (string * directory) :=
  match l with
  | [] => []
  | (n, d) :: rest =>
      if String.eqb n dir then (n, f d) :: rest
      else (n, d) :: update_dir dir f rest
  end.

Fixpoint update_entry (name : string) (f : inode -> inode)
         (l : list dirent) : list dirent :=
  match l with
  | [] => []
  | e :: rest =>
      if entry_named name e
      then mk_dirent (de_name e) (deh_offset e) (de_visible e)
                     (f (de_inode e)) :: rest
      else e :: update_entry name f rest
  end.

Fixpoint remove_entry (name : string) (l : list dirent) : list dirent :=
  match l with
  | [] => []
  | e :: rest =>
      if entry_named name e then rest else e :: remove_entry name rest
  end.

Definition sb_with_xa_root (sb : super_block) (r : option xa_root)
  : super_block :=
  match priv_root sb with
  | Some p => sb_with_tree sb (Some (mk_priv_dir (pr_inode p) r))
  | None => sb
  end.

Definition sb_update_dir (sb : super_block) (dir : string)
           (f : directory -> directory) : super_block :=
  match xa_root_of sb with
  | Some r =>
      sb_with_xa_root sb
        (Some (mk_xa_root (xr_inode r) (update_dir dir f (xr_dirs r))))
  | None => sb
  end.

Definition sb_update_entries (sb : super_block) (dir : string)
           (f : list dirent -> list dirent) : super_block :=
  sb_update_dir sb dir
    (fun x => mk_directory (d_dir_inode x) (f (d_entries x))).

(** Stores through [d->d_inode]. *)
Definition update_inode (sb : super_block) (d : dentry)
           (f : inode -> inode) : super_block :=
  match d with
  | D_privroot =>
      match priv_root sb with
      | Some p =>
          sb_with_tree sb (Some (mk_priv_dir (f (pr_inode p)) (pr_xattrs p)))
      | None => sb
      end
  | D_xaroot =>
      match xa_root_of sb with
      | Some r =>
          sb_with_xa_root sb (Some (mk_xa_root (f (xr_inode r)) (xr_dirs r)))
      | None => sb
      end
  | D_xadir dir =>
      sb_update_dir sb dir
        (fun x => mk_directory (f (d_dir_inode x)) (d_entries x))
  | D_xafile dir name => sb_update_entries sb dir (update_entry name f)
  | D_none => sb
  end.

(** ** Failures of the collaborators *)

(** Every call out of xattr.c that can fail asks the oracle.  The
    calls of the directory enumeration are numbered by the iteration
    that makes them, since a retry repeats a call at the same place.
    The oracle also says what is in the memory that the enumeration
    reads without having written it: [o_small_buf] is what the array
    [small_buf], which is not initialised, holds when
    [__xattr_readdir] is entered, and [o_behind] gives the bytes that
    follow the name buffer in memory when the entry at an offset is
    handed over. *)
Record oracle : Type := mk_oracle {
  o_lookup : dentry -> string -> option errno;
  o_mkdir : dentry -> option errno;
  o_create : dentry -> option errno;
  o_unlink : dentry -> option errno;
  o_dentry_open : dentry -> option errno;
  o_notify_change : dentry -> option errno;
  o_read_cache_page : dentry -> Z -> option errno;
  o_page_bad : dentry -> Z -> bool;
  o_prepare_write : dentry -> Z -> option errno;
  o_commit_write : dentry -> Z -> option errno;
  o_search_io_error : nat -> bool;
  o_kmalloc_fails : nat -> bool;
  o_item_moved : nat -> bool;
  o_small_buf : string;
  o_behind : Z -> string
}.

(** The oracle under which no collaborator fails. *)
Definition no_faults : oracle :=
  mk_oracle (fun _ _ => None) (fun _ => None) (fun _ => None)
            (fun _ => None) (fun _ => None) (fun _ => None)
            (fun _ _ => None) (fun _ _ => false) (fun _ _ => None)
            (fun _ _ => None) (fun _ => false) (fun _ => false)
            (fun _ => false) EmptyString (fun _ => EmptyString).

(** A registered handler: the prefix it serves and its [list]
    operation, given as the bytes it reports for a name.  Called with a
    NULL output it returns their number; called with an output it
    stores them there and returns their number. *)
Record reiserfs_xattr_handler : Type := mk_handler {
  prefix : string;
  h_list : inode -> string -> Z -> list Z
}.

(** ** The name of an object's attribute directory *)

Definition hex_digit (d : Z) : ascii :=
  nth (Z.to_nat d)
      [ "0"; "1"; "2"; "3"; "4"; "5"; "6"; "7"; "8"; "9";
        "A"; "B"; "C"; "D"; "E"; "F" ]%char "0"%char.

Fixpoint hex_loop (fuel : nat) (n : Z) (acc : string) : string :=
  match fuel with
  | O => acc
  | S fuel' =>
      let acc' := String (hex_digit (n mod 16)) acc in
      if n / 16 =? 0 then acc' else hex_loop fuel' (n / 16) acc'
  end.

(** [%X] of an [unsigned int]. *)
Definition fmt_X (n : Z) : string := hex_loop 8 (n mod 2 ^ 32) EmptyString.

(** [snprintf (namebuf, sizeof (namebuf), "%X.%X", objectid,
    generation)] with [char namebuf[17]]: at most 16 characters are
    kept. *)
Definition xa_dir_name (i : inode) : string :=
  substring 0 16
    (fmt_X (k_objectid i) ++ String "."%char (fmt_X (i_generation i)))%string.

Section Xattr.

(** [PAGE_CACHE_SHIFT] and [max_reiserfs_offset] come from headers
    that are not part of the sources; [xattr_handlers] is the list of
    registered handlers. *)
Variable PAGE_CACHE_SHIFT : Z.
Variable max_reiserfs_offset : Z.
Variable xattr_handlers : list reiserfs_xattr_handler.
Variable orc : oracle.

Definition PAGE_CACHE_SIZE : Z := Z.shiftl 1 PAGE_CACHE_SHIFT.

(** ** The VFS and the page cache *)

(** Modelled from the spec: [lookup_one_len] (fs/namei.c) is not part
    of the sources; it is the lookup-by-name primitive that returns a
    handle, positive or negative, or an error. *)
Definition lookup_one_len (name : string) (base : dentry) : eptr dentry :=
  match o_lookup orc base name with
  | Some e => ERR_PTR (neg e)
  | None =>
      match base with
      | D_privroot =>
          if String.eqb name XAROOT_NAME then PTR D_xaroot else PTR D_none
      | D_xaroot => PTR (D_xadir name)
      | D_xadir dir => PTR (D_xafile dir name)
      | _ => PTR D_none
      end
  end.

Definition new_inode (sb : super_block) (isdir : bool) : inode :=
  mk_inode (s_next_objectid sb) 0 STAT_DATA_V2 true isdir false
           (if isdir then 2 else 1) [] 0 0 0.

(** The entries [..] and [.] a new directory starts with; the inode
    recorded in them stands for the directory it names. *)
Definition dot_entries (self parent : inode) : list dirent :=
  [ mk_dirent ".." DOT_DOT_OFFSET true parent;
    mk_dirent "." DOT_OFFSET true self ].

(** Modelled from the spec: [i_op->mkdir] (fs/reiserfs/namei.c) is not
    part of the sources.  It makes the negative dentry positive with a
    new directory inode, which inherits the private flag. *)
Definition mkdir (sb : super_block) (d : dentry) : Z * super_block :=
  match o_mkdir orc d with
  | Some e => (neg e, sb)
  | None =>
      if positive sb d then (neg EEXIST, sb)
      else
        let i := new_inode sb true in
        let sb' := sb_with_event (sb_alloc_objectid sb)
                                 (Ev_mkdir d (k_objectid i)) in
        match d with
        | D_xaroot =>
            match priv_root sb with
            | Some _ => (0, sb_with_xa_root sb' (Some (mk_xa_root i [])))
            | None => (neg ENOENT, sb)
            end
        | D_xadir dir =>
            match xa_root_of sb with
            | Some r =>
                let x := mk_directory i (dot_entries i (xr_inode r)) in
                (0, sb_with_xa_root sb'
                      (Some (mk_xa_root (xr_inode r)
                                        ((dir, x) :: xr_dirs r))))
            | None => (neg ENOENT, sb)
            end
        | _ => (neg ENOENT, sb)
        end
  end.

(** The offset a new entry gets.  reiserfs derives it from a hash of
    the name and a generation counter, so that it is above
    [DOT_DOT_OFFSET] and not in use; the model takes the first offset
    above all those in use, which keeps [d_entries] in key order. *)
Definition fresh_offset (l : list dirent) : Z :=
  fold_right (fun e m => Z.max (deh_offset e) m) DOT_DOT_OFFSET l + 1.

(** Modelled from the spec: [i_op->create] (fs/reiserfs/namei.c) is
    not part of the sources.  It makes the negative dentry positive
    with a new, empty regular file. *)
Definition create (sb : super_block) (d : dentry) : Z * super_block :=
  match o_create orc d with
  | Some e => (neg e, sb)
  | None =>
      if positive sb d then (neg EEXIST, sb)
      else
        match d with
        | D_xafile dir name =>
            match xa_dir_of sb dir with
            | Some x =>
                let i := new_inode sb false in
                let sb' := sb_with_event (sb_alloc_objectid sb)
                                         (Ev_create d (k_objectid i)) in
                (0, sb_update_entries sb' dir
                      (fun l => mk_dirent name (fresh_offset l) true i :: l))
            | None => (neg ENOENT, sb)
            end
        | _ => (neg ENOENT, sb)
        end
  end.

(** Modelled from the spec: [i_op->unlink] (fs/reiserfs/namei.c) is
    not part of the sources.  It removes the entry from the directory;
    the inode lives on for its other links. *)
Definition unlink (sb : super_block) (d : dentry) : Z * super_block :=
  match o_unlink orc d with
  | Some e => (neg e, sb)
  | None =>
      match d with
      | D_xafile dir name =>
          match d_inode sb d with
          | Some i =>
              (0, sb_update_entries
                    (sb_with_event sb (Ev_unlink d (k_objectid i))) dir
                    (remove_entry name))
          | None => (neg ENOENT, sb)
          end
      | _ => (neg ENOENT, sb)
      end
  end.

(** Modelled from the spec: [dentry_open] (fs/open.c) is not part of
    the sources.  The open file is identified with its dentry. *)
Definition dentry_open (d : dentry) : eptr dentry :=
  match o_dentry_open orc d with
  | Some e => ERR_PTR (neg e)
  | None => PTR d
  end.

(** A file cut or extended with zero bytes to [n] bytes. *)
Definition resize (n : Z) (data : list Z) : list Z :=
  zfirstn n (data ++ zeros (n - zlen data)).

Definition inode_setattr (a : iattr) (i : inode) : inode :=
  mk_inode (k_objectid i) (i_generation i) (i_sd_version i)
           (i_priv_object i) (i_isdir i) (i_dead i) (i_nlink i)
           (if has_flag (ia_valid a) ATTR_SIZE
            then resize (ia_size a) (i_data i) else i_data i)
           (if has_flag (ia_valid a) ATTR_UID then ia_uid a else i_uid i)
           (if has_flag (ia_valid a) ATTR_GID then ia_gid a else i_gid i)
           (if has_flag (ia_valid a) ATTR_CTIME
            then ia_ctime a else i_ctime i).

(** Modelled from the spec: [notify_change] (fs/attr.c) is not part of
    the sources.  It applies the fields of [attrs] that [ia_valid]
    selects to the inode of the dentry. *)
Definition notify_change (sb : super_block) (d : dentry) (attrs : iattr)
  : Z * super_block :=
  match o_notify_change orc d with
  | Some e => (neg e, sb)
  | None =>
      (0, update_inode
            (sb_with_event sb
               (Ev_notify_change d (k_objectid (the_inode sb d)) attrs))
            d (inode_setattr attrs))
  end.

(** The page [n] of a file: [PAGE_CACHE_SIZE] bytes, zero after the
    end of the file. *)
Definition page_of (data : list Z) (n : Z) : list Z :=
  zfirstn PAGE_CACHE_SIZE
          (zskipn (n * PAGE_CACHE_SIZE) data ++ zeros PAGE_CACHE_SIZE).

(** The file after the page [n] has been changed to [page] in the page
    cache, with its size set to [size]. *)
Definition page_store (data : list Z) (n : Z) (page : list Z) (size : Z)
  : list Z :=
  zfirstn size (memcpy_to data (n * PAGE_CACHE_SIZE) page).

Definition reiserfs_get_page (fp : dentry) (data : list Z) (n : Z)
  : eptr (list Z) :=
  match o_read_cache_page orc fp n with
  | Some e => ERR_PTR (neg e)
  | None =>
      if o_page_bad orc fp n then ERR_PTR (neg EIO)
      else PTR (page_of data n)
  end.

(** Modelled from the spec: [a_ops->prepare_write] and
    [a_ops->commit_write] are not part of the sources.  A committed
    write up to [to] in page [n] extends the file to that byte. *)
Definition prepare_write (fp : dentry) (n : Z) : Z :=
  match o_prepare_write orc fp n with
  | Some e => neg e
  | None => 0
  end.

Definition commit_write (fp : dentry) (n : Z) : Z :=
  match o_commit_write orc fp n with
  | Some e => neg e
  | None => 0
  end.

(** ** The path to an attribute file *)

Definition create_xa_root (sb : super_block)
  : eptr (option dentry) * super_block :=
  match priv_root sb with
  | None => (ERR_PTR (neg EOPNOTSUPP), sb)
  | Some _ =>
      match lookup_one_len XAROOT_NAME D_privroot with
      | ERR_PTR e => (ERR_PTR e, sb)
      | PTR xaroot =>
          if negb (positive sb xaroot) then
            let '(err, sb1) := mkdir sb xaroot in
            if negb (err =? 0) then (ERR_PTR err, sb1)
            else (PTR (Some xaroot), sb_with_xattr_root sb1 (Some xaroot))
          else (PTR (Some xaroot), sb)
      end
  end.

Definition __get_xa_root (s : super_block)
  : eptr (option dentry) * super_block :=
  match priv_root s with
  | None => (PTR None, s)
  | Some _ =>
      match lookup_one_len XAROOT_NAME D_privroot with
      | ERR_PTR e => (ERR_PTR e, s)
      | PTR xaroot =>
          if negb (positive s xaroot) then (PTR None, s)
          else (PTR (Some xaroot), sb_with_xattr_root s (Some xaroot))
      end
  end.

Definition get_xa_root (s : super_block)
  : eptr (option dentry) * super_block :=
  match xattr_root s with
  | None => __get_xa_root s
  | Some dentry => (PTR (Some dentry), s)
  end.

Definition reiserfs_get_xa_root (sb : super_block)
  : option dentry * super_block :=
  match get_xa_root sb with
  | (ERR_PTR _, sb1) => (None, sb1)
  | (PTR None, sb1) => (None, sb1)
  | (PTR (Some dentry), sb1) =>
      if negb (positive sb1 dentry) then (None, sb1)
      else (Some dentry, sb1)
  end.

Definition may_create (flags : Z) : bool :=
  (flags =? 0) || has_flag flags XATTR_CREATE.

Definition open_xa_dir (sb : super_block) (i : inode) (flags : Z)
  : eptr dentry * super_block :=
  let '(r, sb1) :=
    match get_xa_root sb with
    | (ERR_PTR e, sb1) => (ERR_PTR e, sb1)
    | (PTR (Some xaroot), sb1) => (PTR xaroot, sb1)
    | (PTR None, sb1) =>
        let '(r, sb2) :=
          if may_create flags then create_xa_root sb1
          else (PTR None, sb1) in
        match r with
        | ERR_PTR e => (ERR_PTR e, sb2)
        | PTR None => (ERR_PTR (neg ENODATA), sb2)
        | PTR (Some xaroot) => (PTR xaroot, sb2)
        end
    end in
  match r with
  | ERR_PTR e => (ERR_PTR e, sb1)
  | PTR xaroot =>
      (* ok, we have xaroot open *)
      match lookup_one_len (xa_dir_name i) xaroot with
      | ERR_PTR e => (ERR_PTR e, sb1)
      | PTR xadir =>
          if negb (positive sb1 xadir) then
            let '(err, sb2) :=
              if may_create flags then mkdir sb1 xadir else (0, sb1) in
            if negb (err =? 0) then (ERR_PTR err, sb2)
            else if negb (positive sb2 xadir)
                 then (ERR_PTR (neg ENODATA), sb2)
                 else (PTR xadir, sb2)
          else (PTR xadir, sb1)
      end
  end.

Definition get_xa_file_dentry (sb : super_block) (i : inode) (name : string)
           (flags : Z) : eptr dentry * super_block :=
  match open_xa_dir sb i flags with
  | (ERR_PTR e, sb1) => (ERR_PTR e, sb1)
  | (PTR xadir, sb1) =>
      if negb (positive sb1 xadir) then (ERR_PTR (neg ENODATA), sb1)
      else
        match lookup_one_len name xadir with
        | ERR_PTR e => (ERR_PTR e, sb1)
        | PTR xafile =>
            if positive sb1 xafile then (* file exists *)
              if has_flag flags XATTR_CREATE
              then (ERR_PTR (neg EEXIST), sb1)
              else (PTR xafile, sb1)
            else if has_flag flags XATTR_REPLACE
                    || has_flag flags FL_READONLY
            then (PTR xafile, sb1)
            else
              let '(err, sb2) := create sb1 xafile in
              if negb (err =? 0) then (ERR_PTR err, sb2)
              else (PTR xafile, sb2)
        end
  end.

(** Opens a file pointer to the attribute associated with inode. *)
Definition open_xa_file (sb : super_block) (i : inode) (name : string)
           (flags : Z) : eptr dentry * super_block :=
  match get_xa_file_dentry sb i name flags with
  | (ERR_PTR e, sb1) => (ERR_PTR e, sb1)
  | (PTR xafile, sb1) =>
      if negb (positive sb1 xafile) then (ERR_PTR (neg ENODATA), sb1)
      else (dentry_open xafile, sb1)
  end.

(** ** Deleting an attribute *)

Definition __reiserfs_xattr_del (sb : super_block) (xadir : dentry)
           (name : string) : Z * super_block :=
  match lookup_one_len name xadir with
  | ERR_PTR e => (e, sb)
  | PTR file =>
      match d_inode sb file with
      | None => (neg ENODATA, sb)
      | Some fi =>
          (* Skip directories.. *)
          if i_isdir fi then (0, sb)
          else if negb (i_priv_object fi) then (neg EIO, sb)
          else unlink sb file
      end
  end.

Definition reiserfs_xattr_del (sb : super_block) (i : inode) (name : string)
  : Z * super_block :=
  match open_xa_dir sb i FL_READONLY with
  | (ERR_PTR e, sb1) => (e, sb1)
  | (PTR dir, sb1) => __reiserfs_xattr_del sb1 dir name
  end.

(** ** Writing an attribute *)

(** The [while] loop of [reiserfs_xattr_set], on the content [data] of
    the attribute file.  [None] when [fuel] iterations do not finish
    it. *)
Fixpoint xattr_set_loop (fuel : nat) (fp : dentry)
         (buffer : option (list Z)) (buffer_size xahash : Z)
         (data : list Z) (file_pos buffer_pos : Z)
  : option (Z * list Z) :=
  match fuel with
  | O => None
  | S fuel' =>
      if (buffer_pos <? buffer_size) || (buffer_pos =? 0) then
        let page_offset := Z.land file_pos (PAGE_CACHE_SIZE - 1) in
        let chunk :=
          if buffer_size - buffer_pos >? PAGE_CACHE_SIZE
          then PAGE_CACHE_SIZE else buffer_size - buffer_pos in
        let n := Z.shiftr file_pos PAGE_CACHE_SHIFT in
        match reiserfs_get_page fp data n with
        | ERR_PTR e => Some (e, data)
        | PTR page =>
            let first := file_pos =? 0 in
            let skip := if first then XATTR_HEADER_SIZE else 0 in
            let file_pos := if first then XATTR_HEADER_SIZE else file_pos in
            let chunk :=
              if first && (chunk + skip >? PAGE_CACHE_SIZE)
              then PAGE_CACHE_SIZE - skip else chunk in
            let page :=
              if first
              then memcpy_to
                     (memcpy_to page 0 (cpu_to_le32 REISERFS_XATTR_MAGIC))
                     4 (cpu_to_le32 xahash)
              else page in
            let err := prepare_write fp n in
            let page :=
              if err =? 0 then
                match buffer with
                | Some b =>
                    memcpy_to page skip (memcpy_from b buffer_pos chunk)
                | None => page
                end
              else page in
            let err := if err =? 0 then commit_write fp n else err in
            let size :=
              if err =? 0
              then Z.max (zlen data)
                         (n * PAGE_CACHE_SIZE + page_offset + chunk + skip)
              else zlen data in
            let data := page_store data n page size in
            let buffer_pos := buffer_pos + chunk in
            let file_pos := file_pos + chunk in
            if negb (err =? 0) || (buffer_size =? 0)
               || match buffer with None => true | Some _ => false end
            then Some (err, data)
            else xattr_set_loop fuel' fp buffer buffer_size xahash data
                                file_pos buffer_pos
        end
      else Some (0, data)
  end.

(** [reiserfs_xattr_set] from the label [open_file] on; [fuel] bounds
    the jumps back to the label and the iterations of the loop. *)
Fixpoint xattr_set_open_file (fuel : nat) (sb : super_block) (i : inode)
         (name : string) (buffer : option (list Z)) (buffer_size : Z)
         (flags : Z) (xahash : Z) : option (Z * super_block) :=
  match fuel with
  | O => None
  | S fuel' =>
      match open_xa_file sb i name flags with
      | (ERR_PTR e, sb1) => Some (e, sb1)
      | (PTR fp, sb1) =>
          let xinode := the_inode sb1 fp in
          (* we need to copy it off.. *)
          if i_nlink xinode >? 1 then
            let '(err, sb2) := reiserfs_xattr_del sb1 i name in
            if err <? 0 then Some (err, sb2)
            else
              (* We just killed the old one, we're not replacing anymore *)
              let flags :=
                if has_flag flags XATTR_REPLACE
                then Z.land flags (Z.lnot XATTR_REPLACE) else flags in
              xattr_set_open_file fuel' sb2 i name buffer buffer_size flags
                                  xahash
          else
            (* Resize it so we're ok to write there *)
            let newattrs :=
              mk_iattr (Z.lor ATTR_SIZE ATTR_CTIME) 0 0 buffer_size 0 in
            let '(err, sb2) := notify_change sb1 fp newattrs in
            if negb (err =? 0) then Some (err, sb2)
            else
              match xattr_set_loop fuel fp buffer buffer_size xahash
                                   (i_data (the_inode sb2 fp)) 0 0 with
              | None => None
              | Some (err, data) =>
                  Some (err,
                        update_inode sb2 fp
                          (fun x => inode_with_data x data))
              end
      end
  end.

Definition reiserfs_xattr_set (fuel : nat) (sb : super_block) (i : inode)
           (name : string) (buffer : option (list Z)) (buffer_size : Z)
           (flags : Z) : option (Z * super_block) :=
  if match i_sd_version i with STAT_DATA_V1 => true | _ => false end
  then Some (neg EOPNOTSUPP, sb)
  else
    (* Empty xattrs are ok, they're just empty files, no hash *)
    let xahash :=
      match buffer with
      | Some b =>
          if negb (buffer_size =? 0) then xattr_hash b (to_int buffer_size)
          else 0
      | None => 0
      end in
    xattr_set_open_file fuel sb i name buffer buffer_size flags xahash.

(** ** Reading an attribute *)

(** How the [while] loop of [reiserfs_xattr_get] ends: by a jump to
    [out_dput] with an error, or normally with the stored hash. *)
Inductive get_loop_end : Type :=
  | Goto_out_dput (err : Z)
  | Loop_done (hash : Z).

(** The loop, on the content [data] of the attribute file.  A [memcpy]
    reads at most to the end of the page.  [None] when [fuel]
    iterations do not finish the loop. *)
Fixpoint xattr_get_loop (fuel : nat) (fp : dentry) (data : list Z)
         (isize : Z) (buffer : list Z) (file_pos buffer_pos hash : Z)
  : option (get_loop_end * list Z) :=
  match fuel with
  | O => None
  | S fuel' =>
      if file_pos <? isize then
        let chunk :=
          if isize - file_pos >? PAGE_CACHE_SIZE
          then PAGE_CACHE_SIZE else isize - file_pos in
        match reiserfs_get_page fp data
                                (Z.shiftr file_pos PAGE_CACHE_SHIFT) with
        | ERR_PTR e => Some (Goto_out_dput e, buffer)
        | PTR page =>
            if file_pos =? 0 then
              let skip := XATTR_HEADER_SIZE in
              let file_pos := XATTR_HEADER_SIZE in
              let chunk := usub chunk skip in
              (* Magic doesn't match up.. *)
              if negb (le32_to_cpu (memcpy_from page 0 4)
                       =? REISERFS_XATTR_MAGIC)
              then Some (Goto_out_dput (neg EIO), buffer)
              else
                let hash := le32_to_cpu (memcpy_from page 4 4) in
                let buffer :=
                  memcpy_to buffer buffer_pos (memcpy_from page skip chunk) in
                xattr_get_loop fuel' fp data isize buffer
                               (file_pos + chunk) (buffer_pos + chunk) hash
            else
              let buffer :=
                memcpy_to buffer buffer_pos (memcpy_from page 0 chunk) in
              xattr_get_loop fuel' fp data isize buffer
                             (file_pos + chunk) (buffer_pos + chunk) hash
        end
      else Some (Loop_done hash, buffer)
  end.

(** The result is the returned [int], the buffer as the call leaves it
    and the super block. *)
Definition reiserfs_xattr_get (fuel : nat) (sb : super_block) (i : inode)
           (name : string) (buffer : option (list Z)) (buffer_size : Z)
  : option (Z * option (list Z) * super_block) :=
  (* We can't have xattrs attached to v1 items since they don't have
     generation numbers *)
  if match i_sd_version i with STAT_DATA_V1 => true | _ => false end
  then Some (neg EOPNOTSUPP, buffer, sb)
  else
    match open_xa_file sb i name FL_READONLY with
    | (ERR_PTR e, sb1) => Some (e, buffer, sb1)
    | (PTR fp, sb1) =>
        let xinode := the_inode sb1 fp in
        let isize := i_size xinode mod SIZE_MAX1 in
        match buffer with
        | None =>
            (* Just return the size needed *)
            Some (to_int (usub isize XATTR_HEADER_SIZE), None, sb1)
        | Some buf =>
            if buffer_size <? usub isize XATTR_HEADER_SIZE
            then Some (neg ERANGE, buffer, sb1)
            else
              match xattr_get_loop fuel fp (i_data xinode) isize buf 0 0 0
              with
              | None => None
              | Some (Goto_out_dput err, buf') => Some (err, Some buf', sb1)
              | Some (Loop_done hash, buf') =>
                  let err := to_int (usub isize XATTR_HEADER_SIZE) in
                  if negb (xattr_hash buf' err =? hash)
                  then Some (neg EIO, Some buf', sb1)
                  else Some (err, Some buf', sb1)
              end
        end
    end.

(** ** Enumerating a directory *)

(** Modelled from the spec: [search_by_entry_key] (fs/reiserfs/namei.c)
    is not part of the sources.  With the step back that
    [__xattr_readdir] takes on [NAME_NOT_FOUND] it yields the entry at
    or before the cursor: the first entry, from the highest offset
    down, whose offset is not above [pos]. *)
Definition search_by_entry_key (l : list dirent) (pos : Z)
  : option dirent :=
  find (fun e => deh_offset e <=? pos) l.

(** A consumer gets the pointer [name] and [namelen].  The pointer is
    given by the bytes found there: the name, which is not followed by
    a zero byte, and then what the memory holds behind it.  [name_of]
    is what a callee that is given [namelen] too takes for the
    name. *)
Definition filldir_t (B : Type) : Type :=
  B -> string -> Z -> Z -> Z -> super_block -> Z * B * super_block.

Definition name_of (name : string) (namelen : Z) : string :=
  substring 0 (Z.to_nat namelen) name.

(** [memcpy (small_buf, d_name, d_reclen)]: the bytes of the name, then
    what the buffer held behind them. *)
Definition memcpy_name (buf name : string) : string :=
  String.append
    name
    (substring (String.length name)
               (String.length buf - String.length name) buf).

(** [small_buf] after the name of an entry was copied to [local_buf],
    which is [small_buf] for a name of at most 32 bytes and a new
    block of [d_reclen] bytes for a longer one. *)
Definition small_buf_after (small_buf name : string) (d_reclen : Z)
  : string :=
  if d_reclen <=? 32 then memcpy_name small_buf name else small_buf.

(** What one pass through the body of the [while (1)] loop of
    [__xattr_readdir] decides before it calls [filldir]. *)
Inductive readdir_action : Type :=
  | RD_return (err : Z)
  | RD_research (next_pos : Z)
  | RD_filldir (name : string) (d_reclen d_off d_ino : Z) (next_pos : Z).

Definition is_priv_root (sb : super_block) (objectid : Z) : bool :=
  match priv_root sb with
  | Some p => objectid =? k_objectid (pr_inode p)
  | None => false
  end.

(** The body of the loop up to the call of [filldir], in iteration
    [step] with the cursor at [next_pos].  [RD_research] stands for
    both [continue] and [goto research]; [RD_return 0] for [break]. *)
Definition xattr_readdir_body (step : nat) (sb : super_block) (dir : dentry)
           (next_pos : Z) : readdir_action :=
  if next_pos <=? DOT_DOT_OFFSET then RD_return 0
  else if o_search_io_error orc step then RD_return (neg EIO)
  else
    match search_by_entry_key (entries_of sb dir) next_pos with
    | None => (* not direntry *) RD_return 0
    | Some de =>
        if deh_offset de <=? DOT_DOT_OFFSET then RD_return 0
        else
          (* look for the previous entry in the directory *)
          let next_pos := deh_offset de - 1 in
          if negb (de_visible de) then (* it is hidden entry *)
            RD_research next_pos
          else
            let d_reclen := Z.of_nat (String.length (de_name de)) in
            let d_off := deh_offset de in
            let d_ino := k_objectid (de_inode de) in
            if d_reclen >? s_max_name sb then
              (* too big to send back to VFS *)
              RD_research next_pos
            else if s_xattrs sb && negb (s_old_format_only sb)
                    && is_priv_root sb d_ino
            then (* Ignore the .reiserfs_priv entry *)
              RD_research next_pos
            else if d_reclen <=? 32 then
              RD_filldir (de_name de) d_reclen d_off d_ino next_pos
            else if o_kmalloc_fails orc step then RD_return (neg ENOMEM)
            else if o_item_moved orc step then
              (* sigh, must retry.  Do this same offset again *)
              RD_research d_off
            else RD_filldir (de_name de) d_reclen d_off d_ino next_pos
    end.

(** The bytes at [local_buf] when [filldir] is called: the name as
    [memcpy] has stored it, without a final zero, then what was
    there before, and the memory behind the buffer. *)
Definition local_buf_bytes (small_buf name : string) (d_reclen d_off : Z)
  : string :=
  String.append
    (if d_reclen <=? 32 then memcpy_name small_buf name else name)
    (o_behind orc d_off).

(** [small_buf] is the content of the array of that name. *)
Fixpoint xattr_readdir_loop {B : Type} (fuel : nat) (step : nat)
         (dir : dentry) (filldir : filldir_t B) (next_pos : Z)
         (small_buf : string) (buf : B) (sb : super_block)
  : option (Z * B * super_block) :=
  match fuel with
  | O => None
  | S fuel' =>
      match xattr_readdir_body step sb dir next_pos with
      | RD_return err => Some (err, buf, sb)
      | RD_research next_pos =>
          xattr_readdir_loop fuel' (S step) dir filldir next_pos small_buf
                             buf sb
      | RD_filldir name d_reclen d_off d_ino next_pos =>
          let local_buf := local_buf_bytes small_buf name d_reclen d_off in
          let '(r, buf1, sb1) :=
            filldir buf local_buf d_reclen d_off d_ino sb in
          if r <? 0 then Some (0, buf1, sb1)
          else xattr_readdir_loop fuel' (S step) dir filldir next_pos
                                  (small_buf_after small_buf name d_reclen)
                                  buf1 sb1
      end
  end.

(** [char small_buf[32]] is not initialised. *)
Definition small_buf_0 : string := substring 0 32 (o_small_buf orc).

Definition __xattr_readdir {B : Type} (fuel : nat) (filp : dentry)
           (filldir : filldir_t B) (dirent : B) (sb : super_block)
  : option (Z * B * super_block) :=
  xattr_readdir_loop fuel 0%nat filp filldir max_reiserfs_offset
                     small_buf_0 dirent sb.

(** A file has a [readdir] operation when it is a directory. *)
Definition xattr_readdir {B : Type} (fuel : nat) (file : dentry)
           (filler : filldir_t B) (buf : B) (sb : super_block)
  : option (Z * B * super_block) :=
  let inode := the_inode sb file in
  if negb (i_isdir inode) then Some (neg ENOTDIR, buf, sb)
  else if i_dead inode then Some (neg ENOENT, buf, sb)
  else __xattr_readdir fuel file filler buf sb.

(** ** Ownership changes *)

Record reiserfs_chown_buf : Type := mk_chown_buf {
  cb_inode : inode;
  cb_xadir : dentry;
  cb_attrs : iattr
}.

Definition reiserfs_chown_xattrs_filler : filldir_t reiserfs_chown_buf :=
  fun chown_buf name namelen offset ino sb =>
    match lookup_one_len (name_of name namelen) (cb_xadir chown_buf) with
    | ERR_PTR e => (e, chown_buf, sb)
    | PTR xafile =>
        match d_inode sb xafile with
        | None => (neg ENODATA, chown_buf, sb)
        | Some xi =>
            if negb (i_isdir xi) then
              let '(err, sb1) := notify_change sb xafile (cb_attrs chown_buf)
              in (err, chown_buf, sb1)
            else (0, chown_buf, sb)
        end
    end.

Definition chown_mask : Z := Z.lor (Z.lor ATTR_UID ATTR_GID) ATTR_CTIME.

(** The result is the returned [int], the caller's [attrs] as the call
    leaves them and the super block. *)
Definition reiserfs_chown_xattrs (fuel : nat) (sb : super_block)
           (i : inode) (attrs : iattr)
  : option (Z * iattr * super_block) :=
  let ia_valid0 := ia_valid attrs in
  (* Skip out, an xattr has no xattrs associated with it *)
  if i_priv_object i
     || match i_sd_version i with STAT_DATA_V1 => true | _ => false end
     || negb (s_xattrs sb)
  then Some (0, attrs, sb)
  else
    let out (err : Z) (attrs : iattr) (sb : super_block) :=
      Some (err, iattr_with_valid attrs ia_valid0, sb) in
    match open_xa_dir sb i FL_READONLY with
    | (ERR_PTR e, sb1) =>
        out (if negb (e =? neg ENODATA) then e else 0) attrs sb1
    | (PTR dir, sb1) =>
        if negb (positive sb1 dir) then out 0 attrs sb1
        else
          match dentry_open dir with
          | ERR_PTR e => out e attrs sb1
          | PTR fp =>
              let attrs :=
                iattr_with_valid attrs (Z.land (ia_valid attrs) chown_mask)
              in
              let buf := mk_chown_buf i dir attrs in
              match xattr_readdir fuel fp reiserfs_chown_xattrs_filler
                                  buf sb1 with
              | None => None
              | Some (err, _, sb2) =>
                  if negb (err =? 0) then out err attrs sb2
                  else
                    let '(err, sb3) := notify_change sb2 dir attrs in
                    out err attrs sb3
              end
          end
    end.

(** ** Listing the attribute names *)

Fixpoint find_handler (l : list reiserfs_xattr_handler) (name : string)
  : option reiserfs_xattr_handler :=
  match l with
  | [] => None
  | xah :: next =>
      if String.prefix (prefix xah) name then Some xah
      else find_handler next name
  end.

Definition find_xattr_handler_prefix (name : string)
  : option reiserfs_xattr_handler :=
  find_handler xattr_handlers name.

Record reiserfs_listxattr_buf : Type := mk_listxattr_buf {
  r_pos : Z;
  r_size : Z;
  r_buf : list Z;
  r_inode : inode
}.

(** [name[k]], zero past the end of the bytes. *)
Definition char_at (name : string) (k : nat) : ascii :=
  match String.get k name with Some c => c | None => Ascii.zero end.

Definition is_dot (c : ascii) : bool := Ascii.eqb c "."%char.

(** [find_xattr_handler_prefix] is given the pointer alone: where the
    name is shorter than a prefix, [strncmp] goes on to the bytes
    behind the name.  The [list] operation of a handler is given
    [namelen] too. *)
Definition reiserfs_listxattr_filler : filldir_t reiserfs_listxattr_buf :=
  fun b name namelen offset ino sb =>
    if negb (is_dot (char_at name 0))
       || (negb (namelen =? 1)
           && (negb (is_dot (char_at name 1)) || negb (namelen =? 2)))
    then
      match find_xattr_handler_prefix name with
      | None => (0, b, sb) (* Unsupported xattr name, skip it *)
      | Some xah =>
          let reported :=
            h_list xah (r_inode b) (name_of name namelen) namelen in
          let len := zlen reported in
          if negb (len =? 0) then
            let buf :=
              if r_pos b + len + 1 <=? r_size b
              then memcpy_to (r_buf b) (r_pos b) (reported ++ [0])
              else r_buf b in
            (0, mk_listxattr_buf (r_pos b + len + 1) (r_size b) buf
                                 (r_inode b), sb)
          else (0, b, sb)
      end
    else (0, b, sb).

(** [dentry] is the object, [None] when its [d_inode] is NULL.  The
    result is the returned value, the buffer as the call leaves it and
    the super block. *)
Definition reiserfs_listxattr (fuel : nat) (sb : super_block)
           (dentry : option inode) (buffer : option (list Z)) (size : Z)
  : option (Z * option (list Z) * super_block) :=
  match dentry with
  | None => Some (neg EINVAL, buffer, sb)
  | Some i =>
      if negb (s_xattrs sb)
         || match i_sd_version i with STAT_DATA_V1 => true | _ => false end
      then Some (neg EOPNOTSUPP, buffer, sb)
      else
        match open_xa_dir sb i FL_READONLY with
        | (ERR_PTR e, sb1) =>
            (* Not an error if there aren't any xattrs *)
            Some (if e =? neg ENODATA then 0 else e, buffer, sb1)
        | (PTR dir, sb1) =>
            match dentry_open dir with
            | ERR_PTR e => Some (e, buffer, sb1)
            | PTR fp =>
                let buf :=
                  mk_listxattr_buf
                    0
                    (match buffer with Some _ => to_int size | None => 0 end)
                    (match buffer with Some b => b | None => [] end)
                    i in
                match xattr_readdir fuel fp reiserfs_listxattr_filler
                                    buf sb1 with
                | None => None
                | Some (err, buf1, sb2) =>
                    let buffer1 := option_map (fun _ => r_buf buf1) buffer in
                    if negb (err =? 0) then Some (err, buffer1, sb2)
                    else if (r_pos buf1 >? r_size buf1)
                            && match buffer with
                               | Some _ => true
                               | None => false
                               end
                    then Some (neg ERANGE, buffer1, sb2)
                    else Some (r_pos buf1, buffer1, sb2)
                end
            end
        end
  end.

(** ** Conditions on the state and on the oracle *)

(** The cached dentry [xattr_root], when set, is the one of the
    existing directory [xattrs]. *)
Definition sb_ok (sb : super_block) : Prop :=
  match xattr_root sb with
  | None => True
  | Some d => d = D_xaroot /\ xa_root_of sb <> None
  end.

(** The super block once [xattr_root] caches the dentry of [xattrs]. *)
Definition cached (sb : super_block) : super_block :=
  sb_with_xattr_root sb (Some D_xaroot).

(** No call into the VFS fails. *)
Record vfs_quiet (o : oracle) : Prop := mk_vfs_quiet {
  q_lookup : forall d n, o_lookup o d n = None;
  q_mkdir : forall d, o_mkdir o d = None;
  q_create : forall d, o_create o d = None;
  q_unlink : forall d, o_unlink o d = None;
  q_dentry_open : forall d, o_dentry_open o d = None;
  q_notify_change : forall d, o_notify_change o d = None
}.

(** No access to a page of the file [fp] fails. *)
Record pages_quiet (o : oracle) (fp : dentry) : Prop := mk_pages_quiet {
  q_read_cache_page : forall n, o_read_cache_page o fp n = None;
  q_page_bad : forall n, o_page_bad o fp n = false;
  q_prepare_write : forall n, o_prepare_write o fp n = None;
  q_commit_write : forall n, o_commit_write o fp n = None
}.

(** The enumeration meets no I/O error, no failed allocation and no
    moved item. *)
Record readdir_quiet (o : oracle) : Prop := mk_readdir_quiet {
  q_search_io_error : forall k, o_search_io_error o k = false;
  q_kmalloc_fails : forall k, o_kmalloc_fails o k = false;
  q_item_moved : forall k, o_item_moved o k = false
}.

(** The stored form of an attribute: the header, then the value. *)
Definition xattr_file (payload : list Z) : list Z :=
  cpu_to_le32 REISERFS_XATTR_MAGIC
  ++ cpu_to_le32 (xattr_hash payload (zlen payload)) ++ payload.

(** The 16-bit words of a message added up as numbers. *)
Fixpoint word_sum (msg : list Z) : Z :=
  match msg with
  | [] => 0
  | [b] => b
  | lo :: hi :: rest => lo + 256 * hi + word_sum rest
  end.

(** The byte at [k] replaced by [b]. *)
Fixpoint set_byte (k : nat) (b : Z) (l : list Z) : list Z :=
  match l, k with
  | [], _ => []
  | _ :: rest, O => b :: rest
  | x :: rest, S k' => x :: set_byte k' b rest
  end.

(** The three ways in which the content of an attribute file can be
    damaged: a header without the magic, a hash that is not the one of
    the value, and a stored attribute one byte of whose value was
    changed. *)
Definition bad_magic (data : list Z) : Prop :=
  le32_to_cpu (memcpy_from data 0 4) <> REISERFS_XATTR_MAGIC.

Definition bad_hash (data : list Z) : Prop :=
  xattr_hash (zskipn 8 data) (zlen (zskipn 8 data))
  <> le32_to_cpu (memcpy_from data 4 4).

Definition one_byte_corrupted (data : list Z) : Prop :=
  exists (payload : list Z) (k : nat) (b : Z),
    Forall is_byte payload /\ (k < List.length payload)%nat
    /\ is_byte b /\ b <> nth k payload 0
    /\ data = set_byte (8 + k) b (xattr_file payload).

(** The attributes [reiserfs_xattr_set] resizes the file with. *)
Definition size_attrs (buffer_size : Z) : iattr :=
  mk_iattr (Z.lor ATTR_SIZE ATTR_CTIME) 0 0 buffer_size 0.

(** The super block after a file with inode [f1], open as [fp], was
    resized and written. *)
Definition written (sb1 : super_block) (fp : dentry) (f1 : inode)
           (buffer_size : Z) (content : list Z) : super_block :=
  update_inode
    (update_inode
       (sb_with_event sb1
          (Ev_notify_change fp (k_objectid f1) (size_attrs buffer_size)))
       fp (inode_setattr (size_attrs buffer_size)))
    fp (fun x => inode_with_data x content).

(** A byte at [k] weighs 1 or 256 in the sum of words. *)
Definition byte_weight (k : nat) : Z := if Nat.even k then 1 else 256.

(** What a deletion of [name] in the directory [dir] has to do with
    the tree [sb], in the words of the specification: no entry of
    that name is [-ENODATA]; a directory is not deleted; an inode
    outside the private tree is [-EIO] and is not unlinked; anything
    else is unlinked.  [run] is the returned value and the super
    block after the call. *)
Definition untouched (sb sb' : super_block) : Prop :=
  priv_root sb' = priv_root sb /\ s_events sb' = s_events sb.

Definition del_spec (run : Z * super_block) (sb : super_block)
           (dir name : string) : Prop :=
  let file := D_xafile dir name in
  match d_inode sb file with
  | None => fst run = neg ENODATA /\ untouched sb (snd run)
  | Some fi =>
      if i_isdir fi then fst run = 0 /\ untouched sb (snd run)
      else if negb (i_priv_object fi)
      then fst run = neg EIO /\ untouched sb (snd run)
      else fst run = 0
           /\ s_events (snd run)
              = Ev_unlink file (k_objectid fi) :: s_events sb
           /\ entries_of (snd run) (D_xadir dir)
              = remove_entry name (entries_of sb (D_xadir dir))
  end.

(** ** The entries an enumeration hands over *)

(** What the enumeration and its consumers read of an entry. *)
Definition dirent_key (e : dirent) : string * Z * bool * Z * bool :=
  (de_name e, deh_offset e, de_visible e, k_objectid (de_inode e),
   i_isdir (de_inode e)).

(** What [__xattr_readdir] reads of the super block. *)
Definition readdir_view (sb : super_block) (dir : dentry)
  : list (string * Z * bool * Z * bool) * Z * bool * bool * option Z :=
  (map dirent_key (entries_of sb dir), s_max_name sb, s_xattrs sb,
   s_old_format_only sb,
   option_map (fun p => k_objectid (pr_inode p)) (priv_root sb)).

(** The entries are in key order, from the highest offset down. *)
Definition key_order (l : list dirent) : Prop :=
  StronglySorted (fun a b => deh_offset b < deh_offset a) l.

Definition d_reclen_of (e : dirent) : Z :=
  Z.of_nat (String.length (de_name e)).

(** The entries that are not passed over: visible, with a name that
    is not too long, and not the private root. *)
Definition shown (sb : super_block) (e : dirent) : bool :=
  de_visible e
  && negb (d_reclen_of e >? s_max_name sb)
  && negb (s_xattrs sb && negb (s_old_format_only sb)
           && is_priv_root sb (k_objectid (de_inode e))).

(** The entries before the first one at or below [DOT_DOT_OFFSET]. *)
Fixpoint above_dot_dot (l : list dirent) : list dirent :=
  match l with
  | [] => []
  | e :: rest =>
      if deh_offset e <=? DOT_DOT_OFFSET then []
      else e :: above_dot_dot rest
  end.

Definition delivered (sb : super_block) (l : list dirent) : list dirent :=
  filter (shown sb) (above_dot_dot l).

(** [filldir] called on the entries of a list in turn, until it
    returns a negative value; each name is handed over in the buffer
    as the names before it have left it, [small_buf] being what the
    array held at first. *)
Fixpoint feed {B : Type} (filldir : filldir_t B) (l : list dirent)
         (small_buf : string) (buf : B) (sb : super_block)
  : B * super_block :=
  match l with
  | [] => (buf, sb)
  | e :: rest =>
      let '(r, buf1, sb1) :=
        filldir buf
                (local_buf_bytes small_buf (de_name e) (d_reclen_of e)
                                 (deh_offset e))
                (d_reclen_of e) (deh_offset e)
                (k_objectid (de_inode e)) sb in
      if r <? 0 then (buf1, sb1)
      else feed filldir rest
                (small_buf_after small_buf (de_name e) (d_reclen_of e))
                buf1 sb1
  end.

(** ** The list of attribute names *)

(** What [reiserfs_listxattr_filler] adds to the list for the bytes
    [name], of which [namelen] are the name: the bytes the handler
    found reports, if the name is not a dot entry, a handler is found
    and the handler reports anything. *)
Definition listed (i : inode) (name : string) (namelen : Z)
  : option (list Z) :=
  if negb (is_dot (char_at name 0))
     || (negb (namelen =? 1)
         && (negb (is_dot (char_at name 1)) || negb (namelen =? 2)))
  then
    match find_xattr_handler_prefix name with
    | None => None
    | Some xah =>
        let reported := h_list xah i (name_of name namelen) namelen in
        if negb (zlen reported =? 0) then Some reported else None
    end
  else None.





(** ** The ownership cascade *)

(** The attributes the cascade applies: those of the caller with
    [ia_valid] cut down to the owner, the group and the change time. *)
Definition chown_attrs (attrs : iattr) : iattr :=
  iattr_with_valid attrs (Z.land (ia_valid attrs) chown_mask).

(** An application of exactly these attributes. *)
Definition applies (a : iattr) (ev : event) : Prop :=
  exists d objectid, ev = Ev_notify_change d objectid a.

(** The applications to the entries [l] that are not directories. *)
Definition chown_events (dir : string) (a : iattr) (l : list dirent)
  : list event :=
  map (fun e => Ev_notify_change (D_xafile dir (de_name e))
                                 (k_objectid (de_inode e)) a)
      (filter (fun e => negb (i_isdir (de_inode e))) l).

(** No two visible entries of a directory have the same name. *)
Definition names_unique (l : list dirent) : Prop :=
  NoDup (map de_name (filter de_visible l)).

(** The events added to [ev0] are applications of [a]. *)
Definition only_applied (a : iattr) (ev0 : list event) (sb : super_block)
  : Prop :=
  exists new, s_events sb = new ++ ev0 /\ Forall (applies a) new.

(** What the cascade relies on while it runs over the directory [dir]
    of the tree [sb0]: the enumeration sees the same entries, and the
    directory has the same inode number. *)
Definition same_directory (sb0 : super_block) (dir : string)
           (s : super_block) : Prop :=
  readdir_view s (D_xadir dir) = readdir_view sb0 (D_xadir dir)
  /\ option_map (fun x => k_objectid (d_dir_inode x)) (xa_dir_of s dir)
     = option_map (fun x => k_objectid (d_dir_inode x)) (xa_dir_of sb0 dir).

(** ** Example states *)

(** The object of the header comment of xattr.c, object id
    [0xC0FFEE], and a mounted file system on which no attribute was
    set yet. *)
Definition ex_object : inode :=
  mk_inode 12648430 0 STAT_DATA_V2 false false false 1 [] 0 0 0.

Definition ex_priv_inode : inode :=
  mk_inode 100 0 STAT_DATA_V2 true true false 3 [] 0 0 0.

Definition ex_xaroot_inode : inode :=
  mk_inode 101 0 STAT_DATA_V2 true true false 3 [] 0 0 0.

Definition ex_dir_inode : inode :=
  mk_inode 102 0 STAT_DATA_V2 true true false 2 [] 0 0 0.

Definition ex_fresh : super_block :=
  mk_super_block true false 255 (Some (mk_priv_dir ex_priv_inode None))
                 None 1000 [].

(** An attribute file and a tree in which the object has the
    attribute directory [C0FFEE.0] with the entries [l]. *)
Definition ex_file (objectid nlink : Z) (data : list Z) : inode :=
  mk_inode objectid 0 STAT_DATA_V2 true false false nlink data 0 0 0.

Definition ex_tree (l : list dirent) : super_block :=
  mk_super_block
    true false 255
    (Some (mk_priv_dir
             ex_priv_inode
             (Some (mk_xa_root
                      ex_xaroot_inode
                      [("C0FFEE.0"%string,
                        mk_directory
                          ex_dir_inode
                          (l ++ dot_entries ex_dir_inode
                                            ex_xaroot_inode))]))))
    None 1000 [].

(** The value [text/plain]. *)
Definition ex_value : list Z := [116; 101; 120; 116; 47; 112; 108; 97; 105; 110].

Definition ex_long_name : string :=
  "user.a-name-that-does-not-fit-the-small-buffer"%string.

(** An oracle under which the item moves in the first pass of the
    enumeration and nothing else happens. *)
Definition ex_moved_once : oracle :=
  mk_oracle (fun _ _ => None) (fun _ => None) (fun _ => None)
            (fun _ => None) (fun _ => None) (fun _ => None)
            (fun _ _ => None) (fun _ _ => false) (fun _ _ => None)
            (fun _ _ => None) (fun _ => false) (fun _ => false)
            (fun k => Nat.eqb k 0) EmptyString (fun _ => EmptyString).

(** The bytes of a name, and a handler for [user.] that reports the
    name as it is. *)
Definition name_bytes (name : string) : list Z :=
  map (fun c => Z.of_N (N_of_ascii c)) (list_ascii_of_string name).

Definition ex_handlers : list reiserfs_xattr_handler :=
  [mk_handler "user." (fun _ name _ => name_bytes name)].

(** ** Frames *)

(** Only the cached dentry [xattr_root] may differ between [sb] and
    [sb']. *)
Definition only_cached (sb sb' : super_block) : Prop :=
  exists c, sb' = sb_with_xattr_root sb c.


(** Every attribute file is kept as it is; the entries [.] and [..]
    of a directory are no attribute files. *)
Definition files_kept (sb sb' : super_block) : Prop :=
  forall dir' name',
    name' <> "."%string -> name' <> ".."%string ->
    d_inode sb' (D_xafile dir' name') = d_inode sb (D_xafile dir' name').

(** What an operation on the attribute [name] of the directory [dir]
    leaves alone: the attribute files of every other name and of
    every other directory. *)
Definition others_kept (dir name : string) (sb sb' : super_block) : Prop :=
  forall dir' name',
    dir' <> dir \/ name' <> name ->
    name' <> "."%string -> name' <> ".."%string ->
    d_inode sb' (D_xafile dir' name') = d_inode sb (D_xafile dir' name').


(** What the caller of [reiserfs_xattr_get] sees: the returned value
    and the buffer. *)
Definition get_answer (x : option (Z * option (list Z) * super_block))
  : option (Z * option (list Z)) :=
  option_map (fun y => (fst (fst y), snd (fst y))) x.


(** ** The list of handlers in memory *)

(** [reiserfs_xattr_register_handler] and
    [reiserfs_xattr_unregister_handler] work on the linked list itself:
    the static pointer [xattr_handlers] and the field [next] of every
    handler.  A handler is identified by its address, NULL is [None];
    [handler_at] gives the fields of the handler at an address that the
    two functions only read. *)
Record handler_table : Type := mk_handler_table {
  ht_head : option Z;
  ht_next : Z -> option Z
}.

(** What [struct reiserfs_xattr_handler **xah] points to:
    [&xattr_handlers] or [&handler->next]. *)
Inductive handler_slot : Type :=
  | Slot_head
  | Slot_next (a : Z).

(** [*xah] and [*xah = v]. *)
Definition slot_load (t : handler_table) (xah : handler_slot) : option Z :=
  match xah with
  | Slot_head => ht_head t
  | Slot_next a => ht_next t a
  end.

Definition slot_store (t : handler_table) (xah : handler_slot)
           (v : option Z) : handler_table :=
  match xah with
  | Slot_head => mk_handler_table v (ht_next t)
  | Slot_next a =>
      mk_handler_table (ht_head t)
                       (fun b => if b =? a then v else ht_next t b)
  end.

Section Registry.

Variable handler_at : Z -> reiserfs_xattr_handler.

(** The [for] loop over the list, from the slot [xah] on, that breaks
    at the first handler on which [stop] holds: the slot at which the
    loop ends.  [None] when [fuel] steps do not reach the end. *)
Fixpoint handler_walk (fuel : nat) (stop : Z -> bool) (t : handler_table)
         (xah : handler_slot) : option handler_slot :=
  match fuel with
  | O => None
  | S fuel' =>
      match slot_load t xah with
      | None => Some xah
      | Some a =>
          if stop a then Some xah
          else handler_walk fuel' stop t (Slot_next a)
      end
  end.

(** [find_xattr_handler_prefix] on the linked list: the address it
    returns, NULL when no prefix matches. *)
Definition find_xattr_handler_walk (fuel : nat) (t : handler_table)
           (name : string) : option (option Z) :=
  option_map (slot_load t)
    (handler_walk fuel
       (fun a => String.prefix (prefix (handler_at a)) name) t Slot_head).

Definition reiserfs_xattr_register_handler (fuel : nat) (t : handler_table)
           (handler : option Z) : option (Z * handler_table) :=
  match handler with
  | None => Some (neg EINVAL, t)
  | Some h =>
      match ht_next t h with
      | Some _ => Some (neg EBUSY, t)
      | None =>
          match handler_walk
                  fuel
                  (fun a => String.eqb (prefix (handler_at a))
                                       (prefix (handler_at h)))
                  t Slot_head with
          | None => None
          | Some xah =>
              match slot_load t xah with
              | Some _ => Some (neg EBUSY, t)
              | None => Some (0, slot_store t xah (Some h))
              end
          end
      end
  end.

(** The [while] loop of [reiserfs_xattr_unregister_handler] from the
    slot [xah] on. *)
Fixpoint unregister_walk (fuel : nat) (t : handler_table)
         (handler : option Z) (xah : handler_slot)
  : option (Z * handler_table) :=
  match fuel with
  | O => None
  | S fuel' =>
      match slot_load t xah with
      | None => Some (neg EINVAL, t)
      | Some a =>
          if match handler with Some h => h =? a | None => false end
          then
            let t1 := slot_store t xah (ht_next t a) in
            Some (0, slot_store t1 (Slot_next a) None)
          else unregister_walk fuel' t handler (Slot_next a)
      end
  end.

Definition reiserfs_xattr_unregister_handler (fuel : nat)
           (t : handler_table) (handler : option Z)
  : option (Z * handler_table) :=
  unregister_walk fuel t handler Slot_head.

End Registry.

(** The pointer [p] starts a list that holds the handlers at the
    addresses [l], in this order, and ends with NULL. *)
Fixpoint handler_chain (t : handler_table) (p : option Z) (l : list Z)
  : Prop :=
  match l with
  | [] => p = None
  | a :: rest => p = Some a /\ handler_chain t (ht_next t a) rest
  end.

(** The table holds the handlers at [l]: a list without a cycle. *)
Definition handlers_are (t : handler_table) (l : list Z) : Prop :=
  handler_chain t (ht_head t) l /\ NoDup l.

(** Where a walk over the handlers [l] from the slot [xah] ends: at
    the slot of the first handler on which [stop] holds, or at the
    last slot. *)
Fixpoint walk_end (stop : Z -> bool) (xah : handler_slot) (l : list Z)
  : handler_slot :=
  match l with
  | [] => xah
  | a :: rest => if stop a then xah else walk_end stop (Slot_next a) rest
  end.

(** The owner of a slot, if it is a field [next], is not among [l]. *)
Definition slot_outside (xah : handler_slot) (l : list Z) : Prop :=
  match xah with
  | Slot_head => True
  | Slot_next a => ~ In a l
  end.

(** A table to try things on: the handlers at the addresses 8 and 16,
    for the prefixes [user.] and [system.], in this order. *)
Definition ex_handler_at (a : Z) : reiserfs_xattr_handler :=
  if a =? 8 then mk_handler "user." (fun _ name _ => name_bytes name)
  else if a =? 16 then mk_handler "system." (fun _ name _ => name_bytes name)
  else mk_handler "trusted." (fun _ name _ => name_bytes name).

Definition ex_table : handler_table :=
  mk_handler_table (Some 8) (fun a => if a =? 8 then Some 16 else None).


(** ** Deleting all attributes of an object *)

(** [ENOTEMPTY] of asm-mips/errno.h. *)
Definition ENOTEMPTY : Z := 93.

Fixpoint remove_dir (dir : string) (l : list (string * directory))
  : list (string * directory) :=
  match l with
  | [] => []
  | (n, d) :: rest =>
      if String.eqb n dir then rest else (n, d) :: remove_dir dir rest
  end.

(** An entry that does not keep a directory from being empty: a
    hidden one, [.] or [..]. *)
Definition no_entry (e : dirent) : bool :=
  negb (de_visible e) || (deh_offset e <=? DOT_DOT_OFFSET).

Section DeleteAll.

(** The failures of [vfs_rmdir], another collaborator. *)
Variable o_rmdir : dentry -> option errno.

(** Modelled from the spec: [vfs_rmdir] (fs/namei.c) is not part of
    the sources; it is the rmdir primitive of the VFS, which removes a
    directory that has no entries besides [.] and [..] and fails with
    [-ENOTEMPTY] on one that has. *)
Definition vfs_rmdir (sb : super_block) (d : dentry) : Z * super_block :=
  match o_rmdir d with
  | Some e => (neg e, sb)
  | None =>
      match d with
      | D_xadir dir =>
          match xa_root_of sb, xa_dir_of sb dir with
          | Some r, Some x =>
              if forallb no_entry (d_entries x)
              then (0, sb_with_xa_root
                         sb (Some (mk_xa_root (xr_inode r)
                                              (remove_dir dir (xr_dirs r)))))
              else (- ENOTEMPTY, sb)
          | _, _ => (neg ENOENT, sb)
          end
      | _ => (neg ENOENT, sb)
      end
  end.

(** [buf] is the dentry of the attribute directory. *)
Definition reiserfs_delete_xattrs_filler : filldir_t dentry :=
  fun xadir name namelen offset ino sb =>
    let '(err, sb1) := __reiserfs_xattr_del sb xadir (name_of name namelen) in
    (err, xadir, sb1).

(** [None] also stands for the dereference of [root] where
    [get_xa_root] has not returned a dentry: the code does not check
    it. *)
Definition reiserfs_delete_xattrs (fuel : nat) (sb : super_block)
           (i : inode) : option (Z * super_block) :=
  (* Skip out, an xattr has no xattrs associated with it *)
  if i_priv_object i
     || match i_sd_version i with STAT_DATA_V1 => true | _ => false end
     || negb (s_xattrs sb)
  then Some (0, sb)
  else
    match open_xa_dir sb i FL_READONLY with
    | (ERR_PTR e, sb1) => Some (e, sb1)
    | (PTR dir, sb1) =>
        if negb (positive sb1 dir) then Some (0, sb1)
        else
          match dentry_open dir with
          | ERR_PTR e => Some (e, sb1)
          | PTR fp =>
              match xattr_readdir fuel fp reiserfs_delete_xattrs_filler
                                  dir sb1 with
              | None => None
              | Some (err, _, sb2) =>
                  if negb (err =? 0) then Some (err, sb2)
                  else
                    (* Leftovers besides . and .. -- that's not good. *)
                    if i_nlink (the_inode sb2 dir) <=? 2 then
                      match get_xa_root sb2 with
                      | (PTR (Some root), sb3) =>
                          let '(err, sb4) := vfs_rmdir sb3 dir in
                          Some (err, sb4)
                      | _ => None
                      end
                    else Some (err, sb2)
              end
          end
    end.

End DeleteAll.

(** What the enumeration leaves of the entries [l] when every entry
    it hands over is removed. *)
Fixpoint undelivered (sb : super_block) (l : list dirent) : list dirent :=
  match l with
  | [] => []
  | e :: rest =>
      if deh_offset e <=? DOT_DOT_OFFSET then l
      else if shown sb e then undelivered sb rest
           else e :: undelivered sb rest
  end.

(** The unlinks of the entries [l] of the directory [dir]. *)
Definition unlink_events (dir : string) (l : list dirent) : list event :=
  map (fun e => Ev_unlink (D_xafile dir (de_name e))
                          (k_objectid (de_inode e))) l.

(** An attribute file as [__reiserfs_xattr_del] wants it. *)
Definition deletable (e : dirent) : bool :=
  negb (i_isdir (de_inode e)) && i_priv_object (de_inode e).

(** The super block after the entries [l] of the directory [dir] were
    unlinked one after the other. *)
Fixpoint unlink_all (dir : string) (l : list dirent) (sb : super_block)
  : super_block :=
  match l with
  | [] => sb
  | e :: rest =>
      unlink_all dir rest
        (sb_update_entries
           (sb_with_event sb (Ev_unlink (D_xafile dir (de_name e))
                                        (k_objectid (de_inode e))))
           dir (remove_entry (de_name e)))
  end.

(** What [__xattr_readdir] reads of the super block besides the
    entries. *)
Definition readdir_flags (sb : super_block) : Z * bool * bool * option Z :=
  (s_max_name sb, s_xattrs sb, s_old_format_only sb,
   option_map (fun p => k_objectid (pr_inode p)) (priv_root sb)).

(** No two directories of objects have the same name. *)
Definition dirs_unique (sb : super_block) : Prop :=
  match xa_root_of sb with
  | Some r => NoDup (map fst (xr_dirs r))
  | None => True
  end.


(** ** Mounting *)

(** [MS_RDONLY] and [MS_POSIXACL] of linux/fs.h. *)
Definition MS_RDONLY : Z := 1.
Definition MS_POSIXACL : Z := 65536.

(** What [reiserfs_xattr_init] reads and writes of the super block at
    mount time: the mount options [s_mount_opt], [s_flags], whether
    the format is the old one, the dentry cached in [priv_root], given
    by its inode, and what a lookup of [.reiserfs_priv] in the root
    directory finds. *)
Record mount_state : Type := mk_mount_state {
  s_mount_opt : Z;
  s_flags : Z;
  m_old_format_only : bool;
  m_priv_root : option inode;
  m_on_disk : option inode;
  m_next_objectid : Z
}.

Definition with_mount_opt (s : mount_state) (opt : Z) : mount_state :=
  mk_mount_state opt (s_flags s) (m_old_format_only s) (m_priv_root s)
                 (m_on_disk s) (m_next_objectid s).

Definition with_s_flags (s : mount_state) (flags : Z) : mount_state :=
  mk_mount_state (s_mount_opt s) flags (m_old_format_only s) (m_priv_root s)
                 (m_on_disk s) (m_next_objectid s).

(** [test_bit], [set_bit] and [clear_bit] on [s_mount_opt]. *)
Definition test_bit (nr : Z) (s : mount_state) : bool :=
  Z.testbit (s_mount_opt s) nr.

Definition set_bit (nr : Z) (s : mount_state) : mount_state :=
  with_mount_opt s (Z.setbit (s_mount_opt s) nr).

Definition clear_bit (nr : Z) (s : mount_state) : mount_state :=
  with_mount_opt s (Z.clearbit (s_mount_opt s) nr).

(** The inode with [i_priv_object] set in its flags. *)
Definition inode_private (i : inode) : inode :=
  mk_inode (k_objectid i) (i_generation i) (i_sd_version i) true
           (i_isdir i) (i_dead i) (i_nlink i) (i_data i)
           (i_uid i) (i_gid i) (i_ctime i).

Section Init.

(** The numbers of the mount options, an enumeration of
    linux/reiserfs_fs_sb.h, which is not part of the sources. *)
Variable REISERFS_XATTRS : Z.
Variable REISERFS_XATTRS_USER : Z.
Variable REISERFS_NO_XATTRS_USER : Z.
Variable REISERFS_POSIXACL : Z.
Variable REISERFS_NO_POSIXACL : Z.

(** The failures of the lookup of [.reiserfs_priv] in the root
    directory and of its [mkdir]. *)
Variable o_lookup_privroot : option errno.
Variable o_mkdir_privroot : option errno.

Definition reiserfs_xattrs (s : mount_state) : bool :=
  test_bit REISERFS_XATTRS s.
Definition reiserfs_xattrs_user (s : mount_state) : bool :=
  test_bit REISERFS_XATTRS_USER s.
Definition reiserfs_posixacl (s : mount_state) : bool :=
  test_bit REISERFS_POSIXACL s.
Definition reiserfs_xattrs_optional (s : mount_state) : bool :=
  reiserfs_xattrs_user s || reiserfs_posixacl s.

(** The three [clear_bit] of the two places where xattrs are given
    up. *)
Definition clear_xattr_bits (s : mount_state) : mount_state :=
  clear_bit REISERFS_POSIXACL
            (clear_bit REISERFS_XATTRS_USER (clear_bit REISERFS_XATTRS s)).

(** From the label [error] on. *)
Definition xattr_init_error (err : Z) (s : mount_state)
  : option (Z * mount_state) :=
  let s := if negb (err =? 0) then clear_xattr_bits s else s in
  Some (err,
        with_s_flags
          s (Z.lor (Z.land (s_flags s) (Z.lnot MS_POSIXACL))
                   (if reiserfs_posixacl s then MS_POSIXACL else 0))).

(** [None] is the dereference of the NULL [d_inode] of a negative
    dentry.  [lookup_one_len] and [i_op->mkdir] are not part of the
    sources: here the lookup gives the dentry of what is on disk, a
    negative one when there is nothing, and [mkdir] makes it positive
    with a new directory inode. *)
Definition reiserfs_xattr_init (s : mount_state) (mount_flags : Z)
  : option (Z * mount_state) :=
  let s :=
    if test_bit REISERFS_NO_XATTRS_USER s
    then clear_bit REISERFS_NO_XATTRS_USER
                   (clear_bit REISERFS_XATTRS_USER s)
    else s in
  let s :=
    if test_bit REISERFS_NO_POSIXACL s
    then clear_bit REISERFS_NO_POSIXACL (clear_bit REISERFS_POSIXACL s)
    else s in
  let s :=
    if reiserfs_xattrs_optional s then set_bit REISERFS_XATTRS s
    else clear_bit REISERFS_XATTRS s in
  if reiserfs_xattrs s then
    if m_old_format_only s then xattr_init_error (neg EOPNOTSUPP) s
    else
      match m_priv_root s with
      | Some _ => xattr_init_error 0 s
      | None =>
          (* what the dentry refers to, NULL dentry or not, and [err] *)
          let '(err, d_inode, s) :=
            match o_lookup_privroot with
            | Some e => (neg e, None, s)
            | None =>
                if negb (has_flag mount_flags MS_RDONLY)
                   && match m_on_disk s with None => true | _ => false end
                then
                  match o_mkdir_privroot with
                  | Some e => (neg e, None, s)
                  | None =>
                      let i := mk_inode (m_next_objectid s) 0 STAT_DATA_V2
                                        false true false 2 [] 0 0 0 in
                      (0, Some i,
                       mk_mount_state (s_mount_opt s) (s_flags s)
                                      (m_old_format_only s) (m_priv_root s)
                                      (Some i) (m_next_objectid s + 1))
                  end
                else (0, m_on_disk s, s)
            end in
          if err =? 0 then
            match d_inode with
            | None => None
            | Some i =>
                xattr_init_error
                  0 (mk_mount_state (s_mount_opt s) (s_flags s)
                                    (m_old_format_only s)
                                    (Some (inode_private i))
                                    (Some (inode_private i))
                                    (m_next_objectid s))
            end
          else
            (* xattrs are unavailable *)
            if negb (has_flag mount_flags MS_RDONLY)
            then xattr_init_error (neg EOPNOTSUPP) s
            else xattr_init_error err (clear_xattr_bits s)
      end
  else xattr_init_error 0 s.

End Init.

(** A mount state to try things on, with the options numbered 8 to
    12: user attributes were asked for on a file system that has no
    private root yet. *)
Definition ex_mount : mount_state :=
  mk_mount_state (Z.setbit 0 9) 0 false None None 1000.


(** The mount options as [reiserfs_xattr_init] leaves them: the two
    options that switch a kind of attributes off are clear, and
    xattrs are on if and only if a kind of attributes is. *)
Definition options_settled (XATTRS XATTRS_USER NO_XATTRS_USER
                            POSIXACL NO_POSIXACL : Z) (s : mount_state)
  : Prop :=
  test_bit NO_XATTRS_USER s = false
  /\ test_bit NO_POSIXACL s = false
  /\ test_bit XATTRS s = test_bit XATTRS_USER s || test_bit POSIXACL s.

(** The numbers of the options are bit numbers, and differ. *)
Definition option_bits (l : list Z) : Prop :=
  NoDup l /\ Forall (fun b => 0 <= b) l.


(** The tree in which the object has the attribute
    [user.Content-Type] with the value [text/plain], the tree in which
    it has two empty attributes, and a file system whose private root
    was not set up at mount time. *)
Definition ex_stored : super_block :=
  ex_tree [mk_dirent "user.Content-Type" 3 true
                     (ex_file 103 1 (xattr_file ex_value))].

Definition ex_two_entries : list dirent :=
  [ mk_dirent "user.b" 4 true (ex_file 104 1 []);
    mk_dirent "user.a" 3 true (ex_file 103 1 []) ].

Definition ex_two : super_block := ex_tree ex_two_entries.




Definition ex_bare : super_block :=
  mk_super_block true false 255 None None 1000 [].

(** An oracle under which [notify_change] fails with [EIO] on
    attribute files and nothing else happens. *)
Definition ex_chown_fails : oracle :=
  mk_oracle (fun _ _ => None) (fun _ => None) (fun _ => None)
            (fun _ => None) (fun _ => None)
            (fun d => match d with D_xafile _ _ => Some EIO | _ => None end)
            (fun _ _ => None) (fun _ _ => false) (fun _ _ => None)
            (fun _ _ => None) (fun _ => false) (fun _ => false)
            (fun _ => false) EmptyString (fun _ => EmptyString).


(** * Properties *)

Hypothesis PAGE_CACHE_SHIFT_min : 4 <= PAGE_CACHE_SHIFT.

(** ** Names in memory *)

Lemma string_app_assoc (a b c : string) :
  ((a ++ b) ++ c)%string = (a ++ (b ++ c))%string.
Proof. induction a as [| x a IH]; cbn; [reflexivity | rewrite IH; reflexivity]. Qed.

Lemma string_length_app (a b : string) :
  String.length (a ++ b) = (String.length a + String.length b)%nat.
Proof. induction a as [| x a IH]; cbn; [reflexivity | rewrite IH; reflexivity]. Qed.

Lemma substring_length_le (m : nat) (s : string) :
  (String.length (substring 0 m s) <= m)%nat.
Proof.
  revert s; induction m as [| m IH]; intros s.
  - destruct s; cbn; lia.
  - destruct s as [| c s]; cbn; [lia |].
    specialize (IH s); lia.
Qed.

Lemma substring_app (s t : string) :
  substring 0 (String.length s) (s ++ t) = s.
Proof.
  induction s as [| c s IH]; cbn.
  - destruct t; reflexivity.
  - rewrite IH; reflexivity.
Qed.

(** The bytes at [local_buf] start with the name. *)
Lemma local_buf_bytes_name (small_buf name : string) (d_reclen d_off : Z) :
  exists behind : string,
    local_buf_bytes small_buf name d_reclen d_off
    = String.append name behind.
Proof.
  unfold local_buf_bytes, memcpy_name.
  destruct (d_reclen <=? 32); [| eexists; reflexivity].
  rewrite string_app_assoc; eexists; reflexivity.
Qed.

Lemma name_of_app (name behind : string) :
  name_of (String.append name behind) (Z.of_nat (String.length name)) = name.
Proof. unfold name_of; rewrite Nat2Z.id; apply substring_app. Qed.

(** A callee that is given [namelen] gets the name. *)
Lemma name_of_local_buf (small_buf : string) (e : dirent) :
  name_of (local_buf_bytes small_buf (de_name e) (d_reclen_of e)
                           (deh_offset e)) (d_reclen_of e)
  = de_name e.
Proof.
  destruct (local_buf_bytes_name small_buf (de_name e) (d_reclen_of e)
                                 (deh_offset e)) as [behind ->].
  apply name_of_app.
Qed.







(** ** Buffers *)

Lemma zlen_nonneg (l : list Z) : 0 <= zlen l.
Proof. unfold zlen; lia. Qed.

Lemma zlen_app (l1 l2 : list Z) : zlen (l1 ++ l2) = zlen l1 + zlen l2.
Proof. unfold zlen; rewrite length_app; lia. Qed.

Lemma zlen_zeros (n : Z) : zlen (zeros n) = Z.max 0 n.
Proof. unfold zlen, zeros; rewrite repeat_length; lia. Qed.

Lemma zlen_zfirstn (n : Z) (l : list Z) :
  zlen (zfirstn n l) = Z.min (Z.max 0 n) (zlen l).
Proof. unfold zlen, zfirstn; rewrite length_firstn; lia. Qed.

Lemma zlen_zskipn (n : Z) (l : list Z) :
  zlen (zskipn n l) = Z.max 0 (zlen l - Z.max 0 n).
Proof. unfold zlen, zskipn; rewrite length_skipn; lia. Qed.

Lemma zfirstn_all (n : Z) (l : list Z) : zlen l <= n -> zfirstn n l = l.
Proof. unfold zlen, zfirstn; intros; apply firstn_all2; lia. Qed.

Lemma zfirstn_nonpos (n : Z) (l : list Z) : n <= 0 -> zfirstn n l = [].
Proof.
  unfold zfirstn; intros; replace (Z.to_nat n) with 0%nat by lia.
  reflexivity.
Qed.

Lemma zskipn_nonpos (n : Z) (l : list Z) : n <= 0 -> zskipn n l = l.
Proof.
  unfold zskipn; intros; replace (Z.to_nat n) with 0%nat by lia.
  reflexivity.
Qed.

Lemma zskipn_all (n : Z) (l : list Z) : zlen l <= n -> zskipn n l = [].
Proof. unfold zlen, zskipn; intros; apply skipn_all2; lia. Qed.

Lemma zeros_nonpos (n : Z) : n <= 0 -> zeros n = [].
Proof.
  unfold zeros; intros; replace (Z.to_nat n) with 0%nat by lia.
  reflexivity.
Qed.

Lemma zfirstn_app_l (n : Z) (l1 l2 : list Z) :
  n <= zlen l1 -> zfirstn n (l1 ++ l2) = zfirstn n l1.
Proof.
  unfold zlen, zfirstn; intros; rewrite firstn_app.
  replace (Z.to_nat n - List.length l1)%nat with 0%nat by lia.
  simpl; apply app_nil_r.
Qed.

Lemma zfirstn_app_r (n : Z) (l1 l2 : list Z) :
  zlen l1 <= n -> zfirstn n (l1 ++ l2) = l1 ++ zfirstn (n - zlen l1) l2.
Proof.
  unfold zlen, zfirstn; intros; rewrite firstn_app.
  rewrite firstn_all2 by lia.
  f_equal; f_equal; lia.
Qed.

Lemma zskipn_app_r (n : Z) (l1 l2 : list Z) :
  zlen l1 <= n -> zskipn n (l1 ++ l2) = zskipn (n - zlen l1) l2.
Proof.
  unfold zlen, zskipn; intros; rewrite skipn_app.
  rewrite skipn_all2 by lia.
  simpl; f_equal; lia.
Qed.

Lemma zskipn_app_l (n : Z) (l1 l2 : list Z) :
  n <= zlen l1 -> zskipn n (l1 ++ l2) = zskipn n l1 ++ l2.
Proof.
  unfold zlen, zskipn; intros; rewrite skipn_app.
  replace (Z.to_nat n - List.length l1)%nat with 0%nat by lia.
  reflexivity.
Qed.

Lemma zfirstn_zfirstn (a b : Z) (l : list Z) :
  a <= b -> zfirstn a (zfirstn b l) = zfirstn a l.
Proof.
  unfold zfirstn; intros; rewrite firstn_firstn.
  f_equal; lia.
Qed.

Lemma zskipn_zskipn (a b : Z) (l : list Z) :
  0 <= a -> 0 <= b -> zskipn a (zskipn b l) = zskipn (a + b) l.
Proof.
  unfold zskipn; intros; rewrite skipn_skipn.
  f_equal; lia.
Qed.

Lemma zfirstn_add (a b : Z) (l : list Z) :
  0 <= a -> 0 <= b ->
  zfirstn (a + b) l = zfirstn a l ++ zfirstn b (zskipn a l).
Proof.
  intros Ha Hb.
  rewrite <- (firstn_skipn (Z.to_nat a) l) at 1.
  destruct (Z_le_gt_dec (zlen l) a) as [Hl | Hl].
  - rewrite (zskipn_all a l Hl).
    unfold zfirstn at 3; rewrite firstn_nil, app_nil_r.
    rewrite firstn_skipn.
    rewrite !zfirstn_all by lia; reflexivity.
  - rewrite zfirstn_app_r.
    + fold (zfirstn a l); fold (zskipn a l).
      rewrite zlen_zfirstn; do 2 f_equal; lia.
    + fold (zfirstn a l); rewrite zlen_zfirstn; lia.
Qed.

Lemma zskipn_zfirstn (a b : Z) (l : list Z) :
  0 <= a -> zskipn a (zfirstn b l) = zfirstn (b - a) (zskipn a l).
Proof.
  intros Ha; unfold zskipn, zfirstn.
  rewrite skipn_firstn_comm; f_equal; lia.
Qed.

Lemma memcpy_to_0 (dst src : list Z) :
  memcpy_to dst 0 src = src ++ zskipn (zlen src) dst.
Proof. unfold memcpy_to; rewrite zfirstn_nonpos by lia; reflexivity. Qed.

Lemma memcpy_to_inside (dst src : list Z) (pos : Z) :
  0 <= pos <= zlen dst ->
  memcpy_to dst pos src
  = zfirstn pos dst ++ src ++ zskipn (pos + zlen src) dst.
Proof.
  intros H; unfold memcpy_to.
  rewrite zfirstn_app_l by lia; reflexivity.
Qed.

Lemma zlen_memcpy_to (dst src : list Z) (pos : Z) :
  0 <= pos ->
  zlen (memcpy_to dst pos src) = Z.max (zlen dst) (pos + zlen src).
Proof.
  intros H; unfold memcpy_to.
  pose proof (zlen_nonneg dst); pose proof (zlen_nonneg src).
  rewrite !zlen_app, zlen_zfirstn, zlen_zskipn, zlen_app, zlen_zeros.
  lia.
Qed.

(** Writing [b] right behind what was written from the start extends
    what was written. *)
Lemma memcpy_to_extend (buf a b : list Z) :
  memcpy_to (memcpy_to buf 0 a) (zlen a) b = memcpy_to buf 0 (a ++ b).
Proof.
  pose proof (zlen_nonneg a); pose proof (zlen_nonneg b).
  pose proof (zlen_nonneg (zskipn (zlen a) buf)).
  rewrite (memcpy_to_0 buf a), (memcpy_to_0 buf (a ++ b)).
  rewrite memcpy_to_inside by (rewrite zlen_app; lia).
  rewrite zfirstn_app_l, zfirstn_all by lia.
  rewrite zskipn_app_r by lia.
  rewrite zskipn_zskipn by lia.
  rewrite zlen_app, <- app_assoc.
  do 3 f_equal; lia.
Qed.

(** ** Pages *)

Lemma PAGE_CACHE_SIZE_pow : PAGE_CACHE_SIZE = 2 ^ PAGE_CACHE_SHIFT.
Proof. unfold PAGE_CACHE_SIZE; apply Z.shiftl_1_l. Qed.

Lemma PAGE_CACHE_SIZE_min : 16 <= PAGE_CACHE_SIZE.
Proof.
  rewrite PAGE_CACHE_SIZE_pow.
  change 16 with (2 ^ 4); apply Z.pow_le_mono_r; lia.
Qed.

Lemma page_offset_aligned (k : Z) :
  Z.land (k * PAGE_CACHE_SIZE) (PAGE_CACHE_SIZE - 1) = 0.
Proof.
  rewrite PAGE_CACHE_SIZE_pow.
  replace (2 ^ PAGE_CACHE_SHIFT - 1) with (Z.ones PAGE_CACHE_SHIFT)
    by (rewrite Z.ones_equiv; lia).
  rewrite Z.land_ones by lia.
  apply Z.mod_mul; lia.
Qed.

Lemma page_index_aligned (k : Z) :
  Z.shiftr (k * PAGE_CACHE_SIZE) PAGE_CACHE_SHIFT = k.
Proof.
  rewrite PAGE_CACHE_SIZE_pow, Z.shiftr_div_pow2 by lia.
  apply Z.div_mul; lia.
Qed.

Lemma zlen_page_of (data : list Z) (k : Z) :
  zlen (page_of data k) = PAGE_CACHE_SIZE.
Proof.
  pose proof PAGE_CACHE_SIZE_min.
  unfold page_of.
  pose proof (zlen_nonneg (zskipn (k * PAGE_CACHE_SIZE) data)).
  rewrite zlen_zfirstn, zlen_app, zlen_zeros; lia.
Qed.

(** Reading inside a page is reading the file. *)
Lemma page_of_read (data : list Z) (k off c : Z) :
  0 <= k -> 0 <= off -> 0 <= c -> off + c <= PAGE_CACHE_SIZE ->
  k * PAGE_CACHE_SIZE + off + c <= zlen data ->
  memcpy_from (page_of data k) off c
  = memcpy_from data (k * PAGE_CACHE_SIZE + off) c.
Proof.
  intros Hk Hoff Hc Hpage Hdata.
  pose proof PAGE_CACHE_SIZE_min.
  unfold memcpy_from, page_of.
  rewrite zskipn_zfirstn by lia.
  rewrite zfirstn_zfirstn by lia.
  assert (Hs : zlen (zskipn (k * PAGE_CACHE_SIZE) data)
               = zlen data - k * PAGE_CACHE_SIZE)
    by (rewrite zlen_zskipn; nia).
  rewrite zskipn_app_l by lia.
  rewrite zskipn_zskipn by nia.
  rewrite zfirstn_app_l by (rewrite zlen_zskipn; nia).
  do 2 f_equal; lia.
Qed.

(** One chunk written at the start of page [k], which begins inside
    the file: the file keeps what precedes the page and continues with
    the chunk. *)
Lemma page_store_chunk (data src : list Z) (k : Z) :
  0 <= k -> zlen src <= PAGE_CACHE_SIZE ->
  k * PAGE_CACHE_SIZE <= zlen data ->
  let size := Z.max (zlen data) (k * PAGE_CACHE_SIZE + zlen src) in
  let data' := page_store data k (memcpy_to (page_of data k) 0 src) size in
  zlen data' = size
  /\ zfirstn (k * PAGE_CACHE_SIZE + zlen src) data'
     = zfirstn (k * PAGE_CACHE_SIZE) data ++ src.
Proof.
  intros Hk Hsrc Hdata size data'.
  pose proof PAGE_CACHE_SIZE_min.
  pose proof (zlen_nonneg src).
  assert (Hpage : zlen (memcpy_to (page_of data k) 0 src) = PAGE_CACHE_SIZE)
    by (rewrite zlen_memcpy_to, zlen_page_of; lia).
  assert (Hk0 : 0 <= k * PAGE_CACHE_SIZE) by nia.
  subst data' size; unfold page_store.
  split.
  - rewrite zlen_zfirstn, zlen_memcpy_to, Hpage by lia; lia.
  - rewrite zfirstn_zfirstn by lia.
    rewrite memcpy_to_inside by lia.
    rewrite zfirstn_app_r by (rewrite zlen_zfirstn; lia).
    f_equal.
    rewrite zlen_zfirstn, memcpy_to_0, <- app_assoc.
    rewrite zfirstn_app_r by lia.
    rewrite (zfirstn_nonpos (_ - zlen src)) by lia.
    apply app_nil_r.
Qed.

(** ** The write loop *)

Lemma reiserfs_get_page_quiet (fp : dentry) (data : list Z) (k : Z) :
  pages_quiet orc fp -> reiserfs_get_page fp data k = PTR (page_of data k).
Proof.
  intros Hq; unfold reiserfs_get_page.
  rewrite (q_read_cache_page _ _ Hq), (q_page_bad _ _ Hq); reflexivity.
Qed.

Lemma prepare_write_quiet (fp : dentry) (k : Z) :
  pages_quiet orc fp -> prepare_write fp k = 0.
Proof.
  intros Hq; unfold prepare_write.
  rewrite (q_prepare_write _ _ Hq); reflexivity.
Qed.

Lemma commit_write_quiet (fp : dentry) (k : Z) :
  pages_quiet orc fp -> commit_write fp k = 0.
Proof.
  intros Hq; unfold commit_write.
  rewrite (q_commit_write _ _ Hq); reflexivity.
Qed.

Lemma memcpy_from_length (src : list Z) (pos n : Z) :
  0 <= pos -> 0 <= n -> pos + n <= zlen src ->
  zlen (memcpy_from src pos n) = n.
Proof.
  intros; unfold memcpy_from.
  rewrite zlen_zfirstn, zlen_zskipn; lia.
Qed.

Section WriteLoop.

Variable fp : dentry.
Variable payload : list Z.
Variable xahash : Z.
Hypothesis Hquiet : pages_quiet orc fp.

Let n := zlen payload.
Let hdr := cpu_to_le32 REISERFS_XATTR_MAGIC ++ cpu_to_le32 xahash.
Let target := hdr ++ payload.

(** The iterations after the first: the cursor is at the start of page
    [k], the file holds the target up to there. *)
Lemma xattr_set_loop_rest (fuel : nat) :
  forall (k : Z) (data : list Z),
    1 <= k ->
    k * PAGE_CACHE_SIZE - 8 < n ->
    zlen data = Z.max n (k * PAGE_CACHE_SIZE) ->
    zfirstn (k * PAGE_CACHE_SIZE) data = zfirstn (k * PAGE_CACHE_SIZE) target ->
    (Z.to_nat (n - (k * PAGE_CACHE_SIZE - 8)) < fuel)%nat ->
    xattr_set_loop fuel fp (Some payload) n xahash data
                   (k * PAGE_CACHE_SIZE) (k * PAGE_CACHE_SIZE - 8)
    = Some (0, target).
Proof.
  pose proof PAGE_CACHE_SIZE_min as Hpg.
  induction fuel as [| fuel IH]; intros k data Hk Hbp Hlen Hpre Hfuel;
    [lia |].
  set (bp := k * PAGE_CACHE_SIZE - 8) in *.
  set (chunk := if n - bp >? PAGE_CACHE_SIZE
                then PAGE_CACHE_SIZE else n - bp).
  assert (Hchunk : 0 < chunk <= PAGE_CACHE_SIZE /\ chunk <= n - bp)
    by (subst chunk; destruct (Z.gtb_spec (n - bp) PAGE_CACHE_SIZE); lia).
  assert (Hbp0 : 0 < bp) by (subst bp; nia).
  set (src := memcpy_from payload bp chunk).
  assert (Hsrc : zlen src = chunk)
    by (apply memcpy_from_length; fold n; lia).
  destruct (page_store_chunk data src k) as [Hlen' Hpre'];
    [lia | lia | lia |].
  rewrite Hsrc in Hlen', Hpre'.
  assert (Htsplit : zfirstn (k * PAGE_CACHE_SIZE + chunk) target
                    = zfirstn (k * PAGE_CACHE_SIZE) target ++ src).
  { rewrite zfirstn_add by lia.
    f_equal. subst target src; unfold memcpy_from.
    rewrite zskipn_app_r by (change (zlen hdr) with 8; lia).
    change (zlen hdr) with 8; reflexivity. }
  simpl xattr_set_loop.
  replace (bp <? n) with true by (symmetry; apply Z.ltb_lt; lia).
  cbn [orb].
  rewrite page_offset_aligned, page_index_aligned.
  rewrite reiserfs_get_page_quiet by assumption.
  replace (k * PAGE_CACHE_SIZE =? 0) with false
    by (symmetry; apply Z.eqb_neq; nia).
  cbn [andb].
  rewrite prepare_write_quiet, commit_write_quiet by assumption.
  cbn [Z.eqb negb orb].
  replace (n =? 0) with false by (symmetry; apply Z.eqb_neq; lia).
  fold chunk; fold src.
  replace (k * PAGE_CACHE_SIZE + 0 + chunk + 0)
    with (k * PAGE_CACHE_SIZE + chunk) by lia.
  set (data' := page_store data k (memcpy_to (page_of data k) 0 src)
                           (Z.max (zlen data) (k * PAGE_CACHE_SIZE + chunk)))
    in *.
  destruct (Z.gtb_spec (n - bp) PAGE_CACHE_SIZE) as [Hmore | Hlast].
  - (* a full page, and more to come *)
    assert (chunk = PAGE_CACHE_SIZE)
      by (subst chunk; destruct (Z.gtb_spec (n - bp) PAGE_CACHE_SIZE); lia).
    replace (k * PAGE_CACHE_SIZE + chunk) with ((k + 1) * PAGE_CACHE_SIZE)
      in * by lia.
    replace (bp + chunk) with ((k + 1) * PAGE_CACHE_SIZE - 8)
      by (subst bp; lia).
    apply IH; try lia.
    rewrite Hpre', Htsplit, Hpre; reflexivity.
  - (* the last chunk *)
    assert (chunk = n - bp)
      by (subst chunk; destruct (Z.gtb_spec (n - bp) PAGE_CACHE_SIZE); lia).
    destruct fuel as [| fuel]; [lia |].
    simpl xattr_set_loop.
    replace (bp + chunk <? n) with false
      by (symmetry; apply Z.ltb_ge; lia).
    replace (bp + chunk =? 0) with false
      by (symmetry; apply Z.eqb_neq; lia).
    cbn [orb].
    do 2 f_equal.
    assert (Hall : k * PAGE_CACHE_SIZE + chunk = zlen target)
      by (subst target; rewrite zlen_app; change (zlen hdr) with 8;
          fold n; subst bp; lia).
    rewrite <- (zfirstn_all (zlen target) data') by lia.
    rewrite <- Hall, Hpre', Hpre, <- Htsplit, Hall.
    apply zfirstn_all; lia.
Qed.

(** The first iteration writes the header and the first chunk. *)
Lemma xattr_set_loop_first (fuel : nat) (data : list Z) :
  0 <= n ->
  let chunk := Z.min n (PAGE_CACHE_SIZE - 8) in
  let data1 :=
    page_store data 0
      (memcpy_to (page_of data 0) 0 (hdr ++ memcpy_from payload 0 chunk))
      (Z.max (zlen data) (0 * PAGE_CACHE_SIZE + (8 + chunk))) in
  xattr_set_loop (S fuel) fp (Some payload) n xahash data 0 0
  = if n =? 0 then Some (0, data1)
    else xattr_set_loop fuel fp (Some payload) n xahash data1
                        (8 + chunk) chunk.
Proof.
  intros Hn chunk data1.
  pose proof PAGE_CACHE_SIZE_min as Hpg.
  simpl xattr_set_loop.
  rewrite Z.shiftr_0_l, orb_true_r.
  rewrite reiserfs_get_page_quiet, prepare_write_quiet, commit_write_quiet
    by assumption.
  cbn [Z.eqb negb orb].
  replace (if (if n - 0 >? PAGE_CACHE_SIZE then PAGE_CACHE_SIZE else n - 0)
              + XATTR_HEADER_SIZE >? PAGE_CACHE_SIZE
           then PAGE_CACHE_SIZE - XATTR_HEADER_SIZE
           else if n - 0 >? PAGE_CACHE_SIZE then PAGE_CACHE_SIZE else n - 0)
    with chunk
    by (subst chunk; unfold XATTR_HEADER_SIZE;
        destruct (Z.gtb_spec (n - 0) PAGE_CACHE_SIZE);
        [ destruct (Z.gtb_spec (PAGE_CACHE_SIZE + 8) PAGE_CACHE_SIZE)
        | destruct (Z.gtb_spec (n - 0 + 8) PAGE_CACHE_SIZE) ]; lia).
  change 4 with (zlen (cpu_to_le32 REISERFS_XATTR_MAGIC)).
  rewrite memcpy_to_extend.
  change XATTR_HEADER_SIZE with (zlen hdr).
  rewrite memcpy_to_extend.
  replace (0 * PAGE_CACHE_SIZE + 0 + chunk + zlen hdr)
    with (0 * PAGE_CACHE_SIZE + (8 + chunk))
    by (change (zlen hdr) with 8; lia).
  fold data1.
  change (zlen hdr) with 8.
  destruct (n =? 0); reflexivity.
Qed.

(** The loop stores the header and the value, whatever the resized
    file held. *)
Lemma xattr_set_loop_correct (fuel : nat) (data : list Z) :
  zlen data = n -> (Z.to_nat n + 1 < fuel)%nat ->
  xattr_set_loop fuel fp (Some payload) n xahash data 0 0
  = Some (0, target).
Proof.
  intros Hlen Hfuel.
  pose proof PAGE_CACHE_SIZE_min as Hpg.
  assert (Hn : 0 <= n) by apply zlen_nonneg.
  destruct fuel as [| fuel]; [lia |].
  rewrite xattr_set_loop_first by assumption.
  set (chunk := Z.min n (PAGE_CACHE_SIZE - 8)).
  set (src := memcpy_from payload 0 chunk).
  assert (Hsrc : zlen src = chunk)
    by (apply memcpy_from_length; fold n; lia).
  assert (Hhs : zlen (hdr ++ src) = 8 + chunk)
    by (rewrite zlen_app, Hsrc; reflexivity).
  destruct (page_store_chunk data (hdr ++ src) 0) as [Hlen1 Hpre1];
    [lia | lia | lia |].
  rewrite Hhs in Hlen1, Hpre1.
  set (data1 := page_store data 0
                  (memcpy_to (page_of data 0) 0 (hdr ++ src))
                  (Z.max (zlen data) (0 * PAGE_CACHE_SIZE + (8 + chunk))))
    in *.
  rewrite (zfirstn_nonpos (0 * PAGE_CACHE_SIZE)) in Hpre1 by lia.
  cbn [app] in Hpre1.
  replace (0 * PAGE_CACHE_SIZE + (8 + chunk)) with (8 + chunk)
    in Hlen1, Hpre1 by lia.
  assert (Hsrc' : src = zfirstn chunk payload)
    by (subst src; unfold memcpy_from; rewrite zskipn_nonpos by lia;
        reflexivity).
  destruct (Z.eqb_spec n 0) as [Hz | Hnz].
  - (* the empty value: the header alone *)
    do 2 f_equal.
    rewrite <- (zfirstn_all (8 + chunk) data1) by lia.
    rewrite Hpre1, Hsrc'.
    subst target; f_equal.
    rewrite zfirstn_all by (fold n; lia); reflexivity.
  - destruct (Z_le_gt_dec n (PAGE_CACHE_SIZE - 8)) as [Hsmall | Hbig].
    + (* the value fits the first page *)
      assert (chunk = n) by (subst chunk; lia).
      destruct fuel as [| fuel]; [lia |].
      simpl xattr_set_loop.
      replace (chunk <? n) with false by (symmetry; apply Z.ltb_ge; lia).
      replace (chunk =? 0) with false by (symmetry; apply Z.eqb_neq; lia).
      cbn [orb].
      do 2 f_equal.
      rewrite <- (zfirstn_all (8 + chunk) data1) by lia.
      rewrite Hpre1, Hsrc'.
      subst target; f_equal.
      rewrite zfirstn_all by (fold n; lia); reflexivity.
    + (* the first page is full *)
      assert (Hc : chunk = PAGE_CACHE_SIZE - 8) by (subst chunk; lia).
      replace (8 + chunk) with (1 * PAGE_CACHE_SIZE) in * by lia.
      replace chunk with (1 * PAGE_CACHE_SIZE - 8) at 1 by lia.
      apply xattr_set_loop_rest; try lia.
      rewrite Hpre1.
      replace (1 * PAGE_CACHE_SIZE) with (zlen hdr + chunk)
        by (change (zlen hdr) with 8; lia).
      subst target.
      rewrite zfirstn_app_r by (change (zlen hdr) with 8; lia).
      rewrite Hsrc'; do 2 f_equal; lia.
Qed.

End WriteLoop.

(** ** The read loop *)

Lemma usub_small (a b : Z) : 0 <= b <= a -> a < SIZE_MAX1 -> usub a b = a - b.
Proof. intros; unfold usub; apply Z.mod_small; lia. Qed.

Section ReadLoop.

Variable fp : dentry.
Variable data : list Z.
Hypothesis Hquiet : pages_quiet orc fp.

Let isize := zlen data.
Let payload := zskipn 8 data.

Hypothesis Hheader : 8 <= isize.
Hypothesis Hsize : isize < SIZE_MAX1.

Lemma zlen_payload : zlen payload = isize - 8.
Proof. subst payload; rewrite zlen_zskipn; fold isize; lia. Qed.

(** The iterations after the first: the cursor is at the start of page
    [k], the buffer holds the value up to there. *)
Lemma xattr_get_loop_rest (hash : Z) (buf : list Z) (fuel : nat) :
  forall k : Z,
    1 <= k -> k * PAGE_CACHE_SIZE <= isize ->
    (Z.to_nat (isize - k * PAGE_CACHE_SIZE) < fuel)%nat ->
    xattr_get_loop fuel fp data isize
      (memcpy_to buf 0 (zfirstn (k * PAGE_CACHE_SIZE - 8) payload))
      (k * PAGE_CACHE_SIZE) (k * PAGE_CACHE_SIZE - 8) hash
    = Some (Loop_done hash, memcpy_to buf 0 payload).
Proof.
  pose proof PAGE_CACHE_SIZE_min as Hpg.
  pose proof zlen_payload as Hpl.
  induction fuel as [| fuel IH]; intros k Hk Hle Hfuel; [lia |].
  cbn [xattr_get_loop].
  destruct (Z.ltb_spec (k * PAGE_CACHE_SIZE) isize) as [Hlt | Hge].
  - set (bp := k * PAGE_CACHE_SIZE - 8).
    set (chunk := if isize - k * PAGE_CACHE_SIZE >? PAGE_CACHE_SIZE
                  then PAGE_CACHE_SIZE else isize - k * PAGE_CACHE_SIZE).
    assert (Hchunk : 0 < chunk <= PAGE_CACHE_SIZE
                     /\ chunk <= isize - k * PAGE_CACHE_SIZE)
      by (subst chunk;
          destruct (Z.gtb_spec (isize - k * PAGE_CACHE_SIZE) PAGE_CACHE_SIZE);
          lia).
    rewrite page_index_aligned, reiserfs_get_page_quiet by assumption.
    replace (k * PAGE_CACHE_SIZE =? 0) with false
      by (symmetry; apply Z.eqb_neq; nia).
    rewrite page_of_read by (fold isize; lia).
    set (a := zfirstn bp payload).
    assert (Ha : zlen a = bp)
      by (subst a; rewrite zlen_zfirstn; subst bp; lia).
    rewrite <- Ha at 1.
    rewrite memcpy_to_extend.
    assert (Hnext : a ++ memcpy_from data (k * PAGE_CACHE_SIZE + 0) chunk
                    = zfirstn (bp + chunk) payload).
    { subst a; rewrite zfirstn_add by (subst bp; lia).
      f_equal; unfold memcpy_from; subst payload.
      rewrite zskipn_zskipn by (subst bp; lia).
      do 2 f_equal; subst bp; lia. }
    rewrite Hnext.
    destruct (Z.gtb_spec (isize - k * PAGE_CACHE_SIZE) PAGE_CACHE_SIZE)
      as [Hmore | Hlast].
    + assert (chunk = PAGE_CACHE_SIZE)
        by (subst chunk;
            destruct (Z.gtb_spec (isize - k * PAGE_CACHE_SIZE)
                                 PAGE_CACHE_SIZE); lia).
      replace (bp + chunk) with ((k + 1) * PAGE_CACHE_SIZE - 8)
        by (subst bp; lia).
      replace (k * PAGE_CACHE_SIZE + chunk) with ((k + 1) * PAGE_CACHE_SIZE)
        by lia.
      apply IH; lia.
    + assert (chunk = isize - k * PAGE_CACHE_SIZE)
        by (subst chunk;
            destruct (Z.gtb_spec (isize - k * PAGE_CACHE_SIZE)
                                 PAGE_CACHE_SIZE); lia).
      destruct fuel as [| fuel]; [lia |].
      cbn [xattr_get_loop].
      replace (k * PAGE_CACHE_SIZE + chunk <? isize) with false
        by (symmetry; apply Z.ltb_ge; lia).
      rewrite (zfirstn_all (bp + chunk)) by (subst bp; lia).
      reflexivity.
  - rewrite (zfirstn_all (k * PAGE_CACHE_SIZE - 8)) by lia.
    reflexivity.
Qed.

(** A header with the wrong magic ends the loop with [-EIO] in its
    first iteration. *)
Lemma xattr_get_loop_bad_magic (buf : list Z) (fuel : nat) :
  le32_to_cpu (memcpy_from data 0 4) <> REISERFS_XATTR_MAGIC ->
  xattr_get_loop (S fuel) fp data isize buf 0 0 0
  = Some (Goto_out_dput (neg EIO), buf).
Proof.
  intros Hmagic.
  pose proof PAGE_CACHE_SIZE_min as Hpg.
  cbn [xattr_get_loop].
  replace (0 <? isize) with true by (symmetry; apply Z.ltb_lt; lia).
  rewrite Z.shiftr_0_l, reiserfs_get_page_quiet by assumption.
  change (0 =? 0) with true; cbv iota.
  rewrite (page_of_read data 0 0 4) by (fold isize; lia).
  change (0 * PAGE_CACHE_SIZE + 0) with 0.
  destruct (Z.eqb_spec (le32_to_cpu (memcpy_from data 0 4))
                       REISERFS_XATTR_MAGIC); [contradiction |].
  reflexivity.
Qed.

(** With the right magic the loop copies the whole value into the
    buffer and yields the stored hash. *)
Lemma xattr_get_loop_correct (buf : list Z) (fuel : nat) :
  le32_to_cpu (memcpy_from data 0 4) = REISERFS_XATTR_MAGIC ->
  (Z.to_nat isize + 1 < fuel)%nat ->
  xattr_get_loop fuel fp data isize buf 0 0 0
  = Some (Loop_done (le32_to_cpu (memcpy_from data 4 4)),
          memcpy_to buf 0 payload).
Proof.
  intros Hmagic Hfuel.
  pose proof PAGE_CACHE_SIZE_min as Hpg.
  pose proof zlen_payload as Hpl.
  destruct fuel as [| fuel]; [lia |].
  cbn [xattr_get_loop].
  replace (0 <? isize) with true by (symmetry; apply Z.ltb_lt; lia).
  rewrite Z.shiftr_0_l, reiserfs_get_page_quiet by assumption.
  change (0 =? 0) with true; cbv iota.
  rewrite (page_of_read data 0 0 4) by (fold isize; lia).
  rewrite (page_of_read data 0 4 4) by (fold isize; lia).
  change (0 * PAGE_CACHE_SIZE + 0) with 0.
  change (0 * PAGE_CACHE_SIZE + 4) with 4.
  rewrite Hmagic, Z.eqb_refl.
  cbn [negb].
  rewrite Z.sub_0_r.
  set (chunk0 := if isize >? PAGE_CACHE_SIZE then PAGE_CACHE_SIZE else isize).
  assert (Hchunk0 : 8 <= chunk0 <= PAGE_CACHE_SIZE /\ chunk0 <= isize)
    by (subst chunk0; destruct (Z.gtb_spec isize PAGE_CACHE_SIZE); lia).
  unfold XATTR_HEADER_SIZE.
  rewrite usub_small by lia.
  rewrite (page_of_read data 0 8) by (fold isize; lia).
  change (0 * PAGE_CACHE_SIZE + 8) with 8.
  change (memcpy_from data 8 (chunk0 - 8))
    with (zfirstn (chunk0 - 8) payload).
  destruct (Z.gtb_spec isize PAGE_CACHE_SIZE) as [Hmore | Hlast].
  - assert (chunk0 = PAGE_CACHE_SIZE)
      by (subst chunk0; destruct (Z.gtb_spec isize PAGE_CACHE_SIZE); lia).
    replace (chunk0 - 8) with (1 * PAGE_CACHE_SIZE - 8) by lia.
    replace (8 + (1 * PAGE_CACHE_SIZE - 8)) with (1 * PAGE_CACHE_SIZE) by lia.
    replace (0 + (1 * PAGE_CACHE_SIZE - 8)) with (1 * PAGE_CACHE_SIZE - 8)
      by lia.
    apply xattr_get_loop_rest; lia.
  - assert (chunk0 = isize)
      by (subst chunk0; destruct (Z.gtb_spec isize PAGE_CACHE_SIZE); lia).
    destruct fuel as [| fuel]; [lia |].
    cbn [xattr_get_loop].
    replace (8 + (chunk0 - 8) <? isize) with false
      by (symmetry; apply Z.ltb_ge; lia).
    rewrite zfirstn_all by lia.
    reflexivity.
Qed.

End ReadLoop.

(** ** The header words and the checksum *)

Lemma le32_roundtrip (x : Z) :
  0 <= x < 2 ^ 32 -> le32_to_cpu (cpu_to_le32 x) = x.
Proof.
  intros Hx; unfold le32_to_cpu, cpu_to_le32; cbn [nth].
  change (2 ^ 32) with 4294967296 in Hx.
  Z.div_mod_to_equations; lia.
Qed.

Lemma add32c_range (a b : Z) :
  0 <= a < 2 ^ 32 -> 0 <= b < 2 ^ 32 -> 0 <= add32c a b < 2 ^ 32.
Proof.
  intros Ha Hb; unfold add32c; cbv zeta.
  change (2 ^ 32) with 4294967296 in *.
  Z.div_mod_to_equations; lia.
Qed.

(** The end-around carry keeps the sum modulo [2^16 - 1]. *)
Lemma add32c_mod (a b : Z) : add32c a b mod 65535 = (a + b) mod 65535.
Proof.
  unfold add32c; cbv zeta.
  change (2 ^ 32) with 4294967296.
  pose proof (Z.div_mod (a + b) 4294967296 ltac:(lia)) as Hdm.
  replace ((a + b) mod 4294967296 + (a + b) / 4294967296)
    with (a + b + (- (65537 * ((a + b) / 4294967296))) * 65535) by lia.
  apply Z.mod_add; lia.
Qed.

Lemma list_ind2 (P : list Z -> Prop) :
  P [] -> (forall b, P [b]) ->
  (forall lo hi rest, P rest -> P (lo :: hi :: rest)) ->
  forall l, P l.
Proof.
  intros Hnil Hone Hstep.
  assert (H : forall l, P l /\ forall b, P (b :: l)).
  { induction l as [| x l [IH1 IH2]]; split; auto. }
  intros l; apply H.
Qed.

Lemma csum_words_range (msg : list Z) :
  Forall is_byte msg ->
  forall sum, 0 <= sum < 2 ^ 32 -> 0 <= csum_words msg sum < 2 ^ 32.
Proof.
  induction msg as [| b | lo hi rest IH] using list_ind2;
    intros Hb sum Hsum; cbn [csum_words].
  - assumption.
  - inversion Hb as [| ? ? Hb0 _]; subst.
    apply add32c_range; [assumption | unfold is_byte in Hb0; lia].
  - inversion Hb as [| ? ? Hlo Hb']; subst.
    inversion Hb' as [| ? ? Hhi Hrest]; subst.
    apply IH; [assumption |].
    apply add32c_range; [assumption | unfold is_byte in *; lia].
Qed.

Lemma csum_words_mod (msg : list Z) :
  forall sum, csum_words msg sum mod 65535 = (sum + word_sum msg) mod 65535.
Proof.
  induction msg as [| b | lo hi rest IH] using list_ind2;
    intros sum; cbn [csum_words word_sum].
  - f_equal; lia.
  - apply add32c_mod.
  - rewrite IH.
    rewrite Z.add_mod, add32c_mod, <- Z.add_mod by lia.
    f_equal; lia.
Qed.

Lemma xattr_hash_range (msg : list Z) (len : Z) :
  Forall is_byte msg -> 0 <= xattr_hash msg len < 2 ^ 32.
Proof.
  intros Hb; unfold xattr_hash, csum_partial.
  apply csum_words_range; [| lia].
  unfold zfirstn.
  rewrite <- (firstn_skipn (Z.to_nat len) msg) in Hb.
  apply Forall_app in Hb; apply Hb.
Qed.

Lemma word_sum_set_byte (b : Z) (l : list Z) :
  forall k : nat, (k < List.length l)%nat ->
    word_sum (set_byte k b l)
    = word_sum l + (b - nth k l 0) * byte_weight k.
Proof.
  induction l as [| x | lo hi rest IH] using list_ind2; intros k Hk;
    cbn [List.length] in Hk.
  - lia.
  - destruct k as [| k]; [| lia].
    cbn; lia.
  - destruct k as [| [| k]].
    + cbn [set_byte nth word_sum byte_weight Nat.even]; lia.
    + cbn [set_byte nth word_sum byte_weight Nat.even]; lia.
    + cbn [set_byte nth word_sum].
      rewrite IH by lia.
      unfold byte_weight; cbn [Nat.even]; lia.
Qed.

(** One changed byte changes the checksum. *)
Lemma csum_words_set_byte (l : list Z) (k : nat) (b : Z) :
  Forall is_byte l -> is_byte b -> (k < List.length l)%nat ->
  b <> nth k l 0 ->
  csum_words (set_byte k b l) 0 <> csum_words l 0.
Proof.
  intros Hl Hb Hk Hneq Heq.
  assert (Hold : is_byte (nth k l 0)).
  { rewrite Forall_forall in Hl; apply Hl, nth_In; assumption. }
  apply (f_equal (fun x => x mod 65535)) in Heq.
  rewrite !csum_words_mod, word_sum_set_byte in Heq by assumption.
  unfold is_byte, byte_weight in *.
  destruct (Nat.even k); Z.div_mod_to_equations; lia.
Qed.

Lemma set_byte_length (k : nat) (b : Z) (l : list Z) :
  List.length (set_byte k b l) = List.length l.
Proof.
  revert k; induction l as [| x l IH]; intros [| k]; cbn; auto.
Qed.

Lemma set_byte_app_r (a l : list Z) (k : nat) (b : Z) :
  set_byte (List.length a + k) b (a ++ l) = a ++ set_byte k b l.
Proof.
  induction a as [| x a IH]; cbn [List.length Nat.add app set_byte].
  - reflexivity.
  - f_equal; assumption.
Qed.

(** ** The tree under its updates *)

Lemma cached_idem (sb : super_block) :
  xattr_root sb = Some D_xaroot -> cached sb = sb.
Proof. destruct sb; cbn; intros ->; reflexivity. Qed.

Lemma find_dir_update_dir (dir : string) (f : directory -> directory)
      (l : list (string * directory)) :
  find_dir dir (update_dir dir f l) = option_map f (find_dir dir l).
Proof.
  induction l as [| [n d] l IH]; cbn [update_dir find_dir]; [reflexivity |].
  destruct (String.eqb n dir) eqn:E; cbn [find_dir]; rewrite E;
    [reflexivity | assumption].
Qed.

Lemma find_dir_update_other (dir dir' : string)
      (f : directory -> directory) (l : list (string * directory)) :
  dir' <> dir ->
  find_dir dir' (update_dir dir f l) = find_dir dir' l.
Proof.
  intros Hneq.
  induction l as [| [n d] l IH]; cbn [update_dir find_dir]; [reflexivity |].
  destruct (String.eqb n dir) eqn:E; cbn [find_dir].
  - apply String.eqb_eq in E; subst n.
    destruct (String.eqb dir dir') eqn:E'; [| reflexivity].
    apply String.eqb_eq in E'; congruence.
  - rewrite IH; reflexivity.
Qed.

Lemma find_entry_update_entry (name : string) (f : inode -> inode)
      (l : list dirent) :
  find_entry name (update_entry name f l)
  = option_map (fun e => mk_dirent (de_name e) (deh_offset e)
                                   (de_visible e) (f (de_inode e)))
               (find_entry name l).
Proof.
  unfold find_entry.
  induction l as [| e l IH]; cbn [update_entry find]; [reflexivity |].
  destruct (entry_named name e) eqn:E; cbn [find].
  - unfold entry_named in *; cbn [de_visible de_name]; rewrite E.
    reflexivity.
  - rewrite E; assumption.
Qed.

Lemma xa_dir_of_update_dir (sb : super_block) (dir : string)
      (f : directory -> directory) :
  xa_dir_of (sb_update_dir sb dir f) dir = option_map f (xa_dir_of sb dir).
Proof.
  unfold xa_dir_of, sb_update_dir, xa_root_of, sb_with_xa_root.
  destruct (priv_root sb) as [p |] eqn:Ep; [| rewrite Ep; reflexivity].
  destruct (pr_xattrs p) as [r |] eqn:Er.
  - cbn; apply find_dir_update_dir.
  - rewrite Ep, Er; reflexivity.
Qed.

Lemma d_inode_update_inode (sb : super_block) (dir name : string)
      (f : inode -> inode) :
  d_inode (update_inode sb (D_xafile dir name) f) (D_xafile dir name)
  = option_map f (d_inode sb (D_xafile dir name)).
Proof.
  cbn [update_inode d_inode entries_of].
  unfold sb_update_entries; rewrite xa_dir_of_update_dir.
  destruct (xa_dir_of sb dir) as [x |]; cbn [option_map d_entries];
    [| reflexivity].
  rewrite find_entry_update_entry.
  destruct (find_entry name (d_entries x)); reflexivity.
Qed.

Lemma xattr_root_update_dir (sb : super_block) (dir : string)
      (f : directory -> directory) :
  xattr_root (sb_update_dir sb dir f) = xattr_root sb.
Proof.
  unfold sb_update_dir, sb_with_xa_root, xa_root_of.
  destruct (priv_root sb) as [p |]; [| reflexivity].
  destruct (pr_xattrs p); reflexivity.
Qed.

Lemma xa_root_of_update_dir (sb : super_block) (dir : string)
      (f : directory -> directory) :
  xa_root_of (sb_update_dir sb dir f) = None <-> xa_root_of sb = None.
Proof.
  unfold sb_update_dir, sb_with_xa_root, xa_root_of.
  destruct (priv_root sb) as [p |] eqn:Ep; [| rewrite Ep; tauto].
  destruct (pr_xattrs p) eqn:Er; cbn.
  - split; discriminate.
  - rewrite Ep, Er; tauto.
Qed.

Lemma s_events_update_dir (sb : super_block) (dir : string)
      (f : directory -> directory) :
  s_events (sb_update_dir sb dir f) = s_events sb.
Proof.
  unfold sb_update_dir, sb_with_xa_root, xa_root_of.
  destruct (priv_root sb) as [p |]; [| reflexivity].
  destruct (pr_xattrs p); reflexivity.
Qed.

Lemma s_next_objectid_update_dir (sb : super_block) (dir : string)
      (f : directory -> directory) :
  s_next_objectid (sb_update_dir sb dir f) = s_next_objectid sb.
Proof.
  unfold sb_update_dir, sb_with_xa_root, xa_root_of.
  destruct (priv_root sb) as [p |]; [| reflexivity].
  destruct (pr_xattrs p); reflexivity.
Qed.

Lemma sb_ok_update_dir (sb : super_block) (dir : string)
      (f : directory -> directory) :
  sb_ok sb -> sb_ok (sb_update_dir sb dir f).
Proof.
  unfold sb_ok; rewrite xattr_root_update_dir.
  destruct (xattr_root sb); [| trivial].
  intros [Hd Hr]; split; [assumption |].
  rewrite xa_root_of_update_dir; assumption.
Qed.

Lemma xa_root_of_with_xa_root (sb : super_block) (r : option xa_root) :
  priv_root sb <> None -> xa_root_of (sb_with_xa_root sb r) = r.
Proof.
  unfold xa_root_of, sb_with_xa_root.
  destruct (priv_root sb); [reflexivity | congruence].
Qed.

Lemma xattr_root_with_xa_root (sb : super_block) (r : option xa_root) :
  xattr_root (sb_with_xa_root sb r) = xattr_root sb.
Proof.
  unfold sb_with_xa_root; destruct (priv_root sb); reflexivity.
Qed.

Lemma xa_dir_of_with_xa_root (sb : super_block) (ri : inode)
      (l : list (string * directory)) (dir : string) :
  priv_root sb <> None ->
  xa_dir_of (sb_with_xa_root sb (Some (mk_xa_root ri l))) dir
  = find_dir dir l.
Proof.
  intros Hp; unfold xa_dir_of.
  rewrite xa_root_of_with_xa_root by assumption; reflexivity.
Qed.

Lemma xa_dir_of_cached (sb : super_block) (dir : string) :
  xa_dir_of (cached sb) dir = xa_dir_of sb dir.
Proof. reflexivity. Qed.

Lemma d_inode_cached (sb : super_block) (d : dentry) :
  d_inode (cached sb) d = d_inode sb d.
Proof. destruct d; reflexivity. Qed.

Lemma sb_ok_cached (sb : super_block) :
  xa_root_of sb <> None -> sb_ok (cached sb).
Proof. intros H; split; [reflexivity | exact H]. Qed.

(** ** The collaborators when they do not fail *)

Section Quiet.

Hypothesis Hq : vfs_quiet orc.

Lemma lookup_one_len_quiet (name : string) (base : dentry) :
  lookup_one_len name base
  = PTR match base with
        | D_privroot =>
            if String.eqb name XAROOT_NAME then D_xaroot else D_none
        | D_xaroot => D_xadir name
        | D_xadir dir => D_xafile dir name
        | _ => D_none
        end.
Proof.
  unfold lookup_one_len; rewrite (q_lookup _ Hq).
  destruct base; try reflexivity.
  destruct (String.eqb name XAROOT_NAME); reflexivity.
Qed.

Lemma dentry_open_quiet (d : dentry) : dentry_open d = PTR d.
Proof. unfold dentry_open; rewrite (q_dentry_open _ Hq); reflexivity. Qed.

Lemma notify_change_quiet (sb : super_block) (d : dentry) (a : iattr) :
  notify_change sb d a
  = (0, update_inode
          (sb_with_event sb
             (Ev_notify_change d (k_objectid (the_inode sb d)) a))
          d (inode_setattr a)).
Proof. unfold notify_change; rewrite (q_notify_change _ Hq); reflexivity. Qed.

(** *** The root of the attribute tree *)

Lemma get_xa_root_found (sb : super_block) :
  sb_ok sb -> xa_root_of sb <> None ->
  get_xa_root sb = (PTR (Some D_xaroot), cached sb).
Proof.
  intros Hok Hr; unfold get_xa_root.
  destruct (xattr_root sb) as [d |] eqn:Ec.
  - unfold sb_ok in Hok; rewrite Ec in Hok; destruct Hok as [-> _].
    rewrite cached_idem by assumption; reflexivity.
  - unfold __get_xa_root.
    destruct (priv_root sb) as [p |] eqn:Ep.
    + rewrite lookup_one_len_quiet, String.eqb_refl.
      unfold positive; cbn [d_inode].
      destruct (xa_root_of sb); [reflexivity | congruence].
    + unfold xa_root_of in Hr; rewrite Ep in Hr; congruence.
Qed.

Lemma get_xa_root_missing (sb : super_block) :
  sb_ok sb -> xa_root_of sb = None -> get_xa_root sb = (PTR None, sb).
Proof.
  intros Hok Hr; unfold get_xa_root.
  destruct (xattr_root sb) as [d |] eqn:Ec.
  - unfold sb_ok in Hok; rewrite Ec in Hok; destruct Hok as [_ Hne].
    congruence.
  - unfold __get_xa_root.
    destruct (priv_root sb) as [p |] eqn:Ep; [| reflexivity].
    rewrite lookup_one_len_quiet, String.eqb_refl.
    unfold positive; cbn [d_inode]; rewrite Hr; reflexivity.
Qed.

(** *** The directory of an object *)

Lemma positive_xadir (sb : super_block) (dir : string) :
  positive sb (D_xadir dir)
  = match xa_dir_of sb dir with Some _ => true | None => false end.
Proof.
  unfold positive; cbn [d_inode].
  destruct (xa_dir_of sb dir); reflexivity.
Qed.

Lemma xa_dir_of_root (sb : super_block) (dir : string) (x : directory) :
  xa_dir_of sb dir = Some x -> xa_root_of sb <> None.
Proof. unfold xa_dir_of; destruct (xa_root_of sb); congruence. Qed.

(** An existing directory is opened whatever the flags. *)
Lemma open_xa_dir_found (sb : super_block) (i : inode) (flags : Z)
      (x : directory) :
  sb_ok sb -> xa_dir_of sb (xa_dir_name i) = Some x ->
  open_xa_dir sb i flags = (PTR (D_xadir (xa_dir_name i)), cached sb).
Proof.
  intros Hok Hx; unfold open_xa_dir.
  rewrite get_xa_root_found
    by (try assumption; eapply xa_dir_of_root; eassumption).
  cbv beta iota zeta.
  rewrite lookup_one_len_quiet, positive_xadir.
  rewrite xa_dir_of_cached.
  rewrite Hx; reflexivity.
Qed.

(** A missing directory is [-ENODATA] when the flags forbid its
    creation; the tree is left as it is. *)
Lemma open_xa_dir_missing (sb : super_block) (i : inode) (flags : Z) :
  sb_ok sb -> may_create flags = false ->
  xa_dir_of sb (xa_dir_name i) = None ->
  open_xa_dir sb i flags
  = (ERR_PTR (neg ENODATA),
     match xa_root_of sb with Some _ => cached sb | None => sb end).
Proof.
  intros Hok Hfl Hx; unfold open_xa_dir.
  destruct (xa_root_of sb) as [r |] eqn:Er.
  - rewrite get_xa_root_found by (try assumption; congruence).
    cbv beta iota zeta.
    rewrite lookup_one_len_quiet, positive_xadir.
    rewrite xa_dir_of_cached.
    rewrite Hx, Hfl; cbn [negb Z.eqb].
    rewrite positive_xadir.
    rewrite xa_dir_of_cached.
    rewrite Hx; reflexivity.
  - rewrite get_xa_root_missing, Hfl by assumption; reflexivity.
Qed.

Lemma mkdir_quiet (sb : super_block) (d : dentry) :
  mkdir sb d
  = if positive sb d then (neg EEXIST, sb)
    else
      let i := new_inode sb true in
      let sb' := sb_with_event (sb_alloc_objectid sb)
                               (Ev_mkdir d (k_objectid i)) in
      match d with
      | D_xaroot =>
          match priv_root sb with
          | Some _ => (0, sb_with_xa_root sb' (Some (mk_xa_root i [])))
          | None => (neg ENOENT, sb)
          end
      | D_xadir dir =>
          match xa_root_of sb with
          | Some r =>
              let x := mk_directory i (dot_entries i (xr_inode r)) in
              (0, sb_with_xa_root sb'
                    (Some (mk_xa_root (xr_inode r) ((dir, x) :: xr_dirs r))))
          | None => (neg ENOENT, sb)
          end
      | _ => (neg ENOENT, sb)
      end.
Proof. unfold mkdir; rewrite (q_mkdir _ Hq); reflexivity. Qed.

(** A missing directory is made, with its parent if need be, when the
    flags allow it; it starts with its two dot entries. *)
Lemma open_xa_dir_create (sb : super_block) (i : inode) (flags : Z) :
  sb_ok sb -> may_create flags = true -> priv_root sb <> None ->
  xa_dir_of sb (xa_dir_name i) = None ->
  exists sb1 x self parent,
    open_xa_dir sb i flags = (PTR (D_xadir (xa_dir_name i)), sb1)
    /\ xattr_root sb1 = Some D_xaroot
    /\ xa_dir_of sb1 (xa_dir_name i) = Some x
    /\ d_entries x = dot_entries self parent.
Proof.
  intros Hok Hfl Hp Hx.
  unfold open_xa_dir.
  destruct (xa_root_of sb) as [r |] eqn:Er.
  - rewrite get_xa_root_found by (try assumption; congruence).
    cbv beta iota zeta.
    rewrite lookup_one_len_quiet, positive_xadir, xa_dir_of_cached, Hx, Hfl.
    cbn [negb].
    rewrite mkdir_quiet, positive_xadir, xa_dir_of_cached, Hx.
    cbv zeta.
    change (xa_root_of (cached sb)) with (xa_root_of sb); rewrite Er.
    cbn [Z.eqb negb].
    rewrite positive_xadir, xa_dir_of_with_xa_root by exact Hp.
    cbn [find_dir]; rewrite String.eqb_refl; cbn [negb].
    eexists _, _, _, _; split; [reflexivity |].
    split; [rewrite xattr_root_with_xa_root; reflexivity |].
    split.
    + rewrite xa_dir_of_with_xa_root by exact Hp.
      cbn [find_dir]; rewrite String.eqb_refl; reflexivity.
    + reflexivity.
  - rewrite get_xa_root_missing, Hfl by assumption.
    unfold create_xa_root.
    destruct (priv_root sb) as [p |] eqn:Ep; [| congruence].
    rewrite lookup_one_len_quiet, String.eqb_refl.
    unfold positive at 1; cbn [d_inode]; rewrite Er; cbn [option_map negb].
    rewrite mkdir_quiet.
    unfold positive at 1; cbn [d_inode]; rewrite Er, Ep.
    cbn [option_map negb Z.eqb].
    cbv beta iota zeta.
    set (sbA := sb_with_xattr_root _ _).
    assert (HpA : priv_root sbA <> None)
      by (subst sbA; unfold sb_with_xa_root; cbn [priv_root sb_with_event
            sb_alloc_objectid]; rewrite Ep; cbn; congruence).
    assert (HrA : xa_root_of sbA
                  = Some (mk_xa_root (new_inode sb true) []))
      by (subst sbA;
          change (xa_root_of (sb_with_xattr_root ?s _)) with (xa_root_of s);
          apply xa_root_of_with_xa_root; cbn; congruence).
    rewrite lookup_one_len_quiet, positive_xadir.
    unfold xa_dir_of at 1; rewrite HrA; cbn [find_dir xr_dirs negb].
    rewrite mkdir_quiet, positive_xadir.
    unfold xa_dir_of at 1; rewrite HrA; cbn [find_dir xr_dirs negb].
    cbv zeta.
    cbn [Z.eqb negb xr_inode xr_dirs].
    rewrite positive_xadir, xa_dir_of_with_xa_root by exact HpA.
    cbn [find_dir]; rewrite String.eqb_refl; cbn [negb].
    eexists _, _, _, _; split; [reflexivity |].
    split; [rewrite xattr_root_with_xa_root; reflexivity |].
    split.
    + rewrite xa_dir_of_with_xa_root by exact HpA.
      cbn [find_dir]; rewrite String.eqb_refl; reflexivity.
    + reflexivity.
Qed.

(** *** The attribute file *)

Lemma positive_xafile (sb : super_block) (dir name : string)
      (x : directory) :
  xa_dir_of sb dir = Some x ->
  positive sb (D_xafile dir name)
  = match find_entry name (d_entries x) with
    | Some _ => true
    | None => false
    end.
Proof.
  intros Hx; unfold positive; cbn [d_inode entries_of]; rewrite Hx.
  destruct (find_entry name (d_entries x)); reflexivity.
Qed.

(** Once the directory is open, the flags and the presence of the
    entry decide. *)
Lemma open_xa_file_via (sb sb1 : super_block) (i : inode) (name : string)
      (flags : Z) (x : directory) :
  open_xa_dir sb i flags = (PTR (D_xadir (xa_dir_name i)), sb1) ->
  xa_dir_of sb1 (xa_dir_name i) = Some x ->
  open_xa_file sb i name flags
  = match find_entry name (d_entries x) with
    | Some _ =>
        if has_flag flags XATTR_CREATE then (ERR_PTR (neg EEXIST), sb1)
        else (PTR (D_xafile (xa_dir_name i) name), sb1)
    | None =>
        if has_flag flags XATTR_REPLACE || has_flag flags FL_READONLY
        then (ERR_PTR (neg ENODATA), sb1)
        else
          let '(err, sb2) := create sb1 (D_xafile (xa_dir_name i) name) in
          if negb (err =? 0) then (ERR_PTR err, sb2)
          else if negb (positive sb2 (D_xafile (xa_dir_name i) name))
               then (ERR_PTR (neg ENODATA), sb2)
               else (PTR (D_xafile (xa_dir_name i) name), sb2)
    end.
Proof.
  intros Hdir Hx.
  unfold open_xa_file, get_xa_file_dentry; rewrite Hdir.
  rewrite positive_xadir, Hx; cbn [negb].
  rewrite lookup_one_len_quiet.
  rewrite (positive_xafile sb1 _ name x Hx).
  destruct (find_entry name (d_entries x)) as [e |] eqn:E.
  - destruct (has_flag flags XATTR_CREATE); [reflexivity |].
    rewrite (positive_xafile sb1 _ name x Hx), E; cbn [negb].
    rewrite dentry_open_quiet; reflexivity.
  - destruct (has_flag flags XATTR_REPLACE || has_flag flags FL_READONLY).
    { rewrite (positive_xafile sb1 _ name x Hx), E; reflexivity. }
    destruct (create sb1 (D_xafile (xa_dir_name i) name)) as [err sb2].
    destruct (negb (err =? 0)); [reflexivity |].
    destruct (positive sb2 (D_xafile (xa_dir_name i) name)); cbn [negb];
      rewrite ?dentry_open_quiet; reflexivity.
Qed.

Lemma create_missing (sb : super_block) (dir name : string)
      (x : directory) :
  xa_dir_of sb dir = Some x -> find_entry name (d_entries x) = None ->
  exists sb2,
    create sb (D_xafile dir name) = (0, sb2)
    /\ entries_of sb2 (D_xadir dir)
       = mk_dirent name (fresh_offset (d_entries x)) true
                   (new_inode sb false) :: d_entries x
    /\ xattr_root sb2 = xattr_root sb
    /\ xa_root_of sb2 <> None
    /\ s_events sb2
       = Ev_create (D_xafile dir name) (s_next_objectid sb) :: s_events sb
    /\ s_next_objectid sb2 = s_next_objectid sb + 1.
Proof.
  intros Hx He.
  unfold create; rewrite (q_create _ Hq).
  rewrite (positive_xafile sb dir name x Hx), He, Hx.
  eexists; split; [reflexivity |].
  set (sbE := sb_with_event _ _).
  assert (HxE : xa_dir_of sbE dir = Some x) by exact Hx.
  unfold sb_update_entries.
  repeat split.
  - cbn [entries_of]; rewrite xa_dir_of_update_dir, HxE; reflexivity.
  - rewrite xattr_root_update_dir; reflexivity.
  - rewrite xa_root_of_update_dir.
    apply (xa_dir_of_root sbE dir x HxE).
  - rewrite s_events_update_dir; reflexivity.
  - rewrite s_next_objectid_update_dir; reflexivity.
Qed.

Lemma find_entry_head (name : string) (off : Z) (i : inode)
      (l : list dirent) :
  find_entry name (mk_dirent name off true i :: l)
  = Some (mk_dirent name off true i).
Proof.
  unfold find_entry, entry_named; cbn [find de_visible de_name andb].
  rewrite String.eqb_refl; reflexivity.
Qed.

Lemma d_inode_xafile (sb : super_block) (dir name : string) :
  d_inode sb (D_xafile dir name)
  = option_map de_inode (find_entry name (entries_of sb (D_xadir dir))).
Proof. reflexivity. Qed.

Lemma d_inode_xafile_inv (sb : super_block) (dir name : string)
      (f : inode) :
  d_inode sb (D_xafile dir name) = Some f ->
  exists x e,
    xa_dir_of sb dir = Some x
    /\ find_entry name (d_entries x) = Some e /\ de_inode e = f.
Proof.
  cbn [d_inode entries_of].
  destruct (xa_dir_of sb dir) as [x |]; [| discriminate].
  destruct (find_entry name (d_entries x)) as [e |] eqn:E; [| discriminate].
  cbn; intros [= <-]; eauto.
Qed.

Lemma d_inode_xafile_none (sb : super_block) (dir name : string)
      (x : directory) :
  d_inode sb (D_xafile dir name) = None -> xa_dir_of sb dir = Some x ->
  find_entry name (d_entries x) = None.
Proof.
  cbn [d_inode entries_of]; intros H Hx; rewrite Hx in H.
  destruct (find_entry name (d_entries x)); [discriminate | reflexivity].
Qed.

(** An attribute file that exists is opened, unless [XATTR_CREATE]
    asks for a new one; nothing is changed. *)
Lemma open_xa_file_found (sb : super_block) (i : inode) (name : string)
      (flags : Z) (f : inode) :
  sb_ok sb -> d_inode sb (D_xafile (xa_dir_name i) name) = Some f ->
  open_xa_file sb i name flags
  = if has_flag flags XATTR_CREATE
    then (ERR_PTR (neg EEXIST), cached sb)
    else (PTR (D_xafile (xa_dir_name i) name), cached sb).
Proof.
  intros Hok Hf.
  destruct (d_inode_xafile_inv _ _ _ _ Hf) as (x & e & Hx & He & _).
  rewrite (open_xa_file_via sb (cached sb) i name flags x).
  - rewrite He; reflexivity.
  - eapply open_xa_dir_found; eassumption.
  - exact Hx.
Qed.

(** An attribute file that does not exist is [-ENODATA] when the flags
    forbid its creation; nothing is changed. *)
Lemma open_xa_file_absent (sb : super_block) (i : inode) (name : string)
      (flags : Z) :
  sb_ok sb -> d_inode sb (D_xafile (xa_dir_name i) name) = None ->
  may_create flags = false ->
  has_flag flags XATTR_REPLACE || has_flag flags FL_READONLY = true ->
  exists sb',
    open_xa_file sb i name flags = (ERR_PTR (neg ENODATA), sb')
    /\ (sb' = sb \/ sb' = cached sb) /\ sb_ok sb'.
Proof.
  intros Hok Hf Hmc Hfl.
  destruct (xa_dir_of sb (xa_dir_name i)) as [x |] eqn:Hx.
  - exists (cached sb); split; [| split; [right; reflexivity |]].
    + rewrite (open_xa_file_via sb (cached sb) i name flags x).
      * rewrite (d_inode_xafile_none _ _ _ _ Hf Hx), Hfl; reflexivity.
      * eapply open_xa_dir_found; eassumption.
      * exact Hx.
    + apply sb_ok_cached; eapply xa_dir_of_root; eassumption.
  - unfold open_xa_file, get_xa_file_dentry.
    rewrite open_xa_dir_missing by assumption.
    destruct (xa_root_of sb) eqn:Er.
    + exists (cached sb); split; [reflexivity |].
      split; [right; reflexivity |].
      apply sb_ok_cached; congruence.
    + exists sb; auto.
Qed.

(** ** Writing and reading through an open attribute file *)

Lemma zlen_resize (n : Z) (data : list Z) : 0 <= n -> zlen (resize n data) = n.
Proof.
  intros Hn; unfold resize.
  pose proof (zlen_nonneg data).
  rewrite zlen_zfirstn, zlen_app, zlen_zeros; lia.
Qed.

Lemma d_inode_with_event (sb : super_block) (e : event) (d : dentry) :
  d_inode (sb_with_event sb e) d = d_inode sb d.
Proof. destruct d; reflexivity. Qed.

Lemma xattr_set_write (sb sb1 : super_block) (i : inode) (name : string)
      (flags : Z) (payload : list Z) (f1 : inode) (fuel : nat)
      (xahash : Z) :
  let fp := D_xafile (xa_dir_name i) name in
  pages_quiet orc fp ->
  open_xa_file sb i name flags = (PTR fp, sb1) ->
  d_inode sb1 fp = Some f1 -> i_nlink f1 <= 1 ->
  (Z.to_nat (zlen payload) + 1 < fuel)%nat ->
  xattr_set_open_file fuel sb i name (Some payload) (zlen payload) flags
                      xahash
  = Some (0, written sb1 fp f1 (zlen payload)
                     (cpu_to_le32 REISERFS_XATTR_MAGIC
                      ++ cpu_to_le32 xahash ++ payload)).
Proof.
  cbv zeta; intros Hpq Hopen Hd Hnlink Hfuel.
  destruct fuel as [| fuel]; [lia |].
  assert (Hti : the_inode sb1 (D_xafile (xa_dir_name i) name) = f1)
    by (unfold the_inode; rewrite Hd; reflexivity).
  cbn [xattr_set_open_file]; rewrite Hopen, Hti.
  destruct (Z.gtb_spec (i_nlink f1) 1) as [Hgt | _]; [lia |].
  rewrite notify_change_quiet, Hti.
  cbn [Z.eqb negb].
  unfold the_inode at 1.
  rewrite d_inode_update_inode, d_inode_with_event, Hd.
  cbn [option_map].
  replace (i_data (inode_setattr (mk_iattr (Z.lor ATTR_SIZE ATTR_CTIME) 0 0
                                           (zlen payload) 0) f1))
    with (resize (zlen payload) (i_data f1)) by reflexivity.
  rewrite xattr_set_loop_correct;
    [ rewrite <- app_assoc; reflexivity
    | assumption
    | apply zlen_resize, zlen_nonneg
    | assumption ].
Qed.

Lemma to_int_small (x : Z) : 0 <= x < 2 ^ 31 -> to_int x = x.
Proof.
  intros Hx; unfold to_int, SIZE_MAX1; cbv zeta.
  change (2 ^ 31) with 2147483648 in *; change (2 ^ 32) with 4294967296.
  rewrite Z.mod_small by lia.
  destruct (Z.ltb_spec x 2147483648); lia.
Qed.

Lemma xattr_hash_written (payload rest : list Z) :
  xattr_hash (payload ++ rest) (zlen payload)
  = xattr_hash payload (zlen payload).
Proof.
  unfold xattr_hash, csum_partial.
  rewrite zfirstn_app_l, !zfirstn_all by lia; reflexivity.
Qed.

(** What [reiserfs_xattr_get] returns for an attribute file that
    exists, has its header and fits the buffer. *)
Lemma reiserfs_xattr_get_eq (sb : super_block) (i : inode) (name : string)
      (f : inode) (buf : list Z) (buffer_size : Z) (fuel : nat) :
  let fp := D_xafile (xa_dir_name i) name in
  let data := i_data f in
  let payload := zskipn 8 data in
  pages_quiet orc fp -> sb_ok sb ->
  i_sd_version i = STAT_DATA_V2 ->
  d_inode sb fp = Some f ->
  8 <= zlen data < 2 ^ 31 ->
  zlen data - 8 <= buffer_size ->
  (Z.to_nat (zlen data) + 1 < fuel)%nat ->
  reiserfs_xattr_get fuel sb i name (Some buf) buffer_size
  = Some
      (if negb (le32_to_cpu (memcpy_from data 0 4) =? REISERFS_XATTR_MAGIC)
       then (neg EIO, Some buf, cached sb)
       else if negb (xattr_hash payload (zlen payload)
                     =? le32_to_cpu (memcpy_from data 4 4))
            then (neg EIO, Some (memcpy_to buf 0 payload), cached sb)
            else (zlen payload, Some (memcpy_to buf 0 payload), cached sb)).
Proof.
  cbv zeta; intros Hpq Hok Hv Hd Hlen Hsize Hfuel.
  assert (Hpl : zlen (zskipn 8 (i_data f)) = zlen (i_data f) - 8)
    by (rewrite zlen_zskipn; lia).
  assert (H32 : zlen (i_data f) < SIZE_MAX1)
    by (unfold SIZE_MAX1; change (2 ^ 31) with 2147483648 in Hlen;
        change (2 ^ 32) with 4294967296; lia).
  unfold reiserfs_xattr_get; rewrite Hv.
  rewrite (open_xa_file_found sb i name FL_READONLY f Hok Hd).
  change (has_flag FL_READONLY XATTR_CREATE) with false; cbv iota.
  assert (Hti : the_inode (cached sb) (D_xafile (xa_dir_name i) name) = f)
    by (unfold the_inode; rewrite d_inode_cached, Hd; reflexivity).
  rewrite Hti.
  unfold i_size; rewrite (Z.mod_small (zlen (i_data f))) by lia.
  unfold XATTR_HEADER_SIZE; rewrite usub_small by lia.
  destruct (Z.ltb_spec buffer_size (zlen (i_data f) - 8)) as [Hlt | _];
    [lia |].
  rewrite to_int_small by lia.
  destruct (Z.eqb_spec (le32_to_cpu (memcpy_from (i_data f) 0 4))
                       REISERFS_XATTR_MAGIC) as [Hmagic | Hmagic];
    cbn [negb].
  - rewrite xattr_get_loop_correct by (try assumption; lia).
    rewrite memcpy_to_0, <- Hpl, xattr_hash_written, <- memcpy_to_0.
    destruct (xattr_hash (zskipn 8 (i_data f)) (zlen (zskipn 8 (i_data f)))
              =? le32_to_cpu (memcpy_from (i_data f) 4 4)); reflexivity.
  - destruct fuel as [| fuel]; [lia |].
    rewrite xattr_get_loop_bad_magic by (try assumption; lia).
    reflexivity.
Qed.

Lemma find_entry_dot_entries (name : string) (self parent : inode) :
  name <> "."%string -> name <> ".."%string ->
  find_entry name (dot_entries self parent) = None.
Proof.
  intros H1 H2; unfold find_entry, dot_entries, entry_named.
  cbn [find de_visible de_name andb].
  destruct (String.eqb_spec ".." name) as [E | _]; [congruence |].
  destruct (String.eqb_spec "." name) as [E | _]; [congruence |].
  reflexivity.
Qed.

Lemma sb_ok_of_cache (sb : super_block) :
  xattr_root sb = Some D_xaroot -> xa_root_of sb <> None -> sb_ok sb.
Proof. intros Hc Hr; unfold sb_ok; rewrite Hc; split; [reflexivity | exact Hr]. Qed.

(** With no flags the attribute file is opened, and made with its
    directories when it does not exist.  A file that existed keeps its
    inode, a new one has a single link. *)
Lemma open_xa_file_rw (sb : super_block) (i : inode) (name : string) :
  let fp := D_xafile (xa_dir_name i) name in
  sb_ok sb -> priv_root sb <> None ->
  name <> "."%string -> name <> ".."%string ->
  exists sb1 f1,
    open_xa_file sb i name 0 = (PTR fp, sb1)
    /\ d_inode sb1 fp = Some f1
    /\ sb_ok sb1
    /\ match d_inode sb fp with
       | Some f => f1 = f
       | None => i_nlink f1 = 1
       end.
Proof.
  cbv zeta; intros Hok Hp Hdot Hdotdot.
  destruct (d_inode sb (D_xafile (xa_dir_name i) name)) as [f |] eqn:Hf.
  - exists (cached sb), f.
    rewrite (open_xa_file_found sb i name 0 f Hok Hf).
    destruct (d_inode_xafile_inv _ _ _ _ Hf) as (x & _ & Hx & _).
    change (has_flag 0 XATTR_CREATE) with false; cbv iota.
    split; [reflexivity |].
    split; [rewrite d_inode_cached; exact Hf |].
    split; [| reflexivity].
    apply sb_ok_cached; eapply xa_dir_of_root; eassumption.
  - assert (Hopen : exists sb0 x,
               open_xa_dir sb i 0 = (PTR (D_xadir (xa_dir_name i)), sb0)
               /\ xattr_root sb0 = Some D_xaroot
               /\ xa_dir_of sb0 (xa_dir_name i) = Some x
               /\ find_entry name (d_entries x) = None).
    { destruct (xa_dir_of sb (xa_dir_name i)) as [x |] eqn:Hx.
      - exists (cached sb), x; repeat split.
        + eapply open_xa_dir_found; eassumption.
        + exact Hx.
        + eapply d_inode_xafile_none; eassumption.
      - destruct (open_xa_dir_create sb i 0 Hok eq_refl Hp Hx)
          as (sb0 & x & self & parent & H1 & H2 & H3 & H4).
        exists sb0, x; repeat split; try assumption.
        rewrite H4; apply find_entry_dot_entries; assumption. }
    destruct Hopen as (sb0 & x & Hdir & Hc & Hx & He).
    destruct (create_missing sb0 _ name x Hx He)
      as (sb2 & Hcr & Hent & Hc2 & Hr2 & _).
    exists sb2, (new_inode sb0 false).
    rewrite (open_xa_file_via sb sb0 i name 0 x Hdir Hx), He.
    change (has_flag 0 XATTR_REPLACE || has_flag 0 FL_READONLY) with false.
    cbv iota; rewrite Hcr; cbn [Z.eqb negb].
    assert (Hd2 : d_inode sb2 (D_xafile (xa_dir_name i) name)
                  = Some (new_inode sb0 false))
      by (rewrite d_inode_xafile, Hent, find_entry_head; reflexivity).
    unfold positive; rewrite Hd2; cbn [negb].
    split; [reflexivity |].
    split; [reflexivity |].
    split; [| reflexivity].
    apply sb_ok_of_cache; [congruence | exact Hr2].
Qed.

Lemma sb_ok_written (sb1 : super_block) (dir name : string) (f1 : inode)
      (n : Z) (content : list Z) :
  sb_ok sb1 -> sb_ok (written sb1 (D_xafile dir name) f1 n content).
Proof.
  intros Hok; unfold written; cbn [update_inode].
  unfold sb_update_entries.
  do 2 apply sb_ok_update_dir.
  exact Hok.
Qed.

Lemma d_inode_written (sb1 : super_block) (dir name : string) (f1 : inode)
      (n : Z) (content : list Z) :
  d_inode sb1 (D_xafile dir name) = Some f1 ->
  d_inode (written sb1 (D_xafile dir name) f1 n content) (D_xafile dir name)
  = Some (inode_with_data (inode_setattr (size_attrs n) f1) content).
Proof.
  intros Hd; unfold written.
  rewrite !d_inode_update_inode, d_inode_with_event, Hd; reflexivity.
Qed.

Lemma xattr_file_header (payload : list Z) :
  Forall is_byte payload ->
  le32_to_cpu (memcpy_from (xattr_file payload) 0 4) = REISERFS_XATTR_MAGIC
  /\ le32_to_cpu (memcpy_from (xattr_file payload) 4 4)
     = xattr_hash payload (zlen payload)
  /\ zskipn 8 (xattr_file payload) = payload
  /\ zlen (xattr_file payload) = 8 + zlen payload.
Proof.
  intros Hb; unfold xattr_file.
  split; [reflexivity |].
  split.
  { change (memcpy_from _ 4 4)
      with (cpu_to_le32 (xattr_hash payload (zlen payload))).
    apply le32_roundtrip, xattr_hash_range; assumption. }
  split; [reflexivity |].
  rewrite !zlen_app.
  change (zlen (cpu_to_le32 REISERFS_XATTR_MAGIC)) with 4.
  change (zlen (cpu_to_le32 (xattr_hash payload (zlen payload)))) with 4.
  lia.
Qed.

(** The hash [reiserfs_xattr_set] computes before it opens the file. *)
Lemma xahash_of_payload (payload : list Z) :
  zlen payload < 2 ^ 31 ->
  (if negb (zlen payload =? 0)
   then xattr_hash payload (to_int (zlen payload)) else 0)
  = xattr_hash payload (zlen payload).
Proof.
  intros Hn; pose proof (zlen_nonneg payload).
  destruct (Z.eqb_spec (zlen payload) 0) as [E | E]; cbn [negb].
  - rewrite E; unfold xattr_hash, csum_partial.
    rewrite zfirstn_nonpos by lia; reflexivity.
  - rewrite to_int_small by lia; reflexivity.
Qed.

(** C1.  A value set with no flags is read back unchanged: for every
    payload of bytes, [reiserfs_xattr_set] returns 0 and a following
    [reiserfs_xattr_get] on the same object and name, with a buffer of
    the length of the payload, returns that length and fills the
    buffer with the payload; the length may be zero and need not be a
    multiple of the page size.  The collaborators are assumed not to
    fail, the private root to exist, the name not to be a dot entry
    and an attribute file that already exists to have one link. *)
Theorem xattr_set_get_roundtrip
        (sb : super_block) (i : inode) (name : string)
        (payload buf : list Z) (fuel : nat) :
  let fp := D_xafile (xa_dir_name i) name in
  pages_quiet orc fp ->
  sb_ok sb -> priv_root sb <> None ->
  i_sd_version i = STAT_DATA_V2 ->
  name <> "."%string -> name <> ".."%string ->
  (forall f, d_inode sb fp = Some f -> i_nlink f <= 1) ->
  Forall is_byte payload ->
  zlen payload + 8 < 2 ^ 31 ->
  zlen buf = zlen payload ->
  (Z.to_nat (zlen payload) + 9 < fuel)%nat ->
  exists sb1 sb2,
    reiserfs_xattr_set fuel sb i name (Some payload) (zlen payload) 0
    = Some (0, sb1)
    /\ reiserfs_xattr_get fuel sb1 i name (Some buf) (zlen payload)
       = Some (zlen payload, Some payload, sb2).
Proof.
  cbv zeta; intros Hpq Hok Hp Hv Hdot Hdotdot Hlink Hb Hn Hbuf Hfuel.
  pose proof (zlen_nonneg payload) as Hn0.
  destruct (open_xa_file_rw sb i name Hok Hp Hdot Hdotdot)
    as (sbo & f1 & Hopen & Hd & Hoko & Hf1).
  assert (Hnl : i_nlink f1 <= 1).
  { destruct (d_inode sb (D_xafile (xa_dir_name i) name)) as [f |];
      [subst f1; apply Hlink; reflexivity | lia]. }
  destruct (xattr_file_header payload Hb) as (Hmagic & Hhash & Hpl & Hlen).
  eexists _, _; split.
  - unfold reiserfs_xattr_set; rewrite Hv.
    rewrite xahash_of_payload by lia.
    apply (xattr_set_write sb sbo i name 0 payload f1 fuel); try assumption.
    lia.
  - fold (xattr_file payload).
    set (f2 := inode_with_data (inode_setattr (size_attrs (zlen payload)) f1)
                               (xattr_file payload)).
    rewrite (reiserfs_xattr_get_eq _ i name f2 buf (zlen payload) fuel);
      try assumption.
    + change (i_data f2) with (xattr_file payload).
      rewrite Hmagic, Hhash, Hpl, !Z.eqb_refl; cbn [negb].
      rewrite memcpy_to_0, zskipn_all, app_nil_r by lia.
      reflexivity.
    + apply sb_ok_written; assumption.
    + apply d_inode_written; assumption.
    + change (i_data f2) with (xattr_file payload); lia.
    + change (i_data f2) with (xattr_file payload); lia.
    + change (i_data f2) with (xattr_file payload); lia.
Qed.

Lemma one_byte_corrupted_bad_hash (data : list Z) :
  one_byte_corrupted data -> bad_hash data.
Proof.
  intros (payload & k & b & Hb & Hk & Hbyte & Hneq & ->).
  destruct (xattr_file_header payload Hb) as (_ & Hhash & _ & _).
  unfold bad_hash.
  change (memcpy_from (set_byte (8 + k) b (xattr_file payload)) 4 4)
    with (memcpy_from (xattr_file payload) 4 4).
  change (zskipn 8 (set_byte (8 + k) b (xattr_file payload)))
    with (set_byte k b payload).
  rewrite Hhash.
  unfold xattr_hash, csum_partial.
  rewrite !zfirstn_all by lia.
  apply csum_words_set_byte; assumption.
Qed.

(** C2.  A damaged attribute file is an I/O error: for an attribute
    file that has its header and fits the non-null buffer,
    [reiserfs_xattr_get] returns [-EIO] when the magic of the header
    is not the expected one, when the checksum of the value read does
    not equal the stored one and, in particular, when one byte of a
    stored value was changed. *)
Theorem xattr_get_damaged_is_EIO
        (sb : super_block) (i : inode) (name : string) (f : inode)
        (buf : list Z) (buffer_size : Z) (fuel : nat) :
  let fp := D_xafile (xa_dir_name i) name in
  pages_quiet orc fp -> sb_ok sb ->
  i_sd_version i = STAT_DATA_V2 ->
  d_inode sb fp = Some f ->
  8 <= zlen (i_data f) < 2 ^ 31 ->
  zlen (i_data f) - 8 <= buffer_size ->
  (Z.to_nat (zlen (i_data f)) + 1 < fuel)%nat ->
  bad_magic (i_data f) \/ bad_hash (i_data f)
  \/ one_byte_corrupted (i_data f) ->
  exists buf' sb',
    reiserfs_xattr_get fuel sb i name (Some buf) buffer_size
    = Some (neg EIO, buf', sb').
Proof.
  cbv zeta; intros Hpq Hok Hv Hd Hlen Hsize Hfuel Hbad.
  rewrite (reiserfs_xattr_get_eq sb i name f buf buffer_size fuel)
    by assumption.
  assert (Hcases : bad_magic (i_data f) \/ bad_hash (i_data f))
    by (destruct Hbad as [H | [H | H]];
        auto using one_byte_corrupted_bad_hash).
  destruct (Z.eqb_spec (le32_to_cpu (memcpy_from (i_data f) 0 4))
                       REISERFS_XATTR_MAGIC) as [Hm | Hm]; cbn [negb];
    [| eauto].
  destruct Hcases as [H | H]; [contradiction |].
  destruct (Z.eqb_spec
              (xattr_hash (zskipn 8 (i_data f)) (zlen (zskipn 8 (i_data f))))
              (le32_to_cpu (memcpy_from (i_data f) 4 4))) as [Hh | Hh];
    cbn [negb]; [contradiction | eauto].
Qed.

(** C3.  [XATTR_CREATE] on an attribute that exists: whatever the
    value passed, [reiserfs_xattr_set] returns [-EEXIST]; the tree
    below the private root is the one before the call, with the inode
    of the attribute file and so its value, and no call that changes
    the tree (no creation, resize or unlink) was made. *)
Theorem xattr_set_create_existing
        (sb : super_block) (i : inode) (name : string) (f : inode)
        (buffer : option (list Z)) (buffer_size flags : Z) (fuel : nat) :
  let fp := D_xafile (xa_dir_name i) name in
  sb_ok sb ->
  i_sd_version i = STAT_DATA_V2 ->
  d_inode sb fp = Some f ->
  has_flag flags XATTR_CREATE = true ->
  (0 < fuel)%nat ->
  exists sb',
    reiserfs_xattr_set fuel sb i name buffer buffer_size flags
    = Some (neg EEXIST, sb')
    /\ priv_root sb' = priv_root sb
    /\ d_inode sb' fp = Some f
    /\ s_events sb' = s_events sb.
Proof.
  cbv zeta; intros Hok Hv Hd Hfl Hfuel.
  exists (cached sb).
  split; [| split; [reflexivity | split; [| reflexivity]]].
  - unfold reiserfs_xattr_set; rewrite Hv.
    destruct fuel as [| fuel]; [lia |].
    cbn [xattr_set_open_file].
    rewrite (open_xa_file_found sb i name flags f Hok Hd), Hfl.
    reflexivity.
  - rewrite d_inode_cached; exact Hd.
Qed.

Lemma may_create_replace_only (flags : Z) :
  has_flag flags XATTR_REPLACE = true ->
  has_flag flags XATTR_CREATE = false ->
  may_create flags = false.
Proof.
  intros Hr Hc; unfold may_create; rewrite Hc.
  destruct (Z.eqb_spec flags 0) as [-> | _]; [discriminate | reflexivity].
Qed.

(** [XATTR_REPLACE] on an attribute that does not exist, whatever the
    other flags are. *)
Lemma open_xa_file_replace_absent (sb : super_block) (i : inode)
      (name : string) (flags : Z) :
  sb_ok sb -> d_inode sb (D_xafile (xa_dir_name i) name) = None ->
  has_flag flags XATTR_REPLACE = true ->
  (has_flag flags XATTR_CREATE = true ->
   priv_root sb <> None /\ name <> "."%string /\ name <> ".."%string) ->
  exists sb',
    open_xa_file sb i name flags = (ERR_PTR (neg ENODATA), sb')
    /\ sb_ok sb'
    /\ d_inode sb' (D_xafile (xa_dir_name i) name) = None
    /\ (has_flag flags XATTR_CREATE = false -> sb' = sb \/ sb' = cached sb).
Proof.
  intros Hok Hd Hr Hcreate.
  destruct (has_flag flags XATTR_CREATE) eqn:Hc.
  - (* the directories are made, the file is not *)
    destruct (Hcreate eq_refl) as (Hpriv & Hdot & Hdotdot).
    assert (Hmay : may_create flags = true)
      by (unfold may_create; rewrite Hc; apply orb_true_r).
    destruct (xa_dir_of sb (xa_dir_name i)) as [x |] eqn:Hx.
    + exists (cached sb).
      rewrite (open_xa_file_via sb (cached sb) i name flags x
                 (open_xa_dir_found sb i flags x Hok Hx) Hx).
      rewrite (d_inode_xafile_none sb _ name x Hd Hx), Hr; cbn [orb].
      split; [reflexivity |].
      split; [apply sb_ok_cached; eapply xa_dir_of_root; exact Hx |].
      split; [rewrite d_inode_cached; exact Hd | discriminate].
    + destruct (open_xa_dir_create sb i flags Hok Hmay Hpriv Hx)
        as (sb1 & x & self & parent & Hopen & Hcache & Hx1 & Hent).
      exists sb1.
      rewrite (open_xa_file_via sb sb1 i name flags x Hopen Hx1).
      rewrite Hent, (find_entry_dot_entries name self parent Hdot Hdotdot).
      rewrite Hr; cbn [orb].
      split; [reflexivity |].
      split; [apply sb_ok_of_cache;
              [exact Hcache | eapply xa_dir_of_root; exact Hx1] |].
      split; [| discriminate].
      rewrite d_inode_xafile; cbn [entries_of]; rewrite Hx1, Hent.
      rewrite (find_entry_dot_entries name self parent Hdot Hdotdot).
      reflexivity.
  - destruct (open_xa_file_absent sb i name flags Hok Hd
                (may_create_replace_only flags Hr Hc))
      as (sb' & Hopen & Hsame & Hok');
      [rewrite Hr; reflexivity |].
    exists sb'; split; [exact Hopen |]; split; [exact Hok' |].
    split; [| intros _; exact Hsame].
    destruct Hsame as [-> | ->]; [| rewrite d_inode_cached]; exact Hd.
Qed.

(** C4.  [XATTR_REPLACE] on an attribute that does not exist,
    whatever the other flags are: [reiserfs_xattr_set] returns
    [-ENODATA], there is no file of that name after the call, and a
    following [reiserfs_xattr_get] of the name returns [-ENODATA].
    Without [XATTR_CREATE] among the flags nothing at all was made:
    the tree and the log of operations are those before the call;
    with it the directories were made where they were missing, which
    takes a private root, and a name other than [.] and [..] to find
    no entry in a new directory. *)
Theorem xattr_set_replace_missing
        (sb : super_block) (i : inode) (name : string)
        (buffer : option (list Z)) (buffer_size flags : Z)
        (rbuf : option (list Z)) (rsize : Z) (fuel : nat) :
  let fp := D_xafile (xa_dir_name i) name in
  sb_ok sb ->
  i_sd_version i = STAT_DATA_V2 ->
  d_inode sb fp = None ->
  has_flag flags XATTR_REPLACE = true ->
  (has_flag flags XATTR_CREATE = true ->
   priv_root sb <> None /\ name <> "."%string /\ name <> ".."%string) ->
  (0 < fuel)%nat ->
  exists sb' sb'',
    reiserfs_xattr_set fuel sb i name buffer buffer_size flags
    = Some (neg ENODATA, sb')
    /\ d_inode sb' fp = None
    /\ reiserfs_xattr_get fuel sb' i name rbuf rsize
       = Some (neg ENODATA, rbuf, sb'')
    /\ (has_flag flags XATTR_CREATE = false ->
        priv_root sb' = priv_root sb /\ s_events sb' = s_events sb).
Proof.
  cbv zeta; intros Hok Hv Hd Hr Hc Hfuel.
  destruct (open_xa_file_replace_absent sb i name flags Hok Hd Hr Hc)
    as (sb' & Hopen & Hok' & Hd' & Hsame).
  destruct (open_xa_file_absent sb' i name FL_READONLY Hok' Hd'
              eq_refl eq_refl) as (sb'' & Hopen' & _).
  exists sb', sb''.
  split; [| split; [exact Hd' | split]].
  - unfold reiserfs_xattr_set; rewrite Hv.
    destruct fuel as [| fuel]; [lia |].
    cbn [xattr_set_open_file]; rewrite Hopen; reflexivity.
  - unfold reiserfs_xattr_get; rewrite Hv, Hopen'; reflexivity.
  - intros Hnc; destruct (Hsame Hnc) as [-> | ->]; split; reflexivity.
Qed.

(** ** Deletion *)

Lemma unlink_quiet (sb : super_block) (dir name : string) (fi : inode) :
  d_inode sb (D_xafile dir name) = Some fi ->
  unlink sb (D_xafile dir name)
  = (0, sb_update_entries
          (sb_with_event sb (Ev_unlink (D_xafile dir name) (k_objectid fi)))
          dir (remove_entry name)).
Proof.
  intros Hd; unfold unlink; rewrite (q_unlink _ Hq), Hd; reflexivity.
Qed.

Lemma entries_of_update_entries (sb : super_block) (dir : string)
      (f : list dirent -> list dirent) :
  xa_dir_of sb dir <> None ->
  entries_of (sb_update_entries sb dir f) (D_xadir dir)
  = f (entries_of sb (D_xadir dir)).
Proof.
  intros Hx; cbn [entries_of]; unfold sb_update_entries.
  rewrite xa_dir_of_update_dir.
  destruct (xa_dir_of sb dir); [reflexivity | congruence].
Qed.

Lemma __reiserfs_xattr_del_spec (sb : super_block) (dir name : string) :
  del_spec (__reiserfs_xattr_del sb (D_xadir dir) name) sb dir name.
Proof.
  unfold del_spec, __reiserfs_xattr_del, untouched; cbv zeta.
  rewrite lookup_one_len_quiet.
  destruct (d_inode sb (D_xafile dir name)) as [fi |] eqn:Hd;
    [| cbn; auto].
  destruct (i_isdir fi); [cbn; auto |].
  destruct (i_priv_object fi); cbn [negb]; [| cbn; auto].
  rewrite (unlink_quiet sb dir name fi Hd); cbn [fst snd].
  destruct (d_inode_xafile_inv _ _ _ _ Hd) as (x & _ & Hx & _).
  split; [reflexivity |].
  split.
  - unfold sb_update_entries; rewrite s_events_update_dir; reflexivity.
  - rewrite entries_of_update_entries; [reflexivity |].
    change (xa_dir_of (sb_with_event sb ?e) dir) with (xa_dir_of sb dir).
    congruence.
Qed.

(** C6.  Deletion, for [__reiserfs_xattr_del] on an attribute
    directory and for [reiserfs_xattr_del] on an object: [-ENODATA]
    when no entry has the name; an entry that is a directory is left
    in place; an inode that is not flagged as an object of the private
    tree is [-EIO] and nothing is unlinked; in every other case the
    entry is unlinked. *)
Theorem xattr_del_cases (sb : super_block) (i : inode) (name : string) :
  sb_ok sb ->
  del_spec (__reiserfs_xattr_del sb (D_xadir (xa_dir_name i)) name)
           sb (xa_dir_name i) name
  /\ del_spec (reiserfs_xattr_del sb i name) sb (xa_dir_name i) name.
Proof.
  intros Hok; split; [apply __reiserfs_xattr_del_spec |].
  unfold reiserfs_xattr_del.
  destruct (xa_dir_of sb (xa_dir_name i)) as [x |] eqn:Hx.
  - rewrite (open_xa_dir_found sb i FL_READONLY x Hok Hx).
    pose proof (__reiserfs_xattr_del_spec (cached sb) (xa_dir_name i) name)
      as H.
    unfold del_spec in *; rewrite d_inode_cached in H; exact H.
  - rewrite open_xa_dir_missing by (try assumption; reflexivity).
    unfold del_spec; cbv zeta; cbn [d_inode entries_of]; rewrite Hx.
    cbn; unfold untouched.
    destruct (xa_root_of sb); auto.
Qed.

(** ** An attribute file with several links *)

(** The flags with which the file is opened again after the old one
    was deleted. *)
Lemma flags_after_delete (flags : Z) :
  let flags' := if has_flag flags XATTR_REPLACE
                then Z.land flags (Z.lnot XATTR_REPLACE) else flags in
  has_flag flags' XATTR_REPLACE = false
  /\ has_flag flags' XATTR_CREATE = has_flag flags XATTR_CREATE
  /\ has_flag flags' FL_READONLY = has_flag flags FL_READONLY.
Proof.
  cbv zeta.
  destruct (has_flag flags XATTR_REPLACE) eqn:Hr; [| auto].
  unfold has_flag; rewrite <- !Z.land_assoc.
  change (Z.land (Z.lnot XATTR_REPLACE) XATTR_REPLACE) with 0.
  change (Z.land (Z.lnot XATTR_REPLACE) XATTR_CREATE) with XATTR_CREATE.
  change (Z.land (Z.lnot XATTR_REPLACE) FL_READONLY) with FL_READONLY.
  rewrite Z.land_0_r; auto.
Qed.

Lemma s_events_written (sb1 : super_block) (dir name : string) (f1 : inode)
      (n : Z) (content : list Z) :
  s_events (written sb1 (D_xafile dir name) f1 n content)
  = Ev_notify_change (D_xafile dir name) (k_objectid f1) (size_attrs n)
    :: s_events sb1.
Proof.
  unfold written; cbn [update_inode]; unfold sb_update_entries.
  rewrite !s_events_update_dir; reflexivity.
Qed.

(** C5.  An attribute file with more than one link is not written in
    place: [reiserfs_xattr_set] unlinks it through
    [reiserfs_xattr_del], opens the name again with [XATTR_REPLACE]
    cleared, which creates a new file, and writes that one.  The call
    returns 0 also when it was made with [XATTR_REPLACE]; the name
    then refers to a new inode with one link that holds the header and
    the value, and the tree was changed by an unlink of the old inode,
    a creation and the resize, in this order. *)
Theorem xattr_set_linked_file
        (sb : super_block) (i : inode) (name : string) (f : inode)
        (payload : list Z) (flags : Z) (fuel : nat) :
  let fp := D_xafile (xa_dir_name i) name in
  let newid := s_next_objectid sb in
  pages_quiet orc fp -> sb_ok sb ->
  i_sd_version i = STAT_DATA_V2 ->
  d_inode sb fp = Some f ->
  1 < i_nlink f -> i_isdir f = false -> i_priv_object f = true ->
  has_flag flags XATTR_CREATE = false ->
  has_flag flags FL_READONLY = false ->
  find_entry name (remove_entry name (entries_of sb (D_xadir (xa_dir_name i))))
  = None ->
  zlen payload < 2 ^ 31 ->
  (Z.to_nat (zlen payload) + 2 < fuel)%nat ->
  exists sb' f',
    reiserfs_xattr_set fuel sb i name (Some payload) (zlen payload) flags
    = Some (0, sb')
    /\ d_inode sb' fp = Some f'
    /\ k_objectid f' = newid /\ i_nlink f' = 1
    /\ i_data f' = xattr_file payload
    /\ s_events sb'
       = Ev_notify_change fp newid (size_attrs (zlen payload))
         :: Ev_create fp newid
         :: Ev_unlink fp (k_objectid f) :: s_events sb.
Proof.
  cbv zeta; intros Hpq Hok Hv Hd Hnl Hdir Hpriv Hc Hro Huniq Hn Hfuel.
  set (dn := xa_dir_name i) in *.
  destruct (d_inode_xafile_inv _ _ _ _ Hd) as (x & e & Hx & He & Hef).
  (* the state after the deletion *)
  set (sbD := sb_update_entries
                (sb_with_event (cached sb)
                   (Ev_unlink (D_xafile dn name) (k_objectid f)))
                dn (remove_entry name)).
  assert (Hdel : reiserfs_xattr_del (cached sb) i name = (0, sbD)).
  { unfold reiserfs_xattr_del.
    rewrite (open_xa_dir_found (cached sb) i FL_READONLY x)
      by (try exact Hx; apply sb_ok_cached; eapply xa_dir_of_root;
          eassumption).
    unfold __reiserfs_xattr_del.
    rewrite lookup_one_len_quiet, d_inode_cached, d_inode_cached.
    fold dn; rewrite Hd, Hdir, Hpriv; cbn [negb].
    apply (unlink_quiet (cached (cached sb)) dn name f).
    rewrite !d_inode_cached; exact Hd. }
  assert (HokD : sb_ok sbD).
  { subst sbD; unfold sb_update_entries; apply sb_ok_update_dir.
    apply (sb_ok_cached sb); eapply xa_dir_of_root; eassumption. }
  assert (HxD : xa_dir_of sbD dn
                = Some (mk_directory (d_dir_inode x)
                                     (remove_entry name (d_entries x)))).
  { subst sbD; unfold sb_update_entries; rewrite xa_dir_of_update_dir.
    change (xa_dir_of (sb_with_event (cached sb) ?ev) dn)
      with (xa_dir_of sb dn).
    rewrite Hx; reflexivity. }
  assert (HeD : find_entry name (remove_entry name (d_entries x)) = None).
  { cbn [entries_of] in Huniq; fold dn in Huniq; rewrite Hx in Huniq.
    exact Huniq. }
  destruct (create_missing (cached sbD) dn name _ HxD HeD)
    as (sbC & Hcr & Hent & HcC & HrC & HevC & _).
  destruct (flags_after_delete flags) as (Hr' & Hc' & Hro').
  set (flags' := if has_flag flags XATTR_REPLACE
                 then Z.land flags (Z.lnot XATTR_REPLACE) else flags) in *.
  assert (HdC : d_inode sbC (D_xafile dn name)
                = Some (new_inode (cached sbD) false))
    by (rewrite d_inode_xafile, Hent, find_entry_head; reflexivity).
  assert (Hopen : open_xa_file sbD i name flags'
                  = (PTR (D_xafile dn name), sbC)).
  { rewrite (open_xa_file_via sbD (cached sbD) i name flags' _
               (open_xa_dir_found sbD i flags' _ HokD HxD) HxD).
    cbn [d_entries]; rewrite HeD, Hr', Hro', Hro; cbn [orb].
    fold dn; rewrite Hcr; cbn [Z.eqb negb].
    unfold positive; rewrite HdC; reflexivity. }
  assert (Hnext : s_next_objectid (cached sbD) = s_next_objectid sb).
  { subst sbD; unfold sb_update_entries; cbn [cached sb_with_xattr_root
      s_next_objectid].
    rewrite s_next_objectid_update_dir; reflexivity. }
  exists (written sbC (D_xafile dn name) (new_inode (cached sbD) false)
                  (zlen payload) (xattr_file payload)).
  eexists.
  split.
  - unfold reiserfs_xattr_set; rewrite Hv.
    rewrite xahash_of_payload by lia.
    destruct fuel as [| fuel]; [lia |].
    cbn [xattr_set_open_file].
    rewrite (open_xa_file_found sb i name flags f Hok Hd), Hc.
    unfold the_inode at 1; rewrite d_inode_cached; fold dn; rewrite Hd.
    destruct (Z.gtb_spec (i_nlink f) 1) as [_ | Hle]; [| lia].
    rewrite Hdel; cbn [Z.ltb Z.compare].
    fold flags'.
    unfold xattr_file.
    apply (xattr_set_write sbD sbC i name flags' payload
                           (new_inode (cached sbD) false) fuel);
      try assumption; [reflexivity | lia].
  - split; [apply d_inode_written; exact HdC |].
    split; [exact Hnext |].
    split; [reflexivity |].
    split; [reflexivity |].
    rewrite s_events_written, HevC.
    cbn [new_inode k_objectid]; rewrite Hnext.
    subst sbD; unfold sb_update_entries.
    cbn [cached sb_with_xattr_root s_events].
    rewrite s_events_update_dir; reflexivity.
Qed.

(** ** Listing without an attribute directory *)

(** C10.  An object that never had an attribute has no attribute
    directory; [open_xa_dir] then yields [-ENODATA], which
    [reiserfs_listxattr] turns into the result 0: an empty list, not
    an error.  The buffer and the tree are left as they are. *)
Theorem listxattr_without_directory
        (sb : super_block) (i : inode) (buffer : option (list Z))
        (size : Z) (fuel : nat) :
  sb_ok sb ->
  s_xattrs sb = true ->
  i_sd_version i = STAT_DATA_V2 ->
  xa_dir_of sb (xa_dir_name i) = None ->
  fst (open_xa_dir sb i FL_READONLY) = ERR_PTR (neg ENODATA)
  /\ exists sb',
       reiserfs_listxattr fuel sb (Some i) buffer size
       = Some (0, buffer, sb')
       /\ untouched sb sb'.
Proof.
  intros Hok Hx Hv Hdir.
  assert (Hopen := open_xa_dir_missing sb i FL_READONLY Hok eq_refl Hdir).
  split; [rewrite Hopen; reflexivity |].
  unfold reiserfs_listxattr; rewrite Hx, Hv, Hopen; cbn [negb orb].
  change (neg ENODATA =? neg ENODATA) with true; cbv iota.
  eexists; split; [reflexivity |].
  unfold untouched; destruct (xa_root_of sb); auto.
Qed.

End Quiet.

(** ** The retry of the enumeration *)

Lemma find_weaker (P Q : dirent -> bool) (l : list dirent) (de : dirent) :
  find P l = Some de -> (forall e, Q e = true -> P e = true) ->
  Q de = true -> find Q l = Some de.
Proof.
  intros Hf Himp Hq.
  induction l as [| e l IH]; cbn [find] in *; [discriminate |].
  destruct (P e) eqn:Ep.
  - injection Hf as ->; rewrite Hq; reflexivity.
  - destruct (Q e) eqn:Eq; [rewrite (Himp e Eq) in Ep; discriminate |].
    apply IH; assumption.
Qed.

Lemma search_by_entry_key_found (l : list dirent) (pos : Z) (de : dirent) :
  search_by_entry_key l pos = Some de -> deh_offset de <= pos.
Proof.
  unfold search_by_entry_key; intros H.
  apply find_some in H; destruct H as [_ H]; lia.
Qed.

(** A search at the offset of the entry found finds the entry
    again. *)
Lemma search_by_entry_key_again (l : list dirent) (pos : Z) (de : dirent) :
  search_by_entry_key l pos = Some de ->
  search_by_entry_key l (deh_offset de) = Some de.
Proof.
  intros H; pose proof (search_by_entry_key_found l pos de H).
  unfold search_by_entry_key in *.
  apply (find_weaker _ _ l de H); intros; lia.
Qed.

(** ** The enumeration as a pass over the entries *)

Lemma find_keys (p : string * Z * bool * Z * bool -> bool)
      (l l' : list dirent) :
  map dirent_key l = map dirent_key l' ->
  option_map dirent_key (find (fun e => p (dirent_key e)) l)
  = option_map dirent_key (find (fun e => p (dirent_key e)) l').
Proof.
  revert l'; induction l as [| e l IH]; intros [| e' l'] H;
    try discriminate; [reflexivity |].
  cbn [map] in H.
  assert (He : dirent_key e = dirent_key e')
    by (apply (f_equal (hd (dirent_key e))) in H; exact H).
  assert (Hl : map dirent_key l = map dirent_key l')
    by (apply (f_equal (@tl _)) in H; exact H).
  cbn [find]; rewrite He.
  destruct (p (dirent_key e')); [cbn; congruence | auto].
Qed.

Lemma search_by_entry_key_keys (l l' : list dirent) (pos : Z) :
  map dirent_key l = map dirent_key l' ->
  option_map dirent_key (search_by_entry_key l pos)
  = option_map dirent_key (search_by_entry_key l' pos).
Proof.
  intros H; unfold search_by_entry_key.
  apply (find_keys (fun k => snd (fst (fst (fst k))) <=? pos) l l' H).
Qed.

Lemma xattr_readdir_body_view (k : nat) (sb sb' : super_block)
      (dir : dentry) (pos : Z) :
  readdir_view sb dir = readdir_view sb' dir ->
  xattr_readdir_body k sb dir pos = xattr_readdir_body k sb' dir pos.
Proof.
  unfold readdir_view; intros H.
  injection H as Hkeys Hmax Hx Hold Hpriv.
  assert (Hp : forall oid, is_priv_root sb oid = is_priv_root sb' oid).
  { intros oid; unfold is_priv_root.
    destruct (priv_root sb), (priv_root sb'); cbn in Hpriv;
      congruence. }
  unfold xattr_readdir_body.
  pose proof (search_by_entry_key_keys _ _ pos Hkeys) as Hs.
  destruct (search_by_entry_key (entries_of sb dir) pos) as [e |],
           (search_by_entry_key (entries_of sb' dir) pos) as [e' |];
    cbn [option_map] in Hs; try discriminate; [| reflexivity].
  injection Hs as Hn Ho Hv Hi _.
  cbv beta iota zeta.
  rewrite Hn, Ho, Hv, Hi, Hmax, Hx, Hold, Hp; reflexivity.
Qed.

(** The loop body once the entry at the cursor is known. *)
Lemma xattr_readdir_body_found (k : nat) (sb : super_block) (dir : dentry)
      (pos : Z) (e : dirent) :
  DOT_DOT_OFFSET < pos -> DOT_DOT_OFFSET < deh_offset e ->
  search_by_entry_key (entries_of sb dir) pos = Some e ->
  xattr_readdir_body k sb dir pos
  = if o_search_io_error orc k then RD_return (neg EIO)
    else if negb (shown sb e) then RD_research (deh_offset e - 1)
    else if (d_reclen_of e <=? 32)
            || negb (o_kmalloc_fails orc k || o_item_moved orc k)
    then RD_filldir (de_name e) (d_reclen_of e) (deh_offset e)
                    (k_objectid (de_inode e)) (deh_offset e - 1)
    else if o_kmalloc_fails orc k then RD_return (neg ENOMEM)
    else RD_research (deh_offset e).
Proof.
  intros Hpos Hoff Hs; unfold xattr_readdir_body, shown, d_reclen_of.
  destruct (Z.leb_spec pos DOT_DOT_OFFSET); [lia |].
  rewrite Hs.
  destruct (Z.leb_spec (deh_offset e) DOT_DOT_OFFSET); [lia |].
  destruct (o_search_io_error orc k); [reflexivity |].
  destruct (de_visible e); cbn [negb andb]; [| reflexivity].
  destruct (Z.of_nat (String.length (de_name e)) >? s_max_name sb);
    cbn [negb andb]; [reflexivity |].
  destruct (s_xattrs sb && negb (s_old_format_only sb)
            && is_priv_root sb (k_objectid (de_inode e)));
    cbn [negb]; [reflexivity |].
  destruct (Z.of_nat (String.length (de_name e)) <=? 32);
    cbn [orb]; [reflexivity |].
  destruct (o_kmalloc_fails orc k); cbn [orb negb]; [reflexivity |].
  destruct (o_item_moved orc k); reflexivity.
Qed.

Lemma search_by_entry_key_split (pre suf : list dirent) (pos : Z) :
  Forall (fun e => pos < deh_offset e) pre ->
  search_by_entry_key (pre ++ suf) pos = search_by_entry_key suf pos.
Proof.
  unfold search_by_entry_key.
  induction 1 as [| e pre He _ IH]; cbn [app find]; [reflexivity |].
  destruct (Z.leb_spec (deh_offset e) pos); [lia | exact IH].
Qed.

Lemma delivered_cons (sb : super_block) (e : dirent) (rest : list dirent) :
  delivered sb (e :: rest)
  = if deh_offset e <=? DOT_DOT_OFFSET then []
    else if shown sb e then e :: delivered sb rest
         else delivered sb rest.
Proof.
  unfold delivered; cbn [above_dot_dot].
  destruct (deh_offset e <=? DOT_DOT_OFFSET); [reflexivity |].
  cbn [filter]; reflexivity.
Qed.

Lemma delivered_below (sb : super_block) (l : list dirent) (pos : Z) :
  pos <= DOT_DOT_OFFSET -> Forall (fun e => deh_offset e <= pos) l ->
  delivered sb l = [].
Proof.
  intros Hpos Hl; destruct Hl as [| e rest He _]; [reflexivity |].
  rewrite delivered_cons.
  destruct (Z.leb_spec (deh_offset e) DOT_DOT_OFFSET); [reflexivity | lia].
Qed.

Section Enumeration.

Variable B : Type.
Variable filldir : filldir_t B.
Variable dir : dentry.
Variable sb0 : super_block.
Variable P : B -> super_block -> Prop.

(** Items move in the first [moves] passes at most. *)
Variable moves : nat.

Hypothesis Hmoves :
  forall k, (moves <= k)%nat -> o_item_moved orc k = false.
Hypothesis HP_view :
  forall b s, P b s -> readdir_view s dir = readdir_view sb0 dir.
Hypothesis HP_step :
  forall b s e small_buf r b1 s1,
    P b s -> In e (entries_of sb0 dir) -> shown sb0 e = true ->
    filldir b (local_buf_bytes small_buf (de_name e) (d_reclen_of e)
                               (deh_offset e))
            (d_reclen_of e) (deh_offset e)
            (k_objectid (de_inode e)) s = (r, b1, s1) ->
    P b1 s1.

(** The loop ends within one pass per entry and one per move; when
    no search and no allocation fails it has fed the consumer the
    shown entries above [DOT_DOT_OFFSET], from the highest offset down,
    each of them once, whichever items have moved. *)
Lemma xattr_readdir_loop_moves (fuel : nat) :
  forall (pre suf : list dirent) (step : nat) (pos : Z)
         (small_buf : string) (b : B) (s : super_block),
    entries_of sb0 dir = pre ++ suf ->
    Forall (fun e => pos < deh_offset e) pre ->
    Forall (fun e => deh_offset e <= pos) suf ->
    key_order suf ->
    P b s ->
    (List.length suf + (moves - step) < fuel)%nat ->
    exists r b' s',
      xattr_readdir_loop fuel step dir filldir pos small_buf b s
      = Some (r, b', s')
      /\ P b' s'
      /\ ((forall k, o_search_io_error orc k = false) ->
          (forall k, o_kmalloc_fails orc k = false) ->
          r = 0
          /\ (b', s') = feed filldir (delivered sb0 suf) small_buf b s).
Proof.
  induction fuel as [| fuel IH];
    intros pre suf step pos small_buf b s Hl Hpre Hsuf Hord HP Hfuel;
    [lia |].
  cbn [xattr_readdir_loop].
  rewrite (xattr_readdir_body_view step s sb0 dir pos (HP_view b s HP)).
  destruct suf as [| e rest].
  - (* no entry at or before the cursor *)
    assert (Hbody : xattr_readdir_body step sb0 dir pos = RD_return 0
                    \/ xattr_readdir_body step sb0 dir pos
                       = RD_return (neg EIO)
                       /\ o_search_io_error orc step = true).
    { unfold xattr_readdir_body.
      destruct (pos <=? DOT_DOT_OFFSET); [left; reflexivity |].
      destruct (o_search_io_error orc step); [right; auto |].
      rewrite Hl, search_by_entry_key_split by assumption.
      left; reflexivity. }
    destruct Hbody as [-> | [-> Hio]].
    + exists 0, b, s; repeat split; auto.
    + exists (neg EIO), b, s; split; [reflexivity |]; split; [exact HP |].
      intros Hq _; rewrite Hq in Hio; discriminate.
  - inversion Hsuf as [| ? ? He Hrest]; subst.
    inversion Hord as [| ? ? Hord' Hlt]; subst.
    destruct (Z_le_gt_dec pos DOT_DOT_OFFSET) as [Hlow | Hhigh].
    { (* the cursor reached the dot entries *)
      unfold xattr_readdir_body.
      destruct (Z.leb_spec pos DOT_DOT_OFFSET); [| lia].
      exists 0, b, s; split; [reflexivity |]; split; [exact HP |].
      intros _ _; split; [reflexivity |].
      rewrite (delivered_below sb0 (e :: rest) pos) by assumption.
      reflexivity. }
    assert (Hs : search_by_entry_key (entries_of sb0 dir) pos = Some e).
    { rewrite Hl, search_by_entry_key_split by assumption.
      unfold search_by_entry_key; cbn [find].
      destruct (Z.leb_spec (deh_offset e) pos); [reflexivity | lia]. }
    destruct (Z_le_gt_dec (deh_offset e) DOT_DOT_OFFSET) as [Hdot | Hreal].
    { (* the entry found is a dot entry *)
      unfold xattr_readdir_body.
      destruct (Z.leb_spec pos DOT_DOT_OFFSET); [lia |].
      rewrite Hs.
      destruct (Z.leb_spec (deh_offset e) DOT_DOT_OFFSET); [| lia].
      destruct (o_search_io_error orc step) eqn:Hio.
      - exists (neg EIO), b, s; split; [reflexivity |]; split; [exact HP |].
        intros Hq _; rewrite Hq in Hio; discriminate.
      - exists 0, b, s; split; [reflexivity |]; split; [exact HP |].
        intros _ _; split; [reflexivity |].
        rewrite delivered_cons.
        destruct (Z.leb_spec (deh_offset e) DOT_DOT_OFFSET); [| lia].
        reflexivity. }
    (* the entry found is a real one; the loop goes on below it *)
    assert (Hnext :
              forall small_buf1 b1 s1, P b1 s1 ->
                exists r b' s',
                  xattr_readdir_loop fuel (S step) dir filldir
                                     (deh_offset e - 1) small_buf1 b1 s1
                  = Some (r, b', s')
                  /\ P b' s'
                  /\ ((forall k, o_search_io_error orc k = false) ->
                      (forall k, o_kmalloc_fails orc k = false) ->
                      r = 0
                      /\ (b', s')
                         = feed filldir (delivered sb0 rest) small_buf1
                                b1 s1)).
    { intros small_buf1 b1 s1 HP1.
      apply (IH (pre ++ [e])); try assumption.
      - rewrite <- app_assoc; exact Hl.
      - apply Forall_app; split.
        + eapply Forall_impl; [| exact Hpre]; cbv beta; intros; lia.
        + constructor; [lia | constructor].
      - eapply Forall_impl; [| exact Hlt]; cbv beta; intros; lia.
      - cbn [List.length] in Hfuel; lia. }
    rewrite (xattr_readdir_body_found step sb0 dir pos e) by (assumption || lia).
    rewrite delivered_cons.
    destruct (Z.leb_spec (deh_offset e) DOT_DOT_OFFSET); [lia |].
    destruct (o_search_io_error orc step) eqn:Hio.
    { exists (neg EIO), b, s; split; [reflexivity |]; split; [exact HP |].
      intros Hq _; rewrite Hq in Hio; discriminate. }
    destruct (shown sb0 e) eqn:Hshown; cbn [negb].
    2: { apply Hnext; exact HP. }
    assert (Hin : In e (entries_of sb0 dir))
      by (rewrite Hl; apply in_or_app; right; left; reflexivity).
    destruct ((d_reclen_of e <=? 32)
              || negb (o_kmalloc_fails orc step || o_item_moved orc step))
      eqn:Hcall.
    + (* the entry is handed over *)
      cbn [feed].
      destruct (filldir b (local_buf_bytes small_buf (de_name e)
                                           (d_reclen_of e) (deh_offset e))
                        (d_reclen_of e) (deh_offset e)
                        (k_objectid (de_inode e)) s)
        as [[r b1] s1] eqn:Hfill.
      pose proof (HP_step b s e small_buf r b1 s1 HP Hin Hshown Hfill)
        as HP1.
      destruct (r <? 0).
      * exists 0, b1, s1; auto.
      * apply Hnext; exact HP1.
    + apply orb_false_iff in Hcall; destruct Hcall as [_ Hk].
      apply negb_false_iff in Hk.
      destruct (o_kmalloc_fails orc step) eqn:Hmem.
      { exists (neg ENOMEM), b, s; split; [reflexivity |];
          split; [exact HP |].
        intros _ Hq; rewrite Hq in Hmem; discriminate. }
      (* the item has moved: the same entry again *)
      cbn [orb] in Hk.
      assert (Hstep : (step < moves)%nat).
      { destruct (Nat.lt_ge_cases step moves) as [Hlt' | Hge];
          [exact Hlt' |].
        rewrite (Hmoves step Hge) in Hk; discriminate. }
      destruct (IH pre (e :: rest) (S step) (deh_offset e) small_buf b s)
        as (r & b' & s' & Hrun & HP' & Hres); try assumption.
      * eapply Forall_impl; [| exact Hpre]; cbv beta; intros; lia.
      * constructor; [lia |].
        eapply Forall_impl; [| exact Hlt]; cbv beta; intros; lia.
      * cbn [List.length] in Hfuel |- *; lia.
      * exists r, b', s'; split; [exact Hrun |]; split; [exact HP' |].
        intros Hio' Hmem'; destruct (Hres Hio' Hmem') as [-> Hfeed].
        split; [reflexivity |].
        rewrite Hfeed, delivered_cons.
        destruct (Z.leb_spec (deh_offset e) DOT_DOT_OFFSET); [lia |].
        rewrite Hshown; reflexivity.
Qed.

End Enumeration.

Section EnumerationQuiet.

Variable B : Type.
Variable filldir : filldir_t B.
Variable dir : dentry.
Variable sb0 : super_block.
Variable P : B -> super_block -> Prop.

Hypothesis Hnot_moved : forall k, o_item_moved orc k = false.
Hypothesis HP_view :
  forall b s, P b s -> readdir_view s dir = readdir_view sb0 dir.
Hypothesis HP_step :
  forall b s e small_buf r b1 s1,
    P b s -> In e (entries_of sb0 dir) -> shown sb0 e = true ->
    filldir b (local_buf_bytes small_buf (de_name e) (d_reclen_of e)
                               (deh_offset e))
            (d_reclen_of e) (deh_offset e)
            (k_objectid (de_inode e)) s = (r, b1, s1) ->
    P b1 s1.

(** As long as no item moves the loop ends within one pass per entry;
    when nothing fails it has fed the consumer the shown entries above
    [DOT_DOT_OFFSET], from the highest offset down. *)
Lemma xattr_readdir_loop_feed (suf : list dirent) :
  forall (pre : list dirent) (fuel step : nat) (pos : Z)
         (small_buf : string) (b : B) (s : super_block),
    entries_of sb0 dir = pre ++ suf ->
    Forall (fun e => pos < deh_offset e) pre ->
    Forall (fun e => deh_offset e <= pos) suf ->
    key_order suf ->
    P b s ->
    (List.length suf < fuel)%nat ->
    exists r b' s',
      xattr_readdir_loop fuel step dir filldir pos small_buf b s
      = Some (r, b', s')
      /\ P b' s'
      /\ (readdir_quiet orc ->
          r = 0 /\ (b', s') = feed filldir (delivered sb0 suf) small_buf b s).
Proof.
  intros pre fuel step pos small_buf b s Hl Hpre Hsuf Hord HP Hfuel.
  destruct (xattr_readdir_loop_moves
              B filldir dir sb0 P 0 (fun k _ => Hnot_moved k) HP_view
              HP_step fuel pre suf step pos small_buf b s)
    as (r & b' & s' & Hrun & HP' & Hres); try assumption; [cbn; lia |].
  exists r, b', s'; split; [exact Hrun |]; split; [exact HP' |].
  intros Hq; apply Hres; intros k;
    [apply (q_search_io_error _ Hq) | apply (q_kmalloc_fails _ Hq)].
Qed.

End EnumerationQuiet.

(** C7.  An item that moves costs a pass and no entry.  When
    [item_moved] reports, after the buffer for a long name was
    allocated, that the item moved, the pass ends with the cursor set
    to the offset of the entry itself: [filldir] is not called, the
    buffer, the consumer and the tree stay as they are, and the search
    from that offset finds the same entry.  So, whichever items move
    in the first [moves] passes, [__xattr_readdir] on a directory in
    key order, when no search and no allocation fails, returns 0 after
    it has handed to the consumer the shown entries above
    [DOT_DOT_OFFSET], each of them once and from the highest offset
    down: what it hands over when no item moves. *)
Theorem readdir_item_moved_retries
        (B : Type) (filldir : filldir_t B) (file : dentry) (b : B)
        (sb : super_block) (fuel moves : nat) :
  let entries := entries_of sb file in
  (forall k, o_search_io_error orc k = false) ->
  (forall k, o_kmalloc_fails orc k = false) ->
  (forall k, (moves <= k)%nat -> o_item_moved orc k = false) ->
  key_order entries ->
  Forall (fun e => deh_offset e <= max_reiserfs_offset) entries ->
  (List.length entries + moves < fuel)%nat ->
  (forall b0 name len off ino s,
      readdir_view (snd (filldir b0 name len off ino s)) file
      = readdir_view s file) ->
  __xattr_readdir fuel file filldir b sb
  = Some (0, fst (feed filldir (delivered sb entries) small_buf_0 b sb),
          snd (feed filldir (delivered sb entries) small_buf_0 b sb))
  /\ (forall (step fuel' : nat) (next_pos : Z) (small_buf : string)
             (b1 : B) (de : dirent),
         DOT_DOT_OFFSET < next_pos ->
         search_by_entry_key entries next_pos = Some de ->
         DOT_DOT_OFFSET < deh_offset de ->
         shown sb de = true ->
         32 < d_reclen_of de ->
         o_item_moved orc step = true ->
         xattr_readdir_body step sb file next_pos
         = RD_research (deh_offset de)
         /\ xattr_readdir_loop (S fuel') step file filldir next_pos
                               small_buf b1 sb
            = xattr_readdir_loop fuel' (S step) file filldir (deh_offset de)
                                 small_buf b1 sb
         /\ search_by_entry_key entries (deh_offset de) = Some de).
Proof.
  cbv zeta; intros Hio Hmem Hmoves Hord Hmax Hfuel Hfill.
  split.
  - unfold __xattr_readdir.
    destruct (xattr_readdir_loop_moves
                B filldir file sb
                (fun _ s => readdir_view s file = readdir_view sb file)
                moves Hmoves)
      with (fuel := fuel) (pre := @nil dirent) (suf := entries_of sb file)
           (step := 0%nat) (pos := max_reiserfs_offset)
           (small_buf := small_buf_0) (b := b) (s := sb)
      as (r & b' & s' & Hloop & _ & Hres); try assumption; auto.
    + intros b0 s0 e0 small_buf r0 b1 s1 HP0 _ _ Hfill0.
      rewrite <- HP0,
        <- (Hfill b0 (local_buf_bytes small_buf (de_name e0)
                                      (d_reclen_of e0) (deh_offset e0))
                  (d_reclen_of e0) (deh_offset e0)
                  (k_objectid (de_inode e0)) s0).
      rewrite Hfill0; reflexivity.
    + lia.
    + destruct (Hres Hio Hmem) as [-> Hfeed].
      rewrite Hloop, <- Hfeed; reflexivity.
  - intros step fuel' next_pos small_buf b1 de Hpos Hfound Hoff Hshown
           Hlen Hmoved.
    assert (H1 : xattr_readdir_body step sb file next_pos
                 = RD_research (deh_offset de)).
    { rewrite (xattr_readdir_body_found step sb file next_pos de)
        by assumption.
      rewrite Hio, Hshown, Hmem, Hmoved; cbn [negb orb].
      destruct (Z.leb_spec (d_reclen_of de) 32); [lia | reflexivity]. }
    split; [exact H1 |].
    split; [cbn [xattr_readdir_loop]; rewrite H1; reflexivity |].
    exact (search_by_entry_key_again _ _ _ Hfound).
Qed.

(** ** Listing the names *)


Lemma reiserfs_listxattr_filler_eq (b : reiserfs_listxattr_buf)
      (name : string) (namelen offset ino : Z) (sb : super_block) :
  reiserfs_listxattr_filler b name namelen offset ino sb
  = (0,
     match listed (r_inode b) name namelen with
     | None => b
     | Some reported =>
         mk_listxattr_buf
           (r_pos b + zlen reported + 1) (r_size b)
           (if r_pos b + zlen reported + 1 <=? r_size b
            then memcpy_to (r_buf b) (r_pos b) (reported ++ [0])
            else r_buf b)
           (r_inode b)
     end, sb).
Proof.
  unfold reiserfs_listxattr_filler, listed.
  destruct (negb (is_dot (char_at name 0))
            || negb (namelen =? 1)
               && (negb (is_dot (char_at name 1)) || negb (namelen =? 2)));
    [| reflexivity].
  destruct (find_xattr_handler_prefix name) as [xah |]; [| reflexivity].
  cbv zeta.
  destruct (negb (zlen (h_list xah (r_inode b) (name_of name namelen)
                               namelen) =? 0));
    reflexivity.
Qed.



Section Listing.

Variable sb : super_block.
Variable i : inode.
Variable x : directory.
Variable fuel : nat.

Hypothesis Hq : vfs_quiet orc.
Hypothesis Hrq : readdir_quiet orc.
Hypothesis Hok : sb_ok sb.
Hypothesis Hxattrs : s_xattrs sb = true.
Hypothesis Hv : i_sd_version i = STAT_DATA_V2.
Hypothesis Hx : xa_dir_of sb (xa_dir_name i) = Some x.
Hypothesis Hisdir : i_isdir (d_dir_inode x) = true.
Hypothesis Hlive : i_dead (d_dir_inode x) = false.
Hypothesis Hord : key_order (d_entries x).
Hypothesis Hmax :
  Forall (fun e => deh_offset e <= max_reiserfs_offset) (d_entries x).
Hypothesis Hfuel : (List.length (d_entries x) < fuel)%nat.


(** The enumeration of an attribute directory that is in order, when
    nothing fails. *)
Lemma xattr_readdir_quiet (B : Type) (filldir : filldir_t B) (b : B)
      (P : B -> super_block -> Prop) :
  (forall b s, P b s -> readdir_view s (D_xadir (xa_dir_name i))
                        = readdir_view (cached sb) (D_xadir (xa_dir_name i))) ->
  (forall b s e small_buf r b1 s1,
      P b s -> In e (d_entries x) -> shown sb e = true ->
      filldir b (local_buf_bytes small_buf (de_name e) (d_reclen_of e)
                                 (deh_offset e))
              (d_reclen_of e) (deh_offset e)
              (k_objectid (de_inode e)) s = (r, b1, s1) ->
      P b1 s1) ->
  P b (cached sb) ->
  exists b' s',
    xattr_readdir fuel (D_xadir (xa_dir_name i)) filldir b (cached sb)
    = Some (0, b', s')
    /\ P b' s'
    /\ (b', s') = feed filldir (delivered sb (d_entries x)) small_buf_0 b
                       (cached sb).
Proof.
  intros Hview Hstep HP.
  assert (Hent : entries_of (cached sb) (D_xadir (xa_dir_name i))
                 = d_entries x)
    by (cbn [entries_of]; rewrite xa_dir_of_cached, Hx; reflexivity).
  unfold xattr_readdir, the_inode; cbn [d_inode].
  rewrite xa_dir_of_cached, Hx; cbn [option_map].
  rewrite Hisdir, Hlive; cbn [negb].
  unfold __xattr_readdir.
  destruct (xattr_readdir_loop_feed B filldir (D_xadir (xa_dir_name i))
              (cached sb) P (q_item_moved _ Hrq) Hview)
    with (suf := d_entries x) (pre := @nil dirent) (fuel := fuel)
         (step := 0%nat) (pos := max_reiserfs_offset)
         (small_buf := small_buf_0) (b := b) (s := cached sb)
    as (r & b' & s' & Hloop & HP' & Hres); try assumption.
  - intros b0 s0 e0 small_buf r0 b1 s1 HP0 Hin0 Hshown0 Hfill0.
    rewrite Hent in Hin0.
    eapply Hstep; eassumption.
  - constructor.
  - destruct (Hres Hrq) as [-> Hfeed].
    exists b', s'; auto.
Qed.


End Listing.


(** ** The ownership cascade *)

Lemma s_events_update_inode (sb : super_block) (d : dentry)
      (f : inode -> inode) :
  s_events (update_inode sb d f) = s_events sb.
Proof.
  destruct d; cbn [update_inode]; unfold sb_update_entries;
    rewrite ?s_events_update_dir; try reflexivity.
  - destruct (priv_root sb); reflexivity.
  - unfold sb_with_xa_root.
    destruct (xa_root_of sb); [| reflexivity].
    destruct (priv_root sb); reflexivity.
Qed.

(** Whatever fails, [notify_change] adds at most its own event. *)
Lemma s_events_notify_change (sb : super_block) (d : dentry) (a : iattr) :
  s_events (snd (notify_change sb d a)) = s_events sb
  \/ exists objectid,
       s_events (snd (notify_change sb d a))
       = Ev_notify_change d objectid a :: s_events sb.
Proof.
  unfold notify_change.
  destruct (o_notify_change orc d); cbn [snd]; [left; reflexivity |].
  right; eexists; rewrite s_events_update_inode; reflexivity.
Qed.

(** Opening the directory without leave to create it changes nothing
    but the cached dentry, whatever fails. *)
Lemma open_xa_dir_readonly_events (sb : super_block) (i : inode) :
  s_events (snd (open_xa_dir sb i FL_READONLY)) = s_events sb.
Proof.
  unfold open_xa_dir, get_xa_root, __get_xa_root.
  change (may_create FL_READONLY) with false; cbv iota.
  destruct (xattr_root sb) as [d |].
  - destruct (lookup_one_len (xa_dir_name i) d) as [e | xadir];
      [reflexivity |].
    destruct (positive sb xadir); reflexivity.
  - destruct (priv_root sb); [| reflexivity].
    destruct (lookup_one_len XAROOT_NAME D_privroot) as [e | xaroot];
      [reflexivity |].
    destruct (positive sb xaroot); cbn [negb]; [| reflexivity].
    destruct (lookup_one_len (xa_dir_name i) xaroot) as [e | xadir];
      [reflexivity |].
    destruct (positive (sb_with_xattr_root sb (Some xaroot)) xadir);
      reflexivity.
Qed.

(** What the consumer keeps true, the enumeration keeps true. *)
Lemma xattr_readdir_loop_inv (B : Type) (filldir : filldir_t B)
      (dir : dentry) (J : B -> super_block -> Prop) :
  (forall b name len off ino s r b1 s1,
      J b s -> filldir b name len off ino s = (r, b1, s1) -> J b1 s1) ->
  forall (fuel step : nat) (pos : Z) (small_buf : string) (b : B)
         (s : super_block) r b' s',
    J b s ->
    xattr_readdir_loop fuel step dir filldir pos small_buf b s
    = Some (r, b', s') ->
    J b' s'.
Proof.
  intros Hstep; induction fuel as [| fuel IH];
    intros step pos small_buf b s r b' s' HJ Hrun;
    cbn [xattr_readdir_loop] in Hrun; [discriminate |].
  destruct (xattr_readdir_body step s dir pos)
    as [err | next | name len off ino next].
  - injection Hrun as <- <- <-; exact HJ.
  - eapply IH; eassumption.
  - cbv zeta in Hrun.
    destruct (filldir b (local_buf_bytes small_buf name len off) len off
                      ino s) as [[r1 b1] s1] eqn:Hfill.
    pose proof (Hstep _ _ _ _ _ _ _ _ _ HJ Hfill) as HJ1.
    destruct (r1 <? 0).
    + injection Hrun as <- <- <-; exact HJ1.
    + eapply IH; eassumption.
Qed.

Lemma iattr_restore (attrs : iattr) (v : Z) :
  iattr_with_valid (iattr_with_valid attrs v) (ia_valid attrs) = attrs.
Proof. destruct attrs; reflexivity. Qed.

Lemma iattr_restore_same (attrs : iattr) :
  iattr_with_valid attrs (ia_valid attrs) = attrs.
Proof. destruct attrs; reflexivity. Qed.

Lemma only_applied_notify (a : iattr) (ev0 : list event)
      (sb : super_block) (d : dentry) :
  only_applied a ev0 sb -> only_applied a ev0 (snd (notify_change sb d a)).
Proof.
  intros (new & Hev & Hall).
  destruct (s_events_notify_change sb d a) as [H | [oid H]].
  - exists new; rewrite H; auto.
  - exists (Ev_notify_change d oid a :: new); rewrite H, Hev.
    split; [reflexivity |].
    constructor; [exists d, oid; reflexivity | exact Hall].
Qed.

Lemma chown_filler_only_applied (a : iattr) (ev0 : list event)
      (b : reiserfs_chown_buf) (name : string) (len off ino : Z)
      (s : super_block) r b1 s1 :
  cb_attrs b = a /\ only_applied a ev0 s ->
  reiserfs_chown_xattrs_filler b name len off ino s = (r, b1, s1) ->
  cb_attrs b1 = a /\ only_applied a ev0 s1.
Proof.
  intros [Ha Hev]; unfold reiserfs_chown_xattrs_filler.
  generalize (name_of name len); clear name; intros name.
  destruct (lookup_one_len name (cb_xadir b)) as [e | xafile];
    [intros [= <- <- <-]; auto |].
  destruct (d_inode s xafile) as [xi |]; [| intros [= <- <- <-]; auto].
  destruct (i_isdir xi); cbn [negb]; [intros [= <- <- <-]; auto |].
  pose proof (only_applied_notify a ev0 s xafile Hev) as H.
  rewrite Ha.
  destruct (notify_change s xafile a) as [err s2]; cbn [snd] in H.
  intros [= <- <- <-]; auto.
Qed.

(** Whatever fails: the caller's attributes come back as they were,
    and only the restricted attributes were applied. *)
Lemma reiserfs_chown_xattrs_frame (fuel : nat) (sb : super_block)
      (i : inode) (attrs : iattr) r attrs' sb' :
  reiserfs_chown_xattrs fuel sb i attrs = Some (r, attrs', sb') ->
  attrs' = attrs /\ only_applied (chown_attrs attrs) (s_events sb) sb'.
Proof.
  unfold reiserfs_chown_xattrs; cbv zeta.
  assert (H0 : only_applied (chown_attrs attrs) (s_events sb) sb)
    by (exists []; split; [reflexivity | constructor]).
  destruct (i_priv_object i
            || match i_sd_version i with
               | STAT_DATA_V1 => true
               | STAT_DATA_V2 => false
               end
            || negb (s_xattrs sb)).
  { intros [= <- <- <-]; auto. }
  pose proof (open_xa_dir_readonly_events sb i) as Hopen.
  destruct (open_xa_dir sb i FL_READONLY) as [[e | dir] sb1];
    cbn [snd] in Hopen.
  { intros [= <- <- <-]; split; [apply iattr_restore_same |].
    destruct H0 as (new & Hev & Hall); exists new; rewrite Hopen; auto. }
  assert (H1 : only_applied (chown_attrs attrs) (s_events sb) sb1)
    by (destruct H0 as (new & Hev & Hall); exists new; rewrite Hopen; auto).
  destruct (positive sb1 dir); cbn [negb].
  2: { intros [= <- <- <-]; split; [apply iattr_restore_same | exact H1]. }
  destruct (dentry_open dir) as [e | fp].
  { intros [= <- <- <-]; split; [apply iattr_restore_same | exact H1]. }
  fold (chown_attrs attrs).
  destruct (xattr_readdir fuel fp reiserfs_chown_xattrs_filler
                          (mk_chown_buf i dir (chown_attrs attrs)) sb1)
    as [[[err b2] sb2] |] eqn:Hrun; [| discriminate].
  assert (H2 : cb_attrs b2 = chown_attrs attrs
               /\ only_applied (chown_attrs attrs) (s_events sb) sb2).
  { unfold xattr_readdir in Hrun.
    destruct (negb (i_isdir (the_inode sb1 fp)));
      [injection Hrun as <- <- <-; auto |].
    destruct (i_dead (the_inode sb1 fp));
      [injection Hrun as <- <- <-; auto |].
    unfold __xattr_readdir in Hrun.
    eapply (xattr_readdir_loop_inv _ _ _
              (fun b s => cb_attrs b = chown_attrs attrs
                          /\ only_applied (chown_attrs attrs)
                                          (s_events sb) s));
      [| | exact Hrun]; [| auto].
    intros; eapply chown_filler_only_applied; eassumption. }
  destruct H2 as [_ H2].
  destruct (negb (err =? 0)).
  { intros [= <- <- <-]; split; [apply iattr_restore | exact H2]. }
  pose proof (only_applied_notify _ _ sb2 dir H2) as H3.
  destruct (notify_change sb2 dir (chown_attrs attrs)) as [err3 sb3].
  intros [= <- <- <-]; split; [apply iattr_restore | exact H3].
Qed.

Lemma map_dirent_key_update_entry (name : string) (f : inode -> inode)
      (l : list dirent) :
  (forall x, k_objectid (f x) = k_objectid x /\ i_isdir (f x) = i_isdir x) ->
  map dirent_key (update_entry name f l) = map dirent_key l.
Proof.
  intros Hf; induction l as [| e l IH]; cbn [update_entry map];
    [reflexivity |].
  destruct (entry_named name e); cbn [map].
  - f_equal; unfold dirent_key; cbn [de_name deh_offset de_visible de_inode].
    destruct (Hf (de_inode e)) as [-> ->]; reflexivity.
  - rewrite IH; reflexivity.
Qed.

Lemma sb_update_dir_flags (sb : super_block) (dir : string)
      (f : directory -> directory) :
  s_max_name (sb_update_dir sb dir f) = s_max_name sb
  /\ s_xattrs (sb_update_dir sb dir f) = s_xattrs sb
  /\ s_old_format_only (sb_update_dir sb dir f) = s_old_format_only sb
  /\ option_map (fun p => k_objectid (pr_inode p))
                (priv_root (sb_update_dir sb dir f))
     = option_map (fun p => k_objectid (pr_inode p)) (priv_root sb).
Proof.
  unfold sb_update_dir, sb_with_xa_root, xa_root_of.
  destruct (priv_root sb) as [p |] eqn:Ep; [| rewrite Ep; auto].
  destruct (pr_xattrs p); cbn; rewrite ?Ep; auto.
Qed.

(** An application of attributes to an attribute file leaves the
    directory as the enumeration sees it. *)
Lemma same_directory_update (sb0 : super_block) (dir name : string)
      (a : iattr) (ev : event) (s : super_block) :
  same_directory sb0 dir s ->
  same_directory sb0 dir
    (update_inode (sb_with_event s ev) (D_xafile dir name)
                  (inode_setattr a)).
Proof.
  intros [Hview Hino]; unfold same_directory.
  rewrite <- Hview, <- Hino.
  cbn [update_inode]; unfold sb_update_entries.
  set (s1 := sb_with_event s ev).
  split.
  - unfold readdir_view.
    destruct (sb_update_dir_flags s1 dir
                (fun x => mk_directory (d_dir_inode x)
                            (update_entry name (inode_setattr a)
                                          (d_entries x))))
      as (-> & -> & -> & ->).
    cbn [entries_of]; rewrite xa_dir_of_update_dir.
    change (xa_dir_of s1 dir) with (xa_dir_of s dir).
    destruct (xa_dir_of s dir) as [x |]; cbn [option_map d_entries];
      [| reflexivity].
    rewrite map_dirent_key_update_entry by (intros; split; reflexivity).
    reflexivity.
  - rewrite xa_dir_of_update_dir.
    change (xa_dir_of s1 dir) with (xa_dir_of s dir).
    destruct (xa_dir_of s dir); reflexivity.
Qed.

(** Whatever fails, the consumer of the cascade leaves the directory
    as the enumeration sees it. *)
Lemma chown_filler_same_directory (sb0 : super_block) (dir : string)
      (b : reiserfs_chown_buf) (name : string) (len off ino : Z)
      (s : super_block) r b1 s1 :
  cb_xadir b = D_xadir dir /\ same_directory sb0 dir s ->
  reiserfs_chown_xattrs_filler b name len off ino s = (r, b1, s1) ->
  cb_xadir b1 = D_xadir dir /\ same_directory sb0 dir s1.
Proof.
  intros [Hd Hs]; unfold reiserfs_chown_xattrs_filler; rewrite Hd.
  generalize (name_of name len); clear name; intros name.
  unfold lookup_one_len.
  destruct (o_lookup orc (D_xadir dir) name);
    [intros [= <- <- <-]; auto |].
  destruct (d_inode s (D_xafile dir name)) as [xi |];
    [| intros [= <- <- <-]; auto].
  destruct (i_isdir xi); cbn [negb]; [intros [= <- <- <-]; auto |].
  unfold notify_change.
  destruct (o_notify_change orc (D_xafile dir name));
    intros [= <- <- <-]; [auto |].
  split; [exact Hd | apply same_directory_update; exact Hs].
Qed.

Lemma find_entry_keys (name : string) (l l' : list dirent) :
  map dirent_key l = map dirent_key l' ->
  option_map dirent_key (find_entry name l)
  = option_map dirent_key (find_entry name l').
Proof.
  intros H.
  apply (find_keys
           (fun k => snd (fst (fst k))
                     && String.eqb (fst (fst (fst (fst k)))) name)
           l l' H).
Qed.

Lemma find_entry_unique (l : list dirent) (e : dirent) :
  names_unique l -> In e l -> de_visible e = true ->
  find_entry (de_name e) l = Some e.
Proof.
  unfold names_unique, find_entry.
  induction l as [| h l IH]; intros Hnd Hin Hvis; [contradiction |].
  cbn [find]; unfold entry_named at 1.
  cbn [filter] in Hnd.
  destruct (de_visible h) eqn:Hh; cbn [andb].
  - cbn [map] in Hnd; apply NoDup_cons_iff in Hnd; destruct Hnd as [Hnot Hnd].
    destruct (String.eqb_spec (de_name h) (de_name e)) as [Heq | Hneq].
    + destruct Hin as [-> | Hin]; [reflexivity |].
      exfalso; apply Hnot; rewrite Heq.
      apply in_map, filter_In; auto.
    + destruct Hin as [-> | Hin]; [congruence |].
      apply IH; assumption.
  - destruct Hin as [-> | Hin]; [congruence |].
    apply IH; assumption.
Qed.

Lemma chown_events_cons (dir : string) (a : iattr) (e : dirent)
      (rest : list dirent) :
  chown_events dir a (e :: rest)
  = if i_isdir (de_inode e) then chown_events dir a rest
    else Ev_notify_change (D_xafile dir (de_name e))
                          (k_objectid (de_inode e)) a
         :: chown_events dir a rest.
Proof.
  unfold chown_events; cbn [filter].
  destruct (i_isdir (de_inode e)); reflexivity.
Qed.

Section Cascade.

Variable sb0 : super_block.
Variable dn : string.
Variable x : directory.
Variable a : iattr.

Hypothesis Hq : vfs_quiet orc.
Hypothesis Hx : xa_dir_of sb0 dn = Some x.
Hypothesis Hunique : names_unique (d_entries x).

(** The entry the consumer looks up by name while the cascade runs is
    the entry the enumeration handed over. *)
Lemma chown_lookup (s : super_block) (e : dirent) :
  same_directory sb0 dn s -> In e (d_entries x) -> de_visible e = true ->
  exists xi,
    d_inode s (D_xafile dn (de_name e)) = Some xi
    /\ k_objectid xi = k_objectid (de_inode e)
    /\ i_isdir xi = i_isdir (de_inode e).
Proof.
  intros [Hview _] Hin Hvis.
  unfold readdir_view in Hview.
  assert (Hkeys : map dirent_key (entries_of s (D_xadir dn))
                  = map dirent_key (d_entries x)).
  { injection Hview as Hk _ _ _ _.
    cbn [entries_of] in Hk |- *; rewrite Hx in Hk; exact Hk. }
  pose proof (find_entry_keys (de_name e) _ _ Hkeys) as Hf.
  rewrite (find_entry_unique _ e Hunique Hin Hvis) in Hf.
  rewrite d_inode_xafile.
  destruct (find_entry (de_name e) (entries_of s (D_xadir dn))) as [e' |];
    [| discriminate].
  cbn [option_map] in Hf |- *.
  injection Hf as _ _ _ Hoid Hdir.
  exists (de_inode e'); auto.
Qed.

(** When nothing fails the consumer of the cascade applies the
    attributes to every entry it is handed that is not a directory. *)
Lemma feed_chown (l : list dirent) :
  forall (small_buf : string) (b : reiserfs_chown_buf) (s : super_block),
    (forall e, In e l -> In e (d_entries x) /\ de_visible e = true) ->
    cb_xadir b = D_xadir dn -> cb_attrs b = a ->
    same_directory sb0 dn s ->
    same_directory sb0 dn
      (snd (feed reiserfs_chown_xattrs_filler l small_buf b s))
    /\ s_events (snd (feed reiserfs_chown_xattrs_filler l small_buf b s))
       = rev (chown_events dn a l) ++ s_events s.
Proof.
  induction l as [| e rest IH]; intros small_buf b s Hl Hd Ha Hs.
  - cbn [feed snd chown_events filter map rev app]; auto.
  - destruct (Hl e (or_introl eq_refl)) as [Hin Hvis].
    destruct (chown_lookup s e Hs Hin Hvis) as (xi & Hxi & Hoid & Hdir).
    set (s1 := update_inode
                 (sb_with_event s
                    (Ev_notify_change (D_xafile dn (de_name e))
                                      (k_objectid (de_inode e)) a))
                 (D_xafile dn (de_name e)) (inode_setattr a)).
    assert (Hfill : reiserfs_chown_xattrs_filler
                      b (local_buf_bytes small_buf (de_name e)
                                         (d_reclen_of e) (deh_offset e))
                      (d_reclen_of e) (deh_offset e)
                      (k_objectid (de_inode e)) s
                    = if i_isdir (de_inode e) then (0, b, s)
                      else (0, b, s1)).
    { unfold reiserfs_chown_xattrs_filler; rewrite name_of_local_buf.
      rewrite Hd, (lookup_one_len_quiet Hq), Hxi, Hdir, Ha.
      destruct (i_isdir (de_inode e)); cbn [negb]; [reflexivity |].
      rewrite (notify_change_quiet Hq).
      unfold the_inode; rewrite Hxi, Hoid; reflexivity. }
    cbn [feed]; rewrite Hfill, chown_events_cons.
    assert (Hrest : forall e', In e' rest ->
                               In e' (d_entries x) /\ de_visible e' = true)
      by (intros e' He'; apply Hl; right; exact He').
    destruct (i_isdir (de_inode e)).
    + change (0 <? 0) with false; cbv iota.
      apply IH; auto.
    + change (0 <? 0) with false; cbv iota.
      destruct (IH (small_buf_after small_buf (de_name e) (d_reclen_of e))
                   b s1) as [Hs1 Hev1]; auto.
      { apply same_directory_update; exact Hs. }
      split; [exact Hs1 |].
      rewrite Hev1; subst s1.
      rewrite s_events_update_inode; cbn [s_events sb_with_event rev].
      rewrite <- app_assoc; reflexivity.
Qed.

End Cascade.

Lemma chown_filler_buf (b : reiserfs_chown_buf) (name : string)
      (len off ino : Z) (s : super_block) r b1 s1 :
  reiserfs_chown_xattrs_filler b name len off ino s = (r, b1, s1) -> b1 = b.
Proof.
  unfold reiserfs_chown_xattrs_filler.
  generalize (name_of name len); clear name; intros name.
  destruct (lookup_one_len name (cb_xadir b)); [congruence |].
  destruct (d_inode s p); [| congruence].
  destruct (negb (i_isdir i)); [| congruence].
  destruct (notify_change s p (cb_attrs b)); congruence.
Qed.

Lemma above_dot_dot_incl (l : list dirent) (e : dirent) :
  In e (above_dot_dot l) -> In e l.
Proof.
  induction l as [| h l IH]; cbn [above_dot_dot]; [auto |].
  destruct (deh_offset h <=? DOT_DOT_OFFSET); [contradiction |].
  intros [-> | H]; [left; reflexivity | right; auto].
Qed.

Lemma delivered_In (sb : super_block) (l : list dirent) (e : dirent) :
  In e (delivered sb l) -> In e l /\ de_visible e = true.
Proof.
  unfold delivered; intros H; apply filter_In in H; destruct H as [Hin Hs].
  split; [apply above_dot_dot_incl; exact Hin |].
  unfold shown in Hs.
  destruct (de_visible e); [reflexivity | discriminate].
Qed.

(** Without leave to create it the directory is opened or not, and
    nothing but the cached dentry changes, whatever fails. *)
Lemma open_xa_dir_readonly_any (sb : super_block) (i : inode) :
  sb_ok sb ->
  (exists e sb1, open_xa_dir sb i FL_READONLY = (ERR_PTR e, sb1))
  \/ (exists sb1,
        open_xa_dir sb i FL_READONLY = (PTR (D_xadir (xa_dir_name i)), sb1)
        /\ (sb1 = sb \/ sb1 = cached sb)).
Proof.
  intros Hok; unfold open_xa_dir, get_xa_root, __get_xa_root, lookup_one_len.
  change (may_create FL_READONLY) with false; cbv iota.
  unfold sb_ok in Hok.
  destruct (xattr_root sb) as [d |].
  - destruct Hok as [-> _]; cbv beta iota zeta.
    destruct (o_lookup orc D_xaroot (xa_dir_name i)); [left; eauto |].
    destruct (positive sb (D_xadir (xa_dir_name i))) eqn:Hpos;
      cbn [negb Z.eqb]; rewrite ?Hpos; cbn [negb];
      [right; eauto | left; eauto].
  - destruct (priv_root sb); [| left; eauto].
    destruct (o_lookup orc D_privroot XAROOT_NAME); [left; eauto |].
    rewrite String.eqb_refl.
    destruct (positive sb D_xaroot); cbn [negb]; [| left; eauto].
    cbv beta iota zeta.
    destruct (o_lookup orc D_xaroot (xa_dir_name i)); [left; eauto |].
    destruct (positive (sb_with_xattr_root sb (Some D_xaroot))
                       (D_xadir (xa_dir_name i))) eqn:Hpos;
      cbn [negb Z.eqb]; rewrite ?Hpos; cbn [negb];
      [right; exists (cached sb); eauto | left; eauto].
Qed.

(** C8.  The ownership cascade.  Whatever fails,
    [reiserfs_chown_xattrs] returns the caller's attributes with the
    [ia_valid] they came with, and every change it made to the tree is
    an application of these attributes with [ia_valid] cut down to
    the owner, the group and the change time.  It returns unless an
    item keeps moving under the enumeration.  When nothing fails it
    returns 0 and has applied the restricted attributes to every
    entry of the attribute directory that is handed over and is not a
    directory, from the highest offset down, and then to the
    directory itself. *)
Theorem chown_xattrs_cascade
        (sb : super_block) (i : inode) (attrs : iattr) (x : directory)
        (fuel : nat) :
  let dn := xa_dir_name i in
  let a := chown_attrs attrs in
  sb_ok sb ->
  xa_dir_of sb dn = Some x ->
  key_order (d_entries x) ->
  Forall (fun e => deh_offset e <= max_reiserfs_offset) (d_entries x) ->
  names_unique (d_entries x) ->
  (List.length (d_entries x) < fuel)%nat ->
  Z.land (ia_valid a) (Z.lnot chown_mask) = 0
  /\ (forall r attrs' sb',
        reiserfs_chown_xattrs fuel sb i attrs = Some (r, attrs', sb') ->
        attrs' = attrs /\ only_applied a (s_events sb) sb')
  /\ ((forall k, o_item_moved orc k = false) ->
      exists r sb',
        reiserfs_chown_xattrs fuel sb i attrs = Some (r, attrs, sb'))
  /\ (vfs_quiet orc -> readdir_quiet orc ->
      i_priv_object i = false -> i_sd_version i = STAT_DATA_V2 ->
      s_xattrs sb = true ->
      i_isdir (d_dir_inode x) = true -> i_dead (d_dir_inode x) = false ->
      exists sb',
        reiserfs_chown_xattrs fuel sb i attrs = Some (0, attrs, sb')
        /\ s_events sb'
           = Ev_notify_change (D_xadir dn) (k_objectid (d_dir_inode x)) a
             :: rev (chown_events dn a (delivered sb (d_entries x)))
             ++ s_events sb).
Proof.
  cbv zeta; intros Hok Hx Hord Hmax Huniq Hfuel.
  split.
  { unfold chown_attrs, iattr_with_valid; cbn [ia_valid].
    rewrite <- Z.land_assoc.
    change (Z.land chown_mask (Z.lnot chown_mask)) with 0.
    apply Z.land_0_r. }
  split; [intros r attrs' sb'; apply reiserfs_chown_xattrs_frame |].
  split.
  - (* it returns *)
    intros Hmoved.
    assert (Hret : exists r attrs' sb',
               reiserfs_chown_xattrs fuel sb i attrs = Some (r, attrs', sb')).
    { unfold reiserfs_chown_xattrs; cbv zeta.
      destruct (i_priv_object i
                || match i_sd_version i with
                   | STAT_DATA_V1 => true
                   | STAT_DATA_V2 => false
                   end
                || negb (s_xattrs sb)); [eauto |].
      destruct (open_xa_dir_readonly_any sb i Hok)
        as [(e & sb1 & ->) | (sb1 & -> & Hsb1)]; [eauto |].
      destruct (positive sb1 (D_xadir (xa_dir_name i))); cbn [negb];
        [| eauto].
      unfold dentry_open.
      destruct (o_dentry_open orc (D_xadir (xa_dir_name i))); [eauto |].
      assert (Hent : entries_of sb1 (D_xadir (xa_dir_name i)) = d_entries x)
        by (destruct Hsb1 as [-> | ->]; cbn [entries_of];
            rewrite ?xa_dir_of_cached, Hx; reflexivity).
      assert (Hrun : exists r b' s',
                 xattr_readdir fuel (D_xadir (xa_dir_name i))
                   reiserfs_chown_xattrs_filler
                   (mk_chown_buf i (D_xadir (xa_dir_name i))
                      (iattr_with_valid attrs
                         (Z.land (ia_valid attrs) chown_mask))) sb1
                 = Some (r, b', s')).
      { unfold xattr_readdir.
        destruct (negb (i_isdir (the_inode sb1 (D_xadir (xa_dir_name i)))));
          [eauto |].
        destruct (i_dead (the_inode sb1 (D_xadir (xa_dir_name i))));
          [eauto |].
        unfold __xattr_readdir.
        destruct (xattr_readdir_loop_feed _ reiserfs_chown_xattrs_filler
                    (D_xadir (xa_dir_name i)) sb1
                    (fun b s => cb_xadir b = D_xadir (xa_dir_name i)
                                /\ same_directory sb1 (xa_dir_name i) s)
                    Hmoved)
          with (suf := d_entries x) (pre := @nil dirent) (fuel := fuel)
               (step := 0%nat) (pos := max_reiserfs_offset)
               (small_buf := small_buf_0)
               (b := mk_chown_buf i (D_xadir (xa_dir_name i))
                       (iattr_with_valid attrs
                          (Z.land (ia_valid attrs) chown_mask)))
               (s := sb1)
          as (r & b' & s' & Hloop & _); try assumption.
        - intros b s [_ [Hview _]]; exact Hview.
        - intros b s e small_buf r b1 s1 HP _ _ Hfill.
          eapply chown_filler_same_directory; eassumption.
        - constructor.
        - split; [reflexivity | split; reflexivity].
        - eauto. }
      destruct Hrun as (r & b' & s' & ->).
      destruct (negb (r =? 0)); [eauto |].
      destruct (notify_change s' (D_xadir (xa_dir_name i))
                  (iattr_with_valid attrs
                     (Z.land (ia_valid attrs) chown_mask))); eauto. }
    destruct Hret as (r & attrs' & sb' & Hret).
    destruct (reiserfs_chown_xattrs_frame _ _ _ _ _ _ _ Hret) as [-> _].
    eauto.
  - (* nothing fails *)
    intros Hq Hrq Hpriv Hv Hxattrs Hisdir Hlive.
    unfold reiserfs_chown_xattrs; cbv zeta.
    rewrite Hpriv, Hv, Hxattrs; cbn [negb orb].
    rewrite (open_xa_dir_found Hq sb i FL_READONLY x Hok Hx).
    rewrite positive_xadir, xa_dir_of_cached, Hx; cbn [negb].
    rewrite (dentry_open_quiet Hq).
    fold (chown_attrs attrs).
    set (a := chown_attrs attrs).
    set (dn := xa_dir_name i) in *.
    set (b0 := mk_chown_buf i (D_xadir dn) a).
    destruct (xattr_readdir_quiet sb i x fuel Hrq Hx Hisdir Hlive Hord Hmax
                Hfuel _ reiserfs_chown_xattrs_filler b0
                (fun b s => b = b0 /\ same_directory (cached sb) dn s))
      as (b' & s' & Hrun & [-> Hsame] & Hfeed).
    + intros b s [_ [Hview _]]; exact Hview.
    + intros b s e small_buf r b1 s1 [-> Hs] _ _ Hfill.
      split; [eapply chown_filler_buf; eassumption |].
      eapply (chown_filler_same_directory (cached sb) dn b0);
        [| exact Hfill].
      split; [reflexivity | exact Hs].
    + split; [reflexivity | split; reflexivity].
    + fold dn in Hrun; rewrite Hrun; cbn [Z.eqb negb].
      destruct (feed_chown (cached sb) dn x a Hq Hx Huniq
                  (delivered sb (d_entries x)) small_buf_0 b0 (cached sb))
        as [_ Hev]; try reflexivity.
      { intros e He; eapply delivered_In; exact He. }
      { split; reflexivity. }
      rewrite <- Hfeed in Hev; cbn [snd] in Hev.
      rewrite (notify_change_quiet Hq).
      replace (iattr_with_valid a (ia_valid attrs)) with attrs
        by (subst a; unfold chown_attrs; symmetry; apply iattr_restore).
      eexists; split; [reflexivity |].
      rewrite s_events_update_inode; cbn [s_events sb_with_event].
      rewrite Hev.
      destruct Hsame as [_ Hino].
      rewrite xa_dir_of_cached, Hx in Hino; cbn [option_map] in Hino.
      unfold the_inode; cbn [d_inode].
      destruct (xa_dir_of s' dn) as [x' |]; [| discriminate].
      cbn [option_map] in Hino |- *.
      injection Hino as ->; reflexivity.
Qed.

(** * Further properties *)

(** ** Reading changes nothing *)

Lemma sb_with_xattr_root_same (sb : super_block) :
  sb_with_xattr_root sb (xattr_root sb) = sb.
Proof. destruct sb; reflexivity. Qed.

Lemma only_cached_refl (sb : super_block) : only_cached sb sb.
Proof. exists (xattr_root sb); symmetry; apply sb_with_xattr_root_same. Qed.

Lemma only_cached_trans (sb sb1 sb2 : super_block) :
  only_cached sb sb1 -> only_cached sb1 sb2 -> only_cached sb sb2.
Proof. intros [c ->] [c' ->]; exists c'; reflexivity. Qed.

Lemma only_cached_untouched (sb sb' : super_block) :
  only_cached sb sb' -> untouched sb sb'.
Proof. intros [c ->]; split; reflexivity. Qed.

(** Whatever fails, opening the directory without leave to create it
    changes the cached dentry at most. *)
Lemma open_xa_dir_readonly_cache (sb : super_block) (i : inode) :
  only_cached sb (snd (open_xa_dir sb i FL_READONLY)).
Proof.
  unfold open_xa_dir, get_xa_root, __get_xa_root.
  change (may_create FL_READONLY) with false; cbv iota.
  destruct (xattr_root sb) as [d |].
  - destruct (lookup_one_len (xa_dir_name i) d) as [e | xadir];
      [apply only_cached_refl |].
    destruct (positive sb xadir); apply only_cached_refl.
  - destruct (priv_root sb); [| apply only_cached_refl].
    destruct (lookup_one_len XAROOT_NAME D_privroot) as [e | xaroot];
      [apply only_cached_refl |].
    destruct (positive sb xaroot); cbn [negb]; [| apply only_cached_refl].
    destruct (lookup_one_len (xa_dir_name i) xaroot) as [e | xadir];
      [eexists; reflexivity |].
    destruct (positive (sb_with_xattr_root sb (Some xaroot)) xadir);
      eexists; reflexivity.
Qed.

Lemma open_xa_file_readonly_cache (sb : super_block) (i : inode)
      (name : string) :
  only_cached sb (snd (open_xa_file sb i name FL_READONLY)).
Proof.
  unfold open_xa_file, get_xa_file_dentry.
  pose proof (open_xa_dir_readonly_cache sb i) as Hdir.
  destruct (open_xa_dir sb i FL_READONLY) as [[e | xadir] sb1];
    cbn [snd] in Hdir |- *; [exact Hdir |].
  destruct (positive sb1 xadir); cbn [negb snd]; [| exact Hdir].
  destruct (lookup_one_len name xadir) as [e | xafile]; [exact Hdir |].
  change (has_flag FL_READONLY XATTR_CREATE) with false.
  change (has_flag FL_READONLY XATTR_REPLACE || has_flag FL_READONLY FL_READONLY)
    with true.
  destruct (positive sb1 xafile) eqn:Hpos; cbv iota.
  - rewrite Hpos; exact Hdir.
  - rewrite Hpos; exact Hdir.
Qed.

(** X1.  Whatever its collaborators do and whatever is stored,
    [reiserfs_xattr_get] leaves the tree and the log of operations as
    they are: of the super block only the cached dentry of the
    attribute root can change, and a size query leaves the absent
    buffer absent. *)
Theorem xattr_get_changes_nothing
        (fuel : nat) (sb : super_block) (i : inode) (name : string)
        (buffer : option (list Z)) (buffer_size : Z)
        (r : Z) (buffer' : option (list Z)) (sb' : super_block) :
  reiserfs_xattr_get fuel sb i name buffer buffer_size
  = Some (r, buffer', sb') ->
  only_cached sb sb' /\ untouched sb sb'
  /\ (buffer = None -> buffer' = None).
Proof.
  intros Hrun.
  enough (H : only_cached sb sb' /\ (buffer = None -> buffer' = None)).
  { destruct H as [H1 H2]; auto using only_cached_untouched. }
  revert Hrun; unfold reiserfs_xattr_get.
  destruct (i_sd_version i).
  { intros [= <- <- <-]; split; [apply only_cached_refl | auto]. }
  pose proof (open_xa_file_readonly_cache sb i name) as Hopen.
  destruct (open_xa_file sb i name FL_READONLY) as [[e | fp] sb1];
    cbn [snd] in Hopen.
  { intros [= <- <- <-]; auto. }
  cbv zeta.
  destruct buffer as [buf |].
  2: { intros [= <- <- <-]; auto. }
  destruct (buffer_size <? usub (i_size (the_inode sb1 fp) mod SIZE_MAX1)
                                XATTR_HEADER_SIZE).
  { intros [= <- <- <-]; split; [exact Hopen | discriminate]. }
  destruct (xattr_get_loop fuel fp (i_data (the_inode sb1 fp))
                           (i_size (the_inode sb1 fp) mod SIZE_MAX1)
                           buf 0 0 0) as [[[err | hash] buf'] |];
    [| | discriminate].
  - intros [= <- <- <-]; split; [exact Hopen | discriminate].
  - destruct (negb _); intros [= <- <- <-];
      (split; [exact Hopen | discriminate]).
Qed.

(** Whatever the consumer of the enumeration is, if it leaves the
    super block alone then so does the enumeration. *)
Lemma xattr_readdir_keeps_sb (B : Type) (filldir : filldir_t B)
      (fuel : nat) (file : dentry) (b : B) (sb : super_block)
      (r : Z) (b' : B) (sb' : super_block) :
  (forall b name len off ino s, snd (filldir b name len off ino s) = s) ->
  xattr_readdir fuel file filldir b sb = Some (r, b', sb') -> sb' = sb.
Proof.
  intros Hfill; unfold xattr_readdir, __xattr_readdir.
  destruct (negb (i_isdir (the_inode sb file)));
    [intros [= <- <- <-]; reflexivity |].
  destruct (i_dead (the_inode sb file));
    [intros [= <- <- <-]; reflexivity |].
  intros Hrun.
  apply (xattr_readdir_loop_inv B filldir file (fun _ s => s = sb))
    with (2 := eq_refl) (3 := Hrun).
  intros b0 n l o ino s r1 b1 s1 -> H1.
  rewrite <- (Hfill b0 n l o ino sb), H1; reflexivity.
Qed.

Lemma reiserfs_listxattr_filler_sb (b : reiserfs_listxattr_buf)
      (name : string) (namelen offset ino : Z) (sb : super_block) :
  snd (reiserfs_listxattr_filler b name namelen offset ino sb) = sb.
Proof. rewrite reiserfs_listxattr_filler_eq; reflexivity. Qed.

(** X2.  Whatever its collaborators and the handlers do,
    [reiserfs_listxattr] leaves the tree and the log of operations as
    they are; only the cached dentry of the attribute root can
    change. *)
Theorem listxattr_changes_nothing
        (fuel : nat) (sb : super_block) (dentry : option inode)
        (buffer : option (list Z)) (size : Z)
        (r : Z) (buffer' : option (list Z)) (sb' : super_block) :
  reiserfs_listxattr fuel sb dentry buffer size = Some (r, buffer', sb') ->
  only_cached sb sb' /\ untouched sb sb'.
Proof.
  intros Hrun.
  enough (H : only_cached sb sb') by auto using only_cached_untouched.
  revert Hrun; unfold reiserfs_listxattr.
  destruct dentry as [i |];
    [| intros [= <- <- <-]; apply only_cached_refl].
  destruct (negb (s_xattrs sb)
            || match i_sd_version i with
               | STAT_DATA_V1 => true
               | STAT_DATA_V2 => false
               end);
    [intros [= <- <- <-]; apply only_cached_refl |].
  pose proof (open_xa_dir_readonly_cache sb i) as Hopen.
  destruct (open_xa_dir sb i FL_READONLY) as [[e | dir] sb1];
    cbn [snd] in Hopen; [intros [= <- <- <-]; exact Hopen |].
  destruct (dentry_open dir) as [e | fp];
    [intros [= <- <- <-]; exact Hopen |].
  cbv zeta.
  destruct (xattr_readdir fuel fp reiserfs_listxattr_filler _ sb1)
    as [[[err b1] sb2] |] eqn:Hread; [| discriminate].
  apply xattr_readdir_keeps_sb in Hread;
    [| apply reiserfs_listxattr_filler_sb].
  subst sb2.
  destruct (negb (err =? 0)); [intros [= <- <- <-]; exact Hopen |].
  destruct (_ && _); intros [= <- <- <-]; exact Hopen.
Qed.




(** ** Reading without reading the file *)

(** X4.  The size query and the check of the buffer size look at the
    size of the attribute file only: no page is read, so neither a
    failing page cache nor a damaged content matters, and no loop
    runs.  With a NULL buffer the result is the size of the file less
    the header, negative for a file shorter than its header; a buffer
    smaller than that is refused with [-ERANGE] and left as it is. *)
Theorem xattr_get_by_size_alone
        (Hq : vfs_quiet orc)
        (sb : super_block) (i : inode) (name : string) (f : inode)
        (fuel : nat) :
  let fp := D_xafile (xa_dir_name i) name in
  sb_ok sb -> i_sd_version i = STAT_DATA_V2 ->
  d_inode sb fp = Some f ->
  zlen (i_data f) < 2 ^ 31 ->
  (forall buffer_size,
      reiserfs_xattr_get fuel sb i name None buffer_size
      = Some (zlen (i_data f) - 8, None, cached sb))
  /\ (forall buf buffer_size,
         8 <= zlen (i_data f) -> buffer_size < zlen (i_data f) - 8 ->
         reiserfs_xattr_get fuel sb i name (Some buf) buffer_size
         = Some (neg ERANGE, Some buf, cached sb)).
Proof.
  cbv zeta; intros Hok Hv Hf Hlen.
  pose proof (zlen_nonneg (i_data f)) as Hnn.
  assert (Hopen : open_xa_file sb i name FL_READONLY
                  = (PTR (D_xafile (xa_dir_name i) name), cached sb))
    by (rewrite (open_xa_file_found Hq sb i name FL_READONLY f Hok Hf);
        reflexivity).
  assert (Hti : the_inode (cached sb) (D_xafile (xa_dir_name i) name) = f)
    by (unfold the_inode; rewrite d_inode_cached, Hf; reflexivity).
  assert (Hmod : zlen (i_data f) mod SIZE_MAX1 = zlen (i_data f))
    by (apply Z.mod_small; unfold SIZE_MAX1; lia).
  split.
  - intros buffer_size; unfold reiserfs_xattr_get.
    rewrite Hv, Hopen; cbv zeta; rewrite Hti.
    unfold i_size; rewrite Hmod.
    do 3 f_equal.
    unfold to_int, usub, XATTR_HEADER_SIZE, SIZE_MAX1.
    rewrite Z.mod_mod by lia.
    destruct (Z.ltb_spec ((zlen (i_data f) - 8) mod 2 ^ 32) (2 ^ 31));
      Z.div_mod_to_equations; lia.
  - intros buf buffer_size Hhdr Hsmall; unfold reiserfs_xattr_get.
    rewrite Hv, Hopen; cbv zeta; rewrite Hti.
    unfold i_size; rewrite Hmod.
    rewrite usub_small by (unfold XATTR_HEADER_SIZE, SIZE_MAX1; lia).
    unfold XATTR_HEADER_SIZE.
    destruct (Z.ltb_spec buffer_size (zlen (i_data f) - 8)); [| lia].
    reflexivity.
Qed.

(** X5.  A buffer larger than the value gets the value at its start
    and keeps the rest of its bytes. *)
Theorem xattr_get_larger_buffer
        (Hq : vfs_quiet orc)
        (sb : super_block) (i : inode) (name : string) (f : inode)
        (payload buf : list Z) (buffer_size : Z) (fuel : nat) :
  let fp := D_xafile (xa_dir_name i) name in
  pages_quiet orc fp -> sb_ok sb -> i_sd_version i = STAT_DATA_V2 ->
  d_inode sb fp = Some f ->
  i_data f = xattr_file payload ->
  Forall is_byte payload -> zlen payload + 8 < 2 ^ 31 ->
  zlen payload <= buffer_size ->
  (Z.to_nat (zlen payload) + 9 < fuel)%nat ->
  reiserfs_xattr_get fuel sb i name (Some buf) buffer_size
  = Some (zlen payload, Some (payload ++ zskipn (zlen payload) buf),
          cached sb).
Proof.
  cbv zeta; intros Hp Hok Hv Hf Hdata Hbytes Hlen Hsize Hfuel.
  destruct (xattr_file_header payload Hbytes) as (Hmagic & Hhash & Hskip & Hl).
  pose proof (zlen_nonneg payload) as Hnn.
  rewrite (reiserfs_xattr_get_eq Hq sb i name f buf buffer_size fuel Hp Hok
             Hv Hf); rewrite Hdata, ?Hl; try lia.
  rewrite Hmagic, Hhash, Hskip, !Z.eqb_refl; cbn [negb].
  rewrite memcpy_to_0; reflexivity.
Qed.

(** ** What an operation on one attribute leaves alone *)

Lemma files_kept_refl (sb : super_block) : files_kept sb sb.
Proof. intros d n _ _; reflexivity. Qed.

Lemma files_kept_trans (sb sb1 sb2 : super_block) :
  files_kept sb sb1 -> files_kept sb1 sb2 -> files_kept sb sb2.
Proof. intros H1 H2 d n Hd Hdd; rewrite H2, H1; auto. Qed.

Lemma files_kept_others (dir name : string) (sb sb' : super_block) :
  files_kept sb sb' -> others_kept dir name sb sb'.
Proof. intros H d n _; apply H. Qed.

Lemma others_kept_refl (dir name : string) (sb : super_block) :
  others_kept dir name sb sb.
Proof. intros d n _ _ _; reflexivity. Qed.

Lemma others_kept_trans (dir name : string) (sb sb1 sb2 : super_block) :
  others_kept dir name sb sb1 -> others_kept dir name sb1 sb2 ->
  others_kept dir name sb sb2.
Proof. intros H1 H2 d n Hn Hd Hdd; rewrite H2, H1; auto. Qed.

Lemma only_cached_files_kept (sb sb' : super_block) :
  only_cached sb sb' -> files_kept sb sb'.
Proof. intros [c ->] d n _ _; reflexivity. Qed.

Lemma entry_named_other (name name' : string) (e : dirent) :
  name' <> name -> entry_named name e = true -> entry_named name' e = false.
Proof.
  unfold entry_named; intros Hneq H.
  apply andb_true_iff in H as [Hv Hn]; apply String.eqb_eq in Hn.
  rewrite Hv; cbn [andb]; apply String.eqb_neq; congruence.
Qed.

Lemma find_entry_update_other (name name' : string) (f : inode -> inode)
      (l : list dirent) :
  name' <> name ->
  find_entry name' (update_entry name f l) = find_entry name' l.
Proof.
  intros Hneq; unfold find_entry.
  induction l as [| e l IH]; cbn [update_entry find]; [reflexivity |].
  destruct (entry_named name e) eqn:E; cbn [find].
  - pose proof (entry_named_other name name' e Hneq E) as E'.
    rewrite E'.
    unfold entry_named in E' |- *; cbn [de_visible de_name]; rewrite E'.
    reflexivity.
  - rewrite IH; reflexivity.
Qed.

Lemma find_entry_remove_other (name name' : string) (l : list dirent) :
  name' <> name ->
  find_entry name' (remove_entry name l) = find_entry name' l.
Proof.
  intros Hneq; unfold find_entry.
  induction l as [| e l IH]; cbn [remove_entry find]; [reflexivity |].
  destruct (entry_named name e) eqn:E; cbn [find].
  - rewrite (entry_named_other name name' e Hneq E); reflexivity.
  - rewrite IH; reflexivity.
Qed.

Lemma find_entry_cons_other (name name' : string) (off : Z) (i : inode)
      (l : list dirent) :
  name' <> name ->
  find_entry name' (mk_dirent name off true i :: l) = find_entry name' l.
Proof.
  intros Hneq; unfold find_entry; cbn [find].
  rewrite (entry_named_other name name' (mk_dirent name off true i) Hneq);
    [reflexivity |].
  unfold entry_named; cbn; apply String.eqb_refl.
Qed.

Lemma xa_dir_of_update_other (sb : super_block) (dir dir' : string)
      (f : directory -> directory) :
  dir' <> dir -> xa_dir_of (sb_update_dir sb dir f) dir' = xa_dir_of sb dir'.
Proof.
  intros Hneq.
  unfold xa_dir_of, sb_update_dir, xa_root_of, sb_with_xa_root.
  destruct (priv_root sb) as [p |] eqn:Ep; [| rewrite Ep; reflexivity].
  destruct (pr_xattrs p) as [r |] eqn:Er.
  - cbn; apply find_dir_update_other; assumption.
  - rewrite Ep, Er; reflexivity.
Qed.

(** A change [g] of the entries of [dir] that [find_entry] does not
    see for the names other than [name]. *)
Lemma others_kept_update_entries (sb : super_block) (dir name : string)
      (g : list dirent -> list dirent) :
  (forall name' l, name' <> name -> find_entry name' (g l) = find_entry name' l) ->
  others_kept dir name sb (sb_update_entries sb dir g).
Proof.
  intros Hg dir' name' Hother _ _.
  cbn [d_inode entries_of]; unfold sb_update_entries.
  destruct (String.eqb_spec dir' dir) as [-> | Hdir].
  - destruct Hother as [Hd | Hn]; [congruence |].
    rewrite xa_dir_of_update_dir.
    destruct (xa_dir_of sb dir) as [x |]; cbn [option_map d_entries];
      [| reflexivity].
    rewrite Hg by assumption; reflexivity.
  - rewrite xa_dir_of_update_other by assumption; reflexivity.
Qed.

Lemma sb_ok_with_event (sb : super_block) (e : event) :
  sb_ok sb -> sb_ok (sb_with_event sb e).
Proof. intros H; exact H. Qed.

Lemma sb_ok_alloc_objectid (sb : super_block) :
  sb_ok sb -> sb_ok (sb_alloc_objectid sb).
Proof. intros H; exact H. Qed.

Lemma neg_nonzero (e : errno) : (neg e =? 0) = false.
Proof. destruct e; reflexivity. Qed.

Lemma neg_negative (e : errno) : (neg e <? 0) = true.
Proof. destruct e; reflexivity. Qed.

Lemma positive_xaroot (sb : super_block) :
  positive sb D_xaroot
  = match xa_root_of sb with Some _ => true | None => false end.
Proof.
  unfold positive; cbn [d_inode]; destruct (xa_root_of sb); reflexivity.
Qed.

Lemma d_inode_no_root (sb : super_block) (dir name : string) :
  xa_root_of sb = None -> d_inode sb (D_xafile dir name) = None.
Proof.
  intros H; cbn [d_inode entries_of]; unfold xa_dir_of; rewrite H.
  reflexivity.
Qed.

Lemma d_inode_no_dir (sb : super_block) (dir name : string) :
  xa_dir_of sb dir = None -> d_inode sb (D_xafile dir name) = None.
Proof. intros H; cbn [d_inode entries_of]; rewrite H; reflexivity. Qed.

(** Whatever fails, [mkdir] keeps every attribute file and the
    invariant; when it returns 0 the dentry is positive. *)
Lemma mkdir_keeps (sb : super_block) (d : dentry) :
  files_kept sb (snd (mkdir sb d))
  /\ (sb_ok sb -> sb_ok (snd (mkdir sb d)))
  /\ (fst (mkdir sb d) = 0 -> positive (snd (mkdir sb d)) d = true).
Proof.
  unfold mkdir.
  destruct (o_mkdir orc d) as [e |]; cbn [fst snd].
  { split; [apply files_kept_refl |]; split; [auto |].
    intros H; apply Z.eqb_eq in H; rewrite neg_nonzero in H; discriminate. }
  assert (Hfail : forall (e : errno) (Q : Prop),
             files_kept sb sb /\ (sb_ok sb -> sb_ok sb) /\ (neg e = 0 -> Q)).
  { intros e Q; split; [apply files_kept_refl |]; split; [auto |].
    intros H; apply Z.eqb_eq in H; rewrite neg_nonzero in H; discriminate. }
  destruct (positive sb d) eqn:Hpos; cbn [fst snd]; [apply Hfail |].
  destruct d; cbn [fst snd]; try apply Hfail.
  - (* xattrs *)
    rewrite positive_xaroot in Hpos.
    destruct (xa_root_of sb) eqn:Hroot; [discriminate |].
    destruct (priv_root sb) as [p |] eqn:Hp; cbn [fst snd]; [| apply Hfail].
    assert (Hp' : priv_root
                    (sb_with_event (sb_alloc_objectid sb)
                       (Ev_mkdir D_xaroot
                          (k_objectid (new_inode sb true)))) <> None)
      by (cbn; rewrite Hp; discriminate).
    split; [| split].
    + intros dir' name' _ _.
      rewrite (d_inode_no_root sb) by assumption.
      apply d_inode_no_dir.
      rewrite xa_dir_of_with_xa_root by assumption; reflexivity.
    + unfold sb_ok; rewrite xattr_root_with_xa_root; cbn [xattr_root
        sb_with_event sb_alloc_objectid].
      destruct (xattr_root sb); [| trivial].
      intros [Hd _]; split; [assumption |].
      rewrite xa_root_of_with_xa_root by assumption; discriminate.
    + intros _; rewrite positive_xaroot.
      rewrite xa_root_of_with_xa_root by assumption; reflexivity.
  - (* the directory of an object *)
    rewrite positive_xadir in Hpos.
    destruct (xa_dir_of sb dir) eqn:Hdir; [discriminate |].
    destruct (xa_root_of sb) as [r |] eqn:Hroot; cbn [fst snd];
      [| apply Hfail].
    assert (Hp' : priv_root
                    (sb_with_event (sb_alloc_objectid sb)
                       (Ev_mkdir (D_xadir dir)
                          (k_objectid (new_inode sb true)))) <> None).
    { cbn; unfold xa_root_of in Hroot.
      destruct (priv_root sb); [discriminate | discriminate]. }
    split; [| split].
    + intros dir' name' Hd Hdd.
      cbn [d_inode entries_of].
      rewrite xa_dir_of_with_xa_root by assumption.
      cbn [find_dir].
      destruct (String.eqb_spec dir dir') as [<- | Hneq].
      * rewrite Hdir; cbn [d_entries].
        rewrite find_entry_dot_entries by assumption; reflexivity.
      * unfold xa_dir_of; rewrite Hroot; reflexivity.
    + unfold sb_ok; rewrite xattr_root_with_xa_root; cbn [xattr_root
        sb_with_event sb_alloc_objectid].
      destruct (xattr_root sb); [| trivial].
      intros [Hd _]; split; [assumption |].
      rewrite xa_root_of_with_xa_root by assumption; discriminate.
    + intros _; rewrite positive_xadir.
      rewrite xa_dir_of_with_xa_root by assumption.
      cbn [find_dir]; rewrite String.eqb_refl; reflexivity.
Qed.

Lemma sb_ok_update_entries (sb : super_block) (dir : string)
      (g : list dirent -> list dirent) :
  sb_ok sb -> sb_ok (sb_update_entries sb dir g).
Proof. apply sb_ok_update_dir. Qed.

(** Whatever fails, [create] on an attribute file keeps the other
    attribute files and the invariant. *)
Lemma create_keeps (sb : super_block) (dir name : string) :
  others_kept dir name sb (snd (create sb (D_xafile dir name)))
  /\ (sb_ok sb -> sb_ok (snd (create sb (D_xafile dir name)))).
Proof.
  unfold create.
  destruct (o_create orc (D_xafile dir name)); cbn [snd];
    [split; [apply others_kept_refl | auto] |].
  destruct (positive sb (D_xafile dir name)); cbn [snd];
    [split; [apply others_kept_refl | auto] |].
  destruct (xa_dir_of sb dir); cbn [snd];
    [| split; [apply others_kept_refl | auto]].
  split.
  - eapply others_kept_trans;
      [| apply others_kept_update_entries;
         intros n l Hn; apply find_entry_cons_other; assumption].
    intros ? ? _ _ _; reflexivity.
  - intros Hok; apply sb_ok_update_entries; exact Hok.
Qed.

Lemma unlink_keeps (sb : super_block) (dir name : string) :
  others_kept dir name sb (snd (unlink sb (D_xafile dir name)))
  /\ (sb_ok sb -> sb_ok (snd (unlink sb (D_xafile dir name)))).
Proof.
  unfold unlink.
  destruct (o_unlink orc (D_xafile dir name)); cbn [snd];
    [split; [apply others_kept_refl | auto] |].
  destruct (d_inode sb (D_xafile dir name)); cbn [snd];
    [| split; [apply others_kept_refl | auto]].
  split.
  - eapply others_kept_trans;
      [| apply others_kept_update_entries;
         intros n l Hn; apply find_entry_remove_other; assumption].
    intros ? ? _ _ _; reflexivity.
  - intros Hok; apply sb_ok_update_entries; exact Hok.
Qed.

Lemma update_inode_keeps (sb : super_block) (dir name : string)
      (f : inode -> inode) :
  others_kept dir name sb (update_inode sb (D_xafile dir name) f)
  /\ (sb_ok sb -> sb_ok (update_inode sb (D_xafile dir name) f)).
Proof.
  cbn [update_inode]; split.
  - apply others_kept_update_entries.
    intros n l Hn; apply find_entry_update_other; assumption.
  - apply sb_ok_update_entries.
Qed.

Lemma notify_change_keeps (sb : super_block) (dir name : string)
      (a : iattr) :
  others_kept dir name sb (snd (notify_change sb (D_xafile dir name) a))
  /\ (sb_ok sb -> sb_ok (snd (notify_change sb (D_xafile dir name) a))).
Proof.
  unfold notify_change.
  destruct (o_notify_change orc (D_xafile dir name)); cbn [snd];
    [split; [apply others_kept_refl | auto] |].
  destruct (update_inode_keeps
              (sb_with_event sb
                 (Ev_notify_change (D_xafile dir name)
                    (k_objectid (the_inode sb (D_xafile dir name))) a))
              dir name (inode_setattr a)) as [H1 H2].
  split; [| exact H2].
  eapply others_kept_trans; [| exact H1].
  intros d n _ _ _; reflexivity.
Qed.

(** The dentries on the path to an attribute file. *)
Lemma lookup_xaroot :
  (exists e, lookup_one_len XAROOT_NAME D_privroot = ERR_PTR e)
  \/ lookup_one_len XAROOT_NAME D_privroot = PTR D_xaroot.
Proof.
  unfold lookup_one_len.
  destruct (o_lookup orc D_privroot XAROOT_NAME); [left; eauto |].
  right; reflexivity.
Qed.

Lemma lookup_xadir (dir : string) :
  (exists e, lookup_one_len dir D_xaroot = ERR_PTR e)
  \/ lookup_one_len dir D_xaroot = PTR (D_xadir dir).
Proof.
  unfold lookup_one_len.
  destruct (o_lookup orc D_xaroot dir); [left; eauto |].
  right; reflexivity.
Qed.

Lemma lookup_xafile (dir name : string) :
  (exists e, lookup_one_len name (D_xadir dir) = ERR_PTR e)
  \/ lookup_one_len name (D_xadir dir) = PTR (D_xafile dir name).
Proof.
  unfold lookup_one_len.
  destruct (o_lookup orc (D_xadir dir) name); [left; eauto |].
  right; reflexivity.
Qed.

Lemma sb_ok_with_xattr_root (sb : super_block) :
  xa_root_of sb <> None -> sb_ok (sb_with_xattr_root sb (Some D_xaroot)).
Proof. intros H; split; [reflexivity | exact H]. Qed.

Lemma get_xa_root_keeps (sb : super_block) :
  sb_ok sb ->
  sb_ok (snd (get_xa_root sb))
  /\ only_cached sb (snd (get_xa_root sb))
  /\ (forall d, fst (get_xa_root sb) = PTR (Some d) ->
                d = D_xaroot /\ xa_root_of (snd (get_xa_root sb)) <> None).
Proof.
  intros Hok; unfold get_xa_root.
  destruct (xattr_root sb) as [d0 |] eqn:Hc; cbn [fst snd].
  - split; [exact Hok |]; split; [apply only_cached_refl |].
    intros d [= <-]; unfold sb_ok in Hok; rewrite Hc in Hok; exact Hok.
  - unfold __get_xa_root.
    destruct (priv_root sb); cbn [fst snd];
      [| split; [exact Hok |]; split; [apply only_cached_refl |];
         discriminate].
    destruct lookup_xaroot as [[e ->] | ->]; cbn [fst snd];
      [split; [exact Hok |]; split; [apply only_cached_refl |];
       discriminate |].
    rewrite positive_xaroot.
    destruct (xa_root_of sb) eqn:Hroot; cbn [negb fst snd].
    + split; [apply sb_ok_with_xattr_root; rewrite Hroot; discriminate |].
      split; [eexists; reflexivity |].
      intros d [= <-]; split; [reflexivity |].
      change (xa_root_of sb <> None); rewrite Hroot; discriminate.
    + split; [exact Hok |]; split; [apply only_cached_refl |];
        discriminate.
Qed.

Lemma create_xa_root_keeps (sb : super_block) :
  sb_ok sb ->
  sb_ok (snd (create_xa_root sb))
  /\ files_kept sb (snd (create_xa_root sb))
  /\ (forall d, fst (create_xa_root sb) = PTR d ->
                d = Some D_xaroot
                /\ xa_root_of (snd (create_xa_root sb)) <> None).
Proof.
  intros Hok; unfold create_xa_root.
  destruct (priv_root sb); cbn [fst snd];
    [| split; [exact Hok |]; split; [apply files_kept_refl |];
       discriminate].
  destruct lookup_xaroot as [[e ->] | ->]; cbn [fst snd];
    [split; [exact Hok |]; split; [apply files_kept_refl |];
     discriminate |].
  destruct (positive sb D_xaroot) eqn:Hpos; cbn [negb fst snd].
  - split; [exact Hok |]; split; [apply files_kept_refl |].
    intros d [= <-]; split; [reflexivity |].
    rewrite positive_xaroot in Hpos.
    destruct (xa_root_of sb); [discriminate | discriminate].
  - destruct (mkdir_keeps sb D_xaroot) as (Hk & Hs & Hp).
    destruct (mkdir sb D_xaroot) as [err sb1]; cbn [fst snd] in *.
    destruct (Z.eqb_spec err 0) as [-> | Hne]; cbn [negb fst snd].
    + specialize (Hp eq_refl); rewrite positive_xaroot in Hp.
      assert (Hroot : xa_root_of sb1 <> None)
        by (destruct (xa_root_of sb1); [discriminate | discriminate]).
      split; [apply sb_ok_with_xattr_root; exact Hroot |].
      split; [| intros d [= <-]; split; [reflexivity | exact Hroot]].
      eapply files_kept_trans; [exact Hk |].
      apply only_cached_files_kept; eexists; reflexivity.
    + split; [auto |]; split; [exact Hk | discriminate].
Qed.

(** Whatever fails and whatever the flags are, [open_xa_dir] keeps
    every attribute file and the invariant, and what it returns is the
    dentry of the existing directory of the object. *)
Lemma open_xa_dir_keeps (sb : super_block) (i : inode) (flags : Z) :
  sb_ok sb ->
  sb_ok (snd (open_xa_dir sb i flags))
  /\ files_kept sb (snd (open_xa_dir sb i flags))
  /\ (forall d, fst (open_xa_dir sb i flags) = PTR d ->
                d = D_xadir (xa_dir_name i)
                /\ positive (snd (open_xa_dir sb i flags)) d = true).
Proof.
  intros Hok; unfold open_xa_dir.
  assert (Hroot : exists r sb1,
             match get_xa_root sb with
             | (ERR_PTR e, sb1) => (ERR_PTR e, sb1)
             | (PTR (Some xaroot), sb1) => (PTR xaroot, sb1)
             | (PTR None, sb1) =>
                 let '(r, sb2) :=
                   if may_create flags then create_xa_root sb1
                   else (PTR None, sb1) in
                 match r with
                 | ERR_PTR e => (ERR_PTR e, sb2)
                 | PTR None => (ERR_PTR (neg ENODATA), sb2)
                 | PTR (Some xaroot) => (PTR xaroot, sb2)
                 end
             end = (r, sb1)
             /\ sb_ok sb1 /\ files_kept sb sb1
             /\ (forall d, r = PTR d -> d = D_xaroot)).
  { destruct (get_xa_root_keeps sb Hok) as (H1 & H2 & H3).
    destruct (get_xa_root sb) as [[e | [d |]] sb1]; cbn [fst snd] in *.
    - eexists _, _; split; [reflexivity |].
      split; [exact H1 |]; split; [| discriminate].
      apply only_cached_files_kept; exact H2.
    - eexists _, _; split; [reflexivity |].
      split; [exact H1 |].
      split; [apply only_cached_files_kept; exact H2 |].
      intros d' [= <-]; apply (H3 d eq_refl).
    - destruct (may_create flags).
      + destruct (create_xa_root_keeps sb1 H1) as (G1 & G2 & G3).
        destruct (create_xa_root sb1) as [[e | d] sb2]; cbn [fst snd] in *.
        * eexists _, _; split; [reflexivity |].
          split; [exact G1 |]; split; [| discriminate].
          eapply files_kept_trans;
            [apply only_cached_files_kept; exact H2 | exact G2].
        * destruct (G3 d eq_refl) as [-> _].
          eexists _, _; split; [reflexivity |].
          split; [exact G1 |]; split; [| intros d' [= <-]; reflexivity].
          eapply files_kept_trans;
            [apply only_cached_files_kept; exact H2 | exact G2].
      + eexists _, _; split; [reflexivity |].
        split; [exact H1 |]; split; [| discriminate].
        apply only_cached_files_kept; exact H2. }
  destruct Hroot as (r & sb1 & -> & Hok1 & Hk1 & Hr).
  destruct r as [e | xaroot]; cbn [fst snd];
    [split; [exact Hok1 |]; split; [exact Hk1 | discriminate] |].
  rewrite (Hr xaroot eq_refl).
  destruct (lookup_xadir (xa_dir_name i)) as [[e ->] | ->]; cbn [fst snd];
    [split; [exact Hok1 |]; split; [exact Hk1 | discriminate] |].
  destruct (positive sb1 (D_xadir (xa_dir_name i))) eqn:Hpos;
    cbn [negb fst snd].
  { split; [exact Hok1 |]; split; [exact Hk1 |].
    intros d [= <-]; auto. }
  destruct (may_create flags).
  - destruct (mkdir_keeps sb1 (D_xadir (xa_dir_name i))) as (Hk & Hs & Hp).
    destruct (mkdir sb1 (D_xadir (xa_dir_name i))) as [err sb2];
      cbn [fst snd] in *.
    destruct (Z.eqb_spec err 0) as [-> | Hne]; cbn [negb fst snd].
    + rewrite (Hp eq_refl); cbn [negb fst snd].
      split; [auto |].
      split; [eapply files_kept_trans; eassumption |].
      intros d [= <-]; auto.
    + split; [auto |].
      split; [eapply files_kept_trans; eassumption | discriminate].
  - cbn [Z.eqb negb]; rewrite Hpos; cbn [negb fst snd].
    split; [exact Hok1 |]; split; [exact Hk1 | discriminate].
Qed.

Lemma get_xa_file_dentry_keeps (sb : super_block) (i : inode)
      (name : string) (flags : Z) :
  sb_ok sb ->
  sb_ok (snd (get_xa_file_dentry sb i name flags))
  /\ others_kept (xa_dir_name i) name sb
                 (snd (get_xa_file_dentry sb i name flags))
  /\ (forall d, fst (get_xa_file_dentry sb i name flags) = PTR d ->
                d = D_xafile (xa_dir_name i) name).
Proof.
  intros Hok; unfold get_xa_file_dentry.
  destruct (open_xa_dir_keeps sb i flags Hok) as (H1 & H2 & H3).
  apply (files_kept_others (xa_dir_name i) name) in H2.
  destruct (open_xa_dir sb i flags) as [[e | xadir] sb1]; cbn [fst snd] in *;
    [split; [exact H1 |]; split; [exact H2 | discriminate] |].
  destruct (H3 xadir eq_refl) as [-> Hpos]; rewrite Hpos; cbn [negb].
  destruct (lookup_xafile (xa_dir_name i) name) as [[e ->] | ->];
    cbn [fst snd];
    [split; [exact H1 |]; split; [exact H2 | discriminate] |].
  destruct (positive sb1 (D_xafile (xa_dir_name i) name)).
  - destruct (has_flag flags XATTR_CREATE); cbn [fst snd];
      (split; [exact H1 |]; split; [exact H2 |]);
      [discriminate | intros d [= <-]; reflexivity].
  - destruct (has_flag flags XATTR_REPLACE || has_flag flags FL_READONLY);
      cbn [fst snd].
    + split; [exact H1 |]; split; [exact H2 |].
      intros d [= <-]; reflexivity.
    + destruct (create_keeps sb1 (xa_dir_name i) name) as [G1 G2].
      destruct (create sb1 (D_xafile (xa_dir_name i) name)) as [err sb2];
        cbn [snd] in *.
      destruct (negb (err =? 0)); cbn [fst snd];
        (split; [auto |];
         split; [eapply others_kept_trans; eassumption |]);
        [discriminate | intros d [= <-]; reflexivity].
Qed.

Lemma open_xa_file_keeps (sb : super_block) (i : inode) (name : string)
      (flags : Z) :
  sb_ok sb ->
  sb_ok (snd (open_xa_file sb i name flags))
  /\ others_kept (xa_dir_name i) name sb (snd (open_xa_file sb i name flags))
  /\ (forall d, fst (open_xa_file sb i name flags) = PTR d ->
                d = D_xafile (xa_dir_name i) name).
Proof.
  intros Hok; unfold open_xa_file.
  destruct (get_xa_file_dentry_keeps sb i name flags Hok) as (H1 & H2 & H3).
  destruct (get_xa_file_dentry sb i name flags) as [[e | xafile] sb1];
    cbn [fst snd] in *;
    [split; [exact H1 |]; split; [exact H2 | discriminate] |].
  rewrite (H3 xafile eq_refl).
  destruct (positive sb1 (D_xafile (xa_dir_name i) name)); cbn [negb fst snd];
    (split; [exact H1 |]; split; [exact H2 |]); [| discriminate].
  unfold dentry_open.
  destruct (o_dentry_open orc (D_xafile (xa_dir_name i) name));
    [discriminate | intros d [= <-]; reflexivity].
Qed.

Lemma __reiserfs_xattr_del_keeps (sb : super_block) (dir name : string) :
  sb_ok sb ->
  sb_ok (snd (__reiserfs_xattr_del sb (D_xadir dir) name))
  /\ others_kept dir name sb (snd (__reiserfs_xattr_del sb (D_xadir dir) name)).
Proof.
  intros Hok; unfold __reiserfs_xattr_del.
  destruct (lookup_xafile dir name) as [[e ->] | ->]; cbn [snd];
    [split; [exact Hok | apply others_kept_refl] |].
  destruct (d_inode sb (D_xafile dir name)) as [fi |]; cbn [snd];
    [| split; [exact Hok | apply others_kept_refl]].
  destruct (i_isdir fi); cbn [snd];
    [split; [exact Hok | apply others_kept_refl] |].
  destruct (negb (i_priv_object fi)); cbn [snd];
    [split; [exact Hok | apply others_kept_refl] |].
  destruct (unlink_keeps sb dir name); auto.
Qed.

Lemma reiserfs_xattr_del_keeps (sb : super_block) (i : inode)
      (name : string) :
  sb_ok sb ->
  sb_ok (snd (reiserfs_xattr_del sb i name))
  /\ others_kept (xa_dir_name i) name sb (snd (reiserfs_xattr_del sb i name)).
Proof.
  intros Hok; unfold reiserfs_xattr_del.
  destruct (open_xa_dir_keeps sb i FL_READONLY Hok) as (H1 & H2 & H3).
  apply (files_kept_others (xa_dir_name i) name) in H2.
  destruct (open_xa_dir sb i FL_READONLY) as [[e | dir] sb1];
    cbn [fst snd] in *; [auto |].
  destruct (H3 dir eq_refl) as [-> _].
  destruct (__reiserfs_xattr_del_keeps sb1 (xa_dir_name i) name H1)
    as [G1 G2].
  split; [exact G1 | eapply others_kept_trans; eassumption].
Qed.

Lemma xattr_set_open_file_keeps (fuel : nat) :
  forall (sb : super_block) (i : inode) (name : string)
         (buffer : option (list Z)) (buffer_size flags xahash r : Z)
         (sb' : super_block),
    sb_ok sb ->
    xattr_set_open_file fuel sb i name buffer buffer_size flags xahash
    = Some (r, sb') ->
    sb_ok sb' /\ others_kept (xa_dir_name i) name sb sb'.
Proof.
  induction fuel as [| fuel IH];
    intros sb i name buffer buffer_size flags xahash r sb' Hok;
    cbn [xattr_set_open_file]; [discriminate |].
  destruct (open_xa_file_keeps sb i name flags Hok) as (H1 & H2 & H3).
  destruct (open_xa_file sb i name flags) as [[e | fp] sb1];
    cbn [fst snd] in *; [intros [= <- <-]; auto |].
  rewrite (H3 fp eq_refl); cbv zeta.
  destruct (i_nlink (the_inode sb1 (D_xafile (xa_dir_name i) name)) >? 1).
  - destruct (reiserfs_xattr_del_keeps sb1 i name H1) as [G1 G2].
    destruct (reiserfs_xattr_del sb1 i name) as [err sb2]; cbn [snd] in *.
    assert (G : others_kept (xa_dir_name i) name sb sb2)
      by (eapply others_kept_trans; eassumption).
    destruct (err <? 0); [intros [= <- <-]; auto |].
    intros Hrun; destruct (IH _ _ _ _ _ _ _ _ _ G1 Hrun) as [K1 K2].
    split; [exact K1 | eapply others_kept_trans; eassumption].
  - destruct (notify_change_keeps
                sb1 (xa_dir_name i) name
                (mk_iattr (Z.lor ATTR_SIZE ATTR_CTIME) 0 0 buffer_size 0))
      as [G1 G2].
    destruct (notify_change sb1 (D_xafile (xa_dir_name i) name) _)
      as [err sb2]; cbn [snd] in *.
    assert (G : others_kept (xa_dir_name i) name sb sb2)
      by (eapply others_kept_trans; eassumption).
    destruct (negb (err =? 0)); [intros [= <- <-]; auto |].
    destruct (xattr_set_loop _ _ _ _ _ _ _ _) as [[err' data] |];
      [| discriminate].
    intros [= <- <-].
    destruct (update_inode_keeps sb2 (xa_dir_name i) name
                (fun x => inode_with_data x data)) as [K1 K2].
    split; [auto | eapply others_kept_trans; eassumption].
Qed.

(** X6.  Whatever its collaborators do, whatever the flags and the
    value are, [reiserfs_xattr_set] on the attribute [name] of an
    object changes no attribute file of another name or of another
    directory: each has the inode, and with it the content, it had. *)
Theorem xattr_set_keeps_others
        (fuel : nat) (sb : super_block) (i : inode) (name : string)
        (buffer : option (list Z)) (buffer_size flags r : Z)
        (sb' : super_block) :
  sb_ok sb ->
  reiserfs_xattr_set fuel sb i name buffer buffer_size flags
  = Some (r, sb') ->
  others_kept (xa_dir_name i) name sb sb'.
Proof.
  intros Hok; unfold reiserfs_xattr_set.
  destruct (i_sd_version i);
    [intros [= <- <-]; apply others_kept_refl |].
  cbv zeta; intros Hrun.
  eapply xattr_set_open_file_keeps; eassumption.
Qed.

(** What [reiserfs_xattr_get] answers depends on the inode of the
    attribute file only. *)
Lemma reiserfs_xattr_get_by_inode
      (Hq : vfs_quiet orc)
      (sb sb' : super_block) (i : inode) (name : string)
      (buffer : option (list Z)) (buffer_size : Z) (fuel : nat) :
  let fp := D_xafile (xa_dir_name i) name in
  sb_ok sb -> sb_ok sb' ->
  d_inode sb' fp = d_inode sb fp ->
  get_answer (reiserfs_xattr_get fuel sb' i name buffer buffer_size)
  = get_answer (reiserfs_xattr_get fuel sb i name buffer buffer_size).
Proof.
  cbv zeta; intros Hok Hok' Hsame.
  unfold reiserfs_xattr_get.
  destruct (i_sd_version i); [reflexivity |].
  destruct (d_inode sb (D_xafile (xa_dir_name i) name)) as [f |] eqn:Hf.
  - rewrite (open_xa_file_found Hq sb i name FL_READONLY f Hok Hf).
    rewrite (open_xa_file_found Hq sb' i name FL_READONLY f Hok' Hsame).
    change (has_flag FL_READONLY XATTR_CREATE) with false; cbv iota zeta.
    assert (Hti : forall s, d_inode s (D_xafile (xa_dir_name i) name) = Some f ->
                            the_inode (cached s)
                                      (D_xafile (xa_dir_name i) name) = f)
      by (intros s Hs; unfold the_inode; rewrite d_inode_cached, Hs;
          reflexivity).
    rewrite (Hti sb Hf), (Hti sb' Hsame).
    destruct buffer as [buf |]; [| reflexivity].
    destruct (buffer_size <? _); [reflexivity |].
    destruct (xattr_get_loop _ _ _ _ _ _ _ _) as [[[err | hash] buf'] |];
      [reflexivity | | reflexivity].
    destruct (negb _); reflexivity.
  - destruct (open_xa_file_absent Hq sb i name FL_READONLY Hok Hf)
      as (s1 & -> & _); [reflexivity | reflexivity |].
    destruct (open_xa_file_absent Hq sb' i name FL_READONLY Hok' Hsame)
      as (s2 & -> & _); [reflexivity | reflexivity |].
    reflexivity.
Qed.

(** X7.  Attributes do not interfere: after [reiserfs_xattr_set] on
    one attribute, whatever its outcome, [reiserfs_xattr_get] on an
    attribute of another name, or of an object with another
    directory, answers as it did before. *)
Theorem xattr_get_after_other_set
        (Hq : vfs_quiet orc)
        (sb sb' : super_block) (i i' : inode) (name name' : string)
        (buffer : option (list Z)) (buffer_size flags r : Z) (fuel : nat) :
  sb_ok sb ->
  xa_dir_name i' <> xa_dir_name i \/ name' <> name ->
  name' <> "."%string -> name' <> ".."%string ->
  reiserfs_xattr_set fuel sb i name buffer buffer_size flags
  = Some (r, sb') ->
  forall (fuel' : nat) (buffer' : option (list Z)) (size' : Z),
    get_answer (reiserfs_xattr_get fuel' sb' i' name' buffer' size')
    = get_answer (reiserfs_xattr_get fuel' sb i' name' buffer' size').
Proof.
  intros Hok Hother Hd Hdd Hset fuel' buffer' size'.
  assert (H : sb_ok sb' /\ others_kept (xa_dir_name i) name sb sb').
  { revert Hset; unfold reiserfs_xattr_set.
    destruct (i_sd_version i);
      [intros [= <- <-]; split; [exact Hok | apply others_kept_refl] |].
    cbv zeta; intros Hrun.
    eapply xattr_set_open_file_keeps; eassumption. }
  destruct H as [Hok' Hkept].
  apply reiserfs_xattr_get_by_inode; auto.
Qed.

(** ** Deleting an attribute *)

Lemma find_entry_remove_unique (name : string) (l : list dirent) :
  names_unique l -> find_entry name (remove_entry name l) = None.
Proof.
  unfold names_unique, find_entry.
  induction l as [| e l IH]; cbn [remove_entry filter]; [reflexivity |].
  intros Hu.
  destruct (entry_named name e) eqn:E.
  - unfold entry_named in E; apply andb_true_iff in E as [Hv Hn].
    apply String.eqb_eq in Hn; rewrite Hv in Hu; cbn [map] in Hu.
    apply NoDup_cons_iff in Hu as [Hnotin _].
    destruct (find (entry_named name) l) as [e' |] eqn:Hfind;
      [| reflexivity].
    apply find_some in Hfind as [Hin He'].
    unfold entry_named in He'; apply andb_true_iff in He' as [Hv' Hn'].
    apply String.eqb_eq in Hn'.
    exfalso; apply Hnotin.
    rewrite Hn, <- Hn'; apply in_map, filter_In; auto.
  - cbn [find]; rewrite E; apply IH.
    destruct (de_visible e); [| exact Hu].
    cbn [map] in Hu; apply NoDup_cons_iff in Hu as [_ Hu]; exact Hu.
Qed.

(** X8.  Deleting an attribute that exists: [reiserfs_xattr_del]
    returns 0, the name is gone, the other attributes are kept; a
    second deletion and a following [reiserfs_xattr_get] both answer
    [-ENODATA], the latter leaving the buffer as it is. *)
Theorem xattr_del_then_gone
        (Hq : vfs_quiet orc)
        (sb : super_block) (i : inode) (name : string) (f : inode) :
  let dir := xa_dir_name i in
  let fp := D_xafile dir name in
  sb_ok sb -> i_sd_version i = STAT_DATA_V2 ->
  d_inode sb fp = Some f ->
  i_isdir f = false -> i_priv_object f = true ->
  names_unique (entries_of sb (D_xadir dir)) ->
  exists sb',
    reiserfs_xattr_del sb i name = (0, sb')
    /\ d_inode sb' fp = None
    /\ others_kept dir name sb sb'
    /\ fst (reiserfs_xattr_del sb' i name) = neg ENODATA
    /\ forall (fuel : nat) (buffer : option (list Z)) (buffer_size : Z),
         get_answer (reiserfs_xattr_get fuel sb' i name buffer buffer_size)
         = Some (neg ENODATA, buffer).
Proof.
  cbv zeta; intros Hok Hv Hf Hdir Hpriv Huniq.
  destruct (d_inode_xafile_inv _ _ _ _ Hf) as (x & e & Hx & He & Hfe).
  pose proof (reiserfs_xattr_del_keeps sb i name Hok) as [Hok' Hkept].
  assert (Hdel : reiserfs_xattr_del sb i name
                 = (0, sb_update_entries
                         (sb_with_event (cached sb)
                            (Ev_unlink (D_xafile (xa_dir_name i) name)
                                       (k_objectid f)))
                         (xa_dir_name i) (remove_entry name))).
  { unfold reiserfs_xattr_del.
    rewrite (open_xa_dir_found Hq sb i FL_READONLY x Hok Hx).
    unfold __reiserfs_xattr_del.
    rewrite (lookup_one_len_quiet Hq), d_inode_cached, Hf, Hdir, Hpriv.
    cbn [negb].
    apply (unlink_quiet Hq).
    rewrite d_inode_cached; exact Hf. }
  rewrite Hdel in Hok', Hkept; cbn [snd] in Hok', Hkept.
  eexists; split; [exact Hdel |].
  set (sb' := sb_update_entries _ _ _) in *.
  assert (Hx' : xa_dir_of sb' (xa_dir_name i) <> None).
  { subst sb'; unfold sb_update_entries; rewrite xa_dir_of_update_dir.
    change (xa_dir_of (sb_with_event (cached sb) ?ev) ?d)
      with (xa_dir_of sb d).
    rewrite Hx; discriminate. }
  assert (Hgone : d_inode sb' (D_xafile (xa_dir_name i) name) = None).
  { rewrite d_inode_xafile; subst sb'.
    rewrite entries_of_update_entries
      by (change (xa_dir_of (sb_with_event (cached sb) ?ev) ?d)
            with (xa_dir_of sb d); rewrite Hx; discriminate).
    change (entries_of (sb_with_event (cached sb) ?ev) ?d)
      with (entries_of sb d).
    rewrite find_entry_remove_unique by exact Huniq; reflexivity. }
  split; [exact Hgone |]; split; [exact Hkept |]; split.
  - destruct (xa_dir_of sb' (xa_dir_name i)) as [x' |] eqn:Ex';
      [| congruence].
    unfold reiserfs_xattr_del.
    rewrite (open_xa_dir_found Hq sb' i FL_READONLY x' Hok' Ex').
    unfold __reiserfs_xattr_del.
    rewrite (lookup_one_len_quiet Hq), d_inode_cached, Hgone; reflexivity.
  - intros fuel buffer buffer_size.
    destruct (open_xa_file_absent Hq sb' i name FL_READONLY Hok' Hgone
                eq_refl eq_refl) as (sb'' & Hopen & _).
    unfold reiserfs_xattr_get; rewrite Hv, Hopen; reflexivity.
Qed.

(** ** The cached dentry stays good *)

Lemma sb_ok_update_inode (sb : super_block) (d : dentry)
      (f : inode -> inode) :
  sb_ok sb -> sb_ok (update_inode sb d f).
Proof.
  destruct d; cbn [update_inode]; intros Hok;
    try exact Hok;
    try (apply sb_ok_update_dir; exact Hok).
  - destruct (priv_root sb) as [p |] eqn:Hp; [| exact Hok].
    unfold sb_ok, xa_root_of in *; cbn; rewrite Hp in Hok; exact Hok.
  - destruct (xa_root_of sb) as [r |] eqn:Hr; [| exact Hok].
    unfold sb_ok in *; rewrite xattr_root_with_xa_root.
    destruct (xattr_root sb); [| trivial].
    destruct Hok as [Hd _]; split; [exact Hd |].
    rewrite xa_root_of_with_xa_root; [discriminate |].
    unfold xa_root_of in Hr; destruct (priv_root sb); discriminate.
Qed.

Lemma sb_ok_notify_change (sb : super_block) (d : dentry) (a : iattr) :
  sb_ok sb -> sb_ok (snd (notify_change sb d a)).
Proof.
  intros Hok; unfold notify_change.
  destruct (o_notify_change orc d); cbn [snd]; [exact Hok |].
  apply sb_ok_update_inode; exact Hok.
Qed.

Lemma sb_ok_chown_filler (b : reiserfs_chown_buf) (name : string)
      (len off ino : Z) (s : super_block) :
  sb_ok s -> sb_ok (snd (reiserfs_chown_xattrs_filler b name len off ino s)).
Proof.
  intros Hok; unfold reiserfs_chown_xattrs_filler.
  generalize (name_of name len); clear name; intros name.
  destruct (lookup_one_len name (cb_xadir b)) as [e | xafile];
    [exact Hok |].
  destruct (d_inode s xafile) as [xi |]; [| exact Hok].
  destruct (i_isdir xi); cbn [negb]; [exact Hok |].
  pose proof (sb_ok_notify_change s xafile (cb_attrs b) Hok) as H.
  destruct (notify_change s xafile (cb_attrs b)); exact H.
Qed.

Lemma sb_ok_xattr_readdir (B : Type) (filldir : filldir_t B) (fuel : nat)
      (file : dentry) (b : B) (sb : super_block)
      (r : Z) (b' : B) (sb' : super_block) :
  (forall b name len off ino s,
      sb_ok s -> sb_ok (snd (filldir b name len off ino s))) ->
  sb_ok sb ->
  xattr_readdir fuel file filldir b sb = Some (r, b', sb') -> sb_ok sb'.
Proof.
  intros Hfill Hok; unfold xattr_readdir, __xattr_readdir.
  destruct (negb (i_isdir (the_inode sb file)));
    [intros [= <- <- <-]; exact Hok |].
  destruct (i_dead (the_inode sb file));
    [intros [= <- <- <-]; exact Hok |].
  intros Hrun.
  apply (xattr_readdir_loop_inv B filldir file (fun _ s => sb_ok s))
    with (2 := Hok) (3 := Hrun).
  intros b0 n l o ino s r1 b1 s1 Hs H1.
  specialize (Hfill b0 n l o ino s Hs); rewrite H1 in Hfill; exact Hfill.
Qed.

(** X9.  The dentry cached in [xattr_root] is never stale: if it is
    unset or refers to the existing directory [xattrs] before an
    operation, then so it is after it, whatever fails in between.
    This holds for setting, reading, deleting and listing attributes
    and for the ownership cascade. *)
Theorem xattr_root_stays_good (sb : super_block) :
  sb_ok sb ->
  (forall fuel i name buffer buffer_size flags r sb',
      reiserfs_xattr_set fuel sb i name buffer buffer_size flags
      = Some (r, sb') -> sb_ok sb')
  /\ (forall fuel i name buffer buffer_size r buffer' sb',
         reiserfs_xattr_get fuel sb i name buffer buffer_size
         = Some (r, buffer', sb') -> sb_ok sb')
  /\ (forall i name, sb_ok (snd (reiserfs_xattr_del sb i name)))
  /\ (forall fuel dentry buffer size r buffer' sb',
         reiserfs_listxattr fuel sb dentry buffer size
         = Some (r, buffer', sb') -> sb_ok sb')
  /\ (forall fuel i attrs r attrs' sb',
         reiserfs_chown_xattrs fuel sb i attrs = Some (r, attrs', sb') ->
         sb_ok sb').
Proof.
  intros Hok; repeat apply conj.
  - intros fuel i name buffer buffer_size flags r sb'.
    unfold reiserfs_xattr_set.
    destruct (i_sd_version i); [intros [= <- <-]; exact Hok |].
    cbv zeta; intros Hrun.
    eapply xattr_set_open_file_keeps; eassumption.
  - intros fuel i name buffer buffer_size r buffer' sb'.
    unfold reiserfs_xattr_get.
    destruct (i_sd_version i); [intros [= <- <- <-]; exact Hok |].
    destruct (open_xa_file_keeps sb i name FL_READONLY Hok) as (H1 & _).
    destruct (open_xa_file sb i name FL_READONLY) as [[e | fp] sb1];
      cbn [snd] in H1; [intros [= <- <- <-]; exact H1 |].
    cbv zeta.
    destruct buffer as [buf |]; [| intros [= <- <- <-]; exact H1].
    destruct (buffer_size <? _); [intros [= <- <- <-]; exact H1 |].
    destruct (xattr_get_loop _ _ _ _ _ _ _ _) as [[[err | hash] buf'] |];
      [intros [= <- <- <-]; exact H1 | | discriminate].
    destruct (negb _); intros [= <- <- <-]; exact H1.
  - intros i name; apply reiserfs_xattr_del_keeps; exact Hok.
  - intros fuel dentry buffer size r buffer' sb'.
    unfold reiserfs_listxattr.
    destruct dentry as [i |]; [| intros [= <- <- <-]; exact Hok].
    destruct (negb (s_xattrs sb) || _); [intros [= <- <- <-]; exact Hok |].
    destruct (open_xa_dir_keeps sb i FL_READONLY Hok) as (H1 & _).
    destruct (open_xa_dir sb i FL_READONLY) as [[e | dir] sb1];
      cbn [snd] in H1; [intros [= <- <- <-]; exact H1 |].
    destruct (dentry_open dir) as [e | fp];
      [intros [= <- <- <-]; exact H1 |].
    cbv zeta.
    destruct (xattr_readdir fuel fp reiserfs_listxattr_filler _ sb1)
      as [[[err b1] sb2] |] eqn:Hread; [| discriminate].
    apply xattr_readdir_keeps_sb in Hread;
      [| apply reiserfs_listxattr_filler_sb].
    subst sb2.
    destruct (negb (err =? 0)); [intros [= <- <- <-]; exact H1 |].
    destruct (_ && _); intros [= <- <- <-]; exact H1.
  - intros fuel i attrs r attrs' sb'.
    unfold reiserfs_chown_xattrs; cbv zeta.
    destruct (i_priv_object i || _ || _); [intros [= <- <- <-]; exact Hok |].
    destruct (open_xa_dir_keeps sb i FL_READONLY Hok) as (H1 & _).
    destruct (open_xa_dir sb i FL_READONLY) as [[e | dir] sb1];
      cbn [snd] in H1; [intros [= <- <- <-]; exact H1 |].
    destruct (positive sb1 dir); cbn [negb];
      [| intros [= <- <- <-]; exact H1].
    destruct (dentry_open dir) as [e | fp];
      [intros [= <- <- <-]; exact H1 |].
    destruct (xattr_readdir fuel fp reiserfs_chown_xattrs_filler _ sb1)
      as [[[err b2] sb2] |] eqn:Hread; [| discriminate].
    apply sb_ok_xattr_readdir in Hread;
      [| intros; apply sb_ok_chown_filler; assumption | exact H1].
    destruct (negb (err =? 0)); [intros [= <- <- <-]; exact Hread |].
    pose proof (sb_ok_notify_change
                  sb2 dir
                  (iattr_with_valid attrs (Z.land (ia_valid attrs) chown_mask))
                  Hread) as H3.
    destruct (notify_change sb2 dir _) as [err3 sb3].
    intros [= <- <- <-]; exact H3.
Qed.

(** ** Without a private root *)

(** X10.  When the private root was not set up at mount time nothing
    can be stored and nothing is found, and no collaborator is even
    asked: setting an attribute fails with [-EOPNOTSUPP] where the
    flags would allow to create it and with [-ENODATA] where they would
    not, reading and deleting fail with [-ENODATA], the list is empty
    and the ownership cascade has nothing to do.  The super block stays
    as it is. *)
Theorem xattr_without_priv_root
        (sb : super_block) (i : inode) (name : string)
        (buffer : option (list Z)) (buffer_size flags : Z)
        (attrs : iattr) (fuel : nat) :
  priv_root sb = None -> xattr_root sb = None ->
  i_sd_version i = STAT_DATA_V2 ->
  reiserfs_xattr_set (S fuel) sb i name buffer buffer_size flags
  = Some (if may_create flags then neg EOPNOTSUPP else neg ENODATA, sb)
  /\ reiserfs_xattr_get fuel sb i name buffer buffer_size
     = Some (neg ENODATA, buffer, sb)
  /\ reiserfs_xattr_del sb i name = (neg ENODATA, sb)
  /\ (s_xattrs sb = true ->
      reiserfs_listxattr fuel sb (Some i) buffer buffer_size
      = Some (0, buffer, sb))
  /\ reiserfs_chown_xattrs fuel sb i attrs = Some (0, attrs, sb).
Proof.
  intros Hp Hc Hv.
  assert (Hdir : forall fl,
             open_xa_dir sb i fl
             = (ERR_PTR (if may_create fl then neg EOPNOTSUPP
                         else neg ENODATA), sb)).
  { intros fl; unfold open_xa_dir, get_xa_root, __get_xa_root,
      create_xa_root.
    rewrite Hc, Hp; cbv beta iota zeta.
    destruct (may_create fl); rewrite ?Hp; reflexivity. }
  repeat apply conj.
  - unfold reiserfs_xattr_set; rewrite Hv; cbn [xattr_set_open_file].
    unfold open_xa_file, get_xa_file_dentry; rewrite Hdir; reflexivity.
  - unfold reiserfs_xattr_get; rewrite Hv.
    unfold open_xa_file, get_xa_file_dentry; rewrite Hdir; reflexivity.
  - unfold reiserfs_xattr_del; rewrite Hdir; reflexivity.
  - intros Hx; unfold reiserfs_listxattr; rewrite Hx, Hv, Hdir; reflexivity.
  - unfold reiserfs_chown_xattrs; cbv zeta; rewrite Hv, Hdir.
    change (may_create FL_READONLY) with false; cbv iota.
    rewrite Z.eqb_refl; cbn [negb]; rewrite iattr_restore_same.
    destruct (i_priv_object i || false || negb (s_xattrs sb)); reflexivity.
Qed.

(** ** The first attribute of a file system *)

Lemma s_events_with_xa_root (sb : super_block) (r : option xa_root) :
  s_events (sb_with_xa_root sb r) = s_events sb.
Proof. unfold sb_with_xa_root; destruct (priv_root sb); reflexivity. Qed.

Lemma s_next_objectid_with_xa_root (sb : super_block) (r : option xa_root) :
  s_next_objectid (sb_with_xa_root sb r) = s_next_objectid sb.
Proof. unfold sb_with_xa_root; destruct (priv_root sb); reflexivity. Qed.

(** The tree in which neither [xattrs] nor the directory of the object
    exists: both are made, in this order. *)
Lemma open_xa_dir_fresh
      (Hq : vfs_quiet orc)
      (sb : super_block) (i : inode) (flags : Z) (p : priv_dir) :
  let n := s_next_objectid sb in
  let root := new_inode sb true in
  let self := new_inode (sb_alloc_objectid sb) true in
  priv_root sb = Some p -> pr_xattrs p = None -> xattr_root sb = None ->
  may_create flags = true ->
  exists sb1,
    open_xa_dir sb i flags = (PTR (D_xadir (xa_dir_name i)), sb1)
    /\ xattr_root sb1 = Some D_xaroot
    /\ xa_root_of sb1
       = Some (mk_xa_root
                 root
                 [(xa_dir_name i,
                   mk_directory self (dot_entries self root))])
    /\ s_events sb1
       = Ev_mkdir (D_xadir (xa_dir_name i)) (n + 1)
         :: Ev_mkdir D_xaroot n :: s_events sb
    /\ s_next_objectid sb1 = n + 2.
Proof.
  cbv zeta; intros Ep Hx Hc Hfl.
  assert (Er : xa_root_of sb = None) by (unfold xa_root_of; rewrite Ep; exact Hx).
  assert (Hok : sb_ok sb) by (unfold sb_ok; rewrite Hc; exact I).
  unfold open_xa_dir.
  rewrite (get_xa_root_missing Hq), Hfl by assumption.
  unfold create_xa_root.
  rewrite Ep, (lookup_one_len_quiet Hq), String.eqb_refl.
  unfold positive at 1; cbn [d_inode]; rewrite Er; cbn [option_map negb].
  rewrite (mkdir_quiet Hq).
  unfold positive at 1; cbn [d_inode]; rewrite Er, Ep.
  cbn [option_map negb Z.eqb].
  cbv beta iota zeta.
  set (sbA := sb_with_xattr_root _ _).
  assert (HpA : priv_root sbA <> None)
    by (subst sbA; unfold sb_with_xa_root; cbn [priv_root sb_with_event
          sb_alloc_objectid]; rewrite Ep; cbn; congruence).
  assert (HrA : xa_root_of sbA = Some (mk_xa_root (new_inode sb true) []))
    by (subst sbA;
        change (xa_root_of (sb_with_xattr_root ?s _)) with (xa_root_of s);
        apply xa_root_of_with_xa_root; cbn; congruence).
  assert (HnA : s_next_objectid sbA = s_next_objectid sb + 1)
    by (subst sbA;
        change (s_next_objectid (sb_with_xattr_root ?s _))
          with (s_next_objectid s);
        rewrite s_next_objectid_with_xa_root; reflexivity).
  assert (HeA : s_events sbA = Ev_mkdir D_xaroot (s_next_objectid sb)
                               :: s_events sb)
    by (subst sbA;
        change (s_events (sb_with_xattr_root ?s _)) with (s_events s);
        rewrite s_events_with_xa_root; reflexivity).
  assert (HiA : new_inode sbA true = new_inode (sb_alloc_objectid sb) true)
    by (unfold new_inode; rewrite HnA; reflexivity).
  rewrite (lookup_one_len_quiet Hq), positive_xadir.
  unfold xa_dir_of at 1; rewrite HrA; cbn [find_dir xr_dirs negb].
  rewrite (mkdir_quiet Hq), positive_xadir.
  unfold xa_dir_of at 1; rewrite HrA; cbn [find_dir xr_dirs negb].
  cbv zeta.
  cbn [Z.eqb negb xr_inode xr_dirs].
  rewrite positive_xadir, xa_dir_of_with_xa_root by exact HpA.
  cbn [find_dir]; rewrite String.eqb_refl; cbn [negb].
  eexists; split; [reflexivity |].
  split; [rewrite xattr_root_with_xa_root; reflexivity |].
  split; [rewrite xa_root_of_with_xa_root by exact HpA;
          rewrite HiA; reflexivity |].
  rewrite s_events_with_xa_root, s_next_objectid_with_xa_root.
  cbn [s_events s_next_objectid sb_with_event sb_alloc_objectid].
  rewrite HeA, HnA; unfold new_inode; cbn [k_objectid].
  rewrite HnA; split; [reflexivity | lia].
Qed.

Lemma d_inode_dir_update_entries (sb : super_block) (dir : string)
      (g : list dirent -> list dirent) (d : dentry) :
  match d with D_xafile _ _ => False | _ => True end ->
  d_inode (sb_update_entries sb dir g) d = d_inode sb d.
Proof.
  unfold sb_update_entries.
  destruct d as [| | dir' | |]; intros Hd; try contradiction.
  - cbn [d_inode]; unfold sb_update_dir, sb_with_xa_root, xa_root_of.
    destruct (priv_root sb) as [p |] eqn:Ep; [| rewrite Ep; reflexivity].
    destruct (pr_xattrs p) eqn:Er; [reflexivity | rewrite Ep; reflexivity].
  - cbn [d_inode]; unfold sb_update_dir, sb_with_xa_root, xa_root_of.
    destruct (priv_root sb) as [p |] eqn:Ep; [| rewrite Ep; reflexivity].
    destruct (pr_xattrs p) eqn:Er;
      [reflexivity | rewrite Ep; cbn; rewrite Er; reflexivity].
  - cbn [d_inode].
    destruct (String.eqb_spec dir' dir) as [-> | Hneq].
    + rewrite xa_dir_of_update_dir.
      destruct (xa_dir_of sb dir); reflexivity.
    + rewrite xa_dir_of_update_other by assumption; reflexivity.
  - reflexivity.
Qed.

Lemma xattr_root_written (sb1 : super_block) (dir name : string)
      (f1 : inode) (n : Z) (content : list Z) :
  xattr_root (written sb1 (D_xafile dir name) f1 n content) = xattr_root sb1.
Proof.
  unfold written; cbn [update_inode]; unfold sb_update_entries.
  rewrite !xattr_root_update_dir; reflexivity.
Qed.

Lemma d_inode_dir_written (sb1 : super_block) (dir name : string)
      (f1 : inode) (n : Z) (content : list Z) (d : dentry) :
  match d with D_xafile _ _ => False | _ => True end ->
  d_inode (written sb1 (D_xafile dir name) f1 n content) d = d_inode sb1 d.
Proof.
  intros Hd; unfold written; cbn [update_inode].
  rewrite !d_inode_dir_update_entries by exact Hd.
  apply d_inode_with_event.
Qed.

(** X11.  The first attribute set on a file system whose private root
    has no [xattrs] directory yet: [reiserfs_xattr_set] makes the
    directory [xattrs], then the directory of the object, then the
    attribute file, and resizes and writes the file; the three new
    inodes take the next three object ids and are flagged as private,
    and the dentry of [xattrs] is cached from then on. *)
Theorem xattr_set_makes_the_path
        (Hq : vfs_quiet orc)
        (sb : super_block) (i : inode) (name : string) (p : priv_dir)
        (payload : list Z) (fuel : nat) :
  let dir := xa_dir_name i in
  let fp := D_xafile dir name in
  let n := s_next_objectid sb in
  let seen := fun x : inode => (k_objectid x, i_isdir x, i_priv_object x) in
  pages_quiet orc fp ->
  priv_root sb = Some p -> pr_xattrs p = None -> xattr_root sb = None ->
  i_sd_version i = STAT_DATA_V2 ->
  name <> "."%string -> name <> ".."%string ->
  zlen payload < 2 ^ 31 ->
  (Z.to_nat (zlen payload) + 1 < fuel)%nat ->
  exists sb' f',
    reiserfs_xattr_set fuel sb i name (Some payload) (zlen payload) 0
    = Some (0, sb')
    /\ s_events sb'
       = Ev_notify_change fp (n + 2) (size_attrs (zlen payload))
         :: Ev_create fp (n + 2)
         :: Ev_mkdir (D_xadir dir) (n + 1)
         :: Ev_mkdir D_xaroot n :: s_events sb
    /\ xattr_root sb' = Some D_xaroot
    /\ option_map seen (d_inode sb' D_xaroot) = Some (n, true, true)
    /\ option_map seen (d_inode sb' (D_xadir dir)) = Some (n + 1, true, true)
    /\ d_inode sb' fp = Some f'
    /\ seen f' = (n + 2, false, true)
    /\ i_nlink f' = 1
    /\ i_data f' = xattr_file payload.
Proof.
  cbv zeta; intros Hpq Hp Hx Hc Hv Hdot Hdotdot Hn Hfuel.
  destruct (open_xa_dir_fresh Hq sb i 0 p Hp Hx Hc eq_refl)
    as (sb1 & Hdir & Hc1 & Hr1 & He1 & Hn1).
  set (root := new_inode sb true) in *.
  set (self := new_inode (sb_alloc_objectid sb) true) in *.
  set (x := mk_directory self (dot_entries self root)).
  assert (Hx1 : xa_dir_of sb1 (xa_dir_name i) = Some x)
    by (unfold xa_dir_of; rewrite Hr1; cbn [xr_dirs find_dir];
        rewrite String.eqb_refl; reflexivity).
  assert (Hnone : find_entry name (d_entries x) = None)
    by (apply find_entry_dot_entries; assumption).
  destruct (create_missing Hq sb1 _ name x Hx1 Hnone)
    as (sb2 & Hcr & Hent & Hc2 & Hr2 & He2 & Hn2).
  set (f1 := new_inode sb1 false) in *.
  assert (Hd2 : d_inode sb2 (D_xafile (xa_dir_name i) name) = Some f1)
    by (rewrite d_inode_xafile, Hent, find_entry_head; reflexivity).
  assert (Hopen : open_xa_file sb i name 0
                  = (PTR (D_xafile (xa_dir_name i) name), sb2)).
  { rewrite (open_xa_file_via Hq sb sb1 i name 0 x Hdir Hx1), Hnone.
    change (has_flag 0 XATTR_REPLACE || has_flag 0 FL_READONLY) with false.
    cbv iota; rewrite Hcr; cbn [Z.eqb negb].
    unfold positive; rewrite Hd2; reflexivity. }
  assert (Hdirs : d_inode sb2 D_xaroot = Some root
                  /\ d_inode sb2 (D_xadir (xa_dir_name i)) = Some self).
  { revert Hcr; unfold create.
    rewrite (q_create _ Hq).
    unfold positive; rewrite d_inode_xafile.
    unfold entries_of at 1; rewrite Hx1, Hnone; cbn [option_map].
    intros [= <-].
    rewrite !d_inode_dir_update_entries by exact I.
    rewrite !d_inode_with_event.
    change (d_inode (sb_alloc_objectid sb1) ?d) with (d_inode sb1 d).
    cbn [d_inode]; rewrite Hr1, Hx1; split; reflexivity. }
  destruct Hdirs as [Hdroot Hdself].
  eexists _, _; split; [| split; [| split; [| split; [| split; [| split]]]]].
  - unfold reiserfs_xattr_set; rewrite Hv.
    rewrite xahash_of_payload by lia.
    apply (xattr_set_write Hq sb sb2 i name 0 payload f1 fuel);
      try assumption.
    subst f1; cbn; lia.
  - rewrite s_events_written, He2, He1, Hn1.
    subst f1; unfold new_inode; cbn [k_objectid]; rewrite Hn1; reflexivity.
  - rewrite xattr_root_written; congruence.
  - rewrite d_inode_dir_written by exact I.
    rewrite Hdroot; reflexivity.
  - rewrite d_inode_dir_written by exact I.
    rewrite Hdself; cbn [option_map]; subst self; unfold new_inode.
    cbn [k_objectid i_isdir i_priv_object sb_alloc_objectid s_next_objectid].
    reflexivity.
  - apply d_inode_written; exact Hd2.
  - subst f1; unfold new_inode; cbn; rewrite Hn1.
    repeat split; reflexivity.
Qed.

(** ** The enumeration *)

Lemma above_dot_dot_In (l : list dirent) (e : dirent) :
  key_order l ->
  (In e (above_dot_dot l) <-> In e l /\ DOT_DOT_OFFSET < deh_offset e).
Proof.
  unfold key_order; induction l as [| a l IH]; cbn [above_dot_dot In];
    intros Hord; [tauto |].
  apply StronglySorted_inv in Hord as [Hl Ha].
  specialize (IH Hl).
  destruct (Z.leb_spec (deh_offset a) DOT_DOT_OFFSET) as [Hle | Hgt].
  - cbn [In]; split; [tauto |].
    intros [[<- | Hin] He]; [lia |].
    rewrite Forall_forall in Ha; specialize (Ha e Hin); lia.
  - cbn [In]; rewrite IH; split.
    + intros [<- | [Hin He]]; auto.
    + intros [[<- | Hin] He]; auto.
Qed.

Lemma key_order_above_dot_dot (l : list dirent) :
  key_order l -> key_order (above_dot_dot l).
Proof.
  unfold key_order; induction l as [| a l IH]; cbn [above_dot_dot];
    intros Hord; [constructor |].
  apply StronglySorted_inv in Hord as [Hl Ha].
  destruct (deh_offset a <=? DOT_DOT_OFFSET); [constructor |].
  constructor; [apply IH; exact Hl |].
  rewrite Forall_forall in Ha |- *.
  intros e He; apply Ha, above_dot_dot_incl; exact He.
Qed.

Lemma key_order_filter (f : dirent -> bool) (l : list dirent) :
  key_order l -> key_order (filter f l).
Proof.
  unfold key_order; induction l as [| a l IH]; cbn [filter];
    intros Hord; [constructor |].
  apply StronglySorted_inv in Hord as [Hl Ha].
  destruct (f a); [| apply IH; exact Hl].
  constructor; [apply IH; exact Hl |].
  rewrite Forall_forall in Ha |- *.
  intros e He; apply filter_In in He as [He _]; apply Ha; exact He.
Qed.

(** X12.  When the search meets no I/O error, no allocation fails and
    no item moves, [xattr_readdir] on a live directory hands to the
    consumer, once each and from the highest offset down, exactly the
    entries above [DOT_DOT_OFFSET] that are visible, have a name of
    at most [REISERFS_MAX_NAME] bytes and are not the private root; so
    [.] and [..] are never handed over.  It stops at the first entry
    for which the consumer returns a negative value, and returns 0
    whether or not that happened.  The consumer may change the super
    block as long as the enumeration sees the same directory. *)
Theorem xattr_readdir_visits
        (B : Type) (filldir : filldir_t B) (file : dentry) (b : B)
        (sb : super_block) (fuel : nat) :
  let entries := entries_of sb file in
  readdir_quiet orc ->
  i_isdir (the_inode sb file) = true -> i_dead (the_inode sb file) = false ->
  key_order entries ->
  Forall (fun e => deh_offset e <= max_reiserfs_offset) entries ->
  (List.length entries < fuel)%nat ->
  (forall b name len off ino s,
      readdir_view (snd (filldir b name len off ino s)) file
      = readdir_view s file) ->
  xattr_readdir fuel file filldir b sb
  = Some (0, fst (feed filldir (delivered sb entries) small_buf_0 b sb),
          snd (feed filldir (delivered sb entries) small_buf_0 b sb))
  /\ key_order (delivered sb entries)
  /\ (forall e, In e (delivered sb entries)
                <-> In e entries /\ DOT_DOT_OFFSET < deh_offset e
                    /\ shown sb e = true).
Proof.
  cbv zeta; intros Hrq Hisdir Hlive Hord Hmax Hfuel Hfill.
  split; [| split].
  - unfold xattr_readdir; rewrite Hisdir, Hlive; cbn [negb].
    unfold __xattr_readdir.
    destruct (xattr_readdir_loop_feed
                B filldir file sb
                (fun _ s => readdir_view s file = readdir_view sb file)
                (q_item_moved _ Hrq))
      with (suf := entries_of sb file) (pre := @nil dirent) (fuel := fuel)
           (step := 0%nat) (pos := max_reiserfs_offset)
           (small_buf := small_buf_0) (b := b) (s := sb)
      as (r & b' & s' & Hloop & _ & Hres); try assumption; auto.
    + intros b0 s0 e0 small_buf r0 b1 s1 HP0 _ _ Hfill0.
      rewrite <- HP0,
        <- (Hfill b0 (local_buf_bytes small_buf (de_name e0)
                                      (d_reclen_of e0) (deh_offset e0))
                  (d_reclen_of e0) (deh_offset e0)
                  (k_objectid (de_inode e0)) s0).
      rewrite Hfill0; reflexivity.
    + destruct (Hres Hrq) as [-> Hfeed].
      rewrite Hloop, <- Hfeed; reflexivity.
  - apply key_order_filter, key_order_above_dot_dot; exact Hord.
  - intros e; unfold delivered.
    rewrite filter_In, above_dot_dot_In by exact Hord; tauto.
Qed.

(** ** The name of the directory of an object *)

Lemma hex_loop_acc (fuel : nat) :
  forall (n : Z) (acc : string),
    hex_loop fuel n acc = (hex_loop fuel n EmptyString ++ acc)%string.
Proof.
  induction fuel as [| fuel IH]; intros n acc; cbn [hex_loop];
    [reflexivity |].
  cbv zeta; destruct (n / 16 =? 0); [reflexivity |].
  rewrite (IH _ (String _ acc)), (IH _ (String _ EmptyString)).
  rewrite string_app_assoc; reflexivity.
Qed.

(** A number of exactly [fuel] hexadecimal digits. *)
Lemma hex_loop_length (fuel : nat) :
  forall n : Z,
    16 ^ Z.of_nat fuel <= 16 * n < 16 * 16 ^ Z.of_nat fuel ->
    String.length (hex_loop fuel n EmptyString) = fuel.
Proof.
  induction fuel as [| fuel IH]; intros n Hn.
  - change (16 ^ Z.of_nat 0) with 1 in Hn; lia.
  - cbn [hex_loop]; cbv zeta.
    rewrite Nat2Z.inj_succ, Z.pow_succ_r in Hn by lia.
    destruct (Z.eqb_spec (n / 16) 0) as [H0 | Hne].
    + destruct fuel as [| fuel]; [reflexivity |].
      rewrite Nat2Z.inj_succ, Z.pow_succ_r in Hn by lia.
      assert (0 < 16 ^ Z.of_nat fuel) by (apply Z.pow_pos_nonneg; lia).
      set (P := 16 ^ Z.of_nat fuel) in *.
      exfalso; revert H0; Z.div_mod_to_equations; lia.
    + rewrite hex_loop_acc, string_length_app.
      rewrite IH; [cbn [String.length]; lia |].
      destruct fuel as [| fuel].
      * exfalso; apply Hne; change (16 ^ Z.of_nat 0) with 1 in Hn;
          Z.div_mod_to_equations; lia.
      * rewrite Nat2Z.inj_succ, Z.pow_succ_r in Hn |- * by lia.
        assert (0 < 16 ^ Z.of_nat fuel) by (apply Z.pow_pos_nonneg; lia).
        set (P := 16 ^ Z.of_nat fuel) in *.
        Z.div_mod_to_equations; lia.
Qed.

Lemma fmt_X_eight (n : Z) :
  2 ^ 28 <= n < 2 ^ 32 ->
  String.length (fmt_X n) = 8%nat
  /\ exists d, fmt_X n
               = (hex_loop 7 (n / 16) EmptyString ++ String d EmptyString)%string
               /\ String.length (hex_loop 7 (n / 16) EmptyString) = 7%nat.
Proof.
  intros Hn; unfold fmt_X.
  rewrite Z.mod_small by lia.
  split; [apply hex_loop_length;
          change (16 ^ Z.of_nat 8) with 4294967296; lia |].
  change (hex_loop 8 n EmptyString)
    with (let acc' := String (hex_digit (n mod 16)) EmptyString in
          if n / 16 =? 0 then acc' else hex_loop 7 (n / 16) acc').
  cbv zeta.
  destruct (Z.eqb_spec (n / 16) 0) as [H0 | _];
    [exfalso; revert H0; Z.div_mod_to_equations; lia |].
  eexists; split; [apply hex_loop_acc |].
  apply hex_loop_length; change (16 ^ Z.of_nat 7) with 268435456.
  Z.div_mod_to_equations; lia.
Qed.

(** X13.  The name of the directory of an object has at most 16
    characters, the size of [namebuf] less the final zero.  Object id
    and generation of eight hexadecimal digits each make 17
    characters, of which the last is cut off: objects with the same
    such object id whose generations differ in the last hexadecimal
    digit only have the same directory. *)
Theorem xa_dir_name_sixteen :
  (forall i, (String.length (xa_dir_name i) <= 16)%nat)
  /\ (forall i1 i2,
         2 ^ 28 <= k_objectid i1 < 2 ^ 32 ->
         k_objectid i2 = k_objectid i1 ->
         2 ^ 28 <= i_generation i1 < 2 ^ 32 ->
         2 ^ 28 <= i_generation i2 < 2 ^ 32 ->
         i_generation i1 / 16 = i_generation i2 / 16 ->
         xa_dir_name i1 = xa_dir_name i2).
Proof.
  split; [intros i; apply substring_length_le |].
  intros i1 i2 Ho Hsame Hg1 Hg2 Hdiv.
  assert (Hname : forall i,
             2 ^ 28 <= k_objectid i < 2 ^ 32 ->
             2 ^ 28 <= i_generation i < 2 ^ 32 ->
             xa_dir_name i
             = (fmt_X (k_objectid i)
                ++ String "."%char
                     (hex_loop 7 (i_generation i / 16) EmptyString))%string).
  { intros i Hoi Hgi; unfold xa_dir_name.
    destruct (fmt_X_eight (k_objectid i) Hoi) as [Hlen _].
    destruct (fmt_X_eight (i_generation i) Hgi) as (_ & d & -> & Hlen7).
    set (A := fmt_X (k_objectid i)) in *.
    set (G := hex_loop 7 (i_generation i / 16) EmptyString) in *.
    replace (A ++ String "."%char (G ++ String d EmptyString))%string
      with ((A ++ String "."%char G) ++ String d EmptyString)%string
      by (rewrite string_app_assoc; reflexivity).
    replace 16%nat with (String.length (A ++ String "."%char G))
      by (rewrite string_length_app; cbn [String.length];
          rewrite Hlen, Hlen7; reflexivity).
    apply substring_app. }
  rewrite (Hname i1), (Hname i2) by (rewrite ?Hsame; assumption).
  rewrite Hsame, Hdiv; reflexivity.
Qed.

(** ** Setting with flags *)

(** The flags under which [open_xa_file] opens the attribute file:
    an existing file is opened unless [XATTR_CREATE] is given, a
    missing one is made if the flags allow to make the directories and
    are neither [XATTR_REPLACE] nor [FL_READONLY]. *)
Lemma open_xa_file_flags
      (Hq : vfs_quiet orc)
      (sb : super_block) (i : inode) (name : string) (flags : Z) :
  let fp := D_xafile (xa_dir_name i) name in
  sb_ok sb -> priv_root sb <> None ->
  name <> "."%string -> name <> ".."%string ->
  match d_inode sb fp with
  | Some _ => has_flag flags XATTR_CREATE = false
  | None => may_create flags = true
            /\ has_flag flags XATTR_REPLACE || has_flag flags FL_READONLY
               = false
  end ->
  exists sb1 f1,
    open_xa_file sb i name flags = (PTR fp, sb1)
    /\ d_inode sb1 fp = Some f1
    /\ sb_ok sb1
    /\ match d_inode sb fp with
       | Some f => f1 = f
       | None => i_nlink f1 = 1
       end.
Proof.
  cbv zeta; intros Hok Hp Hdot Hdotdot Hfl.
  destruct (d_inode sb (D_xafile (xa_dir_name i) name)) as [f |] eqn:Hf.
  - exists (cached sb), f.
    rewrite (open_xa_file_found Hq sb i name flags f Hok Hf), Hfl.
    destruct (d_inode_xafile_inv _ _ _ _ Hf) as (x & _ & Hx & _).
    split; [reflexivity |].
    split; [rewrite d_inode_cached; exact Hf |].
    split; [| reflexivity].
    apply sb_ok_cached; eapply xa_dir_of_root; eassumption.
  - destruct Hfl as [Hmay Hrw].
    assert (Hopen : exists sb0 x,
               open_xa_dir sb i flags = (PTR (D_xadir (xa_dir_name i)), sb0)
               /\ xattr_root sb0 = Some D_xaroot
               /\ xa_dir_of sb0 (xa_dir_name i) = Some x
               /\ find_entry name (d_entries x) = None).
    { destruct (xa_dir_of sb (xa_dir_name i)) as [x |] eqn:Hx.
      - exists (cached sb), x; repeat split.
        + eapply open_xa_dir_found; eassumption.
        + exact Hx.
        + eapply d_inode_xafile_none; eassumption.
      - destruct (open_xa_dir_create Hq sb i flags Hok Hmay Hp Hx)
          as (sb0 & x & self & parent & H1 & H2 & H3 & H4).
        exists sb0, x; repeat split; try assumption.
        rewrite H4; apply find_entry_dot_entries; assumption. }
    destruct Hopen as (sb0 & x & Hdir & Hc & Hx & He).
    destruct (create_missing Hq sb0 _ name x Hx He)
      as (sb2 & Hcr & Hent & Hc2 & Hr2 & _).
    exists sb2, (new_inode sb0 false).
    rewrite (open_xa_file_via Hq sb sb0 i name flags x Hdir Hx), He, Hrw.
    rewrite Hcr; cbn [Z.eqb negb].
    assert (Hd2 : d_inode sb2 (D_xafile (xa_dir_name i) name)
                  = Some (new_inode sb0 false))
      by (rewrite d_inode_xafile, Hent, find_entry_head; reflexivity).
    unfold positive; rewrite Hd2; cbn [negb].
    split; [reflexivity |].
    split; [reflexivity |].
    split; [| reflexivity].
    apply sb_ok_of_cache; [congruence | exact Hr2].
Qed.

(** X14.  The flags under which a value is stored and read back:
    [XATTR_REPLACE] on an attribute that exists, [XATTR_CREATE] on one
    that does not, and in general flags without [XATTR_CREATE] on one
    that exists and flags that allow to create, without
    [XATTR_REPLACE] and [FL_READONLY], on one that does not.  Then
    [reiserfs_xattr_set] returns 0 and [reiserfs_xattr_get] returns
    the value, whatever was stored under the name before. *)
Theorem xattr_set_get_roundtrip_flags
        (Hq : vfs_quiet orc)
        (sb : super_block) (i : inode) (name : string) (flags : Z)
        (payload buf : list Z) (fuel : nat) :
  let fp := D_xafile (xa_dir_name i) name in
  pages_quiet orc fp ->
  sb_ok sb -> priv_root sb <> None ->
  i_sd_version i = STAT_DATA_V2 ->
  name <> "."%string -> name <> ".."%string ->
  match d_inode sb fp with
  | Some f => has_flag flags XATTR_CREATE = false /\ i_nlink f <= 1
  | None => may_create flags = true
            /\ has_flag flags XATTR_REPLACE || has_flag flags FL_READONLY
               = false
  end ->
  Forall is_byte payload ->
  zlen payload + 8 < 2 ^ 31 ->
  zlen buf = zlen payload ->
  (Z.to_nat (zlen payload) + 9 < fuel)%nat ->
  exists sb1 sb2,
    reiserfs_xattr_set fuel sb i name (Some payload) (zlen payload) flags
    = Some (0, sb1)
    /\ reiserfs_xattr_get fuel sb1 i name (Some buf) (zlen payload)
       = Some (zlen payload, Some payload, sb2).
Proof.
  cbv zeta; intros Hpq Hok Hp Hv Hdot Hdotdot Hfl Hb Hn Hbuf Hfuel.
  pose proof (zlen_nonneg payload) as Hn0.
  destruct (open_xa_file_flags Hq sb i name flags Hok Hp Hdot Hdotdot)
    as (sbo & f1 & Hopen & Hd & Hoko & Hf1).
  { destruct (d_inode sb (D_xafile (xa_dir_name i) name));
      [apply Hfl | exact Hfl]. }
  assert (Hnl : i_nlink f1 <= 1).
  { destruct (d_inode sb (D_xafile (xa_dir_name i) name)) as [f |];
      [subst f1; apply Hfl | lia]. }
  destruct (xattr_file_header payload Hb) as (Hmagic & Hhash & Hpl & Hlen).
  eexists _, _; split.
  - unfold reiserfs_xattr_set; rewrite Hv.
    rewrite xahash_of_payload by lia.
    apply (xattr_set_write Hq sb sbo i name flags payload f1 fuel);
      try assumption.
    lia.
  - fold (xattr_file payload).
    set (f2 := inode_with_data (inode_setattr (size_attrs (zlen payload)) f1)
                               (xattr_file payload)).
    rewrite (reiserfs_xattr_get_eq Hq _ i name f2 buf (zlen payload) fuel);
      try assumption.
    + change (i_data f2) with (xattr_file payload).
      rewrite Hmagic, Hhash, Hpl, !Z.eqb_refl; cbn [negb].
      rewrite memcpy_to_0, zskipn_all, app_nil_r by lia.
      reflexivity.
    + apply sb_ok_written; assumption.
    + apply d_inode_written; assumption.
    + change (i_data f2) with (xattr_file payload); lia.
    + change (i_data f2) with (xattr_file payload); lia.
    + change (i_data f2) with (xattr_file payload); lia.
Qed.

(** ** A failure inside the ownership cascade *)

Lemma open_xa_dir_found_lookup (sb : super_block) (i : inode)
      (x : directory) :
  (forall d n, o_lookup orc d n = None) ->
  sb_ok sb -> xa_dir_of sb (xa_dir_name i) = Some x ->
  open_xa_dir sb i FL_READONLY = (PTR (D_xadir (xa_dir_name i)), cached sb).
Proof.
  intros Hl Hok Hx.
  pose proof (xa_dir_of_root _ _ _ Hx) as Hroot.
  assert (Hget : get_xa_root sb = (PTR (Some D_xaroot), cached sb)).
  { unfold get_xa_root.
    destruct (xattr_root sb) as [d |] eqn:Ec.
    - unfold sb_ok in Hok; rewrite Ec in Hok; destruct Hok as [-> _].
      rewrite cached_idem by assumption; reflexivity.
    - unfold __get_xa_root, lookup_one_len; rewrite Hl.
      destruct (priv_root sb) as [p |] eqn:Ep.
      + rewrite String.eqb_refl, positive_xaroot.
        destruct (xa_root_of sb); [reflexivity | congruence].
      + unfold xa_root_of in Hroot; rewrite Ep in Hroot; congruence. }
  unfold open_xa_dir; rewrite Hget; cbv beta iota zeta.
  unfold lookup_one_len; rewrite Hl.
  rewrite positive_xadir, xa_dir_of_cached, Hx; reflexivity.
Qed.

(** X15.  An error inside the ownership cascade is not reported.
    When [notify_change] fails on the first attribute file that the
    enumeration hands over, the cascade over the files ends there,
    since a negative value of the consumer ends the enumeration; but
    the enumeration returns 0, so [reiserfs_chown_xattrs] goes on to
    the directory and returns what [notify_change] returns for it: 0
    when that succeeds.  No attribute file got the new owner. *)
Theorem chown_failure_not_reported
        (sb : super_block) (i : inode) (attrs : iattr) (x : directory)
        (e1 : dirent) (rest : list dirent) (xi : inode) (err : errno)
        (fuel : nat) :
  let dn := xa_dir_name i in
  let a := chown_attrs attrs in
  (forall d n, o_lookup orc d n = None) ->
  (forall d, o_dentry_open orc d = None) ->
  readdir_quiet orc ->
  sb_ok sb ->
  i_priv_object i = false -> i_sd_version i = STAT_DATA_V2 ->
  s_xattrs sb = true ->
  xa_dir_of sb dn = Some x ->
  i_isdir (d_dir_inode x) = true -> i_dead (d_dir_inode x) = false ->
  key_order (d_entries x) ->
  Forall (fun e => deh_offset e <= max_reiserfs_offset) (d_entries x) ->
  (List.length (d_entries x) < fuel)%nat ->
  delivered sb (d_entries x) = e1 :: rest ->
  d_inode sb (D_xafile dn (de_name e1)) = Some xi -> i_isdir xi = false ->
  o_notify_change orc (D_xafile dn (de_name e1)) = Some err ->
  o_notify_change orc (D_xadir dn) = None ->
  exists sb',
    reiserfs_chown_xattrs fuel sb i attrs = Some (0, attrs, sb')
    /\ s_events sb'
       = Ev_notify_change (D_xadir dn) (k_objectid (d_dir_inode x)) a
         :: s_events sb.
Proof.
  cbv zeta; intros Hl Ho Hrq Hok Hpriv Hv Hxattrs Hx Hisdir Hlive Hord Hmax
    Hfuel Hdel Hxi Hfile Hfail Hdirok.
  set (dn := xa_dir_name i) in *.
  set (a := chown_attrs attrs).
  set (buf := mk_chown_buf i (D_xadir dn) a).
  assert (Hent : entries_of (cached sb) (D_xadir dn) = d_entries x)
    by (cbn [entries_of]; rewrite xa_dir_of_cached, Hx; reflexivity).
  assert (Hread : xattr_readdir fuel (D_xadir dn)
                    reiserfs_chown_xattrs_filler buf (cached sb)
                  = Some (0, buf, cached sb)).
  { unfold xattr_readdir, the_inode; cbn [d_inode].
    rewrite xa_dir_of_cached, Hx; cbn [option_map].
    rewrite Hisdir, Hlive; cbn [negb].
    unfold __xattr_readdir.
    destruct (xattr_readdir_loop_feed
                _ reiserfs_chown_xattrs_filler (D_xadir dn) (cached sb)
                (fun b s => cb_xadir b = D_xadir dn
                            /\ same_directory (cached sb) dn s)
                (q_item_moved _ Hrq))
      with (suf := d_entries x) (pre := @nil dirent) (fuel := fuel)
           (step := 0%nat) (pos := max_reiserfs_offset)
           (small_buf := small_buf_0) (b := buf) (s := cached sb)
      as (r & b' & s' & Hloop & _ & Hres); try assumption.
    - intros b0 s0 [_ [Hview _]]; exact Hview.
    - intros b0 s0 e0 small_buf r0 b1 s1 HP0 _ _ Hfill0.
      eapply chown_filler_same_directory; eassumption.
    - constructor.
    - split; [reflexivity | split; reflexivity].
    - destruct (Hres Hrq) as [-> Hfeed].
      rewrite Hloop.
      change (delivered (cached sb) (d_entries x))
        with (delivered sb (d_entries x)) in Hfeed.
      rewrite Hdel in Hfeed; cbn [feed] in Hfeed.
      unfold reiserfs_chown_xattrs_filler in Hfeed.
      rewrite name_of_local_buf in Hfeed.
      cbn [cb_xadir cb_attrs buf] in Hfeed.
      unfold lookup_one_len in Hfeed; rewrite Hl in Hfeed.
      rewrite d_inode_cached, Hxi, Hfile in Hfeed; cbn [negb] in Hfeed.
      unfold notify_change in Hfeed; rewrite Hfail in Hfeed.
      rewrite neg_negative in Hfeed.
      injection Hfeed as -> ->; reflexivity. }
  unfold reiserfs_chown_xattrs; cbv zeta.
  rewrite Hpriv, Hv, Hxattrs; cbn [negb orb].
  rewrite (open_xa_dir_found_lookup sb i x Hl Hok Hx); fold dn.
  rewrite positive_xadir, xa_dir_of_cached, Hx; cbn [negb].
  unfold dentry_open; rewrite Ho.
  fold (chown_attrs attrs); fold a; fold dn; fold buf.
  rewrite Hread; cbn [Z.eqb negb].
  unfold notify_change; rewrite Hdirok.
  eexists; split.
  - unfold a, chown_attrs; rewrite iattr_restore; reflexivity.
  - rewrite s_events_update_inode; cbn [s_events sb_with_event].
    unfold the_inode; cbn [d_inode].
    rewrite xa_dir_of_cached; fold dn; rewrite Hx; reflexivity.
Qed.

(** ** The list of handlers *)

Section RegistryProperties.

Variable handler_at : Z -> reiserfs_xattr_handler.

Lemma slot_load_store_same (t : handler_table) (xah : handler_slot)
      (v : option Z) :
  slot_load (slot_store t xah v) xah = v.
Proof. destruct xah; cbn; [reflexivity | rewrite Z.eqb_refl; reflexivity]. Qed.

Lemma slot_load_store_other (t : handler_table) (xah s : handler_slot)
      (v : option Z) :
  s <> xah -> slot_load (slot_store t xah v) s = slot_load t s.
Proof.
  destruct xah as [| a], s as [| b]; cbn; intros Hneq;
    try reflexivity; try congruence.
  destruct (Z.eqb_spec b a); [congruence | reflexivity].
Qed.

(** A store into a slot whose owner is not on the chain leaves the
    chain as it is. *)
Lemma handler_chain_store (t : handler_table) (xah : handler_slot)
      (v : option Z) (l : list Z) :
  forall p, slot_outside xah l ->
            handler_chain t p l ->
            handler_chain (slot_store t xah v) p l.
Proof.
  induction l as [| b rest IH]; intros p Hout; cbn [handler_chain];
    [auto |].
  intros [-> Hrest]; split; [reflexivity |].
  assert (Hnext : ht_next (slot_store t xah v) b = ht_next t b).
  { destruct xah as [| a]; cbn; [reflexivity |].
    destruct (Z.eqb_spec b a) as [-> | _]; [| reflexivity].
    exfalso; apply Hout; left; reflexivity. }
  rewrite Hnext; apply IH; [| exact Hrest].
  destruct xah; cbn in *; [exact I | intros Hin; apply Hout; right; exact Hin].
Qed.

Lemma walk_end_cases (stop : Z -> bool) (l : list Z) :
  forall xah,
    walk_end stop xah l = xah
    \/ exists c, In c l /\ walk_end stop xah l = Slot_next c.
Proof.
  induction l as [| a rest IH]; intros xah; cbn [walk_end]; [auto |].
  destruct (stop a); [auto |].
  destruct (IH (Slot_next a)) as [-> | (c & Hc & ->)]; right.
  - exists a; split; [left; reflexivity | reflexivity].
  - exists c; split; [right; exact Hc | reflexivity].
Qed.

(** The walk ends where [walk_end] says, within a step more than the
    list has handlers. *)
Lemma handler_walk_end (stop : Z -> bool) (t : handler_table)
      (l : list Z) :
  forall (fuel : nat) (xah : handler_slot),
    handler_chain t (slot_load t xah) l ->
    (List.length l < fuel)%nat ->
    handler_walk fuel stop t xah = Some (walk_end stop xah l)
    /\ slot_load t (walk_end stop xah l) = find stop l.
Proof.
  induction l as [| a rest IH]; intros fuel xah Hchain Hfuel;
    (destruct fuel as [| fuel]; [cbn in Hfuel; lia |]);
    cbn [handler_chain] in Hchain; cbn [handler_walk walk_end find].
  - rewrite Hchain; auto.
  - destruct Hchain as [Hload Hrest]; rewrite Hload.
    destruct (stop a); [auto |].
    apply IH; [exact Hrest | cbn in Hfuel; lia].
Qed.

Lemma find_handler_map (l : list Z) (name : string) :
  find_handler (map handler_at l) name
  = option_map handler_at
      (find (fun a => String.prefix (prefix (handler_at a)) name) l).
Proof.
  induction l as [| a rest IH]; cbn [map find_handler find]; [reflexivity |].
  destruct (String.prefix (prefix (handler_at a)) name); [reflexivity | exact IH].
Qed.

(** X16.  [find_xattr_handler_prefix] on the linked list returns the
    first handler of the list whose prefix starts the name, NULL when
    there is none, within one step more than the list has handlers;
    so the function on the list of handlers that the listing of names
    uses is the function on the linked list. *)
Theorem find_xattr_handler_first
        (t : handler_table) (l : list Z) (name : string) (fuel : nat) :
  handlers_are t l -> (List.length l < fuel)%nat ->
  find_xattr_handler_walk handler_at fuel t name
  = Some (find (fun a => String.prefix (prefix (handler_at a)) name) l)
  /\ find_handler (map handler_at l) name
     = option_map handler_at
         (find (fun a => String.prefix (prefix (handler_at a)) name) l).
Proof.
  intros [Hchain _] Hfuel; split; [| apply find_handler_map].
  unfold find_xattr_handler_walk.
  destruct (handler_walk_end
              (fun a => String.prefix (prefix (handler_at a)) name)
              t l fuel Slot_head Hchain Hfuel) as [-> Hload].
  cbn [option_map]; rewrite Hload; reflexivity.
Qed.

(** A handler appended at the end of the chain. *)
Lemma handler_chain_append (stop : Z -> bool) (h : Z) (l : list Z) :
  forall (t : handler_table) (xah : handler_slot),
    handler_chain t (slot_load t xah) l ->
    NoDup l -> slot_outside xah (h :: l) -> ~ In h l ->
    ht_next t h = None ->
    (forall a, In a l -> stop a = false) ->
    let t' := slot_store t (walk_end stop xah l) (Some h) in
    handler_chain t' (slot_load t' xah) (l ++ [h])
    /\ ht_next t' h = None.
Proof.
  induction l as [| b rest IH]; intros t xah Hchain Hnd Hout Hh Hnext Hstop;
    cbn [walk_end app handler_chain] in *.
  - rewrite slot_load_store_same.
    assert (Hn : ht_next (slot_store t xah (Some h)) h = None).
    { destruct xah as [| a]; cbn; [exact Hnext |].
      destruct (Z.eqb_spec h a) as [-> | _]; [| exact Hnext].
      exfalso; apply Hout; left; reflexivity. }
    rewrite Hn; auto.
  - destruct Hchain as [Hload Hrest].
    rewrite (Hstop b) by (left; reflexivity).
    apply NoDup_cons_iff in Hnd as [Hb Hnd].
    destruct (IH t (Slot_next b) Hrest Hnd) as [Hc Hn]; try assumption.
    + cbn; intros [-> | Hin]; [apply Hh; left; reflexivity | auto].
    + intros Hin; apply Hh; right; exact Hin.
    + intros a Ha; apply Hstop; right; exact Ha.
    + split; [| exact Hn].
      split; [| exact Hc].
      rewrite slot_load_store_other; [exact Hload |].
      destruct (walk_end_cases stop rest (Slot_next b))
        as [-> | (c & Hcin & ->)];
        (destruct xah as [| a]; [discriminate |]);
        intros [= ->]; apply Hout; cbn; auto.
Qed.

(** A handler with a new prefix and no [next] is appended. *)
Lemma register_handler_appends
      (t : handler_table) (l : list Z) (h : Z) (fuel : nat) :
  let same_prefix :=
    fun a => String.eqb (prefix (handler_at a)) (prefix (handler_at h)) in
  handlers_are t l -> (List.length l < fuel)%nat ->
  ht_next t h = None -> existsb same_prefix l = false ->
  exists t',
    reiserfs_xattr_register_handler handler_at fuel t (Some h) = Some (0, t')
    /\ handlers_are t' (l ++ [h])
    /\ ht_next t' h = None.
Proof.
  cbv zeta; intros [Hchain Hnd] Hfuel Hnext Hex.
  set (same_prefix :=
         fun a => String.eqb (prefix (handler_at a)) (prefix (handler_at h)))
    in *.
  destruct (handler_walk_end same_prefix t l fuel Slot_head Hchain Hfuel)
    as [Hwalk Hload].
  assert (Hstop : forall a, In a l -> same_prefix a = false).
  { intros a Ha; destruct (same_prefix a) eqn:E; [| reflexivity].
    rewrite <- Hex; symmetry; apply existsb_exists; eauto. }
  assert (Hh : ~ In h l).
  { intros Hin; specialize (Hstop h Hin).
    unfold same_prefix in Hstop; rewrite String.eqb_refl in Hstop.
    discriminate. }
  unfold reiserfs_xattr_register_handler.
  rewrite Hnext; fold same_prefix; rewrite Hwalk, Hload.
  destruct (find same_prefix l) eqn:Hfind.
  { apply find_some in Hfind as [Hin Hs].
    rewrite (Hstop _ Hin) in Hs; discriminate. }
  eexists; split; [reflexivity |].
  destruct (handler_chain_append same_prefix h l t Slot_head Hchain Hnd I
              Hh Hnext Hstop) as [Hc Hn].
  split; [split |]; [exact Hc | | exact Hn].
  apply NoDup_app; [exact Hnd | repeat constructor; intros [] |].
  intros a Ha [<- | []]; exact (Hh Ha).
Qed.

(** X17.  [reiserfs_xattr_register_handler] on a list of registered
    handlers: NULL is refused with [-EINVAL], a handler whose [next]
    is set with [-EBUSY], and so is a handler whose prefix is that of
    a registered handler, by which the one that is the last of the
    list is refused too; nothing changes then.  Any other handler is
    appended at the end of the list and the result is 0. *)
Theorem register_handler_spec
        (t : handler_table) (l : list Z) (h : Z) (fuel : nat) :
  let same_prefix :=
    fun a => String.eqb (prefix (handler_at a)) (prefix (handler_at h)) in
  handlers_are t l -> (List.length l < fuel)%nat ->
  reiserfs_xattr_register_handler handler_at fuel t None
  = Some (neg EINVAL, t)
  /\ (ht_next t h <> None ->
      reiserfs_xattr_register_handler handler_at fuel t (Some h)
      = Some (neg EBUSY, t))
  /\ (existsb same_prefix l = true ->
      reiserfs_xattr_register_handler handler_at fuel t (Some h)
      = Some (neg EBUSY, t))
  /\ (In h l ->
      reiserfs_xattr_register_handler handler_at fuel t (Some h)
      = Some (neg EBUSY, t))
  /\ (ht_next t h = None -> existsb same_prefix l = false ->
      exists t',
        reiserfs_xattr_register_handler handler_at fuel t (Some h)
        = Some (0, t')
        /\ handlers_are t' (l ++ [h])
        /\ ht_next t' h = None).
Proof.
  cbv zeta; intros [Hchain Hnd] Hfuel.
  set (same_prefix :=
         fun a => String.eqb (prefix (handler_at a)) (prefix (handler_at h))).
  destruct (handler_walk_end same_prefix t l fuel Slot_head Hchain Hfuel)
    as [Hwalk Hload].
  assert (Hbusy : existsb same_prefix l = true ->
                  reiserfs_xattr_register_handler handler_at fuel t (Some h)
                  = Some (neg EBUSY, t)).
  { intros Hex; unfold reiserfs_xattr_register_handler.
    destruct (ht_next t h); [reflexivity |].
    fold same_prefix; rewrite Hwalk, Hload.
    apply existsb_exists in Hex as (a & Ha & Hsame).
    destruct (find same_prefix l) eqn:Hfind; [reflexivity |].
    rewrite (find_none _ _ Hfind a Ha) in Hsame; discriminate. }
  split; [reflexivity |]; split; [| split; [exact Hbusy | split]].
  - intros Hnext; unfold reiserfs_xattr_register_handler.
    destruct (ht_next t h); [reflexivity | congruence].
  - intros Hin; apply Hbusy, existsb_exists.
    exists h; split; [exact Hin | apply String.eqb_refl].
  - intros Hnext Hex.
    apply register_handler_appends; auto; split; assumption.
Qed.
Lemma unregister_walk_absent (handler : option Z) (l : list Z) :
  forall (fuel : nat) (t : handler_table) (xah : handler_slot),
    handler_chain t (slot_load t xah) l ->
    (List.length l < fuel)%nat ->
    match handler with Some h => ~ In h l | None => True end ->
    unregister_walk fuel t handler xah = Some (neg EINVAL, t).
Proof.
  induction l as [| b rest IH]; intros fuel t xah Hchain Hfuel Hh;
    (destruct fuel as [| fuel]; [cbn in Hfuel; lia |]);
    cbn [handler_chain] in Hchain; cbn [unregister_walk].
  - rewrite Hchain; reflexivity.
  - destruct Hchain as [-> Hrest].
    assert (Hne : match handler with Some h => h =? b | None => false end
                  = false).
    { destruct handler as [h |]; [| reflexivity].
      apply Z.eqb_neq; intros ->; apply Hh; left; reflexivity. }
    rewrite Hne; apply IH; [exact Hrest | cbn in Hfuel; lia |].
    destruct handler; [| exact I].
    intros Hin; apply Hh; right; exact Hin.
Qed.

Lemma slot_outside_tail (xah : handler_slot) (b : Z) (rest : list Z) :
  slot_outside xah (b :: rest) ->
  slot_outside xah rest /\ xah <> Slot_next b.
Proof.
  destruct xah as [| a]; cbn; [split; [exact I | discriminate] |].
  intros H; split; [intros H'; apply H; right; exact H' |].
  intros [= ->]; apply H; left; reflexivity.
Qed.

Lemma unregister_walk_present (h : Z) (l : list Z) :
  forall (fuel : nat) (t : handler_table) (xah : handler_slot),
    handler_chain t (slot_load t xah) l ->
    NoDup l -> slot_outside xah l -> In h l ->
    (List.length l < fuel)%nat ->
    exists t',
      unregister_walk fuel t (Some h) xah = Some (0, t')
      /\ handler_chain t' (slot_load t' xah) (remove Z.eq_dec h l)
      /\ ht_next t' h = None
      /\ (forall s, s <> xah -> slot_outside s l ->
                    slot_load t' s = slot_load t s).
Proof.
  induction l as [| b rest IH]; intros fuel t xah Hchain Hnd Hout Hin Hfuel;
    [destruct Hin |].
  destruct fuel as [| fuel]; [cbn in Hfuel; lia |].
  cbn [handler_chain] in Hchain; destruct Hchain as [Hload Hrest].
  apply NoDup_cons_iff in Hnd as [Hb Hnd].
  destruct (slot_outside_tail _ _ _ Hout) as [Hout' Hxah].
  cbn [unregister_walk remove]; rewrite Hload.
  destruct (Z.eq_dec h b) as [-> | Hneq].
  - rewrite Z.eqb_refl; cbv zeta.
    eexists; split; [reflexivity |].
    rewrite notin_remove by exact Hb.
    split; [| split].
    + rewrite slot_load_store_other by exact Hxah.
      rewrite slot_load_store_same.
      apply handler_chain_store; [exact Hb |].
      apply handler_chain_store; [exact Hout' | exact Hrest].
    + apply (slot_load_store_same _ (Slot_next b)).
    + intros s Hs Hsout.
      destruct (slot_outside_tail _ _ _ Hsout) as [_ Hsb].
      rewrite !slot_load_store_other by assumption; reflexivity.
  - destruct (Z.eqb_spec h b) as [-> | _]; [congruence |].
    destruct Hin as [-> | Hin]; [congruence |].
    destruct (IH fuel t (Slot_next b) Hrest Hnd Hb Hin)
      as (t' & Hrun & Hc & Hn & Hframe); [cbn in Hfuel; lia |].
    exists t'; split; [exact Hrun |].
    split; [| split; [exact Hn |]].
    + cbn [handler_chain]; split; [| exact Hc].
      rewrite Hframe by assumption; exact Hload.
    + intros s Hs Hsout.
      destruct (slot_outside_tail _ _ _ Hsout) as [Hsout' Hsb].
      apply Hframe; assumption.
Qed.

Lemma NoDup_remove_Z (h : Z) (l : list Z) :
  NoDup l -> NoDup (remove Z.eq_dec h l).
Proof.
  induction l as [| b rest IH]; cbn [remove]; intros Hnd; [constructor |].
  apply NoDup_cons_iff in Hnd as [Hb Hnd].
  destruct (Z.eq_dec h b); [apply IH; exact Hnd |].
  constructor; [| apply IH; exact Hnd].
  intros Hin; apply in_remove in Hin as [Hin _]; exact (Hb Hin).
Qed.

(** A handler of the list is taken out. *)
Lemma unregister_handler_removes
      (t : handler_table) (l : list Z) (h : Z) (fuel : nat) :
  handlers_are t l -> (List.length l < fuel)%nat -> In h l ->
  exists t',
    reiserfs_xattr_unregister_handler fuel t (Some h) = Some (0, t')
    /\ handlers_are t' (remove Z.eq_dec h l)
    /\ ht_next t' h = None.
Proof.
  intros [Hchain Hnd] Hfuel Hin; unfold reiserfs_xattr_unregister_handler.
  destruct (unregister_walk_present h l fuel t Slot_head Hchain Hnd I Hin
              Hfuel) as (t' & Hrun & Hc & Hn & _).
  exists t'; split; [exact Hrun |]; split; [| exact Hn].
  split; [exact Hc | apply NoDup_remove_Z; exact Hnd].
Qed.

(** X18.  [reiserfs_xattr_unregister_handler] on a list of registered
    handlers: a handler of the list is taken out, the others stay in
    their order, its [next] is reset and the result is 0; NULL and a
    handler that is not in the list are refused with [-EINVAL] and
    nothing changes. *)
Theorem unregister_handler_spec
        (t : handler_table) (l : list Z) (h : Z) (fuel : nat) :
  handlers_are t l -> (List.length l < fuel)%nat ->
  reiserfs_xattr_unregister_handler fuel t None = Some (neg EINVAL, t)
  /\ (~ In h l ->
      reiserfs_xattr_unregister_handler fuel t (Some h)
      = Some (neg EINVAL, t))
  /\ (In h l ->
      exists t',
        reiserfs_xattr_unregister_handler fuel t (Some h) = Some (0, t')
        /\ handlers_are t' (remove Z.eq_dec h l)
        /\ ht_next t' h = None).
Proof.
  intros [Hchain Hnd] Hfuel; unfold reiserfs_xattr_unregister_handler.
  split; [| split].
  - apply (unregister_walk_absent None l); auto.
  - intros Hh; apply (unregister_walk_absent (Some h) l); auto.
  - intros Hin; apply unregister_handler_removes; auto; split; assumption.
Qed.
Lemma remove_app_last (h : Z) (l : list Z) :
  ~ In h l -> remove Z.eq_dec h (l ++ [h]) = l.
Proof.
  intros Hh; rewrite remove_app, notin_remove by exact Hh.
  cbn [remove]; destruct (Z.eq_dec h h); [apply app_nil_r | congruence].
Qed.

Lemma find_app_last (f : Z -> bool) (l : list Z) (h : Z) :
  find f (l ++ [h])
  = match find f l with
    | Some a => Some a
    | None => if f h then Some h else None
    end.
Proof.
  induction l as [| a rest IH]; cbn [app find]; [reflexivity |].
  destruct (f a); [reflexivity | exact IH].
Qed.

(** X19.  Registration gives a new handler the last place: after
    [reiserfs_xattr_register_handler] returned 0, every name that had
    a handler has the same handler, and a name that had none has the
    new handler if the new prefix starts it. *)
Theorem register_handler_last
        (t : handler_table) (l : list Z) (h : Z) (fuel : nat) :
  let same_prefix :=
    fun a => String.eqb (prefix (handler_at a)) (prefix (handler_at h)) in
  handlers_are t l -> (List.length l + 1 < fuel)%nat ->
  ht_next t h = None -> existsb same_prefix l = false ->
  exists t',
    reiserfs_xattr_register_handler handler_at fuel t (Some h) = Some (0, t')
    /\ forall name,
         find_xattr_handler_walk handler_at fuel t' name
         = match find_xattr_handler_walk handler_at fuel t name with
           | Some (Some a) => Some (Some a)
           | _ => Some (if String.prefix (prefix (handler_at h)) name
                        then Some h else None)
           end.
Proof.
  cbv zeta; intros Hl Hfuel Hnext Hex.
  destruct (register_handler_appends t l h fuel Hl) as (t' & Hrun & Hl' & _);
    [lia | exact Hnext | exact Hex |].
  exists t'; split; [exact Hrun |].
  intros name.
  destruct Hl as [Hc _], Hl' as [Hc' _].
  unfold find_xattr_handler_walk.
  destruct (handler_walk_end
              (fun a => String.prefix (prefix (handler_at a)) name)
              t l fuel Slot_head Hc) as [Hw Hld]; [lia |].
  destruct (handler_walk_end
              (fun a => String.prefix (prefix (handler_at a)) name)
              t' (l ++ [h]) fuel Slot_head Hc') as [Hw' Hld'];
    [rewrite length_app; cbn; lia |].
  rewrite Hw, Hw'; cbn [option_map]; rewrite Hld, Hld', find_app_last.
  destruct (find _ l); reflexivity.
Qed.

(** X20.  A handler that was registered and is unregistered again
    leaves the list as it was; and the prefixes of the registered
    handlers stay pairwise distinct under registration and under
    unregistration. *)
Theorem register_unregister_handler
        (t : handler_table) (l : list Z) (h : Z) (fuel : nat) :
  let same_prefix :=
    fun a => String.eqb (prefix (handler_at a)) (prefix (handler_at h)) in
  let prefixes := fun l => map (fun a => prefix (handler_at a)) l in
  handlers_are t l -> (List.length l + 1 < fuel)%nat ->
  (ht_next t h = None -> existsb same_prefix l = false ->
   exists t1 t2,
     reiserfs_xattr_register_handler handler_at fuel t (Some h)
     = Some (0, t1)
     /\ reiserfs_xattr_unregister_handler fuel t1 (Some h) = Some (0, t2)
     /\ handlers_are t2 l /\ ht_next t2 h = None
     /\ (NoDup (prefixes l) -> NoDup (prefixes (l ++ [h]))))
  /\ (NoDup (prefixes l) -> NoDup (prefixes (remove Z.eq_dec h l))).
Proof.
  cbv zeta; intros Hl Hfuel; split.
  - intros Hnext Hex.
    destruct (register_handler_appends t l h fuel Hl) as (t1 & Hrun & Hl1 & _);
      [lia | exact Hnext | exact Hex |].
    assert (Hh : ~ In h l).
    { intros Hin.
      assert (E : existsb
                    (fun a => String.eqb (prefix (handler_at a))
                                         (prefix (handler_at h))) l = true)
        by (apply existsb_exists; exists h; split;
            [exact Hin | apply String.eqb_refl]).
      congruence. }
    destruct (unregister_handler_removes t1 (l ++ [h]) h fuel Hl1)
      as (t2 & Hrun2 & Hl2 & Hn2);
      [rewrite length_app; cbn; lia | apply in_or_app; right; left;
                                      reflexivity |].
    rewrite remove_app_last in Hl2 by exact Hh.
    exists t1, t2; repeat split; try assumption; try apply Hl2.
    intros Hnd; rewrite map_app; cbn [map].
    apply NoDup_app; [exact Hnd | repeat constructor; intros [] |].
    intros p Hp [<- | []].
    apply in_map_iff in Hp as (a & Ha & Hin).
    assert (E : existsb
                  (fun a => String.eqb (prefix (handler_at a))
                                       (prefix (handler_at h))) l = true)
      by (apply existsb_exists; exists a; split;
          [exact Hin | apply String.eqb_eq; exact Ha]).
    congruence.
  - clear; induction l as [| b rest IH]; cbn [remove map]; intros Hnd;
      [constructor |].
    apply NoDup_cons_iff in Hnd as [Hb Hnd].
    destruct (Z.eq_dec h b); [apply IH; exact Hnd |].
    cbn [map]; constructor; [| apply IH; exact Hnd].
    intros Hin; apply Hb.
    apply in_map_iff in Hin as (a & Ha & Hin).
    apply in_remove in Hin as [Hin _].
    apply in_map_iff; eauto.
Qed.

End RegistryProperties.

(** ** Deleting all attributes of an object *)

Lemma shown_flags (s s' : super_block) (e : dirent) :
  readdir_flags s' = readdir_flags s -> shown s' e = shown s e.
Proof.
  unfold readdir_flags, shown, is_priv_root; intros [= H1 H2 H3 H4].
  rewrite H1, H2, H3.
  destruct (priv_root s') as [p' |], (priv_root s) as [p |];
    cbn [option_map] in H4; try discriminate; [| reflexivity].
  injection H4 as ->; reflexivity.
Qed.

Lemma delivered_flags (s s' : super_block) (l : list dirent) :
  readdir_flags s' = readdir_flags s -> delivered s' l = delivered s l.
Proof.
  intros H; unfold delivered; apply filter_ext.
  intros e; apply shown_flags; exact H.
Qed.

Lemma undelivered_flags (s s' : super_block) (l : list dirent) :
  readdir_flags s' = readdir_flags s -> undelivered s' l = undelivered s l.
Proof.
  intros H; induction l as [| e rest IH]; cbn [undelivered]; [reflexivity |].
  rewrite (shown_flags s s' e H), IH; reflexivity.
Qed.

Lemma readdir_flags_unlink (s : super_block) (dir name : string)
      (ev : event) :
  readdir_flags (sb_update_entries (sb_with_event s ev) dir
                                   (remove_entry name))
  = readdir_flags s.
Proof.
  unfold readdir_flags, sb_update_entries.
  destruct (sb_update_dir_flags (sb_with_event s ev) dir
              (fun x => mk_directory (d_dir_inode x)
                                     (remove_entry name (d_entries x))))
    as (-> & -> & -> & ->).
  reflexivity.
Qed.

(** Removing by name the entry that a lookup of the name finds. *)
Lemma remove_entry_found (kept rest : list dirent) (e : dirent) :
  names_unique (kept ++ e :: rest) -> de_visible e = true ->
  remove_entry (de_name e) (kept ++ e :: rest) = kept ++ rest.
Proof.
  intros Hu Hv.
  induction kept as [| k kept IH]; cbn [app remove_entry].
  - unfold entry_named; rewrite Hv, String.eqb_refl; reflexivity.
  - assert (Hk : entry_named (de_name e) k = false).
    { destruct (entry_named (de_name e) k) eqn:E; [| reflexivity].
      unfold entry_named in E; apply andb_true_iff in E as [Hkv Hkn].
      apply String.eqb_eq in Hkn.
      unfold names_unique in Hu; cbn [app filter] in Hu.
      rewrite Hkv in Hu; cbn [map] in Hu.
      apply NoDup_cons_iff in Hu as [Hnotin _].
      exfalso; apply Hnotin; rewrite Hkn.
      apply in_map, filter_In; split; [| exact Hv].
      apply in_or_app; right; left; reflexivity. }
    rewrite Hk; f_equal; apply IH.
    unfold names_unique in *; cbn [app filter] in Hu.
    destruct (de_visible k); [| exact Hu].
    cbn [map] in Hu; apply NoDup_cons_iff in Hu as [_ Hu]; exact Hu.
Qed.

Lemma names_unique_remove (kept rest : list dirent) (e : dirent) :
  names_unique (kept ++ e :: rest) -> names_unique (kept ++ rest).
Proof.
  unfold names_unique; rewrite !filter_app, !map_app; cbn [filter].
  destruct (de_visible e); [| auto].
  cbn [map]; apply NoDup_remove_1.
Qed.

Lemma names_unique_middle (kept rest : list dirent) (e : dirent) :
  names_unique (kept ++ e :: rest) -> names_unique ((kept ++ [e]) ++ rest).
Proof. rewrite <- app_assoc; auto. Qed.

Section DeleteAllProperties.

Variable o_rmdir : dentry -> option errno.
Variable dn : string.

Hypothesis Hq : vfs_quiet orc.
Hypothesis Hrq : readdir_quiet orc.

(** The consumer on an entry that a lookup of its name finds and that
    is an attribute file: the entry is unlinked. *)
Lemma reiserfs_delete_xattrs_filler_unlinks
      (s : super_block) (e : dirent) (small_buf : string) (ino : Z) :
  names_unique (entries_of s (D_xadir dn)) ->
  In e (entries_of s (D_xadir dn)) ->
  de_visible e = true -> deletable e = true ->
  reiserfs_delete_xattrs_filler
    (D_xadir dn)
    (local_buf_bytes small_buf (de_name e) (d_reclen_of e) (deh_offset e))
    (d_reclen_of e) (deh_offset e) ino s
  = (0, D_xadir dn, unlink_all dn [e] s).
Proof.
  intros Hu Hin Hv Hdel.
  unfold deletable in Hdel; apply andb_true_iff in Hdel as [Hdir Hpriv].
  apply negb_true_iff in Hdir.
  assert (Hd : d_inode s (D_xafile dn (de_name e)) = Some (de_inode e))
    by (rewrite d_inode_xafile, (find_entry_unique _ e Hu Hin Hv);
        reflexivity).
  unfold reiserfs_delete_xattrs_filler, __reiserfs_xattr_del.
  rewrite name_of_local_buf.
  rewrite (lookup_one_len_quiet Hq), Hd, Hdir, Hpriv; cbn [negb].
  rewrite (unlink_quiet Hq s dn (de_name e) (de_inode e) Hd).
  reflexivity.
Qed.

(** The enumeration with this consumer: every entry it hands over is
    unlinked, and the entries it has not yet come to are not disturbed
    by that. *)
Lemma delete_loop (suf : list dirent) :
  forall (kept : list dirent) (fuel step : nat) (pos : Z)
         (small_buf : string) (s : super_block),
    entries_of s (D_xadir dn) = kept ++ suf ->
    Forall (fun e => pos < deh_offset e) kept ->
    Forall (fun e => deh_offset e <= pos) suf ->
    key_order suf ->
    names_unique (kept ++ suf) ->
    Forall (fun e => deletable e = true) (delivered s suf) ->
    (List.length suf < fuel)%nat ->
    xattr_readdir_loop fuel step (D_xadir dn) reiserfs_delete_xattrs_filler
                       pos small_buf (D_xadir dn) s
    = Some (0, D_xadir dn, unlink_all dn (delivered s suf) s)
    /\ entries_of (unlink_all dn (delivered s suf) s) (D_xadir dn)
       = kept ++ undelivered s suf
    /\ readdir_flags (unlink_all dn (delivered s suf) s) = readdir_flags s.
Proof.
  induction suf as [| e rest IH];
    intros kept fuel step pos small_buf s Hl Hkept Hsuf Hord Hu Hdel Hfuel;
    (destruct fuel as [| fuel]; [cbn in Hfuel; lia |]);
    cbn [xattr_readdir_loop].
  - (* no entry at or before the cursor *)
    assert (Hbody : xattr_readdir_body step s (D_xadir dn) pos
                    = RD_return 0).
    { unfold xattr_readdir_body.
      destruct (pos <=? DOT_DOT_OFFSET); [reflexivity |].
      rewrite (q_search_io_error _ Hrq).
      rewrite Hl, search_by_entry_key_split by assumption.
      reflexivity. }
    rewrite Hbody; cbn [delivered above_dot_dot filter unlink_all
                          undelivered].
    auto.
  - inversion Hsuf as [| ? ? He Hrest]; subst.
    inversion Hord as [| ? ? Hord' Hlt]; subst.
    destruct (Z_le_gt_dec pos DOT_DOT_OFFSET) as [Hlow | Hhigh].
    { (* the cursor reached the dot entries *)
      unfold xattr_readdir_body.
      destruct (Z.leb_spec pos DOT_DOT_OFFSET); [| lia].
      rewrite (delivered_below s (e :: rest) pos) by assumption.
      cbn [unlink_all undelivered].
      destruct (Z.leb_spec (deh_offset e) DOT_DOT_OFFSET); [auto | lia]. }
    assert (Hs : search_by_entry_key (entries_of s (D_xadir dn)) pos
                 = Some e).
    { rewrite Hl, search_by_entry_key_split by assumption.
      unfold search_by_entry_key; cbn [find].
      destruct (Z.leb_spec (deh_offset e) pos); [reflexivity | lia]. }
    destruct (Z_le_gt_dec (deh_offset e) DOT_DOT_OFFSET) as [Hdot | Hreal].
    { (* the entry found is a dot entry *)
      unfold xattr_readdir_body.
      destruct (Z.leb_spec pos DOT_DOT_OFFSET); [lia |].
      rewrite Hs, (q_search_io_error _ Hrq).
      rewrite delivered_cons; cbn [undelivered].
      destruct (Z.leb_spec (deh_offset e) DOT_DOT_OFFSET); [| lia].
      cbn [unlink_all]; auto. }
    (* the entry found is a real one *)
    rewrite (xattr_readdir_body_found step s (D_xadir dn) pos e)
      by (assumption || lia).
    rewrite (q_search_io_error _ Hrq), (q_kmalloc_fails _ Hrq),
      (q_item_moved _ Hrq).
    cbn [orb negb]; rewrite orb_true_r.
    rewrite delivered_cons in Hdel |- *; cbn [undelivered].
    destruct (Z.leb_spec (deh_offset e) DOT_DOT_OFFSET); [lia |].
    assert (Hkept' : Forall (fun x => deh_offset e - 1 < deh_offset x)
                            (kept ++ [e])).
    { apply Forall_app; split.
      - eapply Forall_impl; [| exact Hkept]; cbv beta; intros; lia.
      - constructor; [lia | constructor]. }
    assert (Hrest' : Forall (fun x => deh_offset x <= deh_offset e - 1) rest)
      by (eapply Forall_impl; [| exact Hlt]; cbv beta; intros; lia).
    destruct (shown s e) eqn:Hshown; cbn [negb].
    + (* handed over, and unlinked *)
      assert (Hv : de_visible e = true).
      { unfold shown in Hshown.
        apply andb_true_iff in Hshown as [Hshown _].
        apply andb_true_iff in Hshown as [Hshown _]; exact Hshown. }
      apply Forall_cons_iff in Hdel as [Hde Hdel].
      cbv zeta.
      rewrite (reiserfs_delete_xattrs_filler_unlinks s e);
        [| rewrite Hl; exact Hu
         | rewrite Hl; apply in_or_app; right; left; reflexivity
         | exact Hv | exact Hde].
      change (0 <? 0) with false; cbv iota.
      set (s1 := unlink_all dn [e] s).
      assert (Hflags : readdir_flags s1 = readdir_flags s)
        by apply readdir_flags_unlink.
      assert (Hl1 : entries_of s1 (D_xadir dn) = kept ++ rest).
      { subst s1; cbn [unlink_all].
        rewrite entries_of_update_entries.
        - change (entries_of (sb_with_event s ?ev) ?d) with (entries_of s d).
          rewrite Hl; apply remove_entry_found; assumption.
        - change (xa_dir_of (sb_with_event s ?ev) dn) with (xa_dir_of s dn).
          cbn [entries_of] in Hl.
          destruct (xa_dir_of s dn); [discriminate |].
          destruct kept; discriminate. }
      destruct (IH kept fuel (S step) (deh_offset e - 1)
                   (small_buf_after small_buf (de_name e) (d_reclen_of e))
                   s1) as (H1 & H2 & H3).
      * exact Hl1.
      * eapply Forall_impl; [| exact Hkept]; cbv beta; intros; lia.
      * exact Hrest'.
      * exact Hord'.
      * eapply names_unique_remove; exact Hu.
      * rewrite (delivered_flags s s1) by exact Hflags; exact Hdel.
      * cbn in Hfuel; lia.
      * rewrite (delivered_flags s s1) in H1, H2, H3 by exact Hflags.
        rewrite (undelivered_flags s s1) in H2 by exact Hflags.
        change (unlink_all dn (e :: delivered s rest) s)
          with (unlink_all dn (delivered s rest) s1).
        split; [exact H1 |]; split; [exact H2 | congruence].
    + (* passed over *)
      destruct (IH (kept ++ [e]) fuel (S step) (deh_offset e - 1) small_buf
                   s)
        as (H1 & H2 & H3); try assumption.
      * rewrite <- app_assoc; exact Hl.
      * apply names_unique_middle; exact Hu.
      * cbn in Hfuel; lia.
      * split; [exact H1 |]; split; [| exact H3].
        rewrite H2, <- app_assoc; reflexivity.
Qed.

Lemma map_fst_update_dir (dir : string) (f : directory -> directory)
      (l : list (string * directory)) :
  map fst (update_dir dir f l) = map fst l.
Proof.
  induction l as [| [n d] l IH]; cbn [update_dir map]; [reflexivity |].
  destruct (String.eqb n dir); cbn [map fst]; [reflexivity |].
  rewrite IH; reflexivity.
Qed.

Lemma xa_root_keys_update_dir (s : super_block) (dir : string)
      (f : directory -> directory) :
  option_map (fun r => (xr_inode r, map fst (xr_dirs r)))
             (xa_root_of (sb_update_dir s dir f))
  = option_map (fun r => (xr_inode r, map fst (xr_dirs r))) (xa_root_of s).
Proof.
  unfold sb_update_dir, sb_with_xa_root, xa_root_of.
  destruct (priv_root s) as [p |] eqn:Ep; [| rewrite Ep; reflexivity].
  destruct (pr_xattrs p) as [r |] eqn:Er.
  - cbn; rewrite map_fst_update_dir; reflexivity.
  - rewrite Ep, Er; reflexivity.
Qed.

(** What the unlinks leave alone. *)
Lemma unlink_all_frame (l : list dirent) :
  forall s : super_block,
    s_events (unlink_all dn l s) = rev (unlink_events dn l) ++ s_events s
    /\ xattr_root (unlink_all dn l s) = xattr_root s
    /\ (forall d', d' <> dn ->
                   xa_dir_of (unlink_all dn l s) d' = xa_dir_of s d')
    /\ option_map d_dir_inode (xa_dir_of (unlink_all dn l s) dn)
       = option_map d_dir_inode (xa_dir_of s dn)
    /\ option_map (fun r => (xr_inode r, map fst (xr_dirs r)))
                  (xa_root_of (unlink_all dn l s))
       = option_map (fun r => (xr_inode r, map fst (xr_dirs r)))
                    (xa_root_of s)
    /\ (sb_ok s -> sb_ok (unlink_all dn l s)).
Proof.
  induction l as [| e rest IH]; intros s; cbn [unlink_all unlink_events map rev].
  - repeat split; auto.
  - destruct (IH (sb_update_entries
                    (sb_with_event s (Ev_unlink (D_xafile dn (de_name e))
                                                (k_objectid (de_inode e))))
                    dn (remove_entry (de_name e))))
      as (H1 & H2 & H3 & H4 & H5 & H6).
    unfold sb_update_entries in *.
    split; [| split; [| split; [| split; [| split]]]].
    + rewrite H1, s_events_update_dir, <- app_assoc; reflexivity.
    + rewrite H2, xattr_root_update_dir; reflexivity.
    + intros d' Hd'; rewrite H3, xa_dir_of_update_other by assumption.
      reflexivity.
    + rewrite H4, xa_dir_of_update_dir.
      change (xa_dir_of (sb_with_event s ?ev) dn) with (xa_dir_of s dn).
      destruct (xa_dir_of s dn); reflexivity.
    + rewrite H5, xa_root_keys_update_dir; reflexivity.
    + intros Hok; apply H6, sb_ok_update_dir; exact Hok.
Qed.

Lemma find_dir_remove_dir_other (dir dir' : string)
      (l : list (string * directory)) :
  dir' <> dir -> find_dir dir' (remove_dir dir l) = find_dir dir' l.
Proof.
  intros Hneq.
  induction l as [| [n d] l IH]; cbn [remove_dir find_dir]; [reflexivity |].
  destruct (String.eqb_spec n dir) as [-> | Hn]; cbn [find_dir].
  - destruct (String.eqb_spec dir dir'); [congruence | reflexivity].
  - rewrite IH; reflexivity.
Qed.

Lemma find_dir_none (dir : string) (l : list (string * directory)) :
  ~ In dir (map fst l) -> find_dir dir l = None.
Proof.
  induction l as [| [n d] l IH]; cbn [find_dir map fst In]; [reflexivity |].
  intros Hnot.
  destruct (String.eqb_spec n dir); [tauto |].
  apply IH; tauto.
Qed.

Lemma find_dir_remove_dir_same (dir : string)
      (l : list (string * directory)) :
  NoDup (map fst l) -> find_dir dir (remove_dir dir l) = None.
Proof.
  induction l as [| [n d] l IH]; cbn [remove_dir map fst]; [reflexivity |].
  intros Hnd; apply NoDup_cons_iff in Hnd as [Hn Hnd].
  destruct (String.eqb_spec n dir) as [-> | Hneq].
  - apply find_dir_none; exact Hn.
  - cbn [find_dir].
    destruct (String.eqb_spec n dir); [congruence | apply IH; exact Hnd].
Qed.

(** With the entries in key order, what is left after the entries
    handed over are gone keeps no directory from being empty if every
    visible entry above [..] is one that is handed over. *)
Lemma undelivered_no_entry (sb : super_block) (l : list dirent) :
  key_order l ->
  Forall (fun e => no_entry e = true \/ shown sb e = true) l ->
  forallb no_entry (undelivered sb l) = true.
Proof.
  unfold key_order; induction l as [| e rest IH]; cbn [undelivered];
    intros Hord Hall; [reflexivity |].
  apply StronglySorted_inv in Hord as [Hord He].
  apply Forall_cons_iff in Hall as [Hhead Hall].
  destruct (Z.leb_spec (deh_offset e) DOT_DOT_OFFSET) as [Hdot | Hreal].
  - apply forallb_forall; intros y [<- | Hy]; unfold no_entry.
    + destruct (Z.leb_spec (deh_offset e) DOT_DOT_OFFSET); [| lia].
      apply orb_true_r.
    + rewrite Forall_forall in He; specialize (He y Hy).
      destruct (Z.leb_spec (deh_offset y) DOT_DOT_OFFSET); [| lia].
      apply orb_true_r.
  - destruct (shown sb e) eqn:Hshown; [apply IH; assumption |].
    cbn [forallb]; rewrite IH by assumption.
    destruct Hhead as [-> | Hs]; [reflexivity | congruence].
Qed.
(** X21.  [reiserfs_delete_xattrs] on an object whose attribute
    directory holds attribute files: every entry that the enumeration
    hands over is unlinked, from the highest offset down, although the
    directory changes under the enumeration; the directory, then
    empty, is removed, the directories of the other objects stay, and
    the result is 0.  A following [reiserfs_listxattr] returns 0. *)
Theorem delete_xattrs_removes_all
        (sb : super_block) (i : inode) (x : directory) (fuel : nat) :
  dn = xa_dir_name i ->
  o_rmdir (D_xadir dn) = None ->
  sb_ok sb -> dirs_unique sb ->
  i_priv_object i = false -> i_sd_version i = STAT_DATA_V2 ->
  s_xattrs sb = true ->
  xa_dir_of sb dn = Some x ->
  i_isdir (d_dir_inode x) = true -> i_dead (d_dir_inode x) = false ->
  i_nlink (d_dir_inode x) <= 2 ->
  key_order (d_entries x) ->
  Forall (fun e => deh_offset e <= max_reiserfs_offset) (d_entries x) ->
  names_unique (d_entries x) ->
  Forall (fun e => deletable e = true) (delivered sb (d_entries x)) ->
  Forall (fun e => no_entry e = true \/ shown sb e = true) (d_entries x) ->
  (List.length (d_entries x) < fuel)%nat ->
  exists sb',
    reiserfs_delete_xattrs o_rmdir fuel sb i = Some (0, sb')
    /\ s_events sb'
       = rev (unlink_events dn (delivered sb (d_entries x))) ++ s_events sb
    /\ xa_dir_of sb' dn = None
    /\ (forall d', d' <> dn -> xa_dir_of sb' d' = xa_dir_of sb d')
    /\ sb_ok sb'
    /\ forall fuel' buffer size,
         exists sb'',
           reiserfs_listxattr fuel' sb' (Some i) buffer size
           = Some (0, buffer, sb'').
Proof.
  intros Hdn Hrm Hok Hdirs Hpriv Hv Hxattrs Hx Hisdir Hlive Hnlink Hord Hmax
    Hu Hdel Hall Hfuel.
  set (s2 := unlink_all dn (delivered sb (d_entries x)) (cached sb)).
  assert (Hent : entries_of (cached sb) (D_xadir dn) = d_entries x)
    by (cbn [entries_of]; rewrite xa_dir_of_cached, Hx; reflexivity).
  destruct (delete_loop (d_entries x) [] fuel 0%nat max_reiserfs_offset
              small_buf_0 (cached sb))
    as (Hloop & Hent2 & Hflags); try assumption.
  { constructor. }
  change (delivered (cached sb) (d_entries x))
    with (delivered sb (d_entries x)) in Hloop, Hent2, Hflags.
  rewrite (undelivered_flags sb (cached sb)) in Hent2 by reflexivity.
  fold s2 in Hloop, Hent2, Hflags; cbn [app] in Hent2.
  destruct (unlink_all_frame (delivered sb (d_entries x)) (cached sb))
    as (Hev & Hc & Hother & Hinode & Hkeys & Hok2).
  fold s2 in Hev, Hc, Hother, Hinode, Hkeys, Hok2.
  rewrite xa_dir_of_cached, Hx in Hinode; cbn [option_map] in Hinode.
  destruct (xa_dir_of s2 dn) as [x2 |] eqn:Hx2; [| discriminate].
  injection Hinode as Hinode.
  assert (Hent2' : d_entries x2 = undelivered sb (d_entries x))
    by (cbn [entries_of] in Hent2; rewrite Hx2 in Hent2; exact Hent2).
  pose proof (xa_dir_of_root _ _ _ Hx) as Hroot.
  destruct (xa_root_of sb) as [r |] eqn:Hr; [| congruence].
  change (xa_root_of (cached sb)) with (xa_root_of sb) in Hkeys.
  rewrite Hr in Hkeys; cbn [option_map] in Hkeys.
  destruct (xa_root_of s2) as [r2 |] eqn:Hr2; [| discriminate].
  injection Hkeys as Hri Hnames.
  assert (Hp2 : priv_root s2 <> None)
    by (unfold xa_root_of in Hr2; destruct (priv_root s2); discriminate).
  eexists; split; [| split; [| split; [| split; [| split]]]].
  - unfold reiserfs_delete_xattrs.
    rewrite Hpriv, Hv, Hxattrs; cbn [negb orb].
    rewrite (open_xa_dir_found Hq sb i FL_READONLY x Hok)
      by (rewrite <- Hdn; exact Hx).
    rewrite <- Hdn, positive_xadir, xa_dir_of_cached, Hx; cbn [negb].
    rewrite (dentry_open_quiet Hq).
    unfold xattr_readdir, the_inode; cbn [d_inode].
    rewrite xa_dir_of_cached, Hx; cbn [option_map].
    rewrite Hisdir, Hlive; cbn [negb].
    unfold __xattr_readdir; rewrite Hloop; cbn [Z.eqb negb].
    rewrite Hx2; cbn [option_map]; rewrite Hinode.
    destruct (Z.leb_spec (i_nlink (d_dir_inode x)) 2); [| lia].
    unfold get_xa_root; rewrite Hc; cbn [xattr_root cached sb_with_xattr_root].
    unfold vfs_rmdir; rewrite Hrm, Hr2, Hx2, Hent2'.
    rewrite (undelivered_no_entry sb (d_entries x) Hord Hall).
    reflexivity.
  - rewrite s_events_with_xa_root; exact Hev.
  - rewrite xa_dir_of_with_xa_root by exact Hp2.
    apply find_dir_remove_dir_same.
    rewrite Hnames; unfold dirs_unique in Hdirs; rewrite Hr in Hdirs.
    exact Hdirs.
  - intros d' Hd'.
    rewrite xa_dir_of_with_xa_root by exact Hp2.
    rewrite find_dir_remove_dir_other by exact Hd'.
    change (xa_dir_of sb d') with (xa_dir_of (cached sb) d').
    rewrite <- (Hother d' Hd'); unfold xa_dir_of; rewrite Hr2; reflexivity.
  - unfold sb_ok; rewrite xattr_root_with_xa_root, Hc.
    split; [reflexivity |].
    rewrite xa_root_of_with_xa_root by exact Hp2; discriminate.
  - intros fuel' buffer size.
    set (sb' := sb_with_xa_root s2 _).
    assert (Hok' : sb_ok sb').
    { unfold sb_ok; subst sb'; rewrite xattr_root_with_xa_root, Hc.
      split; [reflexivity |].
      rewrite xa_root_of_with_xa_root by exact Hp2; discriminate. }
    assert (Hnone : xa_dir_of sb' (xa_dir_name i) = None).
    { rewrite <- Hdn; subst sb'.
      rewrite xa_dir_of_with_xa_root by exact Hp2.
      apply find_dir_remove_dir_same.
      rewrite Hnames; unfold dirs_unique in Hdirs; rewrite Hr in Hdirs.
      exact Hdirs. }
    assert (Hx' : s_xattrs sb' = true).
    { subst sb'; unfold sb_with_xa_root.
      destruct (priv_root s2); cbn [s_xattrs sb_with_tree];
        injection Hflags as _ -> _ _; exact Hxattrs. }
    unfold reiserfs_listxattr; rewrite Hx', Hv; cbn [negb orb].
    rewrite (open_xa_dir_missing Hq sb' i FL_READONLY Hok' eq_refl Hnone).
    rewrite Z.eqb_refl; eexists; reflexivity.
Qed.

(** X22.  [reiserfs_delete_xattrs] on an object that has no attribute
    directory returns [-ENODATA] and changes nothing, where
    [reiserfs_chown_xattrs] returns 0: only the latter takes the
    missing directory for success.  On an object of the private tree
    it returns 0 at once. *)
Theorem delete_xattrs_without_directory
        (sb : super_block) (i : inode) (attrs : iattr) (fuel : nat) :
  sb_ok sb -> i_sd_version i = STAT_DATA_V2 -> s_xattrs sb = true ->
  (i_priv_object i = true ->
   reiserfs_delete_xattrs o_rmdir fuel sb i = Some (0, sb))
  /\ (i_priv_object i = false ->
      xa_dir_of sb (xa_dir_name i) = None ->
      exists sb',
        reiserfs_delete_xattrs o_rmdir fuel sb i = Some (neg ENODATA, sb')
        /\ untouched sb sb'
        /\ reiserfs_chown_xattrs fuel sb i attrs = Some (0, attrs, sb')).
Proof.
  intros Hok Hv Hxattrs; split.
  - intros Hpriv; unfold reiserfs_delete_xattrs; rewrite Hpriv; reflexivity.
  - intros Hpriv Hnone; eexists; split; [| split].
    + unfold reiserfs_delete_xattrs.
      rewrite Hpriv, Hv, Hxattrs; cbn [negb orb].
      rewrite (open_xa_dir_missing Hq sb i FL_READONLY Hok eq_refl Hnone).
      reflexivity.
    + destruct (xa_root_of sb); split; reflexivity.
    + unfold reiserfs_chown_xattrs; cbv zeta.
      rewrite Hpriv, Hv, Hxattrs; cbn [negb orb].
      rewrite (open_xa_dir_missing Hq sb i FL_READONLY Hok eq_refl Hnone).
      rewrite Z.eqb_refl; cbn [negb]; rewrite iattr_restore_same.
      reflexivity.
Qed.

End DeleteAllProperties.

(** ** Mounting *)

Lemma test_bit_set_bit (a b : Z) (s : mount_state) :
  0 <= a ->
  test_bit b (set_bit a s) = if a =? b then true else test_bit b s.
Proof.
  intros Ha; unfold test_bit, set_bit; cbn [s_mount_opt with_mount_opt].
  rewrite Z.setbit_eqb by exact Ha.
  destruct (a =? b); reflexivity.
Qed.

Lemma test_bit_clear_bit (a b : Z) (s : mount_state) :
  0 <= a ->
  test_bit b (clear_bit a s) = if a =? b then false else test_bit b s.
Proof.
  intros Ha; unfold test_bit, clear_bit; cbn [s_mount_opt with_mount_opt].
  rewrite Z.clearbit_eqb by exact Ha.
  destruct (a =? b); cbn [negb]; [apply andb_false_r | apply andb_true_r].
Qed.

Lemma has_flag_posixacl (f : Z) (p : bool) :
  has_flag (Z.lor (Z.land f (Z.lnot MS_POSIXACL))
                  (if p then MS_POSIXACL else 0)) MS_POSIXACL = p
  /\ Z.land (Z.lor (Z.land f (Z.lnot MS_POSIXACL))
                   (if p then MS_POSIXACL else 0)) (Z.lnot MS_POSIXACL)
     = Z.land f (Z.lnot MS_POSIXACL).
Proof.
  unfold has_flag.
  assert (H1 : Z.land (Z.lnot MS_POSIXACL) MS_POSIXACL = 0)
    by reflexivity.
  assert (H2 : Z.land MS_POSIXACL (Z.lnot MS_POSIXACL) = 0)
    by reflexivity.
  split.
  - rewrite Z.land_lor_distr_l, <- Z.land_assoc, H1, Z.land_0_r, Z.lor_0_l.
    destruct p; reflexivity.
  - rewrite Z.land_lor_distr_l, <- Z.land_assoc, Z.land_diag.
    destruct p; [rewrite H2 | rewrite Z.land_0_l]; apply Z.lor_0_r.
Qed.

Section InitProperties.

Variable XATTRS XATTRS_USER NO_XATTRS_USER POSIXACL NO_POSIXACL : Z.
Variable o_lookup_privroot o_mkdir_privroot : option errno.

Hypothesis Hbits :
  option_bits [XATTRS; XATTRS_USER; NO_XATTRS_USER; POSIXACL; NO_POSIXACL].

Let settled : mount_state -> Prop :=
  options_settled XATTRS XATTRS_USER NO_XATTRS_USER POSIXACL NO_POSIXACL.

Lemma option_bits_facts :
  (0 <= XATTRS /\ 0 <= XATTRS_USER /\ 0 <= NO_XATTRS_USER
   /\ 0 <= POSIXACL /\ 0 <= NO_POSIXACL)
  /\ XATTRS <> XATTRS_USER /\ XATTRS <> NO_XATTRS_USER
  /\ XATTRS <> POSIXACL /\ XATTRS <> NO_POSIXACL
  /\ XATTRS_USER <> NO_XATTRS_USER /\ XATTRS_USER <> POSIXACL
  /\ XATTRS_USER <> NO_POSIXACL /\ NO_XATTRS_USER <> POSIXACL
  /\ NO_XATTRS_USER <> NO_POSIXACL /\ POSIXACL <> NO_POSIXACL.
Proof.
  destruct Hbits as [Hnd Hnn].
  repeat (apply Forall_cons_iff in Hnn as [? Hnn]).
  repeat (apply NoDup_cons_iff in Hnd as [? Hnd]).
  cbn [In] in *; repeat split; try assumption; intuition congruence.
Qed.

Ltac bits :=
  destruct option_bits_facts
    as ((? & ? & ? & ? & ?) & ? & ? & ? & ? & ? & ? & ? & ? & ? & ?);
  unfold reiserfs_xattrs_optional, reiserfs_xattrs, reiserfs_xattrs_user,
    reiserfs_posixacl, clear_xattr_bits;
  rewrite ?test_bit_set_bit, ?test_bit_clear_bit by assumption;
  repeat match goal with
         | |- context [?a =? ?a] => rewrite (Z.eqb_refl a)
         | |- context [?a =? ?b] =>
             rewrite (proj2 (Z.eqb_neq a b))
               by (assumption || (apply not_eq_sym; assumption))
         end.

Lemma with_mount_opt_same (s : mount_state) (opt : Z) :
  opt = s_mount_opt s -> with_mount_opt s opt = s.
Proof. intros ->; destruct s; reflexivity. Qed.

Lemma set_bit_same (a : Z) (s : mount_state) :
  0 <= a -> test_bit a s = true -> set_bit a s = s.
Proof.
  unfold test_bit, set_bit; intros Ha Hs.
  apply with_mount_opt_same, Z.bits_inj'; intros n Hn.
  rewrite Z.setbit_eqb by assumption.
  destruct (Z.eqb_spec a n) as [<- |]; [rewrite Hs |]; reflexivity.
Qed.

Lemma clear_bit_same (a : Z) (s : mount_state) :
  0 <= a -> test_bit a s = false -> clear_bit a s = s.
Proof.
  unfold test_bit, clear_bit; intros Ha Hs.
  apply with_mount_opt_same, Z.bits_inj'; intros n Hn.
  rewrite Z.clearbit_eqb by assumption.
  destruct (Z.eqb_spec a n) as [<- |]; [rewrite Hs |];
    cbn [negb]; rewrite ?andb_true_r; reflexivity.
Qed.

(** The options after the three steps at the start of the function. *)
Let init_options (s : mount_state) : mount_state :=
  let s1 :=
    if test_bit NO_XATTRS_USER s
    then clear_bit NO_XATTRS_USER (clear_bit XATTRS_USER s)
    else s in
  let s2 :=
    if test_bit NO_POSIXACL s1
    then clear_bit NO_POSIXACL (clear_bit POSIXACL s1)
    else s1 in
  if reiserfs_xattrs_optional XATTRS_USER POSIXACL s2
  then set_bit XATTRS s2 else clear_bit XATTRS s2.

Lemma init_options_settled (s : mount_state) :
  settled (init_options s)
  /\ test_bit XATTRS_USER (init_options s)
     = test_bit XATTRS_USER s && negb (test_bit NO_XATTRS_USER s)
  /\ test_bit POSIXACL (init_options s)
     = test_bit POSIXACL s && negb (test_bit NO_POSIXACL s)
  /\ (forall b : Z,
         ~ In b [XATTRS; XATTRS_USER; NO_XATTRS_USER; POSIXACL; NO_POSIXACL] ->
         test_bit b (init_options s) = test_bit b s).
Proof.
  unfold init_options, settled, options_settled; cbv zeta.
  destruct (test_bit NO_XATTRS_USER s) eqn:E1;
    destruct (test_bit NO_POSIXACL _) eqn:E2;
    destruct (reiserfs_xattrs_optional _ _ _) eqn:E3;
    revert E2 E3; bits; intros E2 E3;
    rewrite ?E1, ?E2;
    (refine (conj (conj _ (conj _ _)) (conj _ (conj _ _)));
     [ | | | destruct (test_bit XATTRS_USER s); reflexivity
       | destruct (test_bit POSIXACL s); reflexivity
       | intros b Hb; cbn [In] in Hb;
         assert (XATTRS <> b /\ XATTRS_USER <> b /\ NO_XATTRS_USER <> b
                 /\ POSIXACL <> b /\ NO_POSIXACL <> b)
           as (? & ? & ? & ? & ?) by tauto;
         bits; reflexivity ]);
    auto.
Qed.

Lemma init_options_fields (s : mount_state) :
  s_flags (init_options s) = s_flags s
  /\ m_old_format_only (init_options s) = m_old_format_only s
  /\ m_priv_root (init_options s) = m_priv_root s
  /\ m_on_disk (init_options s) = m_on_disk s
  /\ m_next_objectid (init_options s) = m_next_objectid s.
Proof.
  unfold init_options; cbv zeta.
  destruct (test_bit NO_XATTRS_USER s);
    destruct (test_bit NO_POSIXACL _);
    destruct (reiserfs_xattrs_optional _ _ _); repeat split.
Qed.

Lemma init_options_same (s : mount_state) :
  settled s -> init_options s = s.
Proof.
  unfold settled, options_settled, init_options; intros (H1 & H2 & H3).
  cbv zeta; rewrite H1, H2.
  unfold reiserfs_xattrs_optional, reiserfs_xattrs_user, reiserfs_posixacl.
  rewrite <- H3.
  destruct option_bits_facts as ((? & ? & ? & ? & ?) & _).
  destruct (test_bit XATTRS s) eqn:E;
    [apply set_bit_same | apply clear_bit_same]; assumption.
Qed.

Lemma settled_clear (s : mount_state) :
  settled s -> settled (clear_xattr_bits XATTRS XATTRS_USER POSIXACL s).
Proof.
  unfold settled, options_settled; intros (H1 & H2 & H3).
  bits; auto.
Qed.

Lemma clear_xattr_bits_other (s : mount_state) (b : Z) :
  ~ In b [XATTRS; XATTRS_USER; NO_XATTRS_USER; POSIXACL; NO_POSIXACL] ->
  test_bit b (clear_xattr_bits XATTRS XATTRS_USER POSIXACL s) = test_bit b s.
Proof.
  intros Hb; cbn [In] in Hb.
  assert (XATTRS <> b /\ XATTRS_USER <> b /\ NO_XATTRS_USER <> b
          /\ POSIXACL <> b /\ NO_POSIXACL <> b)
    as (? & ? & ? & ? & ?) by tauto.
  bits; reflexivity.
Qed.

Lemma xattr_init_error_spec (err : Z) (s : mount_state) :
  settled s ->
  exists s' : mount_state,
    xattr_init_error XATTRS XATTRS_USER POSIXACL err s = Some (err, s')
    /\ settled s'
    /\ has_flag (s_flags s') MS_POSIXACL = test_bit POSIXACL s'
    /\ Z.land (s_flags s') (Z.lnot MS_POSIXACL)
       = Z.land (s_flags s) (Z.lnot MS_POSIXACL)
    /\ (m_old_format_only s' = m_old_format_only s
        /\ m_priv_root s' = m_priv_root s
        /\ m_on_disk s' = m_on_disk s
        /\ m_next_objectid s' = m_next_objectid s)
    /\ (err <> 0 ->
        test_bit XATTRS_USER s' = false /\ test_bit POSIXACL s' = false)
    /\ (err = 0 -> s_mount_opt s' = s_mount_opt s)
    /\ (forall b : Z,
           ~ In b [XATTRS; XATTRS_USER; NO_XATTRS_USER; POSIXACL;
                   NO_POSIXACL] ->
           test_bit b s' = test_bit b s).
Proof.
  intros Hs; unfold xattr_init_error; cbv zeta.
  eexists; split; [reflexivity |].
  destruct (Z.eqb_spec err 0) as [-> | Hne]; cbn [negb].
  - unfold reiserfs_posixacl.
    destruct (has_flag_posixacl (s_flags s) (test_bit POSIXACL s))
      as [Hh Hl].
    repeat split; try assumption; try apply Hs; try congruence.
  - pose proof (settled_clear s Hs) as Hc.
    set (sc := clear_xattr_bits XATTRS XATTRS_USER POSIXACL s) in *.
    destruct (has_flag_posixacl (s_flags sc)
                (reiserfs_posixacl POSIXACL sc)) as [Hh Hl].
    refine (conj Hc (conj Hh (conj Hl (conj _ (conj _ (conj _ _))))));
      [repeat split | | congruence |].
    + intros _; unfold test_bit, with_s_flags; cbn [s_mount_opt].
      change (test_bit XATTRS_USER sc = false
              /\ test_bit POSIXACL sc = false).
      unfold sc; bits; auto.
    + intros b Hb; cbn [In] in Hb.
      assert (XATTRS <> b /\ XATTRS_USER <> b /\ NO_XATTRS_USER <> b
              /\ POSIXACL <> b /\ NO_POSIXACL <> b)
        as (? & ? & ? & ? & ?) by tauto.
      change (test_bit b sc = test_bit b s).
      unfold sc; bits; reflexivity.
Qed.

Local Abbreviation init :=
  (reiserfs_xattr_init XATTRS XATTRS_USER NO_XATTRS_USER POSIXACL NO_POSIXACL
                       o_lookup_privroot o_mkdir_privroot).

(** The run of [reiserfs_xattr_init] on [s], by cases, with the
    options [s3] after the first three steps. *)
Ltac init_cases s mf s3 :=
  unfold reiserfs_xattr_init; cbv zeta;
  set (s3 := if reiserfs_xattrs_optional _ _ _ then _ else _);
  change s3 with (init_options s); clear s3;
  pose proof (init_options_settled s) as (Hset & Hxu & Hpa & Hoth);
  pose proof (init_options_fields s) as (Hf & Ho & Hp & Hd & Hn);
  generalize dependent (init_options s); intros s3 Hset Hxu Hpa Hoth
                                                Hf Ho Hp Hd Hn;
  unfold reiserfs_xattrs;
  destruct (test_bit XATTRS s3) eqn:EX;
  [ destruct (m_old_format_only s3) eqn:EO;
    [ | destruct (m_priv_root s3) as [pr |] eqn:EP;
        [ | destruct o_lookup_privroot as [el |];
            [ destruct (has_flag mf MS_RDONLY) eqn:ER; cbn [negb]
            | destruct (has_flag mf MS_RDONLY) eqn:ER;
                destruct (m_on_disk s3) as [od |] eqn:ED;
                cbn [negb andb];
                [ | | | destruct o_mkdir_privroot as [em |] ] ] ] ]
  | ];
  cbv beta iota; rewrite ?neg_nonzero; cbn [Z.eqb negb].


(** What the code after the label [error] gives, in the goal. *)
Ltac init_error Hset :=
  match goal with
  | |- xattr_init_error _ _ _ ?e ?st = Some _ -> _ =>
      let H := fresh in
      destruct (xattr_init_error_spec e st)
        as (s'' & Heq & Hs'' & Hh & Hl & (Hfo & Hfp & Hfd & Hfn)
            & Hne & Hez & Hb);
      [ first [exact Hset | exact (settled_clear _ Hset)]
      | rewrite Heq; intros H; injection H as <- <- ]
  | |- None = Some _ -> _ => discriminate
  end.

Lemma neg_le_0 (e : errno) : neg e <= 0 /\ neg e <> 0.
Proof.
  pose proof (neg_negative e) as H; apply Z.ltb_lt in H; lia.
Qed.

Lemma test_bit_same_opt (b : Z) (s s' : mount_state) :
  s_mount_opt s' = s_mount_opt s -> test_bit b s' = test_bit b s.
Proof. unfold test_bit; intros ->; reflexivity. Qed.

(** X23.  [reiserfs_xattr_init] and the mount options.  Whenever it
    returns, the result is 0 or negative, the two options that switch
    a kind of attributes off are clear and xattrs are on exactly when
    user attributes or ACLs are; on success these two are on exactly
    when they were asked for and not switched off, on failure both are
    off.  No other mount option changes, [MS_POSIXACL] of [s_flags]
    follows the ACL option and the other flags are kept. *)
Theorem xattr_init_settles_options
        (s s' : mount_state) (mount_flags err : Z) :
  init s mount_flags = Some (err, s') ->
  err <= 0
  /\ options_settled XATTRS XATTRS_USER NO_XATTRS_USER POSIXACL NO_POSIXACL s'
  /\ (err = 0 ->
      test_bit XATTRS_USER s'
      = test_bit XATTRS_USER s && negb (test_bit NO_XATTRS_USER s)
      /\ test_bit POSIXACL s'
         = test_bit POSIXACL s && negb (test_bit NO_POSIXACL s))
  /\ (err <> 0 ->
      test_bit XATTRS_USER s' = false /\ test_bit POSIXACL s' = false)
  /\ (forall b : Z,
         ~ In b [XATTRS; XATTRS_USER; NO_XATTRS_USER; POSIXACL; NO_POSIXACL] ->
         test_bit b s' = test_bit b s)
  /\ has_flag (s_flags s') MS_POSIXACL = test_bit POSIXACL s'
  /\ Z.land (s_flags s') (Z.lnot MS_POSIXACL)
     = Z.land (s_flags s) (Z.lnot MS_POSIXACL)
  /\ m_old_format_only s' = m_old_format_only s.
Proof.
  init_cases s mount_flags s3; init_error Hset;
    try pose proof (neg_le_0 EOPNOTSUPP);
    try pose proof (neg_le_0 el);
    (refine (conj _ (conj Hs'' (conj _ (conj _ (conj _
               (conj Hh (conj _ _)))))));
     [ lia
     | intros He0;
       first [ lia
             | rewrite !(test_bit_same_opt _ _ _ (Hez He0));
               split; assumption ]
     | intros Hn0; first [ lia | exact (Hne Hn0) ]
     | intros b Hin; rewrite (Hb b Hin);
       rewrite ?(clear_xattr_bits_other _ _ Hin); exact (Hoth b Hin)
     | rewrite Hl; unfold clear_xattr_bits, clear_bit, with_mount_opt;
       cbn [s_flags]; congruence
     | rewrite Hfo; unfold clear_xattr_bits, clear_bit, with_mount_opt;
       cbn [m_old_format_only]; congruence ]).
Qed.

(** The value of the option [XATTRS] after the label [error]. *)
Ltac init_xattrs_bit EX :=
  match goal with
  | Hez : 0 = 0 -> s_mount_opt ?s2 = _ |- _ =>
      rewrite (test_bit_same_opt XATTRS _ _ (Hez eq_refl));
      unfold test_bit in EX |- *; cbn [s_mount_opt]; rewrite EX
  | Hne : neg ?e <> 0 -> test_bit XATTRS_USER ?s2 = false /\ _,
    Hs : settled ?s2 |- _ =>
      let H1 := fresh in
      let H2 := fresh in
      destruct (Hne (proj2 (neg_le_0 e))) as [H1 H2];
      destruct Hs as (_ & _ & ->); rewrite H1, H2; cbn [orb]
  end.

(** X24.  [reiserfs_xattr_init] and the private root.  When xattrs are
    on after the call, the call succeeded, the format is not the old
    one and [priv_root] is set: to what it was, or else to what the
    lookup or the [mkdir] gave, marked as a private object.  When
    xattrs are off after the call, [priv_root] and the disk are as
    before. *)
Theorem xattr_init_private_root
        (s s' : mount_state) (mount_flags err : Z) :
  init s mount_flags = Some (err, s') ->
  if test_bit XATTRS s'
  then err = 0
       /\ m_old_format_only s = false
       /\ exists i : inode,
           m_priv_root s' = Some i
           /\ (m_priv_root s = Some i
               \/ (m_priv_root s = None
                   /\ i_priv_object i = true
                   /\ m_on_disk s' = Some i))
  else m_priv_root s' = m_priv_root s
       /\ m_on_disk s' = m_on_disk s
       /\ m_next_objectid s' = m_next_objectid s.
Proof.
  init_cases s mount_flags s3; init_error Hset; init_xattrs_bit EX;
    unfold clear_xattr_bits, clear_bit, with_mount_opt in Hfp, Hfd, Hfn;
    cbn [m_priv_root m_on_disk m_next_objectid] in Hfp, Hfd, Hfn;
    try (repeat split; congruence);
    (split; [reflexivity | split; [congruence |]]);
    (eexists; split; [rewrite Hfp; first [eassumption | reflexivity] |]);
    first [ left; congruence
          | right; repeat split;
            [congruence | rewrite Hfd; reflexivity] ].
Qed.

(** The option [XATTRS] after the first three steps, from the options
    before. *)
Ltac init_wanted Hset Hxu Hpa HX :=
  pose proof Hset as (_ & _ & HX); rewrite Hxu, Hpa in HX.

(** X25.  The one way [reiserfs_xattr_init] does not return.  On a
    read-only mount of a file system without [.reiserfs_priv], when
    user attributes or ACLs are asked for, the format is not the old
    one and the lookup succeeds, the code reads the flags of the inode
    of a dentry that has none; in every other case it returns. *)
Theorem xattr_init_null_dereference (s : mount_state) (mount_flags : Z) :
  init s mount_flags = None
  <-> (test_bit XATTRS_USER s && negb (test_bit NO_XATTRS_USER s)
       || test_bit POSIXACL s && negb (test_bit NO_POSIXACL s) = true
       /\ m_old_format_only s = false
       /\ m_priv_root s = None
       /\ o_lookup_privroot = None
       /\ has_flag mount_flags MS_RDONLY = true
       /\ m_on_disk s = None).
Proof.
  init_cases s mount_flags s3; init_wanted Hset Hxu Hpa HX;
    unfold xattr_init_error;
    (split;
     [ first [ discriminate
             | intros _; repeat split; congruence ]
     | intros (Hw & Hold & Hpr & Hlk & Hro & Hod);
       first [ reflexivity | congruence ] ]).
Qed.

(** X26.  When neither user attributes nor ACLs are asked for,
    [reiserfs_xattr_init] returns 0 whatever the format, the mount
    flags and the results of lookup and [mkdir] would be, and creates
    nothing. *)
Theorem xattr_init_nothing_wanted (s : mount_state) (mount_flags : Z) :
  test_bit XATTRS_USER s && negb (test_bit NO_XATTRS_USER s)
  || test_bit POSIXACL s && negb (test_bit NO_POSIXACL s) = false ->
  exists s' : mount_state,
    init s mount_flags = Some (0, s')
    /\ test_bit XATTRS s' = false
    /\ m_priv_root s' = m_priv_root s
    /\ m_on_disk s' = m_on_disk s.
Proof.
  intros Hw; init_cases s mount_flags s3; init_wanted Hset Hxu Hpa HX;
    try congruence.
  destruct (xattr_init_error_spec 0 s3 Hset)
    as (s'' & Heq & Hs'' & Hh & Hl & (Hfo & Hfp & Hfd & Hfn)
        & Hne & Hez & Hb).
  exists s''; rewrite (test_bit_same_opt XATTRS _ _ (Hez eq_refl)).
  repeat split; congruence.
Qed.

(** X27.  The failures of [reiserfs_xattr_init].  A result other than 0
    means that user attributes or ACLs were asked for and that the
    format is the old one, or that there is no private root yet and
    the lookup failed, or the [mkdir] on a mount that is not
    read-only.  The result is -EOPNOTSUPP whatever the error was,
    except on a read-only mount of a file system of the new format,
    where the error of the lookup is returned. *)
Theorem xattr_init_failures (s s' : mount_state) (mount_flags err : Z) :
  init s mount_flags = Some (err, s') ->
  err <> 0 ->
  test_bit XATTRS_USER s && negb (test_bit NO_XATTRS_USER s)
  || test_bit POSIXACL s && negb (test_bit NO_POSIXACL s) = true
  /\ ((m_old_format_only s = true /\ err = neg EOPNOTSUPP)
      \/ (m_old_format_only s = false
          /\ m_priv_root s = None
          /\ ((exists e : errno,
                  o_lookup_privroot = Some e
                  /\ err = if has_flag mount_flags MS_RDONLY
                           then neg e else neg EOPNOTSUPP)
              \/ (o_lookup_privroot = None
                  /\ has_flag mount_flags MS_RDONLY = false
                  /\ m_on_disk s = None
                  /\ o_mkdir_privroot <> None
                  /\ err = neg EOPNOTSUPP)))).
Proof.
  init_cases s mount_flags s3; init_wanted Hset Hxu Hpa HX;
    init_error Hset; intros Herr; try (exfalso; apply Herr; reflexivity);
    (split; [congruence |]).
  - left; split; [congruence | reflexivity].
  - right; repeat split; try congruence.
    left; exists el; split; reflexivity.
  - right; repeat split; try congruence.
    left; exists el; split; reflexivity.
  - right; repeat split; try congruence.
    right; repeat split; congruence.
Qed.

(** X28.  When user attributes or ACLs are asked for on a file system
    of the new format, [reiserfs_xattr_init] returns 0 and leaves
    xattrs on if the private root is cached already, or the lookup
    succeeds and either finds the directory or the mount is not
    read-only and the [mkdir] succeeds. *)
Theorem xattr_init_succeeds (s : mount_state) (mount_flags : Z) :
  test_bit XATTRS_USER s && negb (test_bit NO_XATTRS_USER s)
  || test_bit POSIXACL s && negb (test_bit NO_POSIXACL s) = true ->
  m_old_format_only s = false ->
  m_priv_root s <> None
  \/ (o_lookup_privroot = None
      /\ (m_on_disk s <> None
          \/ (has_flag mount_flags MS_RDONLY = false
              /\ o_mkdir_privroot = None))) ->
  exists s' : mount_state,
    init s mount_flags = Some (0, s') /\ test_bit XATTRS s' = true.
Proof.
  intros Hw Hold Hroot; init_cases s mount_flags s3;
    init_wanted Hset Hxu Hpa HX; try congruence;
    try (exfalso; destruct Hroot as [Hr | (Hl & [Hr | (Hr & Hm)])];
         congruence);
    match goal with
    | |- exists _, xattr_init_error _ _ _ 0 ?st = _ /\ _ =>
        destruct (xattr_init_error_spec 0 st Hset)
          as (s'' & Heq & Hs'' & Hh & Hl & (Hfo & Hfp & Hfd & Hfn)
              & Hne & Hez & Hb)
    end;
    (exists s''; split; [exact Heq |]);
    rewrite (test_bit_same_opt XATTRS _ _ (Hez eq_refl));
    exact EX.
Qed.

Lemma xattr_init_error_again (e e' : Z) (s s' : mount_state) :
  xattr_init_error XATTRS XATTRS_USER POSIXACL e s = Some (e', s') ->
  xattr_init_error XATTRS XATTRS_USER POSIXACL 0 s' = Some (0, s').
Proof.
  unfold xattr_init_error; cbv zeta; intros [= _ <-].
  cbn [Z.eqb negb].
  set (sc := if negb (e =? 0) then _ else s).
  unfold with_s_flags, reiserfs_posixacl, test_bit;
    cbn [s_flags s_mount_opt m_old_format_only m_priv_root m_on_disk
         m_next_objectid].
  do 3 f_equal.
  rewrite (proj2 (has_flag_posixacl (s_flags sc)
                    (Z.testbit (s_mount_opt sc) POSIXACL))).
  reflexivity.
Qed.

Lemma reiserfs_xattr_init_settled (s : mount_state) (mount_flags : Z) :
  settled s ->
  (test_bit XATTRS s = true ->
   m_old_format_only s = false /\ m_priv_root s <> None) ->
  init s mount_flags = xattr_init_error XATTRS XATTRS_USER POSIXACL 0 s.
Proof.
  intros Hs Hx; unfold reiserfs_xattr_init; cbv zeta.
  set (s3 := if reiserfs_xattrs_optional _ _ _ then _ else _).
  change s3 with (init_options s); clear s3.
  rewrite (init_options_same s Hs); unfold reiserfs_xattrs.
  destruct (test_bit XATTRS s); [| reflexivity].
  destruct (Hx eq_refl) as [-> Hp].
  destruct (m_priv_root s); [reflexivity | congruence].
Qed.

(** The state that a call leaves. *)
Lemma reiserfs_xattr_init_leaves
      (s s' : mount_state) (mount_flags err : Z) :
  init s mount_flags = Some (err, s') ->
  settled s'
  /\ (test_bit XATTRS s' = true ->
      m_old_format_only s' = false /\ m_priv_root s' <> None)
  /\ xattr_init_error XATTRS XATTRS_USER POSIXACL 0 s' = Some (0, s').
Proof.
  init_cases s mount_flags s3; init_error Hset;
    (split; [exact Hs'' |]);
    (split; [| exact (xattr_init_error_again _ _ _ _ Heq)]);
    init_xattrs_bit EX; try discriminate; intros _;
    rewrite Hfo, Hfp; cbn [m_old_format_only m_priv_root];
    split; congruence.
Qed.

End InitProperties.

(** X29.  [reiserfs_xattr_init] a second time.  On the state a call
    has left, a further call returns 0 and changes nothing, whatever
    the mount flags are and whatever lookup and [mkdir] would do then;
    this holds also after a call that failed, since that one switched
    xattrs off. *)
Theorem xattr_init_again
        (XATTRS XATTRS_USER NO_XATTRS_USER POSIXACL NO_POSIXACL : Z)
        (o_lookup o_mkdir o_lookup' o_mkdir' : option errno)
        (s s' : mount_state) (mount_flags flags' err : Z) :
  option_bits [XATTRS; XATTRS_USER; NO_XATTRS_USER; POSIXACL; NO_POSIXACL] ->
  reiserfs_xattr_init XATTRS XATTRS_USER NO_XATTRS_USER POSIXACL NO_POSIXACL
                      o_lookup o_mkdir s mount_flags
  = Some (err, s') ->
  reiserfs_xattr_init XATTRS XATTRS_USER NO_XATTRS_USER POSIXACL NO_POSIXACL
                      o_lookup' o_mkdir' s' flags'
  = Some (0, s').
Proof.
  intros Hbits H.
  destruct (reiserfs_xattr_init_leaves _ _ _ _ _ _ _ Hbits _ _ _ _ H)
    as (Hs & Hx & He).
  rewrite (reiserfs_xattr_init_settled _ _ _ _ _ o_lookup' o_mkdir' Hbits
                                       s' flags' Hs Hx).
  exact He.
Qed.


End Xattr.


(** * The theorems at work *)

Lemma no_faults_vfs_quiet : vfs_quiet no_faults.
Proof. constructor; reflexivity. Defined.

Lemma no_faults_pages_quiet (fp : dentry) : pages_quiet no_faults fp.
Proof. constructor; reflexivity. Defined.

Lemma no_faults_readdir_quiet : readdir_quiet no_faults.
Proof. constructor; reflexivity. Defined.

Lemma ex_value_bytes : Forall is_byte ex_value.
Proof. repeat constructor; unfold is_byte; lia. Defined.

(** With pages of 16 bytes the ten bytes of [text/plain] and their
    header need two pages. *)
Lemma xattr_set_get_roundtrip_witness :
  exists sb1 sb2,
    reiserfs_xattr_set 4 no_faults 20 ex_fresh ex_object "user.Content-Type"
                       (Some ex_value) (zlen ex_value) 0
    = Some (0, sb1)
    /\ reiserfs_xattr_get 4 no_faults 20 sb1 ex_object "user.Content-Type"
                          (Some (zeros 10)) (zlen ex_value)
       = Some (zlen ex_value, Some ex_value, sb2).
Proof.
  apply (xattr_set_get_roundtrip 4 no_faults).
  - lia.
  - exact no_faults_vfs_quiet.
  - apply no_faults_pages_quiet.
  - exact I.
  - discriminate.
  - reflexivity.
  - discriminate.
  - discriminate.
  - intros f H; discriminate H.
  - exact ex_value_bytes.
  - vm_compute; reflexivity.
  - reflexivity.
  - vm_compute; lia.
Defined.

(** The stored attribute [text/plain] after its second byte was
    changed on disk. *)
Lemma xattr_get_damaged_is_EIO_witness :
  exists buf' sb',
    reiserfs_xattr_get
      4 no_faults 20
      (ex_tree [mk_dirent "user.Content-Type" 3 true
                  (ex_file 103 1 (set_byte (8 + 1) 0 (xattr_file ex_value)))])
      ex_object "user.Content-Type" (Some (zeros 10)) 10
    = Some (neg EIO, buf', sb').
Proof.
  apply (xattr_get_damaged_is_EIO
           4 no_faults ltac:(lia) no_faults_vfs_quiet _ _ _
           (ex_file 103 1 (set_byte (8 + 1) 0 (xattr_file ex_value)))).
  - apply no_faults_pages_quiet.
  - exact I.
  - reflexivity.
  - reflexivity.
  - vm_compute; split; [discriminate | reflexivity].
  - vm_compute; discriminate.
  - vm_compute; lia.
  - right; right.
    exists ex_value, 1%nat, 0.
    split; [exact ex_value_bytes |].
    split; [vm_compute; lia |].
    split; [unfold is_byte; lia |].
    split; [discriminate | reflexivity].
Defined.

Lemma xattr_set_create_existing_witness :
  exists sb',
    reiserfs_xattr_set
      12 no_faults 1
      (ex_tree [mk_dirent "user.Content-Type" 3 true
                  (ex_file 103 1 (xattr_file ex_value))])
      ex_object "user.Content-Type" (Some [1; 2]) 2 XATTR_CREATE
    = Some (neg EEXIST, sb')
    /\ priv_root sb'
       = priv_root (ex_tree [mk_dirent "user.Content-Type" 3 true
                               (ex_file 103 1 (xattr_file ex_value))])
    /\ d_inode sb' (D_xafile (xa_dir_name ex_object) "user.Content-Type")
       = Some (ex_file 103 1 (xattr_file ex_value))
    /\ s_events sb'
       = s_events (ex_tree [mk_dirent "user.Content-Type" 3 true
                              (ex_file 103 1 (xattr_file ex_value))]).
Proof.
  apply (xattr_set_create_existing 12 no_faults no_faults_vfs_quiet).
  - exact I.
  - reflexivity.
  - reflexivity.
  - reflexivity.
  - lia.
Defined.

(** [XATTR_CREATE] and [XATTR_REPLACE] together, on a file system on
    which no attribute was set yet. *)
Lemma xattr_set_replace_missing_witness :
  exists sb' sb'',
    reiserfs_xattr_set 12 no_faults 1 ex_fresh ex_object "user.Content-Type"
                       (Some ex_value) 10 (Z.lor XATTR_CREATE XATTR_REPLACE)
    = Some (neg ENODATA, sb')
    /\ d_inode sb' (D_xafile (xa_dir_name ex_object) "user.Content-Type")
       = None
    /\ reiserfs_xattr_get 12 no_faults 1 sb' ex_object "user.Content-Type"
                          None 0
       = Some (neg ENODATA, None, sb'')
    /\ (has_flag (Z.lor XATTR_CREATE XATTR_REPLACE) XATTR_CREATE = false ->
        priv_root sb' = priv_root ex_fresh
        /\ s_events sb' = s_events ex_fresh).
Proof.
  apply (xattr_set_replace_missing 12 no_faults no_faults_vfs_quiet).
  - exact I.
  - reflexivity.
  - reflexivity.
  - reflexivity.
  - intros _; repeat split; discriminate.
  - lia.
Defined.

(** An attribute file with two links, set again with
    [XATTR_REPLACE]. *)
Lemma xattr_set_linked_file_witness :
  exists sb' f',
    reiserfs_xattr_set
      4 no_faults 20
      (ex_tree [mk_dirent "user.Content-Type" 3 true (ex_file 103 2 [])])
      ex_object "user.Content-Type" (Some ex_value) (zlen ex_value)
      XATTR_REPLACE
    = Some (0, sb')
    /\ d_inode sb' (D_xafile (xa_dir_name ex_object) "user.Content-Type")
       = Some f'
    /\ k_objectid f' = 1000 /\ i_nlink f' = 1
    /\ i_data f' = xattr_file ex_value
    /\ s_events sb'
       = [ Ev_notify_change
             (D_xafile (xa_dir_name ex_object) "user.Content-Type") 1000
             (size_attrs (zlen ex_value));
           Ev_create (D_xafile (xa_dir_name ex_object) "user.Content-Type")
                     1000;
           Ev_unlink (D_xafile (xa_dir_name ex_object) "user.Content-Type")
                     103 ].
Proof.
  apply (xattr_set_linked_file
           4 no_faults ltac:(lia) no_faults_vfs_quiet
           (ex_tree [mk_dirent "user.Content-Type" 3 true (ex_file 103 2 [])])
           ex_object "user.Content-Type" (ex_file 103 2 [])).
  - apply no_faults_pages_quiet.
  - exact I.
  - reflexivity.
  - reflexivity.
  - cbn; lia.
  - reflexivity.
  - reflexivity.
  - reflexivity.
  - reflexivity.
  - reflexivity.
  - vm_compute; reflexivity.
  - vm_compute; lia.
Defined.

(** A deletion that unlinks, on a tree with one attribute. *)
Lemma xattr_del_cases_witness :
  del_spec
    (__reiserfs_xattr_del
       no_faults
       (ex_tree [mk_dirent "user.Content-Type" 3 true
                   (ex_file 103 1 (xattr_file ex_value))])
       (D_xadir (xa_dir_name ex_object)) "user.Content-Type")
    (ex_tree [mk_dirent "user.Content-Type" 3 true
                (ex_file 103 1 (xattr_file ex_value))])
    (xa_dir_name ex_object) "user.Content-Type"
  /\ del_spec
       (reiserfs_xattr_del
          no_faults
          (ex_tree [mk_dirent "user.Content-Type" 3 true
                      (ex_file 103 1 (xattr_file ex_value))])
          ex_object "user.Content-Type")
       (ex_tree [mk_dirent "user.Content-Type" 3 true
                   (ex_file 103 1 (xattr_file ex_value))])
       (xa_dir_name ex_object) "user.Content-Type".
Proof.
  apply (xattr_del_cases no_faults no_faults_vfs_quiet).
  exact I.
Defined.

(** An entry with a long name whose item moves during the first pass:
    the second pass starts at the entry's own offset, and the consumer,
    which collects the names, gets the name once. *)
Lemma readdir_item_moved_retries_witness :
  let de := mk_dirent ex_long_name 3 true (ex_file 103 1 []) in
  let sb := ex_tree [de] in
  let file := D_xadir "C0FFEE.0" in
  let filldir : filldir_t (list string) :=
    fun b name len _ _ s => (0, name_of name len :: b, s) in
  __xattr_readdir 1000 ex_moved_once 7 file filldir [] sb
  = Some (0, [ex_long_name], sb)
  /\ xattr_readdir_body ex_moved_once 0 sb file 1000 = RD_research 3
  /\ xattr_readdir_loop ex_moved_once 7 0 file filldir 1000
                        (small_buf_0 ex_moved_once) [] sb
     = xattr_readdir_loop ex_moved_once 6 1 file filldir 3
                          (small_buf_0 ex_moved_once) [] sb
  /\ search_by_entry_key (entries_of sb file) 3 = Some de.
Proof.
  cbv zeta.
  destruct (readdir_item_moved_retries
              1000 ex_moved_once (list string)
              (fun b name len _ _ s => (0, name_of name len :: b, s))
              (D_xadir "C0FFEE.0") []
              (ex_tree [mk_dirent ex_long_name 3 true (ex_file 103 1 [])])
              7 1) as [Hrun Hstep].
  - reflexivity.
  - reflexivity.
  - intros [| k] Hk; [lia | reflexivity].
  - repeat constructor.
  - repeat constructor; discriminate.
  - vm_compute; lia.
  - reflexivity.
  - split; [rewrite Hrun; reflexivity |].
    apply (Hstep 0%nat 6%nat 1000 (small_buf_0 ex_moved_once) []
                 (mk_dirent ex_long_name 3 true (ex_file 103 1 []))).
    + reflexivity.
    + reflexivity.
    + reflexivity.
    + reflexivity.
    + reflexivity.
    + reflexivity.
Defined.

(** Two attributes and a change of owner and group that also asks for
    a new mode: the mode is not applied, the two files and then the
    directory get the owner, the group and the change time. *)
Lemma chown_xattrs_cascade_witness :
  let l := [ mk_dirent "user.b" 4 true (ex_file 104 1 []);
             mk_dirent "user.a" 3 true (ex_file 103 1 []) ] in
  let attrs := mk_iattr (Z.lor ATTR_MODE (Z.lor ATTR_UID ATTR_GID)) 5 6 0 9 in
  let a := mk_iattr (Z.lor ATTR_UID ATTR_GID) 5 6 0 9 in
  exists sb',
    reiserfs_chown_xattrs 1000 no_faults 5 (ex_tree l) ex_object attrs
    = Some (0, attrs, sb')
    /\ s_events sb'
       = [ Ev_notify_change (D_xadir "C0FFEE.0") 102 a;
           Ev_notify_change (D_xafile "C0FFEE.0" "user.a") 103 a;
           Ev_notify_change (D_xafile "C0FFEE.0" "user.b") 104 a ].
Proof.
  cbv zeta.
  refine (proj2 (proj2 (proj2
    (chown_xattrs_cascade
       1000 no_faults
       (ex_tree [ mk_dirent "user.b" 4 true (ex_file 104 1 []);
                  mk_dirent "user.a" 3 true (ex_file 103 1 []) ])
       ex_object
       (mk_iattr (Z.lor ATTR_MODE (Z.lor ATTR_UID ATTR_GID)) 5 6 0 9)
       (mk_directory
          ex_dir_inode
          ([ mk_dirent "user.b" 4 true (ex_file 104 1 []);
             mk_dirent "user.a" 3 true (ex_file 103 1 []) ]
             ++ dot_entries ex_dir_inode ex_xaroot_inode))
       5 _ _ _ _ _ _)))
    no_faults_vfs_quiet no_faults_readdir_quiet _ _ _ _ _).
  - exact I.
  - reflexivity.
  - repeat constructor.
  - repeat constructor; discriminate.
  - unfold names_unique; cbn.
    repeat (constructor; [cbn; intuition discriminate |]).
    constructor.
  - cbn; lia.
  - reflexivity.
  - reflexivity.
  - reflexivity.
  - reflexivity.
  - reflexivity.
Defined.


(** An object of a tree in which no attribute was ever set. *)
Lemma listxattr_without_directory_witness :
  fst (open_xa_dir no_faults ex_fresh ex_object FL_READONLY)
  = ERR_PTR (neg ENODATA)
  /\ exists sb',
       reiserfs_listxattr 1000 ex_handlers no_faults 5 ex_fresh
                          (Some ex_object) (Some (zeros 4)) 4
       = Some (0, Some (zeros 4), sb')
       /\ untouched ex_fresh sb'.
Proof.
  apply (listxattr_without_directory
           1000 ex_handlers no_faults no_faults_vfs_quiet).
  - exact I.
  - reflexivity.
  - reflexivity.
  - reflexivity.
Defined.

(** A size query on the stored attribute. *)
Lemma xattr_get_changes_nothing_witness :
  exists sb',
    reiserfs_xattr_get 4 no_faults 20 ex_stored ex_object "user.Content-Type"
                       None 0
    = Some (10, None, sb')
    /\ only_cached ex_stored sb' /\ untouched ex_stored sb'
    /\ (@None (list Z) = None -> @None (list Z) = None).
Proof.
  eexists; split; [reflexivity |].
  eapply (xattr_get_changes_nothing 4 no_faults 20 ex_stored ex_object
                                    "user.Content-Type" None 0 10 None).
  reflexivity.
Defined.

Lemma listxattr_changes_nothing_witness :
  exists sb',
    reiserfs_listxattr 1000 ex_handlers no_faults 5 ex_two (Some ex_object)
                       None 0
    = Some (14, None, sb')
    /\ only_cached ex_two sb' /\ untouched ex_two sb'.
Proof.
  eexists; split; [reflexivity |].
  eapply (listxattr_changes_nothing 1000 ex_handlers no_faults 5 ex_two
                                    (Some ex_object) None 0 14 None).
  reflexivity.
Defined.


(** Without fuel, and so without reading a page. *)
Lemma xattr_get_by_size_alone_witness :
  (forall buffer_size,
      reiserfs_xattr_get 4 no_faults 0 ex_stored ex_object
                         "user.Content-Type" None buffer_size
      = Some (zlen (i_data (ex_file 103 1 (xattr_file ex_value))) - 8,
              None, cached ex_stored))
  /\ (forall buf buffer_size,
         8 <= zlen (i_data (ex_file 103 1 (xattr_file ex_value))) ->
         buffer_size
         < zlen (i_data (ex_file 103 1 (xattr_file ex_value))) - 8 ->
         reiserfs_xattr_get 4 no_faults 0 ex_stored ex_object
                            "user.Content-Type" (Some buf) buffer_size
         = Some (neg ERANGE, Some buf, cached ex_stored)).
Proof.
  apply (xattr_get_by_size_alone 4 no_faults no_faults_vfs_quiet ex_stored
                                 ex_object "user.Content-Type"
                                 (ex_file 103 1 (xattr_file ex_value)) 0).
  - exact I.
  - reflexivity.
  - reflexivity.
  - vm_compute; reflexivity.
Defined.

(** The ten bytes of the value in a buffer of twelve. *)
Lemma xattr_get_larger_buffer_witness :
  reiserfs_xattr_get 4 no_faults 20 ex_stored ex_object "user.Content-Type"
                     (Some (zeros 12)) 12
  = Some (zlen ex_value,
          Some (ex_value ++ zskipn (zlen ex_value) (zeros 12)),
          cached ex_stored).
Proof.
  apply (xattr_get_larger_buffer
           4 no_faults ltac:(lia) no_faults_vfs_quiet ex_stored ex_object
           "user.Content-Type" (ex_file 103 1 (xattr_file ex_value))
           ex_value (zeros 12) 12 20).
  - apply no_faults_pages_quiet.
  - exact I.
  - reflexivity.
  - reflexivity.
  - reflexivity.
  - exact ex_value_bytes.
  - vm_compute; reflexivity.
  - vm_compute; discriminate.
  - vm_compute; lia.
Defined.

(** A second attribute next to the stored one. *)
Lemma xattr_set_keeps_others_witness :
  exists sb',
    reiserfs_xattr_set 4 no_faults 20 ex_stored ex_object "user.other"
                       (Some [1; 2]) 2 0
    = Some (0, sb')
    /\ others_kept (xa_dir_name ex_object) "user.other" ex_stored sb'.
Proof.
  eexists; split; [reflexivity |].
  eapply (xattr_set_keeps_others 4 no_faults 20 ex_stored ex_object
                                 "user.other" (Some [1; 2]) 2 0 0).
  - exact I.
  - reflexivity.
Defined.

Lemma xattr_get_after_other_set_witness :
  exists sb',
    reiserfs_xattr_set 4 no_faults 20 ex_stored ex_object "user.other"
                       (Some [1; 2]) 2 0
    = Some (0, sb')
    /\ forall fuel' buffer' size',
         get_answer
           (reiserfs_xattr_get 4 no_faults fuel' sb' ex_object
                               "user.Content-Type" buffer' size')
         = get_answer
             (reiserfs_xattr_get 4 no_faults fuel' ex_stored ex_object
                                 "user.Content-Type" buffer' size').
Proof.
  eexists; split; [reflexivity |].
  eapply (xattr_get_after_other_set
            4 no_faults no_faults_vfs_quiet ex_stored _ ex_object ex_object
            "user.other" "user.Content-Type" (Some [1; 2]) 2 0 0 20).
  - exact I.
  - right; discriminate.
  - discriminate.
  - discriminate.
  - reflexivity.
Defined.


(** The stored attribute is deleted; a second deletion and a read
    find nothing. *)
Lemma xattr_del_then_gone_witness :
  let fp := D_xafile (xa_dir_name ex_object) "user.Content-Type" in
  exists sb',
    reiserfs_xattr_del no_faults ex_stored ex_object "user.Content-Type"
    = (0, sb')
    /\ d_inode sb' fp = None
    /\ others_kept (xa_dir_name ex_object) "user.Content-Type" ex_stored sb'
    /\ fst (reiserfs_xattr_del no_faults sb' ex_object "user.Content-Type")
       = neg ENODATA
    /\ (forall fuel buffer buffer_size,
           get_answer
             (reiserfs_xattr_get 4 no_faults fuel sb' ex_object
                                 "user.Content-Type" buffer buffer_size)
           = Some (neg ENODATA, buffer)).
Proof.
  cbv zeta.
  apply (xattr_del_then_gone 4 no_faults no_faults_vfs_quiet ex_stored
                             ex_object "user.Content-Type"
                             (ex_file 103 1 (xattr_file ex_value))).
  - exact I.
  - reflexivity.
  - reflexivity.
  - reflexivity.
  - reflexivity.
  - unfold names_unique; cbn.
    repeat (constructor; [cbn; intuition discriminate |]).
    constructor.
Defined.

(** The first attribute on a fresh file system: the root of the
    attributes is made and cached, and the cache is good. *)
Lemma xattr_root_stays_good_witness :
  exists sb',
    reiserfs_xattr_set 4 no_faults 20 ex_fresh ex_object "user.Content-Type"
                       (Some ex_value) 10 0
    = Some (0, sb')
    /\ sb_ok sb'.
Proof.
  eexists; split; [vm_compute; reflexivity |].
  eapply (proj1 (xattr_root_stays_good 4 1000 ex_handlers no_faults
                                       ex_fresh I)
                20%nat ex_object "user.Content-Type"%string (Some ex_value)
                10 0 0).
  vm_compute; reflexivity.
Defined.

Lemma xattr_without_priv_root_witness :
  let attrs := mk_iattr (Z.lor ATTR_UID ATTR_GID) 5 6 0 9 in
  reiserfs_xattr_set 4 no_faults 6 ex_bare ex_object "user.Content-Type"
                     (Some ex_value) 10 0
  = Some (if may_create 0 then neg EOPNOTSUPP else neg ENODATA, ex_bare)
  /\ reiserfs_xattr_get 4 no_faults 5 ex_bare ex_object "user.Content-Type"
                        (Some ex_value) 10
     = Some (neg ENODATA, Some ex_value, ex_bare)
  /\ reiserfs_xattr_del no_faults ex_bare ex_object "user.Content-Type"
     = (neg ENODATA, ex_bare)
  /\ (s_xattrs ex_bare = true ->
      reiserfs_listxattr 1000 ex_handlers no_faults 5 ex_bare
                         (Some ex_object) (Some ex_value) 10
      = Some (0, Some ex_value, ex_bare))
  /\ reiserfs_chown_xattrs 1000 no_faults 5 ex_bare ex_object attrs
     = Some (0, attrs, ex_bare).
Proof.
  cbv zeta.
  apply (xattr_without_priv_root 4 1000 ex_handlers no_faults ex_bare
                                 ex_object "user.Content-Type"
                                 (Some ex_value) 10 0).
  - reflexivity.
  - reflexivity.
  - reflexivity.
Defined.

(** The first attribute on a fresh file system whose next object id
    is 1000. *)
Lemma xattr_set_makes_the_path_witness :
  let dir := xa_dir_name ex_object in
  let fp := D_xafile dir "user.Content-Type" in
  let seen := fun x : inode => (k_objectid x, i_isdir x, i_priv_object x) in
  exists sb' f',
    reiserfs_xattr_set 4 no_faults 20 ex_fresh ex_object "user.Content-Type"
                       (Some ex_value) (zlen ex_value) 0
    = Some (0, sb')
    /\ s_events sb'
       = Ev_notify_change fp (s_next_objectid ex_fresh + 2)
                          (size_attrs (zlen ex_value))
         :: Ev_create fp (s_next_objectid ex_fresh + 2)
         :: Ev_mkdir (D_xadir dir) (s_next_objectid ex_fresh + 1)
         :: Ev_mkdir D_xaroot (s_next_objectid ex_fresh)
         :: s_events ex_fresh
    /\ xattr_root sb' = Some D_xaroot
    /\ option_map seen (d_inode sb' D_xaroot)
       = Some (s_next_objectid ex_fresh, true, true)
    /\ option_map seen (d_inode sb' (D_xadir dir))
       = Some (s_next_objectid ex_fresh + 1, true, true)
    /\ d_inode sb' fp = Some f'
    /\ seen f' = (s_next_objectid ex_fresh + 2, false, true)
    /\ i_nlink f' = 1
    /\ i_data f' = xattr_file ex_value.
Proof.
  cbv zeta.
  apply (xattr_set_makes_the_path
           4 no_faults ltac:(lia) no_faults_vfs_quiet ex_fresh ex_object
           "user.Content-Type" (mk_priv_dir ex_priv_inode None) ex_value 20).
  - apply no_faults_pages_quiet.
  - reflexivity.
  - reflexivity.
  - reflexivity.
  - reflexivity.
  - discriminate.
  - discriminate.
  - vm_compute; reflexivity.
  - vm_compute; lia.
Defined.

(** The two attributes of the tree, visited in key order; the entries
    [.] and [..] are not. *)
Lemma xattr_readdir_visits_witness :
  let file := D_xadir "C0FFEE.0" in
  let filldir : filldir_t unit := fun b _ _ _ _ s => (0, b, s) in
  let entries := entries_of ex_two file in
  xattr_readdir 1000 no_faults 5 file filldir tt ex_two
  = Some (0, fst (feed no_faults filldir (delivered ex_two entries)
                       (small_buf_0 no_faults) tt ex_two),
          snd (feed no_faults filldir (delivered ex_two entries)
                    (small_buf_0 no_faults) tt ex_two))
  /\ key_order (delivered ex_two entries)
  /\ (forall e,
         In e (delivered ex_two entries)
         <-> In e entries /\ DOT_DOT_OFFSET < deh_offset e
             /\ shown ex_two e = true).
Proof.
  cbv zeta.
  apply (xattr_readdir_visits 1000 no_faults unit
                              (fun b _ _ _ _ s => (0, b, s))
                              (D_xadir "C0FFEE.0") tt ex_two 5).
  - exact no_faults_readdir_quiet.
  - reflexivity.
  - reflexivity.
  - repeat constructor.
  - repeat constructor; discriminate.
  - cbn; lia.
  - reflexivity.
Defined.

(** Two objects with the object id [0x10000000] whose generations
    [0x10000001] and [0x10000002] differ in the last digit only. *)
Lemma xa_dir_name_sixteen_witness :
  xa_dir_name (mk_inode 268435456 268435457 STAT_DATA_V2 false false false
                        1 [] 0 0 0)
  = xa_dir_name (mk_inode 268435456 268435458 STAT_DATA_V2 false false false
                          1 [] 0 0 0).
Proof.
  apply (proj2 xa_dir_name_sixteen); cbn [k_objectid i_generation].
  - lia.
  - reflexivity.
  - lia.
  - lia.
  - reflexivity.
Defined.

(** A new attribute under [XATTR_CREATE]. *)
Lemma xattr_set_get_roundtrip_flags_witness :
  exists sb1 sb2,
    reiserfs_xattr_set 4 no_faults 20 ex_fresh ex_object "user.Content-Type"
                       (Some ex_value) (zlen ex_value) XATTR_CREATE
    = Some (0, sb1)
    /\ reiserfs_xattr_get 4 no_faults 20 sb1 ex_object "user.Content-Type"
                          (Some (zeros 10)) (zlen ex_value)
       = Some (zlen ex_value, Some ex_value, sb2).
Proof.
  apply (xattr_set_get_roundtrip_flags
           4 no_faults ltac:(lia) no_faults_vfs_quiet ex_fresh ex_object
           "user.Content-Type" XATTR_CREATE ex_value (zeros 10) 20).
  - apply no_faults_pages_quiet.
  - exact I.
  - discriminate.
  - reflexivity.
  - discriminate.
  - discriminate.
  - split; reflexivity.
  - exact ex_value_bytes.
  - vm_compute; reflexivity.
  - reflexivity.
  - vm_compute; lia.
Defined.

(** [notify_change] fails on the first attribute file: the cascade
    stops there, goes on to the directory and returns 0. *)
Lemma chown_failure_not_reported_witness :
  let attrs := mk_iattr (Z.lor ATTR_UID ATTR_GID) 5 6 0 9 in
  exists sb',
    reiserfs_chown_xattrs 1000 ex_chown_fails 5 ex_two ex_object attrs
    = Some (0, attrs, sb')
    /\ s_events sb'
       = Ev_notify_change (D_xadir (xa_dir_name ex_object))
                          (k_objectid ex_dir_inode) (chown_attrs attrs)
         :: s_events ex_two.
Proof.
  cbv zeta.
  apply (chown_failure_not_reported
           1000 ex_chown_fails ex_two ex_object
           (mk_iattr (Z.lor ATTR_UID ATTR_GID) 5 6 0 9)
           (mk_directory
              ex_dir_inode
              ([ mk_dirent "user.b" 4 true (ex_file 104 1 []);
                 mk_dirent "user.a" 3 true (ex_file 103 1 []) ]
                 ++ dot_entries ex_dir_inode ex_xaroot_inode))
           (mk_dirent "user.b" 4 true (ex_file 104 1 []))
           [mk_dirent "user.a" 3 true (ex_file 103 1 [])]
           (ex_file 104 1 []) EIO 5).
  - reflexivity.
  - reflexivity.
  - constructor; reflexivity.
  - exact I.
  - reflexivity.
  - reflexivity.
  - reflexivity.
  - reflexivity.
  - reflexivity.
  - reflexivity.
  - repeat constructor.
  - repeat constructor; discriminate.
  - cbn; lia.
  - reflexivity.
  - reflexivity.
  - reflexivity.
  - reflexivity.
  - reflexivity.
Defined.


Lemma ex_table_handlers : handlers_are ex_table [8; 16].
Proof.
  split; [cbn; repeat split; reflexivity |].
  repeat (constructor; [cbn; intuition discriminate |]).
  constructor.
Defined.

(** [system.posix_acl_access] is served by the second handler. *)
Lemma find_xattr_handler_first_witness :
  let served :=
    find (fun a => String.prefix (prefix (ex_handler_at a))
                                 "system.posix_acl_access") [8; 16] in
  find_xattr_handler_walk ex_handler_at 3 ex_table "system.posix_acl_access"
  = Some served
  /\ find_handler (map ex_handler_at [8; 16]) "system.posix_acl_access"
     = option_map ex_handler_at served.
Proof.
  cbv zeta.
  apply (find_xattr_handler_first ex_handler_at ex_table [8; 16]
                                  "system.posix_acl_access" 3).
  - exact ex_table_handlers.
  - cbn; lia.
Defined.

(** The handler of [trusted.] at the address 24 is registered after
    the two. *)
Lemma register_handler_spec_witness :
  exists t',
    reiserfs_xattr_register_handler ex_handler_at 3 ex_table (Some 24)
    = Some (0, t')
    /\ handlers_are t' ([8; 16] ++ [24])
    /\ ht_next t' 24 = None.
Proof.
  apply (proj2 (proj2 (proj2 (proj2
           (register_handler_spec ex_handler_at ex_table [8; 16] 24 3
                                  ex_table_handlers ltac:(cbn; lia)))))).
  - reflexivity.
  - reflexivity.
Defined.

(** The first handler is taken out of the list. *)
Lemma unregister_handler_spec_witness :
  exists t',
    reiserfs_xattr_unregister_handler 3 ex_table (Some 8) = Some (0, t')
    /\ handlers_are t' (remove Z.eq_dec 8 [8; 16])
    /\ ht_next t' 8 = None.
Proof.
  apply (proj2 (proj2
           (unregister_handler_spec ex_table [8; 16] 8 3
                                    ex_table_handlers ltac:(cbn; lia)))).
  left; reflexivity.
Defined.

Lemma register_handler_last_witness :
  exists t',
    reiserfs_xattr_register_handler ex_handler_at 4 ex_table (Some 24)
    = Some (0, t')
    /\ (forall name,
           find_xattr_handler_walk ex_handler_at 4 t' name
           = match find_xattr_handler_walk ex_handler_at 4 ex_table name with
             | Some (Some a) => Some (Some a)
             | _ =>
                 Some (if String.prefix (prefix (ex_handler_at 24)) name
                       then Some 24 else None)
             end).
Proof.
  apply (register_handler_last ex_handler_at ex_table [8; 16] 24 4).
  - exact ex_table_handlers.
  - cbn; lia.
  - reflexivity.
  - reflexivity.
Defined.

Lemma register_unregister_handler_witness :
  let prefixes := fun l => map (fun a => prefix (ex_handler_at a)) l in
  exists t1 t2,
    reiserfs_xattr_register_handler ex_handler_at 4 ex_table (Some 24)
    = Some (0, t1)
    /\ reiserfs_xattr_unregister_handler 4 t1 (Some 24) = Some (0, t2)
    /\ handlers_are t2 [8; 16]
    /\ ht_next t2 24 = None
    /\ (NoDup (prefixes [8; 16]) -> NoDup (prefixes ([8; 16] ++ [24]))).
Proof.
  cbv zeta.
  apply (proj1 (register_unregister_handler
                  ex_handler_at ex_table [8; 16] 24 4
                  ex_table_handlers ltac:(cbn; lia))).
  - reflexivity.
  - reflexivity.
Defined.

(** The object with two attributes is deleted: both files are
    unlinked, the directory is removed and a listing finds nothing. *)
Lemma delete_xattrs_removes_all_witness :
  let x := mk_directory
             ex_dir_inode
             ([ mk_dirent "user.b" 4 true (ex_file 104 1 []);
                mk_dirent "user.a" 3 true (ex_file 103 1 []) ]
                ++ dot_entries ex_dir_inode ex_xaroot_inode) in
  let dn := xa_dir_name ex_object in
  exists sb',
    reiserfs_delete_xattrs 1000 no_faults (fun _ => None) 5 ex_two ex_object
    = Some (0, sb')
    /\ s_events sb'
       = rev (unlink_events dn (delivered ex_two (d_entries x)))
         ++ s_events ex_two
    /\ xa_dir_of sb' dn = None
    /\ (forall d', d' <> dn -> xa_dir_of sb' d' = xa_dir_of ex_two d')
    /\ sb_ok sb'
    /\ (forall fuel' buffer size,
           exists sb'',
             reiserfs_listxattr 1000 ex_handlers no_faults fuel' sb'
                                (Some ex_object) buffer size
             = Some (0, buffer, sb'')).
Proof.
  cbv zeta.
  apply (delete_xattrs_removes_all
           1000 ex_handlers no_faults (fun _ => None)
           (xa_dir_name ex_object) no_faults_vfs_quiet
           no_faults_readdir_quiet ex_two ex_object
           (mk_directory
              ex_dir_inode
              ([ mk_dirent "user.b" 4 true (ex_file 104 1 []);
                 mk_dirent "user.a" 3 true (ex_file 103 1 []) ]
                 ++ dot_entries ex_dir_inode ex_xaroot_inode))
           5).
  - reflexivity.
  - reflexivity.
  - exact I.
  - unfold dirs_unique; cbn.
    repeat (constructor; [cbn; intuition discriminate |]).
    constructor.
  - reflexivity.
  - reflexivity.
  - reflexivity.
  - reflexivity.
  - reflexivity.
  - reflexivity.
  - cbn; lia.
  - repeat constructor.
  - repeat constructor; discriminate.
  - unfold names_unique; cbn.
    repeat (constructor; [cbn; intuition discriminate |]).
    constructor.
  - repeat constructor.
  - repeat (constructor; [first [left; reflexivity | right; reflexivity] |]).
    constructor.
  - cbn; lia.
Defined.

(** An object of a tree in which no attribute was ever set: deletion
    reports -ENODATA where the change of owner reports 0. *)
Lemma delete_xattrs_without_directory_witness :
  let attrs := mk_iattr (Z.lor ATTR_UID ATTR_GID) 5 6 0 9 in
  exists sb',
    reiserfs_delete_xattrs 1000 no_faults (fun _ => None) 5 ex_fresh
                           ex_object
    = Some (neg ENODATA, sb')
    /\ untouched ex_fresh sb'
    /\ reiserfs_chown_xattrs 1000 no_faults 5 ex_fresh ex_object attrs
       = Some (0, attrs, sb').
Proof.
  cbv zeta.
  apply (proj2 (delete_xattrs_without_directory
                  1000 no_faults (fun _ => None) no_faults_vfs_quiet
                  ex_fresh ex_object
                  (mk_iattr (Z.lor ATTR_UID ATTR_GID) 5 6 0 9) 5
                  I eq_refl eq_refl)).
  - reflexivity.
  - reflexivity.
Defined.


(** The mount options numbered 8 to 12. *)
Lemma ex_option_bits : option_bits [8; 9; 10; 11; 12].
Proof.
  split.
  - repeat (constructor; [cbn; intuition discriminate |]).
    constructor.
  - repeat (constructor; [discriminate |]).
    constructor.
Defined.

(** A read-write mount that asks for user attributes: the private
    root is made. *)
Lemma xattr_init_settles_options_witness :
  exists s',
    reiserfs_xattr_init 8 9 10 11 12 None None ex_mount 0 = Some (0, s')
    /\ 0 <= 0
    /\ options_settled 8 9 10 11 12 s'
    /\ (0 = 0 ->
        test_bit 9 s' = test_bit 9 ex_mount && negb (test_bit 10 ex_mount)
        /\ test_bit 11 s'
           = test_bit 11 ex_mount && negb (test_bit 12 ex_mount))
    /\ (0 <> 0 -> test_bit 9 s' = false /\ test_bit 11 s' = false)
    /\ (forall b,
           ~ In b [8; 9; 10; 11; 12] -> test_bit b s' = test_bit b ex_mount)
    /\ has_flag (s_flags s') MS_POSIXACL = test_bit 11 s'
    /\ Z.land (s_flags s') (Z.lnot MS_POSIXACL)
       = Z.land (s_flags ex_mount) (Z.lnot MS_POSIXACL)
    /\ m_old_format_only s' = m_old_format_only ex_mount.
Proof.
  eexists; split; [reflexivity |].
  eapply (xattr_init_settles_options 8 9 10 11 12 None None ex_option_bits
                                     ex_mount _ 0 0).
  reflexivity.
Defined.

Lemma xattr_init_private_root_witness :
  exists s',
    reiserfs_xattr_init 8 9 10 11 12 None None ex_mount 0 = Some (0, s')
    /\ if test_bit 8 s'
       then 0 = 0
            /\ m_old_format_only ex_mount = false
            /\ exists i,
                m_priv_root s' = Some i
                /\ (m_priv_root ex_mount = Some i
                    \/ (m_priv_root ex_mount = None
                        /\ i_priv_object i = true
                        /\ m_on_disk s' = Some i))
       else m_priv_root s' = m_priv_root ex_mount
            /\ m_on_disk s' = m_on_disk ex_mount
            /\ m_next_objectid s' = m_next_objectid ex_mount.
Proof.
  eexists; split; [reflexivity |].
  eapply (xattr_init_private_root 8 9 10 11 12 None None ex_option_bits
                                  ex_mount _ 0 0).
  reflexivity.
Defined.

(** The same options on a read-only mount. *)
Lemma xattr_init_null_dereference_witness :
  reiserfs_xattr_init 8 9 10 11 12 None None ex_mount MS_RDONLY = None.
Proof.
  apply (proj2 (xattr_init_null_dereference 8 9 10 11 12 None None
                                            ex_option_bits ex_mount
                                            MS_RDONLY)).
  repeat split; reflexivity.
Defined.

(** A file system of the old format on which no attributes are asked
    for, whatever lookup and [mkdir] would do. *)
Lemma xattr_init_nothing_wanted_witness :
  exists s',
    reiserfs_xattr_init 8 9 10 11 12 (Some EIO) (Some EIO)
                        (mk_mount_state 0 0 true None None 1000) 0
    = Some (0, s')
    /\ test_bit 8 s' = false
    /\ m_priv_root s' = m_priv_root (mk_mount_state 0 0 true None None 1000)
    /\ m_on_disk s' = m_on_disk (mk_mount_state 0 0 true None None 1000).
Proof.
  apply (xattr_init_nothing_wanted 8 9 10 11 12 (Some EIO) (Some EIO)
                                   ex_option_bits).
  reflexivity.
Defined.

(** The [mkdir] fails for lack of space on a read-write mount. *)
Lemma xattr_init_failures_witness :
  exists s',
    reiserfs_xattr_init 8 9 10 11 12 None (Some ENOSPC) ex_mount 0
    = Some (neg EOPNOTSUPP, s')
    /\ test_bit 9 ex_mount && negb (test_bit 10 ex_mount)
       || test_bit 11 ex_mount && negb (test_bit 12 ex_mount) = true
    /\ ((m_old_format_only ex_mount = true
         /\ neg EOPNOTSUPP = neg EOPNOTSUPP)
        \/ (m_old_format_only ex_mount = false
            /\ m_priv_root ex_mount = None
            /\ ((exists e : errno,
                    @None errno = Some e
                    /\ neg EOPNOTSUPP
                       = if has_flag 0 MS_RDONLY
                         then neg e else neg EOPNOTSUPP)
                \/ (@None errno = None
                    /\ has_flag 0 MS_RDONLY = false
                    /\ m_on_disk ex_mount = None
                    /\ Some ENOSPC <> None
                    /\ neg EOPNOTSUPP = neg EOPNOTSUPP)))).
Proof.
  eexists; split; [reflexivity |].
  eapply (xattr_init_failures 8 9 10 11 12 None (Some ENOSPC) ex_option_bits
                              ex_mount _ 0 (neg EOPNOTSUPP)).
  - reflexivity.
  - discriminate.
Defined.

Lemma xattr_init_succeeds_witness :
  exists s',
    reiserfs_xattr_init 8 9 10 11 12 None None ex_mount 0 = Some (0, s')
    /\ test_bit 8 s' = true.
Proof.
  apply (xattr_init_succeeds 8 9 10 11 12 None None ex_option_bits).
  - reflexivity.
  - reflexivity.
  - right; split; [reflexivity | right; split; reflexivity].
Defined.

(** A second call, read-only and with a lookup that would fail. *)
Lemma xattr_init_again_witness :
  exists s',
    reiserfs_xattr_init 8 9 10 11 12 None None ex_mount 0 = Some (0, s')
    /\ reiserfs_xattr_init 8 9 10 11 12 (Some EIO) (Some EIO) s' MS_RDONLY
       = Some (0, s').
Proof.
  eexists; split; [reflexivity |].
  eapply (xattr_init_again 8 9 10 11 12 None None (Some EIO) (Some EIO)
                           ex_mount _ 0 MS_RDONLY 0 ex_option_bits).
  reflexivity.
Defined.
